(** * Safarnama: the expense ledger and its optimistic client

    A shallow embedding of the expense-ledger core of the Safarnama travel
    application:

    - [Ledger]: the Postgres schema of [supabase-schema.sql] and the stored
      procedures of [optimized-expense-functions.sql] (tables [trips] and
      [expenses], the [update_trip_total_expenses] row trigger,
      [generate_trip_number], [add_expense_with_total],
      [update_expense_with_total], [delete_expense_with_total],
      [batch_add_expenses]);
    - [Supabase]: the calls the TypeScript services make through the supabase
      client, programs over those calls, and an interpretation of the calls
      on the ledger;
    - [Services]: [supabaseService.ts] and [optimizedExpenseService.ts];
    - [Coordinator]: the operation cache of [cachedExpenseService] and the
      optimistic add / update / delete of [useOptimizedTripManager.ts];
    - [Reading]: the reporting procedures [get_trip_expenses_with_stats] and
      [get_expense_stats_by_category];
    - [ImportExport]: the rows [importExportService.ts] writes and reads;
    - [TripManagerSupabase], [Settings]: the two loops of the settings page,
      'Delete All Data' and the import, over [useTripManagerSupabase];
    - [TripOperations]: [updateTrip], [startTrip] and [completeTrip] of
      [useOptimizedTripManager.ts].

    Amounts are [DECIMAL(10,2)] in the database (an integer number of
    hundredths here) and IEEE-754 doubles in the client (primitive floats
    here). The timestamp columns [created_at] / [updated_at] of the two
    tables (and with them the [update_updated_at_column] triggers), toast
    notifications and console logging are left out. The row-level-security
    policies are followed: a request of the services reads and writes rows
    of its caller, the row trigger runs with the rights of the statement
    that fires it, and the [SECURITY DEFINER] procedures with those of
    their definer. *)

From Stdlib Require Import ZArith List String Ascii Bool Lia Floats DecimalString
  DecimalZ DecimalPos.
From stdpp Require Import base option list strings gmap.
Import ListNotations.

Set Default Proof Using "Type".

(** ** Results of fallible operations *)

Inductive result (E A : Type) : Type :=
| Ok (a : A)
| Err (e : E).
Arguments Ok {E A} a.
Arguments Err {E A} e.

Definition bind {E A B} (m : result E A) (k : A -> result E B) : result E B :=
  match m with
  | Ok a => k a
  | Err e => Err e
  end.

Notation "'let?' x ':=' m 'in' k" := (bind m (fun x => k))
  (at level 10, x name, m at level 100, k at level 200).
Notation "'let?' ( x , y ) ':=' m 'in' k" := (bind m (fun xy => let '(x, y) := xy in k))
  (at level 10, x name, y name, m at level 100, k at level 200).

Definition is_ok {E A} (m : result E A) : bool :=
  match m with Ok _ => true | Err _ => false end.

(** Decimal rendering of an integer, as [n::TEXT] in SQL and as a template
    literal in JavaScript do for integers. *)
Definition show_Z (z : Z) : string := NilZero.string_of_int (Z.to_int z).

(** ** The ledger: tables, trigger and stored procedures *)

Module Ledger.

Local Open Scope Z_scope.

Abbreviation uuid := string.

(** A [DECIMAL(10,2)] value, counted in hundredths. *)
Abbreviation decimal := Z.

(** Ten digits of precision, two of them after the point. *)
Definition fits_decimal_10_2 (z : Z) : bool := Z.abs z <? 10 ^ 10.

Inductive sql_error : Type :=
| not_null_violation
| check_violation
| foreign_key_violation
| unique_violation
| numeric_value_out_of_range
| raise_exception (message : string).

Definition sql (A : Type) : Type := result sql_error A.

(** Table [trips], without [created_at] and [updated_at]: no statement kept
    here reads them. ([updated_at] is set anew on every [UPDATE] of a row,
    that of the total trigger included; nothing below is said of it.) *)
Record trip_row : Type := {
  t_id : uuid;
  t_user_id : uuid;
  t_trip_number : string;
  t_origin : string;
  t_destination : string;
  t_travel_mode : string;
  t_date : string;
  t_time : string;
  t_notes : option string;
  t_travelers : list string;
  t_total_expenses : decimal;
  t_status : string
}.

(** Table [expenses]. *)
Record expense_row : Type := {
  e_id : uuid;
  e_trip_id : uuid;
  e_user_id : uuid;
  e_description : string;
  e_amount : decimal;
  e_category : string;
  e_date : string;
  e_time : string
}.

Record db : Type := {
  trips : list trip_row;
  expenses : list expense_row
}.

Definition empty_db : db := {| trips := []; expenses := [] |}.

(** [CHECK (status IN ('planning', 'in_progress', 'completed'))]. The column
    is nullable, but every insert below gives it a value or its default and
    no update sets it to NULL, so a status is a string here. *)
Definition status_check (s : string) : bool :=
  String.eqb s "planning" || String.eqb s "in_progress" || String.eqb s "completed".

(** [CHECK (category IN ('transport', 'food', 'accommodation',
    'entertainment', 'other'))]. *)
Definition category_check (c : string) : bool :=
  String.eqb c "transport" || String.eqb c "food" || String.eqb c "accommodation"
  || String.eqb c "entertainment" || String.eqb c "other".

Definition set_total_expenses (s : decimal) (t : trip_row) : trip_row :=
  {| t_id := t_id t; t_user_id := t_user_id t; t_trip_number := t_trip_number t;
     t_origin := t_origin t; t_destination := t_destination t;
     t_travel_mode := t_travel_mode t; t_date := t_date t; t_time := t_time t;
     t_notes := t_notes t; t_travelers := t_travelers t;
     t_total_expenses := s; t_status := t_status t |}.

(** [SELECT COALESCE(SUM(amount), 0) FROM expenses WHERE trip_id = tid]. *)
Definition sum_amounts (es : list expense_row) : Z :=
  fold_right Z.add 0 (map e_amount es).

Definition trip_sum (tid : uuid) (es : list expense_row) : Z :=
  sum_amounts (List.filter (fun e => String.eqb (e_trip_id e) tid) es).

(** Whose rights a statement runs with. A request of the supabase client
    runs as its caller, under the row-level-security policies of the two
    tables: each of them is [auth.uid() = user_id], so that the caller sees
    and changes rows of its own only. The body of a [SECURITY DEFINER]
    procedure runs as the owner of the procedure, who owns the tables and
    whom their policies do not bind. A trigger function that is not
    [SECURITY DEFINER], as [update_trip_total_expenses] is not, has the
    rights of the statement that fires it. *)
Inductive rights : Type :=
| invoker (caller : uuid)
| definer.

(** [auth.uid() = user_id], for whom the policies bind. *)
Definition policy (r : rights) (user_id : uuid) : bool :=
  match r with
  | invoker caller => String.eqb user_id caller
  | definer => true
  end.

(** The same sum as the rights [r] let it be read. *)
Definition trip_sum_as (r : rights) (tid : uuid) (es : list expense_row) : Z :=
  sum_amounts
    (List.filter (fun e => String.eqb (e_trip_id e) tid && policy r (e_user_id e)) es).

(** The trigger function [update_trip_total_expenses] for the trip id
    [COALESCE(NEW.trip_id, OLD.trip_id)], fired by a statement that runs
    with the rights [r]: every [trips] row with that id that [r] may update
    gets the sum over the expenses of the trip that [r] may read; storing a
    sum that does not fit the column is an error. (The [UPDATE] also fires
    [update_trips_updated_at], which sets a column that is not kept
    here.) *)
Definition update_trip_total_expenses (r : rights) (tid : uuid) (d : db) : sql db :=
  let s := trip_sum_as r tid (expenses d) in
  let shown (t : trip_row) := String.eqb (t_id t) tid && policy r (t_user_id t) in
  if existsb shown (trips d) then
    if fits_decimal_10_2 s then
      Ok {| trips := map (fun t => if shown t then set_total_expenses s t else t) (trips d);
            expenses := expenses d |}
    else Err numeric_value_out_of_range
  else Ok d.

(** The row triggers of one statement, fired once per affected row. *)
Fixpoint fire_triggers (r : rights) (tids : list uuid) (d : db) : sql db :=
  match tids with
  | [] => Ok d
  | tid :: rest =>
      let? d1 := update_trip_total_expenses r tid d in fire_triggers r rest d1
  end.

(** The values of an [INSERT INTO expenses]; [None] is SQL NULL. *)
Record expense_values : Type := {
  v_trip_id : uuid;
  v_user_id : uuid;
  v_description : option string;
  v_amount : option decimal;
  v_category : option string;
  v_date : option string;
  v_time : option string
}.

(** Column and table constraints on a new [expenses] row with primary key
    [new_id] (drawn by [uuid_generate_v4()]). *)
Definition check_expense (new_id : uuid) (v : expense_values) (d : db)
  : sql expense_row :=
  match v_description v, v_amount v, v_category v, v_date v, v_time v with
  | Some descr, Some amt, Some cat, Some dt, Some tm =>
      if negb (fits_decimal_10_2 amt) then Err numeric_value_out_of_range
      else if negb (category_check cat) then Err check_violation
      else if existsb (fun e => String.eqb (e_id e) new_id) (expenses d)
      then Err unique_violation
      else if negb (existsb (fun t => String.eqb (t_id t) (v_trip_id v)) (trips d))
      then Err foreign_key_violation
      else Ok {| e_id := new_id; e_trip_id := v_trip_id v; e_user_id := v_user_id v;
                 e_description := descr; e_amount := amt; e_category := cat;
                 e_date := dt; e_time := tm |}
  | _, _, _, _, _ => Err not_null_violation
  end.

(** [INSERT INTO expenses (...) VALUES (...) RETURNING *], one row, with its
    [AFTER INSERT] trigger. The insert policy looks at the [user_id] of the
    new row alone: run by a caller, the statement is let through for a row
    of the caller on any trip there is. *)
Definition insert_expense (r : rights) (new_id : uuid) (v : expense_values) (d : db)
  : sql (expense_row * db) :=
  let? row := check_expense new_id v d in
  let? d1 := update_trip_total_expenses r (e_trip_id row)
               {| trips := trips d; expenses := expenses d ++ [row] |} in
  Ok (row, d1).

(** [INSERT INTO expenses (...) VALUES (...), (...), ... RETURNING *]: one
    statement; every row is checked and added, then the row triggers fire. *)
Fixpoint add_rows (news : list (uuid * expense_values)) (d : db)
  : sql (list expense_row * db) :=
  match news with
  | [] => Ok ([], d)
  | (new_id, v) :: rest =>
      let? row := check_expense new_id v d in
      let? (rows, d1) := add_rows rest
                            {| trips := trips d; expenses := expenses d ++ [row] |} in
      Ok (row :: rows, d1)
  end.

Definition insert_expenses (r : rights) (news : list (uuid * expense_values)) (d : db)
  : sql (list expense_row * db) :=
  let? (rows, d1) := add_rows news d in
  let? d2 := fire_triggers r (map e_trip_id rows) d1 in
  Ok (rows, d2).

(** The columns an [UPDATE expenses SET ...] assigns; [None] leaves the
    column as it is. *)
Record expense_patch : Type := {
  p_description : option string;
  p_amount : option decimal;
  p_category : option string;
  p_date : option string;
  p_time : option string
}.

(** [COALESCE(p, old)]. *)
Definition coalesce {A} (p : option A) (old : A) : A :=
  match p with Some v => v | None => old end.

Definition apply_patch (p : expense_patch) (e : expense_row) : expense_row :=
  {| e_id := e_id e; e_trip_id := e_trip_id e; e_user_id := e_user_id e;
     e_description := coalesce (p_description p) (e_description e);
     e_amount := coalesce (p_amount p) (e_amount e);
     e_category := coalesce (p_category p) (e_category e);
     e_date := coalesce (p_date p) (e_date e);
     e_time := coalesce (p_time p) (e_time e) |}.

(** [WHERE id = ... AND user_id = ...]. *)
Definition targets (id user : uuid) (e : expense_row) : bool :=
  String.eqb (e_id e) id && String.eqb (e_user_id e) user.

Definition check_updated (e : expense_row) : sql unit :=
  if negb (fits_decimal_10_2 (e_amount e)) then Err numeric_value_out_of_range
  else if negb (category_check (e_category e)) then Err check_violation
  else Ok tt.

Fixpoint check_all_updated (es : list expense_row) : sql unit :=
  match es with
  | [] => Ok tt
  | e :: rest => let? _ := check_updated e in check_all_updated rest
  end.

(** [UPDATE expenses SET ... WHERE id = ... AND user_id = ... RETURNING *]
    with its [AFTER UPDATE] row triggers. Matching no row is not an error.
    The rows addressed are those of [user]: run by a caller, the statement
    is one of [user] itself, the only rows the policies let it reach. *)
Definition update_expenses (r : rights) (id user : uuid) (p : expense_patch) (d : db)
  : sql (list expense_row * db) :=
  let updated := map (apply_patch p) (List.filter (targets id user) (expenses d)) in
  let? _ := check_all_updated updated in
  let? d1 := fire_triggers r (map e_trip_id updated)
               {| trips := trips d;
                  expenses := map (fun e => if targets id user e
                                            then apply_patch p e else e) (expenses d) |} in
  Ok (updated, d1).

(** [DELETE FROM expenses WHERE id = ... AND user_id = ...] with its
    [AFTER DELETE] row triggers. *)
Definition delete_expenses (r : rights) (id user : uuid) (d : db)
  : sql (list expense_row * db) :=
  let deleted := List.filter (targets id user) (expenses d) in
  let? d1 := fire_triggers r (map e_trip_id deleted)
               {| trips := trips d;
                  expenses := List.filter (fun e => negb (targets id user e)) (expenses d) |} in
  Ok (deleted, d1).

(** [EXISTS (SELECT 1 FROM trips WHERE id = tid AND user_id = uid)]. *)
Definition owns_trip (tid uid : uuid) (d : db) : bool :=
  existsb (fun t => String.eqb (t_id t) tid && String.eqb (t_user_id t) uid) (trips d).

(** [SELECT total_expenses INTO new_total FROM trips WHERE id = tid]; NULL
    when there is no such row. *)
Definition select_total_expenses (tid : uuid) (d : db) : option decimal :=
  option_map t_total_expenses (List.find (fun t => String.eqb (t_id t) tid) (trips d)).

(** The four procedures below are [SECURITY DEFINER]: their statements, and
    the triggers these fire, run with the rights of the definer. *)

(** [add_expense_with_total]: returns ['expense_id'] and ['new_total']. *)
Definition add_expense_with_total (new_id : uuid) (v : expense_values) (d : db)
  : sql ((uuid * option decimal) * db) :=
  if negb (owns_trip (v_trip_id v) (v_user_id v) d)
  then Err (raise_exception "Trip not found or access denied")
  else
    let? (row, d1) := insert_expense definer new_id v d in
    Ok ((e_id row, select_total_expenses (v_trip_id v) d1), d1).

(** The JSON object [update_expense_with_total] builds. *)
Record updated_json : Type := {
  updated_expense : expense_row;
  ue_new_total : option decimal;
  ue_trip_id : uuid
}.

(** [update_expense_with_total]. [RETURNING * INTO updated_expense] takes the
    first row the update returns; the row found by the ownership check is
    among them. *)
Definition update_expense_with_total (p_expense_id p_user_id : uuid)
    (p : expense_patch) (d : db) : sql (updated_json * db) :=
  match List.find (targets p_expense_id p_user_id) (expenses d) with
  | None => Err (raise_exception "Expense not found or access denied")
  | Some found =>
      let expense_trip_id := e_trip_id found in
      let? (updated, d1) := update_expenses definer p_expense_id p_user_id p d in
      Ok ({| updated_expense := List.hd (apply_patch p found) updated;
             ue_new_total := select_total_expenses expense_trip_id d1;
             ue_trip_id := expense_trip_id |}, d1)
  end.

(** [delete_expense_with_total]: returns ['new_total'] and ['trip_id']. *)
Definition delete_expense_with_total (p_expense_id p_user_id : uuid) (d : db)
  : sql ((option decimal * uuid) * db) :=
  match List.find (targets p_expense_id p_user_id) (expenses d) with
  | None => Err (raise_exception "Expense not found or access denied")
  | Some found =>
      let expense_trip_id := e_trip_id found in
      let? (gone, d1) := delete_expenses definer p_expense_id p_user_id d in
      Ok ((select_total_expenses expense_trip_id d1, expense_trip_id), d1)
  end.

(** One element of the [p_expenses] JSON array; a missing key reads as NULL
    through [->>]. The amount is the value after the cast to
    [DECIMAL(10,2)]. *)
Record expense_item : Type := {
  i_description : option string;
  i_amount : option decimal;
  i_category : option string;
  i_date : option string;
  i_time : option string
}.

Definition item_values (p_trip_id p_user_id : uuid) (i : expense_item) : expense_values :=
  {| v_trip_id := p_trip_id; v_user_id := p_user_id;
     v_description := i_description i; v_amount := i_amount i;
     v_category := i_category i; v_date := i_date i; v_time := i_time i |}.

(** The [FOR expense_item IN ... LOOP] of [batch_add_expenses]: one [INSERT]
    statement per element, each firing the row trigger. *)
Fixpoint batch_loop (p_trip_id p_user_id : uuid) (items : list (uuid * expense_item))
    (d : db) : sql (list expense_row * db) :=
  match items with
  | [] => Ok ([], d)
  | (new_id, i) :: rest =>
      let? (row, d1) := insert_expense definer new_id
                          (item_values p_trip_id p_user_id i) d in
      let? (rows, d2) := batch_loop p_trip_id p_user_id rest d1 in
      Ok (row :: rows, d2)
  end.

(** [batch_add_expenses]: returns ['expenses'], ['new_total'] (and
    ['count'], the length of the former). *)
Definition batch_add_expenses (p_trip_id p_user_id : uuid)
    (items : list (uuid * expense_item)) (d : db)
  : sql ((list expense_row * option decimal) * db) :=
  if negb (owns_trip p_trip_id p_user_id d)
  then Err (raise_exception "Trip not found or access denied")
  else
    let? (rows, d1) := batch_loop p_trip_id p_user_id items d in
    Ok ((rows, select_total_expenses p_trip_id d1), d1).

(** [LPAD(s, n, fill)] with a one-character fill: pads on the left, and
    truncates to the first [n] characters a string longer than [n]. *)
Definition lpad (s : string) (n : nat) (fill : ascii) : string :=
  if (n <=? String.length s)%nat then String.substring 0 n s
  else String.append (string_of_list_ascii (repeat fill (n - String.length s))) s.

(** [generate_trip_number(user_uuid)]. *)
Definition generate_trip_number (user_uuid : uuid) (d : db) : string :=
  let trip_count :=
    Z.of_nat (length (List.filter (fun t => String.eqb (t_user_id t) user_uuid) (trips d))) + 1 in
  String.append "TR" (lpad (show_Z trip_count) 3 "0"%char).

(** The values of an [INSERT INTO trips]; [total_expenses] takes its default
    0, and so does [status] ('planning') when not given. *)
Record trip_values : Type := {
  tv_user_id : uuid;
  tv_trip_number : string;
  tv_origin : string;
  tv_destination : string;
  tv_travel_mode : string;
  tv_date : string;
  tv_time : string;
  tv_notes : option string;
  tv_travelers : list string;
  tv_status : option string
}.

Definition insert_trip (new_id : uuid) (v : trip_values) (d : db) : sql (trip_row * db) :=
  let st := coalesce (tv_status v) "planning" in
  if negb (status_check st) then Err check_violation
  else if existsb (fun t => String.eqb (t_id t) new_id) (trips d) then Err unique_violation
  else
    let row := {| t_id := new_id; t_user_id := tv_user_id v;
                  t_trip_number := tv_trip_number v; t_origin := tv_origin v;
                  t_destination := tv_destination v; t_travel_mode := tv_travel_mode v;
                  t_date := tv_date v; t_time := tv_time v; t_notes := tv_notes v;
                  t_travelers := tv_travelers v; t_total_expenses := 0;
                  t_status := st |} in
    Ok (row, {| trips := trips d ++ [row]; expenses := expenses d |}).

(** The columns an [UPDATE trips SET ...] assigns. *)
Record trip_patch : Type := {
  tp_origin : option string;
  tp_destination : option string;
  tp_travel_mode : option string;
  tp_date : option string;
  tp_time : option string;
  tp_notes : option string;
  tp_travelers : option (list string);
  tp_status : option string
}.

Definition apply_trip_patch (p : trip_patch) (t : trip_row) : trip_row :=
  {| t_id := t_id t; t_user_id := t_user_id t; t_trip_number := t_trip_number t;
     t_origin := coalesce (tp_origin p) (t_origin t);
     t_destination := coalesce (tp_destination p) (t_destination t);
     t_travel_mode := coalesce (tp_travel_mode p) (t_travel_mode t);
     t_date := coalesce (tp_date p) (t_date t);
     t_time := coalesce (tp_time p) (t_time t);
     t_notes := match tp_notes p with Some n => Some n | None => t_notes t end;
     t_travelers := coalesce (tp_travelers p) (t_travelers t);
     t_total_expenses := t_total_expenses t;
     t_status := coalesce (tp_status p) (t_status t) |}.

Definition trip_targets (id user : uuid) (t : trip_row) : bool :=
  String.eqb (t_id t) id && String.eqb (t_user_id t) user.

(** [UPDATE trips SET ... WHERE id = ... AND user_id = ...]. *)
Definition update_trips (id user : uuid) (p : trip_patch) (d : db) : sql db :=
  if forallb (fun t => status_check (t_status (apply_trip_patch p t)))
       (List.filter (trip_targets id user) (trips d))
  then Ok {| trips := map (fun t => if trip_targets id user t
                                    then apply_trip_patch p t else t) (trips d);
             expenses := expenses d |}
  else Err check_violation.

(** [DELETE FROM trips WHERE id = ... AND user_id = ...]; the expenses of a
    deleted trip go with it ([ON DELETE CASCADE]), and their delete triggers
    find no trip row left to update. *)
Definition delete_trips (id user : uuid) (d : db) : sql db :=
  let gone := map t_id (List.filter (trip_targets id user) (trips d)) in
  Ok {| trips := List.filter (fun t => negb (trip_targets id user t)) (trips d);
        expenses := List.filter
                      (fun e => negb (existsb (String.eqb (e_trip_id e)) gone))
                      (expenses d) |}.

(** A batch element passes validation when it meets the column constraints
    of [expenses]: no NULL, an amount that fits, a known category. *)
Definition valid_item (i : expense_item) : bool :=
  match i_description i, i_amount i, i_category i, i_date i, i_time i with
  | Some _, Some amt, Some cat, Some _, Some _ =>
      fits_decimal_10_2 amt && category_check cat
  | _, _, _, _, _ => false
  end.

(** The row that [batch_add_expenses] makes of an element, under the key
    drawn for it: the columns of its [INSERT]; none when the element lacks
    one of them. *)
Definition item_row (p_trip_id p_user_id : uuid) (new : uuid * expense_item)
  : option expense_row :=
  match i_description (snd new), i_amount (snd new), i_category (snd new),
        i_date (snd new), i_time (snd new) with
  | Some descr, Some amt, Some cat, Some dt, Some tm =>
      Some {| e_id := fst new; e_trip_id := p_trip_id; e_user_id := p_user_id;
              e_description := descr; e_amount := amt; e_category := cat;
              e_date := dt; e_time := tm |}
  | _, _, _, _, _ => None
  end.

(** *** Mutations and what persists of them *)

(** What a statement or a procedure call leaves behind once it has settled:
    its changes when it succeeded, nothing when it raised. *)
Definition persisted {A} (d : db) (r : sql (A * db)) : db :=
  match r with
  | Ok (_, d1) => d1
  | Err _ => d
  end.

Definition only_db (r : sql db) : sql (unit * db) := let? d := r in Ok (tt, d).

(** The mutations the application performs on the ledger: the plain
    statements of the services, each run by a caller, and the calls of the
    stored procedures. The caller of a plain insert is the [user_id] of the
    new rows, the only one for whom the insert policy lets the statement
    through; the caller of a plain update or delete is the [user] whose
    rows it addresses. *)
Inductive mutation : Type :=
| INSERT_expense (new_id : uuid) (v : expense_values)
| INSERT_expenses (caller : uuid) (news : list (uuid * expense_values))
| UPDATE_expenses (id user : uuid) (p : expense_patch)
| DELETE_expenses (id user : uuid)
| CALL_add_expense_with_total (new_id : uuid) (v : expense_values)
| CALL_update_expense_with_total (p_expense_id p_user_id : uuid) (p : expense_patch)
| CALL_delete_expense_with_total (p_expense_id p_user_id : uuid)
| CALL_batch_add_expenses (p_trip_id p_user_id : uuid) (items : list (uuid * expense_item))
| INSERT_trip (new_id : uuid) (v : trip_values)
| UPDATE_trips (id user : uuid) (p : trip_patch)
| DELETE_trips (id user : uuid).

Definition perform (m : mutation) (d : db) : db :=
  match m with
  | INSERT_expense new_id v =>
      persisted d (insert_expense (invoker (v_user_id v)) new_id v d)
  | INSERT_expenses caller news =>
      if forallb (fun new => String.eqb (v_user_id (snd new)) caller) news
      then persisted d (insert_expenses (invoker caller) news d)
      else d
  | UPDATE_expenses id user p => persisted d (update_expenses (invoker user) id user p d)
  | DELETE_expenses id user => persisted d (delete_expenses (invoker user) id user d)
  | CALL_add_expense_with_total new_id v => persisted d (add_expense_with_total new_id v d)
  | CALL_update_expense_with_total i u p => persisted d (update_expense_with_total i u p d)
  | CALL_delete_expense_with_total i u => persisted d (delete_expense_with_total i u d)
  | CALL_batch_add_expenses t u items => persisted d (batch_add_expenses t u items d)
  | INSERT_trip new_id v => persisted d (insert_trip new_id v d)
  | UPDATE_trips id user p => persisted d (only_db (update_trips id user p d))
  | DELETE_trips id user => persisted d (only_db (delete_trips id user d))
  end.

(** A sequence of mutations, each settled before the next. *)
Definition perform_all (ms : list mutation) (d : db) : db :=
  fold_left (fun d m => perform m d) ms d.

(** The ledger invariant: every trip's stored total is the sum of the
    amounts of its expenses. *)
Definition totals_match (d : db) : Prop :=
  List.Forall (fun t => t_total_expenses t = trip_sum (t_id t) (expenses d)) (trips d).

(** The key constraints: [trips.id] is a primary key and [expenses.trip_id]
    references it. *)
Definition keys_hold (d : db) : Prop :=
  List.NoDup (map t_id (trips d))
  /\ List.Forall (fun e => existsb (fun t => String.eqb (t_id t) (e_trip_id e)) (trips d) = true)
       (expenses d).

Definition ledger_ok (d : db) : Prop := totals_match d /\ keys_hold d.

(** The trip is the one the expense sits on, and is its user's. *)
Definition owner_of (e : expense_row) (t : trip_row) : bool :=
  String.eqb (t_id t) (e_trip_id e) && String.eqb (t_user_id t) (e_user_id e).

(** Every expense sits on a trip of its own user. *)
Definition own_trips (d : db) : Prop :=
  forall e, In e (expenses d) ->
    existsb (fun t => String.eqb (t_id t) (e_trip_id e)
                      && String.eqb (t_user_id t) (e_user_id e)) (trips d) = true.

(** The ledger as the application means to keep it. *)
Definition well_kept (d : db) : Prop := ledger_ok d /\ own_trips d.

(** A plain insert that puts its rows on trips of their own user. The
    procedures see to that themselves; the insert policy does not. *)
Definition on_own_trips (m : mutation) (d : db) : bool :=
  match m with
  | INSERT_expense _ v => owns_trip (v_trip_id v) (v_user_id v) d
  | INSERT_expenses caller news =>
      forallb (fun new => owns_trip (v_trip_id (snd new)) caller d) news
  | _ => true
  end.

(** A sequence of mutations in which every plain insert does. *)
Fixpoint all_on_own_trips (ms : list mutation) (d : db) : bool :=
  match ms with
  | [] => true
  | m :: rest => on_own_trips m d && all_on_own_trips rest (perform m d)
  end.

Definition referenced (ts : list trip_row) (e : expense_row) : Prop :=
  existsb (fun t => String.eqb (t_id t) (e_trip_id e)) ts = true.

End Ledger.

(** ** JavaScript values of the client *)

(** [number]: an IEEE-754 double. *)
Abbreviation number := float.

Definition float_of_Z (z : Z) : float :=
  match z with
  | Z0 => 0%float
  | Zpos _ => PrimFloat.of_uint63 (Uint63.of_Z z)
  | Zneg _ => PrimFloat.opp (PrimFloat.of_uint63 (Uint63.of_Z (Z.opp z)))
  end.

(** [parseFloat] of a [DECIMAL(10,2)] value as the server sends it: the
    double nearest to it; [parseFloat(null)] is NaN. *)
Definition parseFloat (v : option Ledger.decimal) : number :=
  match v with
  | Some c => PrimFloat.div (float_of_Z c) (float_of_Z 100)
  | None => PrimFloat.nan
  end.

(** Truthiness of a possibly absent string: [undefined] and [""] are falsy. *)
Definition truthy (s : option string) : bool :=
  match s with
  | Some s => negb (String.eqb s "")
  | None => false
  end.

(** [interface Expense]. *)
Module Expense.
Record t : Type := mk {
  id : string;
  description : string;
  amount : number;
  category : string;
  date : string;
  time : string
}.
End Expense.

(** [Omit<Expense, 'id'>]. *)
Module NewExpense.
Record t : Type := mk {
  description : string;
  amount : number;
  category : string;
  date : string;
  time : string
}.
End NewExpense.

(** [Partial<Expense>]; [None] is an absent ([undefined]) property. *)
Module ExpenseUpdates.
Record t : Type := mk {
  id : option string;
  description : option string;
  amount : option number;
  category : option string;
  date : option string;
  time : option string
}.
End ExpenseUpdates.

(** [interface Trip]. *)
Module Trip.
Record t : Type := mk {
  id : string;
  tripNumber : string;
  origin : string;
  destination : string;
  travelMode : string;
  date : string;
  time : string;
  notes : string;
  travelers : list string;
  expenses : list Expense.t;
  totalExpenses : number;
  status : string;
  createdAt : string;
  updatedAt : string
}.

Definition with_expenses (es : list Expense.t) (total : number) (trip : t) : t :=
  mk (id trip) (tripNumber trip) (origin trip) (destination trip) (travelMode trip)
     (date trip) (time trip) (notes trip) (travelers trip) es total (status trip)
     (createdAt trip) (updatedAt trip).

Definition with_totalExpenses (total : number) (trip : t) : t :=
  with_expenses (expenses trip) total trip.

Definition with_updatedAt (now : string) (trip : t) : t :=
  mk (id trip) (tripNumber trip) (origin trip) (destination trip) (travelMode trip)
     (date trip) (time trip) (notes trip) (travelers trip) (expenses trip)
     (totalExpenses trip) (status trip) (createdAt trip) now.
End Trip.

(** [Omit<Trip, 'id' | 'tripNumber' | 'expenses' | 'totalExpenses' |
    'createdAt' | 'updatedAt'>]. *)
Module TripData.
Record t : Type := mk {
  origin : string;
  destination : string;
  travelMode : string;
  date : string;
  time : string;
  notes : option string;
  travelers : list string;
  status : string
}.
End TripData.

(** The properties of a [Partial<Trip>] that [tripService.updateTrip] reads. *)
Module TripUpdates.
Record t : Type := mk {
  origin : option string;
  destination : option string;
  travelMode : option string;
  date : option string;
  time : option string;
  notes : option string;
  travelers : option (list string);
  status : option string
}.
End TripUpdates.

(** ** The supabase client *)

Module Supabase.

Import Ledger.

(** [{ data, error }]: exactly one of the two is set. *)
Inductive response (A : Type) : Type :=
| Data (data : A)
| Error (message : string).
Arguments Data {A} data.
Arguments Error {A} message.

(** A new [trips] row as [.insert(...).select().single()] returns it, with
    the two timestamp columns. *)
Record inserted_trip : Type := {
  row : trip_row;
  created_at : string;
  updated_at : string
}.

(** The requests the services send, indexed by what they resolve to. A
    [_single] request ends in [.select().single()] (or [.single()]). *)
Inductive call : Type -> Type :=
| auth_getUser : call (option string)
| rpc_generate_trip_number (user_uuid : string) : call (response string)
| rpc_add_expense_with_total (p_trip_id p_user_id : string) (expense : NewExpense.t)
  : call (response (string * option decimal))
| rpc_update_expense_with_total (p_expense_id p_user_id : string)
    (updates : ExpenseUpdates.t) : call (response updated_json)
| rpc_delete_expense_with_total (p_expense_id p_user_id : string)
  : call (response (option decimal * string))
| expenses_insert_single (trip_id user_id : string) (expense : NewExpense.t)
  : call (response expense_row)
| expenses_insert (trip_id user_id : string) (expenses : list NewExpense.t)
  : call (response (list expense_row))
| expenses_update (updateData : ExpenseUpdates.t) (id user_id : string)
  : call (response unit)
| expenses_update_single (updateData : ExpenseUpdates.t) (id user_id : string)
  : call (response expense_row)
| expenses_select_trip_id_single (id user_id : string) : call (response string)
| expenses_delete (id user_id : string) : call (response unit)
| trips_select_total_expenses_single (id user_id : string) : call (response decimal)
| trips_insert_single (values : trip_values) : call (response inserted_trip)
| trips_update (updateData : trip_patch) (id user_id : string) : call (response unit)
| trips_delete (id user_id : string) : call (response unit).

(** What a request is, without its arguments. *)
Inductive endpoint : Type :=
| auth (method : string)
| rpc (fn : string)
| from (table : string) (verb : string).

Definition endpoint_of {X} (c : call X) : endpoint :=
  match c with
  | auth_getUser => auth "getUser"
  | rpc_generate_trip_number _ => rpc "generate_trip_number"
  | rpc_add_expense_with_total _ _ _ => rpc "add_expense_with_total"
  | rpc_update_expense_with_total _ _ _ => rpc "update_expense_with_total"
  | rpc_delete_expense_with_total _ _ => rpc "delete_expense_with_total"
  | expenses_insert_single _ _ _ => from "expenses" "insert"
  | expenses_insert _ _ _ => from "expenses" "insert"
  | expenses_update _ _ _ => from "expenses" "update"
  | expenses_update_single _ _ _ => from "expenses" "update"
  | expenses_select_trip_id_single _ _ => from "expenses" "select"
  | expenses_delete _ _ => from "expenses" "delete"
  | trips_select_total_expenses_single _ _ => from "trips" "select"
  | trips_insert_single _ => from "trips" "insert"
  | trips_update _ _ _ => from "trips" "update"
  | trips_delete _ _ => from "trips" "delete"
  end.

Definition endpoint_eqb (a b : endpoint) : bool :=
  match a, b with
  | auth m, auth m' => String.eqb m m'
  | rpc f, rpc f' => String.eqb f f'
  | from t v, from t' v' => String.eqb t t' && String.eqb v v'
  | _, _ => false
  end.

(** An [async] function: it returns, throws, or awaits a request and goes
    on with what the request resolved to. *)
Inductive prog (A : Type) : Type :=
| Return (a : A)
| Throw (message : string)
| Await {X : Type} (c : call X) (k : X -> prog A).
Arguments Return {A} a.
Arguments Throw {A} message.
Arguments Await {A X} c k.

Notation "'await' x ':=' c 'in' k" := (Await c (fun x => k))
  (at level 10, x name, c at level 100, k at level 200).

(** How a promise settles. *)
Inductive settled (A : Type) : Type :=
| Resolved (a : A)
| Rejected (message : string).
Arguments Resolved {A} a.
Arguments Rejected {A} message.

Section Run.

(** A backend: any state, and any way of answering requests. *)
Context {W : Type}.
Variable answer : forall X, call X -> W -> X * W.

(** Running a program against the backend gives how it settles, the state of
    the backend afterwards and the requests sent, in order. *)
Fixpoint run {A} (p : prog A) (w : W) : settled A * W * list endpoint :=
  match p with
  | Return a => (Resolved a, w, [])
  | Throw m => (Rejected m, w, [])
  | Await c k =>
      let '(x, w1) := answer _ c w in
      let '(r, w2, sent) := run (k x) w1 in
      (r, w2, endpoint_of c :: sent)
  end.

End Run.

(** [after sent r]: the run [r], preceded by the requests [sent]. *)
Definition after {A W} (sent : list endpoint) (r : settled A * W * list endpoint)
  : settled A * W * list endpoint :=
  let '(s, w, rest) := r in (s, w, sent ++ rest).

(** The requests that change an expense. *)
Definition mutates (e : endpoint) : bool :=
  endpoint_eqb e (from "expenses" "insert")
  || endpoint_eqb e (from "expenses" "update")
  || endpoint_eqb e (from "expenses" "delete")
  || endpoint_eqb e (rpc "add_expense_with_total")
  || endpoint_eqb e (rpc "update_expense_with_total")
  || endpoint_eqb e (rpc "delete_expense_with_total").

Definition mutations {A W} (r : settled A * W * list endpoint) : nat :=
  length (List.filter mutates (snd r)).

End Supabase.

(** ** The services: [supabaseService.ts] and [optimizedExpenseService.ts] *)

Module AddResult.
Record t : Type := mk { expense : Expense.t; newTotal : number }.
End AddResult.

Module UpdateResult.
Record t : Type := mk { expense : Expense.t; newTotal : number; tripId : string }.
End UpdateResult.

Module DeleteResult.
Record t : Type := mk { newTotal : number; tripId : string }.
End DeleteResult.

Module BatchResult.
Record t : Type := mk { expenses : list Expense.t; newTotal : number }.
End BatchResult.

Module Services.

Import Ledger Supabase.

(** [{ id: row.id, description: row.description, amount:
    parseFloat(row.amount), ... }]. *)
Definition expense_of_row (r : expense_row) : Expense.t :=
  Expense.mk (e_id r) (e_description r) (parseFloat (Some (e_amount r)))
             (e_category r) (e_date r) (e_time r).

Definition with_user {A} (k : string -> prog A) : prog A :=
  await user := auth_getUser in
  match user with
  | None => Throw "User not authenticated"
  | Some user_id => k user_id
  end.

(** *** [tripService] *)

Definition createTrip (tripData : TripData.t) : prog Trip.t :=
  with_user (fun user_id =>
  await generated := rpc_generate_trip_number user_id in
  match generated with
  | Error message => Throw ("Failed to generate trip number: " +:+ message)
  | Data tripNumber =>
      await inserted := trips_insert_single
        {| tv_user_id := user_id; tv_trip_number := tripNumber;
           tv_origin := TripData.origin tripData;
           tv_destination := TripData.destination tripData;
           tv_travel_mode := TripData.travelMode tripData;
           tv_date := TripData.date tripData; tv_time := TripData.time tripData;
           tv_notes := if truthy (TripData.notes tripData)
                       then TripData.notes tripData else None;
           tv_travelers := TripData.travelers tripData;
           tv_status := Some (TripData.status tripData) |} in
      match inserted with
      | Error message => Throw ("Failed to create trip: " +:+ message)
      | Data data =>
          Return (Trip.mk (t_id (row data)) (t_trip_number (row data))
                    (t_origin (row data)) (t_destination (row data))
                    (t_travel_mode (row data)) (t_date (row data)) (t_time (row data))
                    (if truthy (t_notes (row data))
                     then coalesce (t_notes (row data)) "" else "")
                    (t_travelers (row data)) [] 0%float (t_status (row data))
                    (created_at data) (updated_at data))
      end
  end).

Definition updateTrip (tripId : string) (updates : TripUpdates.t) : prog unit :=
  with_user (fun user_id =>
  let keep (s : option string) := if truthy s then s else None in
  let updateData :=
    {| tp_origin := keep (TripUpdates.origin updates);
       tp_destination := keep (TripUpdates.destination updates);
       tp_travel_mode := keep (TripUpdates.travelMode updates);
       tp_date := keep (TripUpdates.date updates);
       tp_time := keep (TripUpdates.time updates);
       tp_notes := TripUpdates.notes updates;
       tp_travelers := TripUpdates.travelers updates;
       tp_status := keep (TripUpdates.status updates) |} in
  await updated := trips_update updateData tripId user_id in
  match updated with
  | Error message => Throw ("Failed to update trip: " +:+ message)
  | Data _ => Return tt
  end).

Definition deleteTrip (tripId : string) : prog unit :=
  with_user (fun user_id =>
  await deleted := trips_delete tripId user_id in
  match deleted with
  | Error message => Throw ("Failed to delete trip: " +:+ message)
  | Data _ => Return tt
  end).

(** *** [expenseService] *)

Definition addExpense (tripId : string) (expense : NewExpense.t) : prog Expense.t :=
  with_user (fun user_id =>
  await inserted := expenses_insert_single tripId user_id expense in
  match inserted with
  | Error message => Throw ("Failed to add expense: " +:+ message)
  | Data data => Return (expense_of_row data)
  end).

Definition updateExpense (expenseId : string) (updates : ExpenseUpdates.t) : prog unit :=
  with_user (fun user_id =>
  let keep (s : option string) := if truthy s then s else None in
  let updateData :=
    ExpenseUpdates.mk None
      (keep (ExpenseUpdates.description updates))
      (ExpenseUpdates.amount updates)
      (keep (ExpenseUpdates.category updates))
      (keep (ExpenseUpdates.date updates))
      (keep (ExpenseUpdates.time updates)) in
  await updated := expenses_update updateData expenseId user_id in
  match updated with
  | Error message => Throw ("Failed to update expense: " +:+ message)
  | Data _ => Return tt
  end).

Definition deleteExpense (expenseId : string) : prog unit :=
  with_user (fun user_id =>
  await deleted := expenses_delete expenseId user_id in
  match deleted with
  | Error message => Throw ("Failed to delete expense: " +:+ message)
  | Data _ => Return tt
  end).

(** *** [optimizedExpenseService] *)

(** The fallback of [addExpenseOptimized]. *)
Definition addExpenseManual (tripId : string) (expense : NewExpense.t)
  : prog AddResult.t :=
  with_user (fun user_id =>
  await inserted := expenses_insert_single tripId user_id expense in
  match inserted with
  | Error message => Throw ("Failed to add expense: " +:+ message)
  | Data expenseData =>
      await tripData := trips_select_total_expenses_single tripId user_id in
      Return (AddResult.mk (expense_of_row expenseData)
                match tripData with
                | Data total_expenses => parseFloat (Some total_expenses)
                | Error _ => NewExpense.amount expense
                end)
  end).

Definition addExpenseOptimized (tripId : string) (expense : NewExpense.t)
  : prog AddResult.t :=
  with_user (fun user_id =>
  await called := rpc_add_expense_with_total tripId user_id expense in
  match called with
  | Error _ => addExpenseManual tripId expense
  | Data (expense_id, new_total) =>
      Return (AddResult.mk
                (Expense.mk expense_id (NewExpense.description expense)
                   (NewExpense.amount expense) (NewExpense.category expense)
                   (NewExpense.date expense) (NewExpense.time expense))
                (parseFloat new_total))
  end).

(** The fallback of [updateExpenseOptimized]. *)
Definition updateExpenseManual (expenseId : string) (updates : ExpenseUpdates.t)
  : prog UpdateResult.t :=
  with_user (fun user_id =>
  let updateData :=
    ExpenseUpdates.mk None
      (ExpenseUpdates.description updates) (ExpenseUpdates.amount updates)
      (ExpenseUpdates.category updates) (ExpenseUpdates.date updates)
      (ExpenseUpdates.time updates) in
  await updated := expenses_update_single updateData expenseId user_id in
  match updated with
  | Error message => Throw ("Failed to update expense: " +:+ message)
  | Data expenseData =>
      await tripData :=
        trips_select_total_expenses_single (e_trip_id expenseData) user_id in
      Return (UpdateResult.mk (expense_of_row expenseData)
                match tripData with
                | Data total_expenses => parseFloat (Some total_expenses)
                | Error _ => parseFloat (Some (e_amount expenseData))
                end
                (e_trip_id expenseData))
  end).

Definition updateExpenseOptimized (expenseId : string) (updates : ExpenseUpdates.t)
  : prog UpdateResult.t :=
  with_user (fun user_id =>
  await called := rpc_update_expense_with_total expenseId user_id updates in
  match called with
  | Error _ => updateExpenseManual expenseId updates
  | Data data =>
      Return (UpdateResult.mk
                (Expense.mk expenseId (e_description (updated_expense data))
                   (parseFloat (Some (e_amount (updated_expense data))))
                   (e_category (updated_expense data)) (e_date (updated_expense data))
                   (e_time (updated_expense data)))
                (parseFloat (ue_new_total data))
                (ue_trip_id data))
  end).

(** The fallback of [deleteExpenseOptimized]. *)
Definition deleteExpenseManual (expenseId : string) : prog DeleteResult.t :=
  with_user (fun user_id =>
  await fetched := expenses_select_trip_id_single expenseId user_id in
  match fetched with
  | Error message => Throw ("Failed to fetch expense details: " +:+ message)
  | Data trip_id =>
      await deleted := expenses_delete expenseId user_id in
      match deleted with
      | Error message => Throw ("Failed to delete expense: " +:+ message)
      | Data _ =>
          await tripData := trips_select_total_expenses_single trip_id user_id in
          Return (DeleteResult.mk
                    match tripData with
                    | Data total_expenses => parseFloat (Some total_expenses)
                    | Error _ => 0%float
                    end
                    trip_id)
      end
  end).

Definition deleteExpenseOptimized (expenseId : string) : prog DeleteResult.t :=
  with_user (fun user_id =>
  await called := rpc_delete_expense_with_total expenseId user_id in
  match called with
  | Error _ => deleteExpenseManual expenseId
  | Data (new_total, trip_id) =>
      Return (DeleteResult.mk (parseFloat new_total) trip_id)
  end).

Definition batchAddExpenses (tripId : string) (expenses : list NewExpense.t)
  : prog BatchResult.t :=
  with_user (fun user_id =>
  await inserted := expenses_insert tripId user_id expenses in
  match inserted with
  | Error message => Throw ("Failed to add expenses: " +:+ message)
  | Data expenseData =>
      await tripData := trips_select_total_expenses_single tripId user_id in
      Return (BatchResult.mk (map expense_of_row expenseData)
                match tripData with
                | Data total_expenses => parseFloat (Some total_expenses)
                | Error _ => 0%float
                end)
  end).

End Services.

(** ** The hosted backend: requests answered on the ledger *)

Module Backend.

Import Ledger Supabase.

Record world : Type := {
  database : db;
  (** the signed-in user, [auth.uid()] *)
  session : option string;
  (** how many ids [uuid_generate_v4()] has drawn *)
  uuids : nat;
  (** [now()], as the timestamp columns show it *)
  clock : string;
  (** whether [optimized-expense-functions.sql] has been run *)
  optimized_functions : bool;
  (** how many requests have been sent *)
  received : nat;
  (** the requests, by rank, that are lost in transit *)
  lost : list nat
}.

Definition with_database (d : db) (w : world) : world :=
  {| database := d; session := session w; uuids := uuids w; clock := clock w;
     optimized_functions := optimized_functions w; received := received w;
     lost := lost w |}.

Definition drawn (n : nat) (w : world) : world :=
  {| database := database w; session := session w; uuids := (uuids w + n)%nat;
     clock := clock w; optimized_functions := optimized_functions w;
     received := received w; lost := lost w |}.

Definition next_request (w : world) : world :=
  {| database := database w; session := session w; uuids := uuids w;
     clock := clock w; optimized_functions := optimized_functions w;
     received := S (received w); lost := lost w |}.

Definition uuid_generate_v4 (n : nat) : uuid := "uuid-" +:+ show_Z (Z.of_nat n).

Definition sql_message (e : sql_error) : string :=
  match e with
  | not_null_violation => "null value violates not-null constraint"
  | check_violation => "new row violates check constraint"
  | foreign_key_violation => "insert or update violates foreign key constraint"
  | unique_violation => "duplicate key value violates unique constraint"
  | numeric_value_out_of_range => "numeric field overflow"
  | raise_exception message => message
  end.

(** What a request resolves to when it does not reach the backend. *)
Definition unreachable {X} (c : call X) : X :=
  match c in call X return X with
  | auth_getUser => None
  | rpc_generate_trip_number _ => Error "Failed to fetch"
  | rpc_add_expense_with_total _ _ _ => Error "Failed to fetch"
  | rpc_update_expense_with_total _ _ _ => Error "Failed to fetch"
  | rpc_delete_expense_with_total _ _ => Error "Failed to fetch"
  | expenses_insert_single _ _ _ => Error "Failed to fetch"
  | expenses_insert _ _ _ => Error "Failed to fetch"
  | expenses_update _ _ _ => Error "Failed to fetch"
  | expenses_update_single _ _ _ => Error "Failed to fetch"
  | expenses_select_trip_id_single _ _ => Error "Failed to fetch"
  | expenses_delete _ _ => Error "Failed to fetch"
  | trips_select_total_expenses_single _ _ => Error "Failed to fetch"
  | trips_insert_single _ => Error "Failed to fetch"
  | trips_update _ _ _ => Error "Failed to fetch"
  | trips_delete _ _ => Error "Failed to fetch"
  end.

Section Answer.

(** The [DECIMAL(10,2)] value Postgres reads from a JSON number, in
    hundredths; [None] for the numbers JSON writes as [null] (NaN and the
    infinities). *)
Variable numeric_in : number -> option decimal.

Definition values_of (trip_id user_id : string) (e : NewExpense.t) : expense_values :=
  {| v_trip_id := trip_id; v_user_id := user_id;
     v_description := Some (NewExpense.description e);
     v_amount := numeric_in (NewExpense.amount e);
     v_category := Some (NewExpense.category e);
     v_date := Some (NewExpense.date e);
     v_time := Some (NewExpense.time e) |}.

(** The parameters [p_description] ... [p_time] of
    [update_expense_with_total]. *)
Definition patch_of (u : ExpenseUpdates.t) : expense_patch :=
  {| p_description := ExpenseUpdates.description u;
     p_amount := match ExpenseUpdates.amount u with
                 | Some a => numeric_in a
                 | None => None
                 end;
     p_category := ExpenseUpdates.category u;
     p_date := ExpenseUpdates.date u;
     p_time := ExpenseUpdates.time u |}.

(** A body [{ amount: null }] would set a [NOT NULL] column to NULL. *)
Definition sets_null_amount (u : ExpenseUpdates.t) : bool :=
  match ExpenseUpdates.amount u with
  | Some a => match numeric_in a with Some _ => false | None => true end
  | None => false
  end.

(** A body [{}]: PostgREST then sends the table no [UPDATE] and answers
    with no row. *)
Definition empty_body (u : ExpenseUpdates.t) : bool :=
  match ExpenseUpdates.description u, ExpenseUpdates.amount u,
        ExpenseUpdates.category u, ExpenseUpdates.date u, ExpenseUpdates.time u with
  | None, None, None, None, None => true
  | _, _, _, _, _ => false
  end.

(** A transaction: its changes are kept only when it ends without error. *)
Definition transaction {A B} (w : world) (t : sql (A * db)) (ids : nat)
    (reply : A -> B) : response B * world :=
  match t with
  | Ok (a, d) => (Data (reply a), drawn ids (with_database d w))
  | Err e => (Error (sql_message e), w)
  end.

(** The row-level-security policies compare [auth.uid()] with [user_id];
    every request on a table carries the caller's id as [user_id], and runs
    with the caller's rights. The procedures run with the definer's. *)
Definition as_user (user_id : string) (w : world) : bool :=
  match session w with
  | Some uid => String.eqb uid user_id
  | None => false
  end.

Definition single {A} (rows : list A) : response A :=
  match rows with
  | [a] => Data a
  | _ => Error "JSON object requested, multiple (or no) rows returned"
  end.

Definition new_ids {A} (from : nat) (l : list A) : list (uuid * A) :=
  combine (map uuid_generate_v4 (seq from (length l))) l.

(** How the backend serves a request. For [trips_update] with nothing to
    set, the rows are left as an [UPDATE] that assigns no column leaves
    them, which is how PostgREST, sending none, leaves them too. *)
Definition serve {X} (c : call X) (w : world) : X * world :=
  match c in call X return X * world with
  | auth_getUser => (session w, w)
  | rpc_generate_trip_number user_uuid =>
      (Data (generate_trip_number user_uuid (database w)), w)
  | rpc_add_expense_with_total p_trip_id p_user_id expense =>
      if optimized_functions w then
        transaction w
          (add_expense_with_total (uuid_generate_v4 (uuids w))
             (values_of p_trip_id p_user_id expense) (database w)) 1 id
      else (Error "Could not find the function", w)
  | rpc_update_expense_with_total p_expense_id p_user_id updates =>
      if optimized_functions w then
        transaction w
          (update_expense_with_total p_expense_id p_user_id (patch_of updates)
             (database w)) 0 id
      else (Error "Could not find the function", w)
  | rpc_delete_expense_with_total p_expense_id p_user_id =>
      if optimized_functions w then
        transaction w
          (delete_expense_with_total p_expense_id p_user_id (database w)) 0 id
      else (Error "Could not find the function", w)
  | expenses_insert_single trip_id user_id expense =>
      if as_user user_id w then
        transaction w
          (insert_expense (invoker user_id) (uuid_generate_v4 (uuids w))
             (values_of trip_id user_id expense) (database w)) 1 id
      else (Error "new row violates row-level security policy", w)
  | expenses_insert trip_id user_id expenses =>
      if as_user user_id w then
        transaction w
          (insert_expenses (invoker user_id)
             (new_ids (uuids w) (map (values_of trip_id user_id) expenses))
             (database w)) (length expenses) id
      else (Error "new row violates row-level security policy", w)
  | expenses_update updateData id user_id =>
      if as_user user_id w then
        if empty_body updateData then (Data tt, w)
        else if sets_null_amount updateData
        then (Error (sql_message not_null_violation), w)
        else transaction w
               (update_expenses (invoker user_id) id user_id (patch_of updateData)
                  (database w)) 0
               (fun _ => tt)
      else (Data tt, w)
  | expenses_update_single updateData id user_id =>
      if as_user user_id w then
        if empty_body updateData then (single [], w)
        else if sets_null_amount updateData
        then (Error (sql_message not_null_violation), w)
        else
          match update_expenses (invoker user_id) id user_id (patch_of updateData)
                  (database w) with
          | Ok ([updated], d) => (Data updated, with_database d w)
          | Ok _ => (single [], w)
          | Err e => (Error (sql_message e), w)
          end
      else (single [], w)
  | expenses_select_trip_id_single id user_id =>
      if as_user user_id w then
        (single (map e_trip_id (List.filter (targets id user_id) (expenses (database w)))), w)
      else (single [], w)
  | expenses_delete id user_id =>
      if as_user user_id w then
        transaction w (delete_expenses (invoker user_id) id user_id (database w)) 0
          (fun _ => tt)
      else (Data tt, w)
  | trips_select_total_expenses_single id user_id =>
      if as_user user_id w then
        (single (map t_total_expenses
                   (List.filter (trip_targets id user_id) (trips (database w)))), w)
      else (single [], w)
  | trips_insert_single values =>
      if as_user (tv_user_id values) w then
        transaction w
          (insert_trip (uuid_generate_v4 (uuids w)) values (database w)) 1
          (fun r => {| row := r; created_at := clock w; updated_at := clock w |})
      else (Error "new row violates row-level security policy", w)
  | trips_update updateData id user_id =>
      if as_user user_id w then
        match update_trips id user_id updateData (database w) with
        | Ok d => (Data tt, with_database d w)
        | Err e => (Error (sql_message e), w)
        end
      else (Data tt, w)
  | trips_delete id user_id =>
      if as_user user_id w then
        match delete_trips id user_id (database w) with
        | Ok d => (Data tt, with_database d w)
        | Err e => (Error (sql_message e), w)
        end
      else (Data tt, w)
  end.

(** A request either is lost in transit or is served. *)
Definition answer (X : Type) (c : call X) (w : world) : X * world :=
  if existsb (Nat.eqb (received w)) (lost w)
  then (unreachable c, next_request w)
  else let '(x, w1) := serve c w in (x, next_request w1).

End Answer.

(** A reading of JSON numbers for running examples: the hundredth nearest to
    the double's exact value. For the double nearest to an amount written
    with at most two decimals, this is that amount, as Postgres reads it
    from the number's shortest decimal form. *)
Definition nearest_hundredth (x : number) : option decimal :=
  match Prim2SF x with
  | S754_zero _ => Some 0%Z
  | S754_infinity _ | S754_nan => None
  | S754_finite negative m e =>
      let scaled := (Z.pos m * 100)%Z in
      let magnitude :=
        if (0 <=? e)%Z then (scaled * 2 ^ e)%Z
        else ((2 * scaled + 2 ^ (- e)) / (2 * 2 ^ (- e)))%Z in
      Some (if negative then (- magnitude)%Z else magnitude)
  end.

(** A backend holding [d], with [uid] signed in, the optimized functions
    installed and no request lost. *)
Definition signed_in (uid : string) (d : db) : world :=
  {| database := d; session := Some uid; uuids := 0; clock := "2025-01-10T09:00:00Z";
     optimized_functions := true; received := 0; lost := [] |}.

(** The same backend without [optimized-expense-functions.sql]. *)
Definition without_functions (w : world) : world :=
  {| database := database w; session := session w; uuids := uuids w; clock := clock w;
     optimized_functions := false; received := received w; lost := lost w |}.

(** The same backend, losing the requests of the given ranks. *)
Definition losing (ranks : list nat) (w : world) : world :=
  {| database := database w; session := session w; uuids := uuids w; clock := clock w;
     optimized_functions := optimized_functions w; received := received w;
     lost := ranks |}.

(** Running a service call on the example backend. *)
Definition execute {A} (p : prog A) (w : world) : settled A * world * list endpoint :=
  run (answer nearest_hundredth) p w.

Definition outcome {A} (r : settled A * world * list endpoint) : settled A := fst (fst r).
Definition backend {A} (r : settled A * world * list endpoint) : world := snd (fst r).
Definition requests {A} (r : settled A * world * list endpoint) : list endpoint := snd r.

(** A payload passes validation when its amount is a number that fits the
    column and its category is a known one. *)
Definition valid_expense (numeric_in : number -> option Z) (e : NewExpense.t) : bool :=
  match numeric_in (NewExpense.amount e) with
  | Some amt => fits_decimal_10_2 amt && category_check (NewExpense.category e)
  | None => false
  end.

End Backend.

(** ** The client: operation cache and optimistic coordinator *)

Module Coordinator.

Import Supabase.

(** *** [cachedExpenseService] *)

(** [CACHE_TIMEOUT], in milliseconds. *)
Definition CACHE_TIMEOUT : Z := 1000.

(** A call to [optimizedExpenseService]. *)
Inductive operation : Type :=
| addExpenseOptimized (tripId : string) (expense : NewExpense.t)
| updateExpenseOptimized (expenseId : string) (updates : ExpenseUpdates.t)
| deleteExpenseOptimized (expenseId : string).

(** The module state of [optimizedExpenseService.ts]. A promise is named by
    the rank of the call that made it. *)
Record service : Type := {
  (** [operationCache]: cache key to promise *)
  operationCache : gmap string nat;
  (** the [setTimeout] callbacks not yet run: when due, and the key to delete *)
  timers : list (Z * string);
  (** the calls made to [optimizedExpenseService] so far, oldest first *)
  started : list operation
}.

Definition no_service : service :=
  {| operationCache := ∅; timers := []; started := [] |}.

Definition due (now : Z) (timer : Z * string) : bool := (fst timer <=? now)%Z.

(** The timer callbacks due at [now] run before anything else does at [now]. *)
Definition run_timers (now : Z) (s : service) : service :=
  {| operationCache :=
       fold_right (fun timer cache => delete (snd timer) cache) (operationCache s)
         (List.filter (due now) (timers s));
     timers := List.filter (fun timer => negb (due now timer)) (timers s);
     started := started s |}.

(** The body shared by [cachedExpenseService.addExpense], [.updateExpense]
    and [.deleteExpense], called at time [now]: the promise returned, and
    the state afterwards. *)
Definition cached (cacheKey : string) (op : operation) (now : Z) (s : service)
  : nat * service :=
  let s := run_timers now s in
  match operationCache s !! cacheKey with
  | Some promise => (promise, s)
  | None =>
      let promise := length (started s) in
      (promise,
       {| operationCache := <[cacheKey := promise]> (operationCache s);
          timers := timers s ++ [((now + CACHE_TIMEOUT)%Z, cacheKey)];
          started := started s ++ [op] |})
  end.

(** *** [useOptimizedTripManager] *)

Record state : Type := {
  user : option string;
  trips : list Trip.t;
  activeTrip : option Trip.t;
  pendingOperations : gset string;
  expenseService : service
}.

Definition set_trips (ts : list Trip.t) (a : option Trip.t) (st : state) : state :=
  {| user := user st; trips := ts; activeTrip := a;
     pendingOperations := pendingOperations st; expenseService := expenseService st |}.

Definition set_pending (p : gset string) (st : state) : state :=
  {| user := user st; trips := trips st; activeTrip := activeTrip st;
     pendingOperations := p; expenseService := expenseService st |}.

Definition set_service (s : service) (st : state) : state :=
  {| user := user st; trips := trips st; activeTrip := activeTrip st;
     pendingOperations := pendingOperations st; expenseService := s |}.

Definition applyOptimisticUpdate (tripId : string) (updateFn : Trip.t -> Trip.t)
    (st : state) : state :=
  set_trips
    (map (fun trip => if String.eqb (Trip.id trip) tripId then updateFn trip else trip)
       (trips st))
    (match activeTrip st with
     | Some prev => if String.eqb (Trip.id prev) tripId then Some (updateFn prev)
                    else Some prev
     | None => None
     end)
    st.

(** [{ ...exp, ...updates }]. *)
Definition merge (exp : Expense.t) (updates : ExpenseUpdates.t) : Expense.t :=
  Expense.mk
    (Ledger.coalesce (ExpenseUpdates.id updates) (Expense.id exp))
    (Ledger.coalesce (ExpenseUpdates.description updates) (Expense.description exp))
    (Ledger.coalesce (ExpenseUpdates.amount updates) (Expense.amount exp))
    (Ledger.coalesce (ExpenseUpdates.category updates) (Expense.category exp))
    (Ledger.coalesce (ExpenseUpdates.date updates) (Expense.date exp))
    (Ledger.coalesce (ExpenseUpdates.time updates) (Expense.time exp)).

Definition has_id (id : string) (exp : Expense.t) : bool := String.eqb (Expense.id exp) id.

Section Hook.

(** [JSON.stringify] on the two payloads, and [Array.prototype.sort] with the
    newest-first comparator of [deleteExpense]. *)
Variable stringify_expense : NewExpense.t -> string.
Variable stringify_updates : ExpenseUpdates.t -> string.
Variable newest_first : list Expense.t -> list Expense.t.

Definition cached_addExpense (tripId : string) (expense : NewExpense.t) :=
  cached ("add-" +:+ tripId +:+ "-" +:+ stringify_expense expense)
         (addExpenseOptimized tripId expense).

Definition cached_updateExpense (expenseId : string) (updates : ExpenseUpdates.t) :=
  cached ("update-" +:+ expenseId +:+ "-" +:+ stringify_updates updates)
         (updateExpenseOptimized expenseId updates).

Definition cached_deleteExpense (expenseId : string) :=
  cached ("delete-" +:+ expenseId) (deleteExpenseOptimized expenseId).

(** What a call of the hook's [addExpense] has in hand while it awaits the
    service. *)
Record adding : Type := {
  a_operationId : string;
  a_tempExpense : Expense.t;
  a_promise : nat
}.

(** [addExpense], up to the [await]: called at time [now] (as [Date.now()]
    reads it; [today] is [new Date().toISOString()]). [None] when the call
    returns at once. *)
Definition addExpense_begin (now : Z) (today : string) (tripId : string)
    (expense : NewExpense.t) (st : state) : option adding * state :=
  match user st with
  | None => (None, st)
  | Some _ =>
      let operationId := "add-" +:+ tripId +:+ "-" +:+ show_Z now in
      if decide (operationId ∈ pendingOperations st) then (None, st)
      else
        let st := set_pending ({[operationId]} ∪ pendingOperations st) st in
        let tempExpense :=
          Expense.mk ("temp-" +:+ show_Z now) (NewExpense.description expense)
            (NewExpense.amount expense) (NewExpense.category expense)
            (NewExpense.date expense) (NewExpense.time expense) in
        let st := applyOptimisticUpdate tripId (fun trip =>
                    Trip.with_updatedAt today
                      (Trip.with_expenses (Trip.expenses trip ++ [tempExpense])
                         (Trip.totalExpenses trip + NewExpense.amount expense)%float
                         trip)) st in
        let '(promise, s) := cached_addExpense tripId expense now (expenseService st) in
        (Some {| a_operationId := operationId; a_tempExpense := tempExpense;
                 a_promise := promise |},
         set_service s st)
  end.

(** [addExpense], from the [await] on: [settled] is how the awaited promise
    settled. *)
Definition addExpense_settle (tripId : string) (expense : NewExpense.t) (a : adding)
    (outcome : settled AddResult.t) (st : state) : state :=
  let st :=
    match outcome with
    | Resolved result =>
        applyOptimisticUpdate tripId (fun trip =>
          Trip.with_expenses
            (map (fun exp => if has_id (Expense.id (a_tempExpense a)) exp
                             then AddResult.expense result else exp)
               (Trip.expenses trip))
            (AddResult.newTotal result) trip) st
    | Rejected _ =>
        applyOptimisticUpdate tripId (fun trip =>
          Trip.with_expenses
            (List.filter (fun exp => negb (has_id (Expense.id (a_tempExpense a)) exp))
               (Trip.expenses trip))
            (Trip.totalExpenses trip - NewExpense.amount expense)%float trip) st
    end in
  set_pending (pendingOperations st ∖ {[a_operationId a]}) st.

Record updating : Type := {
  u_operationId : string;
  u_originalExpense : Expense.t;
  u_originalTotal : number;
  u_promise : nat
}.

(** [updateExpense], up to the [await]. *)
Definition updateExpense_begin (now : Z) (today : string) (tripId expenseId : string)
    (updates : ExpenseUpdates.t) (st : state) : option updating * state :=
  match user st with
  | None => (None, st)
  | Some _ =>
      let operationId := "update-" +:+ expenseId +:+ "-" +:+ show_Z now in
      if decide (operationId ∈ pendingOperations st) then (None, st)
      else
        let st := set_pending ({[operationId]} ∪ pendingOperations st) st in
        match List.find (fun t => String.eqb (Trip.id t) tripId) (trips st) with
        | None => (None, st)
        | Some originalTrip =>
            match List.find (has_id expenseId) (Trip.expenses originalTrip) with
            | None => (None, st)
            | Some originalExpense =>
                let originalTotal := Trip.totalExpenses originalTrip in
                let newAmount := Ledger.coalesce (ExpenseUpdates.amount updates)
                                   (Expense.amount originalExpense) in
                let totalDiff := (newAmount - Expense.amount originalExpense)%float in
                let st := applyOptimisticUpdate tripId (fun trip =>
                            Trip.with_updatedAt today
                              (Trip.with_expenses
                                 (map (fun exp => if has_id expenseId exp
                                                  then merge exp updates else exp)
                                    (Trip.expenses trip))
                                 (Trip.totalExpenses trip + totalDiff)%float trip)) st in
                let '(promise, s) :=
                  cached_updateExpense expenseId updates now (expenseService st) in
                (Some {| u_operationId := operationId;
                         u_originalExpense := originalExpense;
                         u_originalTotal := originalTotal; u_promise := promise |},
                 set_service s st)
            end
        end
  end.

(** [updateExpense], from the [await] on. *)
Definition updateExpense_settle (tripId expenseId : string) (u : updating)
    (outcome : settled UpdateResult.t) (st : state) : state :=
  let st :=
    match outcome with
    | Resolved result =>
        applyOptimisticUpdate tripId (fun trip =>
          Trip.with_expenses
            (map (fun exp => if has_id expenseId exp
                             then UpdateResult.expense result else exp)
               (Trip.expenses trip))
            (UpdateResult.newTotal result) trip) st
    | Rejected _ =>
        applyOptimisticUpdate tripId (fun trip =>
          Trip.with_expenses
            (map (fun exp => if has_id expenseId exp
                             then u_originalExpense u else exp)
               (Trip.expenses trip))
            (u_originalTotal u) trip) st
    end in
  set_pending (pendingOperations st ∖ {[u_operationId u]}) st.

Record deleting : Type := {
  d_operationId : string;
  d_expenseToDelete : Expense.t;
  d_promise : nat
}.

(** [deleteExpense], up to the [await]. *)
Definition deleteExpense_begin (now : Z) (today : string) (tripId expenseId : string)
    (st : state) : option deleting * state :=
  match user st with
  | None => (None, st)
  | Some _ =>
      let operationId := "delete-" +:+ expenseId +:+ "-" +:+ show_Z now in
      if decide (operationId ∈ pendingOperations st) then (None, st)
      else
        let st := set_pending ({[operationId]} ∪ pendingOperations st) st in
        match List.find (fun t => String.eqb (Trip.id t) tripId) (trips st) with
        | None => (None, st)
        | Some originalTrip =>
            match List.find (has_id expenseId) (Trip.expenses originalTrip) with
            | None => (None, st)
            | Some expenseToDelete =>
                let st := applyOptimisticUpdate tripId (fun trip =>
                            Trip.with_updatedAt today
                              (Trip.with_expenses
                                 (List.filter (fun exp => negb (has_id expenseId exp))
                                    (Trip.expenses trip))
                                 (Trip.totalExpenses trip
                                  - Expense.amount expenseToDelete)%float trip)) st in
                let '(promise, s) :=
                  cached_deleteExpense expenseId now (expenseService st) in
                (Some {| d_operationId := operationId;
                         d_expenseToDelete := expenseToDelete; d_promise := promise |},
                 set_service s st)
            end
        end
  end.

(** [deleteExpense], from the [await] on. *)
Definition deleteExpense_settle (tripId : string) (d : deleting)
    (outcome : settled DeleteResult.t) (st : state) : state :=
  let st :=
    match outcome with
    | Resolved result =>
        applyOptimisticUpdate tripId (Trip.with_totalExpenses (DeleteResult.newTotal result)) st
    | Rejected _ =>
        applyOptimisticUpdate tripId (fun trip =>
          Trip.with_expenses
            (newest_first (Trip.expenses trip ++ [d_expenseToDelete d]))
            (Trip.totalExpenses trip + Expense.amount (d_expenseToDelete d))%float
            trip) st
    end in
  set_pending (pendingOperations st ∖ {[d_operationId d]}) st.

End Hook.

(** *** What the properties below speak of *)

(** In a cache that calls have built, the pending timers have distinct keys,
    each of them cached. *)
Definition cache_wf (s : service) : Prop :=
  List.NoDup (map snd (timers s))
  /\ forall timer, In timer (timers s) -> is_Some (operationCache s !! snd timer).

(** The placeholder id of an add begun at [now]. *)
Definition temp_id (now : Z) : string := "temp-" +:+ show_Z now.

(** No expense of the trip carries the placeholder id. *)
Definition no_placeholder (now : Z) (trip : Trip.t) : Prop :=
  forallb (fun exp => negb (has_id (temp_id now) exp)) (Trip.expenses trip) = true.



(** [trip.id === tripId ? f(trip) : trip]. *)
Definition on_trip (tripId : string) (f : Trip.t -> Trip.t) (trip : Trip.t) : Trip.t :=
  if String.eqb (Trip.id trip) tripId then f trip else trip.

(** The optimistic apply of an add, and its rollback. *)
Definition add_applied (tempExpense : Expense.t) (amount : number) (today : string)
    (trip : Trip.t) : Trip.t :=
  Trip.with_updatedAt today
    (Trip.with_expenses (Trip.expenses trip ++ [tempExpense])
       (Trip.totalExpenses trip + amount)%float trip).


Definition is_trip (tripId : string) (trip : Trip.t) : bool :=
  String.eqb (Trip.id trip) tripId.

(** The optimistic apply of an update, and its rollback. *)
Definition update_applied (expenseId : string) (updates : ExpenseUpdates.t)
    (totalDiff : number) (today : string) (trip : Trip.t) : Trip.t :=
  Trip.with_updatedAt today
    (Trip.with_expenses
       (map (fun exp => if has_id expenseId exp then merge exp updates else exp)
          (Trip.expenses trip))
       (Trip.totalExpenses trip + totalDiff)%float trip).

Definition update_undone (expenseId : string) (originalExpense : Expense.t)
    (originalTotal : number) (trip : Trip.t) : Trip.t :=
  Trip.with_expenses
    (map (fun exp => if has_id expenseId exp then originalExpense else exp)
       (Trip.expenses trip))
    originalTotal trip.

End Coordinator.

Module Stores.
Import Ledger Supabase Services Backend.

(** The calls of the procedures of [optimized-expense-functions.sql]. *)
Definition optimized_rpc {X} (c : call X) : bool :=
  match c with
  | rpc_add_expense_with_total _ _ _ => true
  | rpc_update_expense_with_total _ _ _ => true
  | rpc_delete_expense_with_total _ _ => true
  | _ => false
  end.

(** A program that calls none of them. *)
Inductive plain {A} : prog A -> Prop :=
| plain_Return a : plain (Return a)
| plain_Throw message : plain (Throw message)
| plain_Await X (c : call X) k :
    optimized_rpc c = false -> (forall x, plain (k x)) -> plain (Await c k).

(** Two backends that hold the same rows for the same session and lose no
    request; they may differ in the procedures installed. *)
Definition same_store (w w' : world) : Prop :=
  database w = database w' /\ session w = session w' /\ uuids w = uuids w'
  /\ clock w = clock w' /\ lost w = [] /\ lost w' = [].


(** The expense with another amount. *)
Definition echoing (amount : number) (e : Expense.t) : Expense.t :=
  Expense.mk (Expense.id e) (Expense.description e) amount (Expense.category e)
    (Expense.date e) (Expense.time e).

(** The row [tripService.createTrip] asks the table to store for the caller
    [user_id], under the number [tripNumber]. *)
Definition trip_values_of (user_id tripNumber : string) (tripData : TripData.t)
  : trip_values :=
  {| tv_user_id := user_id; tv_trip_number := tripNumber;
     tv_origin := TripData.origin tripData;
     tv_destination := TripData.destination tripData;
     tv_travel_mode := TripData.travelMode tripData;
     tv_date := TripData.date tripData; tv_time := TripData.time tripData;
     tv_notes := if truthy (TripData.notes tripData)
                 then TripData.notes tripData else None;
     tv_travelers := TripData.travelers tripData;
     tv_status := Some (TripData.status tripData) |}.

(** The trip it returns for a stored row. *)
Definition trip_of_inserted (data : inserted_trip) : Trip.t :=
  Trip.mk (t_id (row data)) (t_trip_number (row data))
    (t_origin (row data)) (t_destination (row data))
    (t_travel_mode (row data)) (t_date (row data)) (t_time (row data))
    (if truthy (t_notes (row data)) then coalesce (t_notes (row data)) "" else "")
    (t_travelers (row data)) [] 0%float (t_status (row data))
    (created_at data) (updated_at data).

End Stores.

(** ** What the coordinator leaves in memory *)

Module Settled.

Import Supabase Coordinator.

(** The trip once an add has been confirmed: the server's record at the end
    of the list, the server's total. *)
Definition add_confirmed (result : AddResult.t) (today : string) (trip : Trip.t) : Trip.t :=
  Trip.with_updatedAt today
    (Trip.with_expenses (Trip.expenses trip ++ [AddResult.expense result])
       (AddResult.newTotal result) trip).

(** The trip once an update has been confirmed. *)
Definition update_confirmed (expenseId : string) (result : UpdateResult.t)
    (today : string) (trip : Trip.t) : Trip.t :=
  Trip.with_updatedAt today
    (Trip.with_expenses
       (map (fun exp => if has_id expenseId exp then UpdateResult.expense result else exp)
          (Trip.expenses trip))
       (UpdateResult.newTotal result) trip).

(** The trip once a delete has been confirmed. *)
Definition delete_confirmed (expenseId : string) (result : DeleteResult.t)
    (today : string) (trip : Trip.t) : Trip.t :=
  Trip.with_updatedAt today
    (Trip.with_expenses
       (List.filter (fun exp => negb (has_id expenseId exp)) (Trip.expenses trip))
       (DeleteResult.newTotal result) trip).

(** The optimistic apply of a delete. *)
Definition delete_applied (expenseId : string) (amount : number) (today : string)
    (trip : Trip.t) : Trip.t :=
  Trip.with_updatedAt today
    (Trip.with_expenses
       (List.filter (fun exp => negb (has_id expenseId exp)) (Trip.expenses trip))
       (Trip.totalExpenses trip - amount)%float trip).

(** The rollback of a delete: the expense is put back and the list sorted
    again. *)
Definition delete_undone (newest_first : list Expense.t -> list Expense.t)
    (expenseToDelete : Expense.t) (trip : Trip.t) : Trip.t :=
  Trip.with_expenses
    (newest_first (Trip.expenses trip ++ [expenseToDelete]))
    (Trip.totalExpenses trip + Expense.amount expenseToDelete)%float trip.

(** Subtracting the amount from the trip's total and adding it again gives
    the total back. *)
Definition difference_reversible (amount : number) (trip : Trip.t) : Prop :=
  ((Trip.totalExpenses trip - amount) + amount)%float = Trip.totalExpenses trip.

(** What happens in a session of the hook: a call of one of the three
    operations reaches its [await], or an awaited promise settles and the
    call that awaited it goes on. *)
Inductive event : Type :=
| addExpense_called (now : Z) (today tripId : string) (expense : NewExpense.t)
| addExpense_resumed (tripId : string) (expense : NewExpense.t) (a : adding)
    (outcome : settled AddResult.t)
| updateExpense_called (now : Z) (today tripId expenseId : string)
    (updates : ExpenseUpdates.t)
| updateExpense_resumed (tripId expenseId : string) (u : updating)
    (outcome : settled UpdateResult.t)
| deleteExpense_called (now : Z) (today tripId expenseId : string)
| deleteExpense_resumed (tripId : string) (d : deleting)
    (outcome : settled DeleteResult.t).

Section Session.

Variable stringify_expense : NewExpense.t -> string.
Variable stringify_updates : ExpenseUpdates.t -> string.
Variable newest_first : list Expense.t -> list Expense.t.

Definition react (e : event) (st : state) : state :=
  match e with
  | addExpense_called now today tripId expense =>
      snd (addExpense_begin stringify_expense now today tripId expense st)
  | addExpense_resumed tripId expense a outcome =>
      addExpense_settle tripId expense a outcome st
  | updateExpense_called now today tripId expenseId updates =>
      snd (updateExpense_begin stringify_updates now today tripId expenseId updates st)
  | updateExpense_resumed tripId expenseId u outcome =>
      updateExpense_settle tripId expenseId u outcome st
  | deleteExpense_called now today tripId expenseId =>
      snd (deleteExpense_begin now today tripId expenseId st)
  | deleteExpense_resumed tripId d outcome =>
      deleteExpense_settle newest_first tripId d outcome st
  end.

Definition replay (events : list event) (st : state) : state :=
  fold_left (fun st e => react e st) events st.

End Session.

(** The operation id a resumed call removes from the pending set. *)
Definition finishes (e : event) : option string :=
  match e with
  | addExpense_resumed _ _ a _ => Some (a_operationId a)
  | updateExpense_resumed _ _ u _ => Some (u_operationId u)
  | deleteExpense_resumed _ d _ => Some (d_operationId d)
  | _ => None
  end.

(** The trip and the expense are both in memory. *)
Definition in_memory (tripId expenseId : string) (st : state) : bool :=
  match List.find (is_trip tripId) (trips st) with
  | Some trip => existsb (has_id expenseId) (Trip.expenses trip)
  | None => false
  end.

(** Calls of [cachedExpenseService] in a row: when, under which key, for
    which operation. *)
Definition cached_calls (calls : list (Z * string * operation)) (s : service) : service :=
  fold_left (fun s call => snd (cached (snd (fst call)) (snd call) (fst (fst call)) s))
    calls s.

(** Every cached key has a timer that will delete it, due by [bound]. *)
Definition expiring (bound : Z) (s : service) : Prop :=
  (forall key, is_Some (operationCache s !! key) -> In key (map snd (timers s)))
  /\ (forall timer, In timer (timers s) -> (fst timer <= bound)%Z).

End Settled.

(** ** Reading the ledger *)

Module Reading.

Import Ledger.

Local Open Scope Z_scope.

(** The number [generate_trip_number] gives a user who has [n] trips. *)
Definition trip_number_after (n : nat) : string :=
  String.append "TR" (lpad (show_Z (Z.of_nat n + 1)) 3 "0"%char).

(** How many trips the user has. *)
Definition trips_of (user_uuid : uuid) (d : db) : nat :=
  length (List.filter (fun t => String.eqb (t_user_id t) user_uuid) (trips d)).

(** Whether the strings of a list are pairwise different. *)
Fixpoint all_different (l : list string) : bool :=
  match l with
  | [] => true
  | s :: rest => negb (existsb (String.eqb s) rest) && all_different rest
  end.

(** The mutations of the [expenses] table. *)
Definition on_expenses (m : mutation) : bool :=
  match m with
  | INSERT_trip _ _ | UPDATE_trips _ _ _ | DELETE_trips _ _ => false
  | _ => true
  end.

(** Two [trips] rows that agree on [id], [user_id], [trip_number], [origin],
    [destination], [travel_mode], [date], [time], [notes], [travelers] and
    [status]. (Of the columns left, [total_expenses] is what the trigger
    sets; [updated_at], which is not kept here, is set anew by
    [update_trips_updated_at] on every row the trigger updates, and
    [created_at] is never set again.) *)
Definition same_details (t t' : trip_row) : Prop :=
  t_id t = t_id t' /\ t_user_id t = t_user_id t'
  /\ t_trip_number t = t_trip_number t' /\ t_origin t = t_origin t'
  /\ t_destination t = t_destination t' /\ t_travel_mode t = t_travel_mode t'
  /\ t_date t = t_date t' /\ t_time t = t_time t' /\ t_notes t = t_notes t'
  /\ t_travelers t = t_travelers t' /\ t_status t = t_status t'.

(** *** The reporting procedures of [optimized-expense-functions.sql] *)

(** How a reporting procedure fails: [RAISE EXCEPTION 'Trip not found or
    access denied'], a negative [OFFSET] or [LIMIT], or INTEGER arithmetic
    out of range. *)
Inductive report_error : Type :=
| access_denied
| negative_offset
| negative_limit
| integer_out_of_range.

Definition report (A : Type) : Type := result report_error A.

(** [WHERE trip_id = p_trip_id AND user_id = p_user_id]. *)
Definition of_trip_and_user (p_trip_id p_user_id : uuid) (e : expense_row) : bool :=
  String.eqb (e_trip_id e) p_trip_id && String.eqb (e_user_id e) p_user_id.

(** One element of the array [get_expense_stats_by_category] returns. *)
Record category_stats : Type := {
  cs_category : string;
  cs_total_amount : decimal;
  cs_count : Z;
  cs_avg_amount : decimal
}.

(** [ROUND(a / n, 2)] on hundredths: to the nearest hundredth, halves away
    from zero. ([AVG] itself carries at least sixteen significant digits,
    enough for the rounding to be that of the exact quotient when a group
    has fewer than a million rows.) *)
Definition round_half_away (a n : Z) : Z :=
  Z.sgn a * ((2 * Z.abs a + n) / (2 * n)).

(** The row of the [GROUP BY category] for one category. *)
Definition stats_of (rows : list expense_row) (category : string) : category_stats :=
  let group := List.filter (fun e => String.eqb (e_category e) category) rows in
  {| cs_category := category;
     cs_total_amount := sum_amounts group;
     cs_count := Z.of_nat (length group);
     cs_avg_amount := round_half_away (sum_amounts group) (Z.of_nat (length group)) |}.

(** [ORDER BY total_amount DESC]; SQL leaves the order of equal totals
    open, here they keep the order of the groups. *)
Fixpoint put_stats (x : category_stats) (l : list category_stats) : list category_stats :=
  match l with
  | [] => [x]
  | y :: rest =>
      if cs_total_amount x <? cs_total_amount y then y :: put_stats x rest
      else x :: y :: rest
  end.

Definition by_total_desc (l : list category_stats) : list category_stats :=
  fold_right put_stats [] l.

(** [get_expense_stats_by_category(p_trip_id, p_user_id)]; the groups are
    taken in the order in which their categories first appear. *)
Definition get_expense_stats_by_category (p_trip_id p_user_id : uuid) (d : db)
  : report (list category_stats) :=
  if negb (owns_trip p_trip_id p_user_id d) then Err access_denied
  else
    let rows := List.filter (of_trip_and_user p_trip_id p_user_id) (expenses d) in
    Ok (by_total_desc (map (stats_of rows) (nodup string_dec (map e_category rows)))).

(** Totals in descending order. *)
Definition descending (l : list category_stats) : Prop :=
  List.ForallOrdPairs (fun x y => cs_total_amount y <= cs_total_amount x) l.

(** The object [get_trip_expenses_with_stats] returns; [None] is JSON
    [null]. The expenses are the rows whose columns the objects of
    ['expenses'] show. *)
Record expenses_page : Type := {
  page_expenses : list expense_row;
  page_total_amount : option decimal;
  page_total_count : Z;
  page_limit : option Z;
  page_offset : option Z;
  page_has_more : option bool
}.

(** The largest INTEGER. *)
Definition max_integer : Z := 2 ^ 31 - 1.

Section Timestamps.

(** The [created_at] column of [expenses], by row id. *)
Variable created_at : uuid -> Z.

(** [ORDER BY created_at DESC]. SQL leaves the order of rows created at the
    same time open, and need not give them the same order in two calls;
    here they keep the order of the table. What is said below of more than
    one call is said of rows whose stamps differ, for which there is one
    order only. *)
Fixpoint put_row (e : expense_row) (l : list expense_row) : list expense_row :=
  match l with
  | [] => [e]
  | x :: rest =>
      if created_at (e_id e) <? created_at (e_id x) then x :: put_row e rest
      else e :: x :: rest
  end.

Definition newest_rows (l : list expense_row) : list expense_row :=
  fold_right put_row [] l.

(** [LIMIT p_limit OFFSET p_offset]; a NULL limit is no limit, a NULL
    offset is no offset. *)
Definition limit_offset (p_limit p_offset : option Z) (l : list expense_row)
  : report (list expense_row) :=
  match p_offset with
  | Some o => if o <? 0 then Err negative_offset
              else match p_limit with
                   | Some n => if n <? 0 then Err negative_limit
                               else Ok (firstn (Z.to_nat n) (skipn (Z.to_nat o) l))
                   | None => Ok (skipn (Z.to_nat o) l)
                   end
  | None => match p_limit with
            | Some n => if n <? 0 then Err negative_limit
                        else Ok (firstn (Z.to_nat n) l)
            | None => Ok l
            end
  end.

(** [expense_count > (p_offset + p_limit)] in INTEGER arithmetic. *)
Definition more_than (expense_count : Z) (p_limit p_offset : option Z)
  : report (option bool) :=
  match p_offset, p_limit with
  | Some o, Some n =>
      if (max_integer <? o + n) || (o + n <? - max_integer - 1)
      then Err integer_out_of_range
      else Ok (Some (o + n <? expense_count))
  | _, _ => Ok None
  end.

(** [get_trip_expenses_with_stats(p_trip_id, p_user_id, p_limit,
    p_offset)]. The last two parameters are declared [DEFAULT 50] and
    [DEFAULT 0]: a call that leaves them out is the call with [Some 50] and
    [Some 0]; [None] is a NULL passed in their place. *)
Definition get_trip_expenses_with_stats (p_trip_id p_user_id : uuid)
    (p_limit p_offset : option Z) (d : db) : report expenses_page :=
  if negb (owns_trip p_trip_id p_user_id d) then Err access_denied
  else
    let mine := List.filter (of_trip_and_user p_trip_id p_user_id) (expenses d) in
    let expense_count := Z.of_nat (length mine) in
    if max_integer <? expense_count then Err integer_out_of_range
    else
      let? page := limit_offset p_limit p_offset (newest_rows mine) in
      let? has_more := more_than expense_count p_limit p_offset in
      Ok {| page_expenses := newest_rows page;
            page_total_amount := select_total_expenses p_trip_id d;
            page_total_count := expense_count;
            page_limit := p_limit;
            page_offset := p_offset;
            page_has_more := has_more |}.

(** Newest first. *)
Definition newest_to_oldest (l : list expense_row) : Prop :=
  List.ForallOrdPairs (fun x y => created_at (e_id y) <= created_at (e_id x)) l.

End Timestamps.

End Reading.

(** ** Import and export: [importExportService.ts] *)

Module ImportExport.

(** [Array.prototype.join] on strings. *)
Definition join (separator : string) (l : list string) : string :=
  String.concat separator l.

(** [String.prototype.split] with a separator that is not empty: the text
    is cut at each occurrence of the separator, found from left to right
    and not overlapping. [skip] characters are still part of the separator
    found last, [piece] is the piece read so far. *)
Fixpoint split_from (separator : string) (skip : nat) (piece : string) (s : string)
  : list string :=
  match s with
  | EmptyString => [piece]
  | String c rest =>
      match skip with
      | S k => split_from separator k piece rest
      | O =>
          if String.prefix separator s
          then piece :: split_from separator (String.length separator - 1) "" rest
          else split_from separator 0 (piece +:+ String c "") rest
      end
  end.

Definition split (separator : string) (s : string) : list string :=
  split_from separator 0 "" s.

(** [x || fallback] on a possibly absent string. *)
Definition or_else (x : option string) (fallback : string) : string :=
  match x with
  | Some s => if String.eqb s "" then fallback else s
  | None => fallback
  end.

(** [interface TripExportData]. *)
Module TripExportData.
Record t : Type := mk {
  tripNumber : string;
  origin : string;
  destination : string;
  travelMode : string;
  date : string;
  time : string;
  notes : string;
  travelers : string;
  totalExpenses : number;
  status : string;
  createdAt : string;
  updatedAt : string
}.
End TripExportData.

(** [interface ExpenseExportData]. *)
Module ExpenseExportData.
Record t : Type := mk {
  tripNumber : string;
  description : string;
  amount : number;
  category : string;
  date : string;
  time : string
}.
End ExpenseExportData.

(** The rows [exportTripsToCSV] and [exportTripsToExcel] hand to the
    writer. *)
Definition trip_export (trip : Trip.t) : TripExportData.t :=
  TripExportData.mk (Trip.tripNumber trip) (Trip.origin trip) (Trip.destination trip)
    (Trip.travelMode trip) (Trip.date trip) (Trip.time trip)
    (or_else (Some (Trip.notes trip)) "") (join ", " (Trip.travelers trip))
    (Trip.totalExpenses trip) (Trip.status trip) (Trip.createdAt trip)
    (Trip.updatedAt trip).

Definition trips_export (trips : list Trip.t) : list TripExportData.t :=
  map trip_export trips.

(** The rows [exportExpensesToCSV] hands to the writer. *)
Definition expenses_export (trips : list Trip.t) : list ExpenseExportData.t :=
  flat_map (fun trip =>
              map (fun expense =>
                     ExpenseExportData.mk (Trip.tripNumber trip)
                       (Expense.description expense) (Expense.amount expense)
                       (Expense.category expense) (Expense.date expense)
                       (Expense.time expense))
                (Trip.expenses trip))
    trips.

(** The 'Summary' sheet of [exportTripsToExcel], but for its export date. *)
Record summary : Type := {
  total_trips : nat;
  total_expenses : number;
  active_trips : nat;
  completed_trips : nat;
  planned_trips : nat
}.

Definition with_status (s : string) (trips : list Trip.t) : list Trip.t :=
  List.filter (fun trip => String.eqb (Trip.status trip) s) trips.

Definition summary_of (trips : list Trip.t) : summary :=
  {| total_trips := length trips;
     total_expenses :=
       fold_left (fun sum trip => (sum + Trip.totalExpenses trip)%float) trips 0%float;
     active_trips := length (with_status "in_progress" trips);
     completed_trips := length (with_status "completed" trips);
     planned_trips := length (with_status "planning" trips) |}.

(** A line of the file as the parser gives it with [header: true]: a cell is
    a string, or absent when the file has no such column. *)
Module Row.
Record t : Type := mk {
  tripNumber : option string;
  origin : option string;
  destination : option string;
  travelMode : option string;
  date : option string;
  time : option string;
  notes : option string;
  travelers : option string;
  status : option string
}.
End Row.

(** What the import functions make of a line: a [Partial<Trip>] with these
    nine properties. *)
Module Imported.
Record t : Type := mk {
  tripNumber : string;
  origin : string;
  destination : string;
  travelMode : string;
  date : string;
  time : string;
  notes : string;
  travelers : list string;
  status : string
}.
End Imported.

(** [row.travelers ? row.travelers.split(', ').filter(Boolean) : []]. *)
Definition travelers_of (cell : option string) : list string :=
  if truthy cell
  then List.filter (fun name => negb (String.eqb name ""))
         (split ", " (Ledger.coalesce cell ""))
  else [].

(** The mapping of [importTripsFromCSV]; [today] is
    [new Date().toISOString().split('T')[0]]. *)
Definition imported (today : string) (row : Row.t) : Imported.t :=
  Imported.mk (or_else (Row.tripNumber row) "") (or_else (Row.origin row) "")
    (or_else (Row.destination row) "") (or_else (Row.travelMode row) "car")
    (or_else (Row.date row) today) (or_else (Row.time row) "09:00")
    (or_else (Row.notes row) "") (travelers_of (Row.travelers row))
    (or_else (Row.status row) "planning").

(** [importTripsFromCSV], given the lines the parser read. *)
Definition importTrips (today : string) (rows : list Row.t) : list Imported.t :=
  List.filter (fun trip => negb (String.eqb (Imported.origin trip) "")
                           && negb (String.eqb (Imported.destination trip) ""))
    (map (imported today) rows).

(** The line the parser reads back for an exported trip, each cell being
    the text that was written. *)
Definition written (x : TripExportData.t) : Row.t :=
  Row.mk (Some (TripExportData.tripNumber x)) (Some (TripExportData.origin x))
    (Some (TripExportData.destination x)) (Some (TripExportData.travelMode x))
    (Some (TripExportData.date x)) (Some (TripExportData.time x))
    (Some (TripExportData.notes x)) (Some (TripExportData.travelers x))
    (Some (TripExportData.status x)).

(** What an import keeps of a trip. *)
Definition kept (trip : Trip.t) : Imported.t :=
  Imported.mk (Trip.tripNumber trip) (Trip.origin trip) (Trip.destination trip)
    (Trip.travelMode trip) (Trip.date trip) (Trip.time trip) (Trip.notes trip)
    (Trip.travelers trip) (Trip.status trip).

(** Whether [separator] occurs in [s]. *)
Fixpoint occurs (separator : string) (s : string) : bool :=
  match s with
  | EmptyString => String.prefix separator s
  | String _ rest => String.prefix separator s || occurs separator rest
  end.

(** A name that survives [join(', ')] and [split(', ')]: not empty, and
    without a comma followed by a space. *)
Definition plain_name (name : string) : bool :=
  negb (String.eqb name "") && negb (occurs ", " name).

(** A trip whose cells all survive the defaults of the import. *)
Definition complete (trip : Trip.t) : bool :=
  negb (String.eqb (Trip.origin trip) "") && negb (String.eqb (Trip.destination trip) "")
  && negb (String.eqb (Trip.travelMode trip) "") && negb (String.eqb (Trip.date trip) "")
  && negb (String.eqb (Trip.time trip) "") && negb (String.eqb (Trip.status trip) "")
  && forallb plain_name (Trip.travelers trip).

End ImportExport.

(** ** The settings page: [Settings.tsx] over [useTripManagerSupabase] *)

Module Awaiting.

Import Supabase.

(** [const a = await p; ...]: the rest runs once [p] has resolved; when [p]
    is rejected, so is the whole. *)
Fixpoint awaiting {A B} (p : prog A) (rest : A -> prog B) : prog B :=
  match p with
  | Return a => rest a
  | Throw message => Throw message
  | Await c k => Await c (fun x => awaiting (k x) rest)
  end.

(** [try { ... } catch (error) { ... }], on [error.message]. *)
Fixpoint try_catch {A} (p : prog A) (handler : string -> prog A) : prog A :=
  match p with
  | Return a => Return a
  | Throw message => handler message
  | Await c k => Await c (fun x => try_catch (k x) handler)
  end.

(** [for (const a of l) { await body(a); }]. *)
Fixpoint for_each {A} (l : list A) (body : A -> prog unit) : prog unit :=
  match l with
  | [] => Return tt
  | a :: rest => awaiting (body a) (fun _ => for_each rest body)
  end.

End Awaiting.

(** The requests of the hook's [createTrip] and [deleteTrip]; [user] is the
    user of the auth context. Their changes to the list of trips the hook
    holds and their toasts are left out: nothing below reads them. *)
Module TripManagerSupabase.

Import Supabase Awaiting.

Definition createTrip (user : option string) (tripData : TripData.t)
  : prog (option Trip.t) :=
  match user with
  | None => Return None
  | Some _ =>
      try_catch
        (awaiting (Services.createTrip tripData) (fun newTrip => Return (Some newTrip)))
        (fun message => Throw message)
  end.

Definition deleteTrip (user : option string) (tripId : string) : prog unit :=
  match user with
  | None => Return tt
  | Some _ =>
      try_catch (awaiting (Services.deleteTrip tripId) (fun _ => Return tt))
        (fun message => Throw message)
  end.

End TripManagerSupabase.

Module Settings.

Import Ledger Supabase Awaiting ImportExport.

Record toast : Type := { title : string; description : string }.

(** [handleDeleteAllData], the two confirmations answered by [confirmed] and
    [secondConfirm]; [trips] is the list of the hook when the page was
    drawn. It resolves to the toast shown, if any. *)
Definition handleDeleteAllData (confirmed secondConfirm : bool) (user : option string)
    (trips : list Trip.t) : prog (option toast) :=
  if confirmed then
    if secondConfirm then
      try_catch
        (awaiting
           (for_each trips (fun trip => TripManagerSupabase.deleteTrip user (Trip.id trip)))
           (fun _ =>
              Return (Some {| title := "All Data Deleted";
                              description :=
                                "Your travel data has been permanently deleted." |})))
        (fun _ =>
           Return (Some {| title := "Deletion Failed";
                           description :=
                             "Some data could not be deleted. Please try again or contact support." |}))
    else Return None
  else Return None.

(** The trip the import hands to [createTrip] for an imported one. *)
Definition data_of (today : string) (t : Imported.t) : TripData.t :=
  TripData.mk (or_else (Some (Imported.origin t)) "")
    (or_else (Some (Imported.destination t)) "")
    (or_else (Some (Imported.travelMode t)) "car")
    (or_else (Some (Imported.date t)) today)
    (or_else (Some (Imported.time t)) "09:00")
    (Some (or_else (Some (Imported.notes t)) ""))
    (Imported.travelers t)
    (or_else (Some (Imported.status t)) "planning").

(** The [onChange] handler of the import field, from the trips read from
    the file on. *)
Definition import_trips (user : option string) (today : string)
    (importedTrips : list Imported.t) : prog toast :=
  try_catch
    (awaiting
       (for_each importedTrips
          (fun t => awaiting (TripManagerSupabase.createTrip user (data_of today t))
                      (fun _ => Return tt)))
       (fun _ =>
          Return {| title := "Import Complete";
                    description :=
                      "Added " +:+ show_Z (Z.of_nat (length importedTrips)) +:+ " trips." |}))
    (fun message =>
       Return {| title := "Import Failed";
                 description := or_else (Some message) "Could not import file" |}).

(** The imported trips up to the first whose status the table refuses. *)
Fixpoint until_refused (today : string) (ts : list Imported.t) : list Imported.t :=
  match ts with
  | [] => []
  | t :: rest =>
      if status_check (TripData.status (data_of today t))
      then t :: until_refused today rest
      else []
  end.

(** Whether the trip row is one of the user's and among [listed]. *)
Definition listed_for (user : uuid) (listed : list Trip.t) (t : trip_row) : bool :=
  String.eqb (t_user_id t) user && existsb (String.eqb (t_id t)) (map Trip.id listed).

(** No id still to be drawn is the id of a trip. *)
Definition unused_ids (w : Backend.world) : Prop :=
  forall n, (Backend.uuids w <= n)%nat ->
    ~ In (Backend.uuid_generate_v4 n) (map t_id (trips (Backend.database w))).

End Settings.

(** ** The trips of the hook: [updateTrip], [startTrip], [completeTrip] *)

(** [Partial<Trip>]. *)
Module TripPatch.
Record t : Type := mk {
  id : option string;
  tripNumber : option string;
  origin : option string;
  destination : option string;
  travelMode : option string;
  date : option string;
  time : option string;
  notes : option string;
  travelers : option (list string);
  expenses : option (list Expense.t);
  totalExpenses : option number;
  status : option string;
  createdAt : option string;
  updatedAt : option string
}.

(** [{ status }]. *)
Definition only_status (s : string) : t :=
  mk None None None None None None None None None None None (Some s) None None.
End TripPatch.

Module TripOperations.

Import Ledger Supabase Coordinator Awaiting.

(** [{ ...trip, ...updates }]. *)
Definition spread (trip : Trip.t) (updates : TripPatch.t) : Trip.t :=
  Trip.mk (coalesce (TripPatch.id updates) (Trip.id trip))
    (coalesce (TripPatch.tripNumber updates) (Trip.tripNumber trip))
    (coalesce (TripPatch.origin updates) (Trip.origin trip))
    (coalesce (TripPatch.destination updates) (Trip.destination trip))
    (coalesce (TripPatch.travelMode updates) (Trip.travelMode trip))
    (coalesce (TripPatch.date updates) (Trip.date trip))
    (coalesce (TripPatch.time updates) (Trip.time trip))
    (coalesce (TripPatch.notes updates) (Trip.notes trip))
    (coalesce (TripPatch.travelers updates) (Trip.travelers trip))
    (coalesce (TripPatch.expenses updates) (Trip.expenses trip))
    (coalesce (TripPatch.totalExpenses updates) (Trip.totalExpenses trip))
    (coalesce (TripPatch.status updates) (Trip.status trip))
    (coalesce (TripPatch.createdAt updates) (Trip.createdAt trip))
    (coalesce (TripPatch.updatedAt updates) (Trip.updatedAt trip)).

(** The properties [tripService.updateTrip] reads. *)
Definition read_by_service (updates : TripPatch.t) : TripUpdates.t :=
  TripUpdates.mk (TripPatch.origin updates) (TripPatch.destination updates)
    (TripPatch.travelMode updates) (TripPatch.date updates) (TripPatch.time updates)
    (TripPatch.notes updates) (TripPatch.travelers updates) (TripPatch.status updates).

Definition set_activeTrip (a : option Trip.t) (st : state) : state :=
  set_trips (trips st) a st.

(** The hook's [updateTrip], called in state [st] at the time [today] (as
    [new Date().toISOString()] reads it): the state it leaves. When the
    service rejects, so does the call, and the state is as it was. *)
Definition updateTrip (today : string) (tripId : string) (updates : TripPatch.t)
    (st : state) : prog state :=
  match user st with
  | None => Return st
  | Some _ =>
      try_catch
        (awaiting (Services.updateTrip tripId (read_by_service updates))
           (fun _ =>
              Return
                (set_trips
                   (map (fun trip =>
                           if String.eqb (Trip.id trip) tripId
                           then Trip.with_updatedAt today (spread trip updates)
                           else trip)
                      (trips st))
                   (match activeTrip st with
                    | Some prev =>
                        if String.eqb (Trip.id prev) tripId
                        then Some (spread prev updates)
                        else Some prev
                    | None => None
                    end)
                   st)))
        (fun message => Throw message)
  end.

(** [startTrip]: its [catch] only logs. *)
Definition startTrip (today : string) (tripId : string) (st : state) : prog state :=
  match user st with
  | None => Return st
  | Some _ =>
      try_catch
        (awaiting (updateTrip today tripId (TripPatch.only_status "in_progress") st)
           (fun st1 =>
              Return
                (match List.find (fun t => String.eqb (Trip.id t) tripId) (trips st) with
                 | Some trip =>
                     set_activeTrip
                       (Some (spread trip (TripPatch.only_status "in_progress"))) st1
                 | None => st1
                 end)))
        (fun _ => Return st)
  end.

(** [completeTrip]. *)
Definition completeTrip (today : string) (tripId : string) (st : state) : prog state :=
  match user st with
  | None => Return st
  | Some _ =>
      try_catch
        (awaiting (updateTrip today tripId (TripPatch.only_status "completed") st)
           (fun st1 =>
              Return
                (match activeTrip st with
                 | Some active =>
                     if String.eqb (Trip.id active) tripId
                     then set_activeTrip None st1 else st1
                 | None => st1
                 end)))
        (fun _ => Return st)
  end.

(** The row of the ledger and the trip in memory show the same trip. *)
Definition mirrors (trip : Trip.t) (row : trip_row) : Prop :=
  t_id row = Trip.id trip /\ t_trip_number row = Trip.tripNumber trip
  /\ t_origin row = Trip.origin trip /\ t_destination row = Trip.destination trip
  /\ t_travel_mode row = Trip.travelMode trip /\ t_date row = Trip.date trip
  /\ t_time row = Trip.time trip /\ coalesce (t_notes row) "" = Trip.notes trip
  /\ t_travelers row = Trip.travelers trip /\ t_status row = Trip.status trip.

(** Every trip in memory shows a row of the user. *)
Definition in_step (user : uuid) (memory : list Trip.t) (d : db) : Prop :=
  Forall (fun trip => exists row, In row (Ledger.trips d)
                                  /\ t_user_id row = user /\ mirrors trip row)
    memory.

(** An update that names neither id nor trip number, and no empty place,
    mode, date, time or status. *)
Definition given (x : option string) : bool :=
  match x with Some s => negb (String.eqb s "") | None => true end.

Definition written_through (updates : TripPatch.t) : bool :=
  match TripPatch.id updates, TripPatch.tripNumber updates with
  | None, None =>
      given (TripPatch.origin updates) && given (TripPatch.destination updates)
      && given (TripPatch.travelMode updates) && given (TripPatch.date updates)
      && given (TripPatch.time updates) && given (TripPatch.status updates)
  | _, _ => false
  end.

(** The [updateData] of [tripService.updateTrip]. *)
Definition updateData_of (updates : TripUpdates.t) : trip_patch :=
  let keep (s : option string) := if truthy s then s else None in
  {| tp_origin := keep (TripUpdates.origin updates);
     tp_destination := keep (TripUpdates.destination updates);
     tp_travel_mode := keep (TripUpdates.travelMode updates);
     tp_date := keep (TripUpdates.date updates);
     tp_time := keep (TripUpdates.time updates);
     tp_notes := TripUpdates.notes updates;
     tp_travelers := TripUpdates.travelers updates;
     tp_status := keep (TripUpdates.status updates) |}.

Definition in_progress_rows (d : db) : list trip_row :=
  List.filter (fun t => String.eqb (t_status t) "in_progress") (Ledger.trips d).

Definition in_progress_trips (st : state) : list Trip.t :=
  List.filter (fun t => String.eqb (Trip.status t) "in_progress") (trips st).

End TripOperations.

(** * Scenarios *)

(** Concrete ledgers, backends and sessions on which the properties below
    are run. *)

Module LedgerScenario.

Import Ledger.

Local Open Scope Z_scope.

(** The scenario of the specification: a trip, expense A of 120.50, expense
    B of 45.00, A raised to 200.00, B deleted. *)
Definition scenario_trip : trip_values :=
  {| tv_user_id := "u1"; tv_trip_number := "TR001"; tv_origin := "Pune";
     tv_destination := "Goa"; tv_travel_mode := "car"; tv_date := "2025-01-10";
     tv_time := "09:00"; tv_notes := None; tv_travelers := []; tv_status := None |}.

Definition scenario_expense (descr : string) (amt : Z) (cat : string) : expense_values :=
  {| v_trip_id := "T"; v_user_id := "u1"; v_description := Some descr;
     v_amount := Some amt; v_category := Some cat; v_date := Some "2025-01-10";
     v_time := Some "12:00" |}.

Definition only_amount (amt : Z) : expense_patch :=
  {| p_description := None; p_amount := Some amt; p_category := None;
     p_date := None; p_time := None |}.

Definition scenario : list mutation :=
  [ INSERT_trip "T" scenario_trip;
    CALL_add_expense_with_total "A" (scenario_expense "lunch" 12050 "food");
    INSERT_expense "B" (scenario_expense "taxi" 4500 "transport");
    CALL_update_expense_with_total "A" "u1" (only_amount 20000);
    DELETE_expenses "B" "u1" ].

End LedgerScenario.

Module BackendScenarios.

Import Ledger Supabase Services Backend.

(** Rows for the examples. *)
Definition a_trip (id user number status : string) (total : Z) : trip_row :=
  {| t_id := id; t_user_id := user; t_trip_number := number; t_origin := "Pune";
     t_destination := "Goa"; t_travel_mode := "car"; t_date := "2025-01-10";
     t_time := "09:00"; t_notes := None; t_travelers := [];
     t_total_expenses := total; t_status := status |}.

Definition an_expense (id trip user descr : string) (amt : Z) : expense_row :=
  {| e_id := id; e_trip_id := trip; e_user_id := user; e_description := descr;
     e_amount := amt; e_category := "food"; e_date := "2025-01-10";
     e_time := "12:00" |}.

(** An update of the description alone. *)
Definition new_description (d : string) : ExpenseUpdates.t :=
  ExpenseUpdates.mk None (Some d) None None None None.

(** A ledger whose one expense, and its trip, belong to user u2. *)
Definition others_ledger : db :=
  {| trips := [a_trip "T" "u2" "TR001" "planning" 4500];
     expenses := [an_expense "E" "T" "u2" "dinner" 4500] |}.

(** An update of the status alone, and what it does to a row. *)
Definition only_status (s : string) : TripUpdates.t :=
  TripUpdates.mk None None None None None None None (Some s).

Definition set_status (s : string) (t : trip_row) : trip_row :=
  apply_trip_patch
    {| tp_origin := None; tp_destination := None; tp_travel_mode := None;
       tp_date := None; tp_time := None; tp_notes := None; tp_travelers := None;
       tp_status := Some s |} t.



(** The form of a new trip. *)
Definition a_plan : TripData.t :=
  TripData.mk "Pune" "Goa" "car" "2025-01-10" "09:00" None [] "planning".

(** A ledger with one trip of user u1 holding one expense of 120.50. *)
Definition trip_ledger : db :=
  {| trips := [a_trip "T" "u1" "TR001" "in_progress" 12050];
     expenses := [an_expense "A" "T" "u1" "hotel" 12050] |}.

(** A batch element, a payload, and the row the payload becomes. *)
Definition item (descr : string) (amt : Z) (cat : string) : expense_item :=
  {| i_description := Some descr; i_amount := Some amt; i_category := Some cat;
     i_date := Some "2025-01-10"; i_time := Some "12:00" |}.

Definition lunch : NewExpense.t :=
  NewExpense.mk "lunch" 45%float "food" "2025-01-10" "12:00".

Definition lunch_row : expense_row :=
  {| e_id := "uuid-0"; e_trip_id := "T"; e_user_id := "u1"; e_description := "lunch";
     e_amount := 4500; e_category := "food"; e_date := "2025-01-10"; e_time := "12:00" |}.

End BackendScenarios.

Module SessionScenarios.

Import Supabase Coordinator.

(** Stand-ins for [JSON.stringify] on the two payloads. *)
Definition describe (e : NewExpense.t) : string :=
  NewExpense.description e +:+ "/" +:+ NewExpense.category e +:+ "/"
  +:+ NewExpense.date e +:+ "/" +:+ NewExpense.time e.

Definition describe_updates (u : ExpenseUpdates.t) : string :=
  Ledger.coalesce (ExpenseUpdates.description u) "" +:+ "/"
  +:+ Ledger.coalesce (ExpenseUpdates.category u) "".

(** A session of user u1 with one trip, which is also the active trip. *)
Definition a_trip (total : number) (es : list Expense.t) : Trip.t :=
  Trip.mk "T" "TR001" "Pune" "Goa" "car" "2025-01-10" "09:00" "" [] es total
          "in_progress" "2025-01-01T00:00:00.000Z" "2025-01-01T00:00:00.000Z".

Definition a_session (total : number) (es : list Expense.t) : state :=
  {| user := Some "u1"; trips := [a_trip total es]; activeTrip := Some (a_trip total es);
     pendingOperations := ∅; expenseService := no_service |}.






(** A lunch of 45 added at time 1000 to a trip holding a hotel night of
    120.5. *)
Definition lunch : NewExpense.t :=
  NewExpense.mk "lunch" 45%float "food" "2025-01-10" "12:00".

Definition hotel : Expense.t :=
  Expense.mk "A" "hotel" 120.5%float "accommodation" "2025-01-09" "20:00".

Definition lunch_adding : adding :=
  {| a_operationId := "add-T-1000";
     a_tempExpense := Expense.mk "temp-1000" "lunch" 45%float "food" "2025-01-10" "12:00";
     a_promise := 0 |}.

Definition lunch_begun : state :=
  snd (addExpense_begin describe 1000 "2025-01-10T12:00:00.000Z" "T" lunch
         (a_session 120.5%float [hotel])).

(** The hotel night raised to 200 at time 2000. *)
Definition raise_to (amount : number) : ExpenseUpdates.t :=
  ExpenseUpdates.mk None None (Some amount) None None None.

Definition hotel_updating : updating :=
  {| u_operationId := "update-A-2000"; u_originalExpense := hotel;
     u_originalTotal := 120.5%float; u_promise := 0 |}.

Definition hotel_begun : state :=
  snd (updateExpense_begin describe_updates 2000 "2025-01-10T13:00:00.000Z" "T" "A"
         (raise_to 200%float) (a_session 120.5%float [hotel])).

(** The same lunch added again, 400 ms and 1500 ms after the first call,
    which has not settled. *)
Definition lunch_again_early : option adding * state :=
  addExpense_begin describe 1400 "2025-01-10T12:00:00.400Z" "T" lunch lunch_begun.


Definition lunch_adding_again : adding :=
  {| a_operationId := "add-T-1400";
     a_tempExpense := Expense.mk "temp-1400" "lunch" 45%float "food" "2025-01-10" "12:00";
     a_promise := 0 |}.

(** What the service resolves the add of the lunch to. *)
Definition lunch_confirmed : AddResult.t :=
  AddResult.mk (Expense.mk "uuid-0" "lunch" 45%float "food" "2025-01-10" "12:00")
               165.5%float.

End SessionScenarios.

Module SettledScenarios.

Import Supabase Coordinator SessionScenarios.

(** A stand-in for the sort of [deleteExpense]'s rollback: newest first by
    date and time as text, keeping the order of equals. *)
Definition stamp (e : Expense.t) : string := Expense.date e +:+ " " +:+ Expense.time e.

Fixpoint put_newest (e : Expense.t) (l : list Expense.t) : list Expense.t :=
  match l with
  | [] => [e]
  | x :: rest =>
      if String.ltb (stamp e) (stamp x) then x :: put_newest e rest else e :: x :: rest
  end.

Definition newest_first_by_text (l : list Expense.t) : list Expense.t :=
  fold_right put_newest [] l.

Definition taxi : Expense.t :=
  Expense.mk "B" "taxi" 45%float "transport" "2025-01-10" "08:30".

(** The hotel night deleted at time 3000, then the trip with a taxi ride
    as well. *)
Definition hotel_deleting : deleting :=
  {| d_operationId := "delete-A-3000"; d_expenseToDelete := hotel; d_promise := 0 |}.

Definition hotel_gone : state :=
  snd (deleteExpense_begin 3000 "2025-01-10T14:00:00.000Z" "T" "A"
         (a_session 165.5%float [hotel; taxi])).

(** What the service resolves the raise of the hotel night, and its
    removal, to. *)
Definition hotel_raised : UpdateResult.t :=
  UpdateResult.mk (Expense.mk "A" "hotel" 200%float "accommodation" "2025-01-09" "20:00")
                  200%float "T".

Definition hotel_removed : DeleteResult.t := DeleteResult.mk 45%float "T".

End SettledScenarios.

Module ReadingScenarios.

Import Ledger Reading BackendScenarios.

Local Open Scope Z_scope.

(** A trip of user u1 with a hotel night, a lunch and a taxi ride, entered
    in that order. *)
Definition three_expenses : db :=
  {| trips := [a_trip "T" "u1" "TR001" "in_progress" 21050];
     expenses :=
       [{| e_id := "A"; e_trip_id := "T"; e_user_id := "u1"; e_description := "hotel";
           e_amount := 12050; e_category := "accommodation"; e_date := "2025-01-09";
           e_time := "20:00" |};
        an_expense "B" "T" "u1" "lunch" 4500;
        an_expense "C" "T" "u1" "dinner" 4500] |}.

Definition entered (id : uuid) : Z :=
  if String.eqb id "A" then 1 else if String.eqb id "B" then 2 else 3.

End ReadingScenarios.

(** ** Files written and read back *)

Module ExportScenarios.

Import ImportExport.

Definition to_goa : Trip.t :=
  Trip.mk "t1" "TR001" "Pune" "Goa" "car" "2025-01-10" "09:00" ""
    ["Asha"; "Ravi Kumar"] [] 0%float "planning" "2025-01-01T00:00:00Z"
    "2025-01-01T00:00:00Z".

(** A traveler entered family name first. *)
Definition with_family_name : Trip.t :=
  Trip.mk "t2" "TR002" "Pune" "Delhi" "train" "2025-02-01" "07:30" "window seat"
    ["Kumar, Ravi"] [] 0%float "completed" "2025-01-02T00:00:00Z"
    "2025-01-02T00:00:00Z".

Definition two_meals : list Expense.t :=
  [Expense.mk "e1" "Lunch" 120%float "food" "2025-01-10" "13:00";
   Expense.mk "e2" "Dinner" 250%float "food" "2025-01-10" "20:00"].

Definition goa_with_meals : Trip.t := Trip.with_expenses two_meals 370%float to_goa.

Definition delhi_with_taxi : Trip.t :=
  Trip.with_expenses [Expense.mk "e3" "Taxi" 80%float "transport" "2025-02-01" "07:00"]
    80%float with_family_name.

(** A line with no columns but the two places. *)
Definition bare_line : Row.t :=
  Row.mk None (Some "Pune") (Some "Goa") None None None None None None.

Definition no_destination : Row.t :=
  Row.mk (Some "TR009") (Some "Pune") (Some "") (Some "car") None None None
    (Some "Asha") (Some "planning").

End ExportScenarios.

(** ** What the settings page is given *)

Module SettingsScenarios.

Import Ledger Backend BackendScenarios ImportExport.

(** Two trips of user u1 and one of user u2, an expense on each. *)
Definition shared_ledger : db :=
  {| trips := [a_trip "T1" "u1" "TR001" "completed" 4500;
               a_trip "T2" "u1" "TR002" "planning" 1000;
               a_trip "T3" "u2" "TR001" "planning" 2000];
     expenses := [an_expense "A" "T1" "u1" "dinner" 4500;
                  an_expense "B" "T2" "u1" "tea" 1000;
                  an_expense "C" "T3" "u2" "bus" 2000] |}.

Definition shown (id number : string) : Trip.t :=
  Trip.mk id number "Pune" "Goa" "car" "2025-01-10" "09:00" "" [] [] 0%float
    "planning" "2025-01-01T00:00:00Z" "2025-01-01T00:00:00Z".

(** Three trips read from a file, the second with a status of its own. *)
Definition from_file : list Imported.t :=
  [Imported.mk "TR007" "Pune" "Delhi" "train" "2025-02-01" "07:30" "" ["Asha"] "completed";
   Imported.mk "TR008" "Delhi" "Agra" "bus" "2025-02-03" "10:00" "" [] "done";
   Imported.mk "TR009" "Agra" "Pune" "plane" "2025-02-05" "18:00" "" [] "planning"].

End SettingsScenarios.

(** ** Trips in memory and in the ledger *)

Module TripScenarios.

Import Ledger Backend Coordinator BackendScenarios.

(** Two trips of user u1, the first in progress. *)
Definition two_trips : db :=
  {| Ledger.trips := [a_trip "T1" "u1" "TR001" "in_progress" 0;
                      a_trip "T2" "u1" "TR002" "planning" 0];
     expenses := [] |}.

Definition shown (id number status : string) : Trip.t :=
  Trip.mk id number "Pune" "Goa" "car" "2025-01-10" "09:00" "" [] [] 0%float
    status "2025-01-01T00:00:00Z" "2025-01-01T00:00:00Z".

(** The hook with the two trips loaded, newest first. *)
Definition loaded : state :=
  {| user := Some "u1";
     trips := [shown "T2" "TR002" "planning"; shown "T1" "TR001" "in_progress"];
     activeTrip := Some (shown "T1" "TR001" "in_progress");
     pendingOperations := ∅; expenseService := no_service |}.

(** An update that clears the origin. *)
Definition no_origin : TripPatch.t :=
  TripPatch.mk None None (Some "") None None None None None None None None None None None.

Definition to_mumbai : TripPatch.t :=
  TripPatch.mk None None None (Some "Mumbai") None None None (Some "by night") None None
    None None None None.

End TripScenarios.

(** * Properties *)

(** ** The ledger *)

Module LedgerFacts.

Import Ledger LedgerScenario.

Local Open Scope Z_scope.

Lemma bind_ok {E A B} (m : result E A) (k : A -> result E B) (b : B) :
  bind m k = Ok b -> exists a, m = Ok a /\ k a = Ok b.
Proof. destruct m as [a|e]; simpl; intros H; [eauto | discriminate]. Qed.

Lemma t_id_set_total s t : t_id (set_total_expenses s t) = t_id t.
Proof. reflexivity. Qed.

Lemma trip_sum_app tid es1 es2 :
  trip_sum tid (es1 ++ es2) = trip_sum tid es1 + trip_sum tid es2.
Proof.
  unfold trip_sum, sum_amounts. rewrite List.filter_app, List.map_app.
  induction (map e_amount (List.filter (fun e => String.eqb (e_trip_id e) tid) es1))
    as [|a l IH]; simpl; lia.
Qed.

Lemma trip_sum_cons tid e es :
  trip_sum tid (e :: es)
  = (if String.eqb (e_trip_id e) tid then e_amount e else 0) + trip_sum tid es.
Proof.
  unfold trip_sum, sum_amounts. simpl.
  destruct (String.eqb (e_trip_id e) tid); simpl; lia.
Qed.

Lemma NoDup_map_same {A B} (f : A -> B) l a b :
  List.NoDup (map f l) -> In a l -> In b l -> f a = f b -> a = b.
Proof.
  induction l as [|c l IH]; simpl; [intros _ []|].
  intros H. inversion H as [|? ? Hnot Hnd]; subst.
  intros [->|Ha] [->|Hb] Hf; auto.
  - exfalso. apply Hnot. rewrite Hf. now apply List.in_map.
  - exfalso. apply Hnot. rewrite <- Hf. now apply List.in_map.
Qed.

Lemma policy_invoker caller : policy (invoker caller) caller = true.
Proof. apply String.eqb_refl. Qed.

(** What one run of the trigger function does. *)
Lemma trigger_spec r tid d d' :
  update_trip_total_expenses r tid d = Ok d' ->
  expenses d' = expenses d
  /\ trips d' = map (fun t => if String.eqb (t_id t) tid && policy r (t_user_id t)
                              then set_total_expenses (trip_sum_as r tid (expenses d)) t
                              else t) (trips d).
Proof.
  unfold update_trip_total_expenses.
  destruct (existsb _ (trips d)) eqn:Hex.
  - destruct (fits_decimal_10_2 _); [|discriminate].
    intros H; injection H as <-; auto.
  - intros H; injection H as <-. split; [reflexivity|].
    rewrite <- (List.map_id (trips d)) at 1. apply List.map_ext_in.
    intros t Ht.
    destruct (String.eqb (t_id t) tid && policy r (t_user_id t)) eqn:E; [|reflexivity].
    exfalso. apply Bool.not_true_iff_false in Hex. apply Hex.
    apply List.existsb_exists. eauto.
Qed.

(** What the row triggers of a statement do together: the trips named, as
    far as the rights of the statement reach them, get the sum over the
    expenses as the statement left them and as those rights show them. *)
Lemma fire_triggers_spec r tids : forall d d',
  fire_triggers r tids d = Ok d' ->
  expenses d' = expenses d
  /\ trips d' = map (fun t => if existsb (String.eqb (t_id t)) tids
                                 && policy r (t_user_id t)
                              then set_total_expenses
                                     (trip_sum_as r (t_id t) (expenses d)) t
                              else t) (trips d).
Proof.
  induction tids as [|tid rest IH]; intros d d' H; simpl in *.
  - injection H as <-. split; [reflexivity|]. now rewrite List.map_id.
  - apply bind_ok in H as (d1 & H1 & H2).
    apply trigger_spec in H1 as [He1 Ht1]. apply IH in H2 as [He2 Ht2].
    split; [congruence|].
    rewrite Ht2, Ht1, List.map_map, He1. apply List.map_ext. intros t.
    destruct (String.eqb (t_id t) tid) eqn:E, (policy r (t_user_id t)) eqn:P;
      cbn [andb orb]; rewrite ?t_id_set_total; cbn [t_user_id set_total_expenses];
      rewrite ?P, ?Bool.andb_false_r, ?Bool.andb_true_r; try reflexivity.
    apply String.eqb_eq in E. subst tid.
    destruct (existsb (String.eqb (t_id t)) rest); reflexivity.
Qed.

Lemma existsb_ids x ts :
  existsb (fun t => String.eqb (t_id t) x) ts
  = existsb (fun i => String.eqb i x) (map t_id ts).
Proof. induction ts as [|t ts IH]; simpl; [reflexivity | now rewrite IH]. Qed.

Lemma referenced_ids ts ts' e :
  map t_id ts' = map t_id ts -> referenced ts e -> referenced ts' e.
Proof. unfold referenced. rewrite !existsb_ids. now intros ->. Qed.

Lemma fire_triggers_ids r tids d d' :
  fire_triggers r tids d = Ok d' -> map t_id (trips d') = map t_id (trips d).
Proof.
  intros H. apply fire_triggers_spec in H as [_ ->].
  rewrite List.map_map. apply List.map_ext. intros t. cbv beta.
  now destruct (_ && _).
Qed.

Lemma fire_triggers_users r tids d d' :
  fire_triggers r tids d = Ok d' -> map t_user_id (trips d') = map t_user_id (trips d).
Proof.
  intros H. apply fire_triggers_spec in H as [_ ->].
  rewrite List.map_map. apply List.map_ext. intros t. cbv beta.
  now destruct (_ && _).
Qed.

Lemma owner_kept (f : trip_row -> trip_row) e ts :
  (forall t, t_id (f t) = t_id t /\ t_user_id (f t) = t_user_id t) ->
  existsb (owner_of e) (map f ts) = existsb (owner_of e) ts.
Proof.
  intros Hf. induction ts as [|t ts IH]; [reflexivity|]. cbn [map existsb].
  rewrite IH. unfold owner_of at 1 3. destruct (Hf t) as [-> ->]. reflexivity.
Qed.

Lemma owned_referenced ts e : existsb (owner_of e) ts = true -> referenced ts e.
Proof.
  unfold referenced. intros H. apply List.existsb_exists in H as (t & Hin & Ht).
  apply Bool.andb_true_iff in Ht as [Ht _]. apply List.existsb_exists. eauto.
Qed.

Lemma own_trips_owner d e :
  own_trips d -> In e (expenses d) -> existsb (owner_of e) (trips d) = true.
Proof. intros H. exact (H e). Qed.

(** Under the primary key, the trip an expense sits on is the one trip with
    its [trip_id]. *)
Lemma the_owner ts e t :
  List.NoDup (map t_id ts) -> existsb (owner_of e) ts = true ->
  In t ts -> t_id t = e_trip_id e -> t_user_id t = e_user_id e.
Proof.
  intros Hnd Hown Hin Hid. apply List.existsb_exists in Hown as (t' & Hin' & Ht').
  apply Bool.andb_true_iff in Ht' as [Hid' Hu']. apply String.eqb_eq in Hid', Hu'.
  assert (t' = t) by (eapply (NoDup_map_same t_id); eauto; congruence).
  now subst t'.
Qed.

(** On a trip whose expenses are all its owner's, whoever may update the
    trip reads the whole sum. *)
Lemma trip_sum_as_own r t ts es :
  List.NoDup (map t_id ts) -> In t ts -> policy r (t_user_id t) = true ->
  (forall e, In e es -> existsb (owner_of e) ts = true) ->
  trip_sum_as r (t_id t) es = trip_sum (t_id t) es.
Proof.
  intros Hnd Hin Hp Hown. unfold trip_sum_as, trip_sum. f_equal.
  apply List.filter_ext_in. intros e He.
  destruct (String.eqb (e_trip_id e) (t_id t)) eqn:E; [|reflexivity].
  apply String.eqb_eq in E. cbn [andb].
  now rewrite <- (the_owner ts e t Hnd (Hown e He) Hin (eq_sym E)).
Qed.

(** A statement that keeps every expense on a trip of its own user, and
    leaves alone the sums of the trips that its triggers do not reach, keeps
    the ledger in order. *)
Lemma statement_ok r d es' tids d' :
  well_kept d ->
  (forall e, In e es' -> existsb (owner_of e) (trips d) = true) ->
  (forall t, In t (trips d) ->
     existsb (String.eqb (t_id t)) tids && policy r (t_user_id t) = false ->
     trip_sum (t_id t) es' = trip_sum (t_id t) (expenses d)) ->
  fire_triggers r tids {| trips := trips d; expenses := es' |} = Ok d' ->
  well_kept d' /\ expenses d' = es' /\ map t_id (trips d') = map t_id (trips d)
  /\ map t_user_id (trips d') = map t_user_id (trips d).
Proof.
  intros [[Htot [Hnd Hfk]] Hown] Hown' Hsum H.
  pose proof (fire_triggers_ids _ _ _ _ H) as Hids.
  pose proof (fire_triggers_users _ _ _ _ H) as Husers.
  apply fire_triggers_spec in H as [He Ht]. cbn [trips expenses] in *.
  assert (Hown1 : forall e, In e es' -> existsb (owner_of e) (trips d') = true).
  { intros e Hin. rewrite Ht, owner_kept; [now apply Hown'|].
    intros t. now destruct (_ && _). }
  split; [|auto]. split; [split; [|split]|].
  - unfold totals_match in *. rewrite Ht, He.
    apply List.Forall_forall. intros t' Hin'.
    apply List.in_map_iff in Hin' as (t & <- & Hin).
    rewrite List.Forall_forall in Htot.
    destruct (existsb (String.eqb (t_id t)) tids && policy r (t_user_id t)) eqn:E.
    + cbn [t_total_expenses set_total_expenses t_id].
      apply Bool.andb_true_iff in E as [_ Hp].
      now apply (trip_sum_as_own r t (trips d)).
    + rewrite (Htot t Hin). symmetry. now apply Hsum.
  - now rewrite Hids.
  - rewrite He. apply List.Forall_forall. intros e Hin.
    apply owned_referenced. now apply Hown1.
  - intros e Hin. rewrite He in Hin. now apply Hown1.
Qed.

Lemma fire_one r tid d :
  fire_triggers r [tid] d = update_trip_total_expenses r tid d.
Proof. simpl. now destruct (update_trip_total_expenses r tid d). Qed.

Lemma trip_sum_absent tid rows :
  existsb (String.eqb tid) (map e_trip_id rows) = false -> trip_sum tid rows = 0.
Proof.
  induction rows as [|e rows IH]; simpl; [reflexivity|].
  intros H. apply Bool.orb_false_elim in H as [H1 H2].
  rewrite trip_sum_cons, String.eqb_sym, H1, IH; auto.
Qed.

Lemma check_expense_ok new_id v d row :
  check_expense new_id v d = Ok row ->
  e_trip_id row = v_trip_id v /\ referenced (trips d) row
  /\ v_amount v = Some (e_amount row) /\ v_description v = Some (e_description row)
  /\ v_category v = Some (e_category row) /\ category_check (e_category row) = true
  /\ fits_decimal_10_2 (e_amount row) = true.
Proof.
  unfold check_expense, referenced.
  destruct (v_description v), (v_amount v), (v_category v), (v_date v), (v_time v);
    try discriminate.
  destruct (fits_decimal_10_2 _) eqn:Hfit; [|discriminate]. simpl.
  destruct (category_check _) eqn:Hcat; [|discriminate]. simpl.
  destruct (existsb _ (expenses d)); [discriminate|].
  destruct (existsb _ (trips d)) eqn:Hfk; [|discriminate]. simpl.
  intros H; injection H as <-. simpl. auto 10.
Qed.

Lemma check_expense_user new_id v d row :
  check_expense new_id v d = Ok row -> e_user_id row = v_user_id v.
Proof.
  unfold check_expense.
  destruct (v_description v), (v_amount v), (v_category v), (v_date v), (v_time v);
    try discriminate.
  destruct (negb _); [discriminate|]. destruct (negb _); [discriminate|].
  destruct (existsb _ _); [discriminate|]. destruct (negb _); [discriminate|].
  now intros H; injection H as <-.
Qed.

(** A trip of a user other than its expense's is not the trip the expense
    sits on. *)
Lemma reached_owner r ts e t :
  List.NoDup (map t_id ts) -> existsb (owner_of e) ts = true -> In t ts ->
  policy r (e_user_id e) = true ->
  existsb (String.eqb (t_id t)) [e_trip_id e] && policy r (t_user_id t) = false ->
  t_id t <> e_trip_id e.
Proof.
  intros Hnd Hown Hin Hp Hno Hid.
  rewrite (the_owner ts e t Hnd Hown Hin Hid), Hp, Bool.andb_true_r in Hno.
  cbn in Hno. now rewrite Hid, String.eqb_refl in Hno.
Qed.

Lemma owns_trip_owner tid uid d row :
  e_trip_id row = tid -> e_user_id row = uid ->
  owns_trip tid uid d = existsb (owner_of row) (trips d).
Proof. intros <- <-. reflexivity. Qed.

Lemma insert_expense_ok r new_id v d row d' :
  well_kept d -> policy r (v_user_id v) = true ->
  owns_trip (v_trip_id v) (v_user_id v) d = true ->
  insert_expense r new_id v d = Ok (row, d') ->
  well_kept d' /\ expenses d' = expenses d ++ [row]
  /\ map t_id (trips d') = map t_id (trips d)
  /\ map t_user_id (trips d') = map t_user_id (trips d)
  /\ e_trip_id row = v_trip_id v.
Proof.
  intros Hok Hp Howns H. unfold insert_expense in H.
  apply bind_ok in H as (row' & Hc & H). apply bind_ok in H as (d1 & Ht & H).
  injection H as -> ->. pose proof (check_expense_user _ _ _ _ Hc) as Huser.
  apply check_expense_ok in Hc as (Htid & Href & _).
  rewrite (owns_trip_owner _ _ d row Htid Huser) in Howns.
  rewrite <- fire_one in Ht.
  assert (Hown' : forall e, In e (expenses d ++ [row]) ->
                            existsb (owner_of e) (trips d) = true).
  { intros e Hin. apply List.in_app_iff in Hin as [Hin|[<-|[]]]; [|exact Howns].
    destruct Hok as [_ Hown]. now apply Hown. }
  apply (statement_ok r d) in Ht; [intuition|exact Hok|exact Hown'|].
  - intros t Hin Hno. rewrite trip_sum_app, trip_sum_cons.
    change (trip_sum (t_id t) []) with 0.
    destruct (String.eqb (e_trip_id row) (t_id t)) eqn:E; [|lia].
    apply String.eqb_eq in E. exfalso.
    destruct Hok as [[_ [Hnd _]] _].
    apply (reached_owner r (trips d) row t Hnd Howns Hin); [congruence|exact Hno|auto].
Qed.

Lemma bind_pair_ok {E A B C} (m : result E (A * B)) (k : A -> B -> result E C) c :
  bind m (fun xy => let '(x, y) := xy in k x y) = Ok c ->
  exists a b, m = Ok (a, b) /\ k a b = Ok c.
Proof. destruct m as [[a b]|e]; simpl; intros H; [eauto | discriminate]. Qed.

Lemma add_rows_spec news : forall d rows d1,
  add_rows news d = Ok (rows, d1) ->
  trips d1 = trips d /\ expenses d1 = expenses d ++ rows
  /\ List.Forall (referenced (trips d)) rows
  /\ List.Forall2 (fun new row => e_trip_id row = v_trip_id (snd new)
                                  /\ e_user_id row = v_user_id (snd new)) news rows.
Proof.
  induction news as [|[new_id v] news IH]; intros d rows d1 H; simpl in H.
  - injection H as <- <-. rewrite List.app_nil_r. auto.
  - apply bind_ok in H as (row & Hc & H).
    apply bind_pair_ok in H as (rows' & d2 & Hr & H). injection H as <- <-.
    apply IH in Hr as (Ht & He & Href & Hall). simpl in *.
    pose proof (check_expense_user _ _ _ _ Hc) as Huser.
    apply check_expense_ok in Hc as (Htid & Hrow & _).
    rewrite He, <- List.app_assoc. auto 10.
Qed.

(** An expense among the rows whose triggers fire, on a trip that the
    triggers do not reach, has another user than the trip. *)
Lemma unreached r ts rows t :
  List.NoDup (map t_id ts) -> In t ts ->
  (forall e, In e rows -> existsb (owner_of e) ts = true /\ policy r (e_user_id e) = true) ->
  existsb (String.eqb (t_id t)) (map e_trip_id rows) && policy r (t_user_id t) = false ->
  existsb (String.eqb (t_id t)) (map e_trip_id rows) = false.
Proof.
  intros Hnd Hin Hrows Hno.
  destruct (existsb (String.eqb (t_id t)) (map e_trip_id rows)) eqn:Hex; [|reflexivity].
  apply List.existsb_exists in Hex as (x & Hx & Heq). apply String.eqb_eq in Heq.
  apply List.in_map_iff in Hx as (e & He & Hine). subst x.
  destruct (Hrows e Hine) as [Hown Hp].
  now rewrite (the_owner ts e t Hnd Hown Hin Heq), Hp in Hno.
Qed.

Lemma insert_expenses_ok r news d rows d' :
  well_kept d ->
  List.Forall (fun new => policy r (v_user_id (snd new)) = true
                          /\ owns_trip (v_trip_id (snd new)) (v_user_id (snd new)) d = true)
    news ->
  insert_expenses r news d = Ok (rows, d') ->
  well_kept d' /\ expenses d' = expenses d ++ rows
  /\ map t_id (trips d') = map t_id (trips d)
  /\ map t_user_id (trips d') = map t_user_id (trips d).
Proof.
  intros Hok Hnews H. unfold insert_expenses in H.
  apply bind_pair_ok in H as (rows' & d1 & Hadd & H).
  apply bind_ok in H as (d2 & Hfire & H). injection H as <- <-.
  apply add_rows_spec in Hadd as (Ht & He & Href & Hall).
  destruct d1 as [ts1 es1]; simpl in *; subst.
  assert (Hrows : forall e, In e rows' ->
            existsb (owner_of e) (trips d) = true /\ policy r (e_user_id e) = true).
  { clear Hfire Href. induction Hall as [|new row news rows' [Htid Hu] _ IH];
      [intros e []|].
    apply List.Forall_cons_iff in Hnews as [[Hp Hown] Hnews].
    intros e [<-|Hin]; [|now apply IH].
    rewrite <- (owns_trip_owner _ _ d row Htid Hu), Hu. auto. }
  apply (statement_ok r d) in Hfire; [intuition|exact Hok| |].
  - intros e Hin. apply List.in_app_iff in Hin as [Hin|Hin]; [|now apply Hrows].
    destruct Hok as [_ Hown]. now apply Hown.
  - intros t Hin Hno. destruct Hok as [[_ [Hnd _]] _].
    rewrite trip_sum_app, (trip_sum_absent (t_id t) rows'); [lia|].
    now apply (unreached r (trips d)).
Qed.

Lemma apply_patch_trip_id p e : e_trip_id (apply_patch p e) = e_trip_id e.
Proof. reflexivity. Qed.

Lemma update_sum id user p tid es :
  existsb (String.eqb tid)
    (map e_trip_id (map (apply_patch p) (List.filter (targets id user) es))) = false ->
  trip_sum tid (map (fun e => if targets id user e then apply_patch p e else e) es)
  = trip_sum tid es.
Proof.
  induction es as [|e es IH]; simpl; [reflexivity|].
  rewrite !trip_sum_cons.
  destruct (targets id user e); simpl.
  - intros H. apply Bool.orb_false_elim in H as [H1 H2].
    rewrite String.eqb_sym, H1. now rewrite IH.
  - intros H. now rewrite IH.
Qed.

Lemma update_expenses_spec r id user p d updated d' :
  update_expenses r id user p d = Ok (updated, d') ->
  updated = map (apply_patch p) (List.filter (targets id user) (expenses d))
  /\ fire_triggers r (map e_trip_id updated)
       {| trips := trips d;
          expenses := map (fun e => if targets id user e then apply_patch p e else e)
                        (expenses d) |} = Ok d'.
Proof.
  unfold update_expenses. intros H.
  apply bind_ok in H as (u & _ & H). apply bind_ok in H as (d1 & Hfire & H).
  injection H as <- <-. auto.
Qed.

Lemma targets_user id user e : targets id user e = true -> e_user_id e = user.
Proof.
  unfold targets. intros H. apply Bool.andb_true_iff in H as [_ H].
  now apply String.eqb_eq.
Qed.

Lemma update_expenses_ok r id user p d updated d' :
  well_kept d -> policy r user = true ->
  update_expenses r id user p d = Ok (updated, d') ->
  well_kept d'
  /\ expenses d' = map (fun e => if targets id user e then apply_patch p e else e)
                     (expenses d)
  /\ map t_id (trips d') = map t_id (trips d)
  /\ map t_user_id (trips d') = map t_user_id (trips d).
Proof.
  intros Hok Hp H. apply update_expenses_spec in H as [-> Hfire].
  pose proof Hok as [[_ [Hnd _]] Hown].
  apply (statement_ok r d) in Hfire; [intuition|exact Hok| |].
  - intros e Hin. apply List.in_map_iff in Hin as (e0 & <- & Hin0).
    specialize (Hown e0 Hin0). now destruct (targets id user e0).
  - intros t Hin Hno. apply update_sum.
    apply (unreached r (trips d)); [exact Hnd|exact Hin| |exact Hno].
    intros e He. apply List.in_map_iff in He as (e0 & <- & He0).
    apply List.filter_In in He0 as [Hin0 Htar].
    split; [exact (Hown e0 Hin0)|].
    cbn [e_user_id apply_patch]. now rewrite (targets_user _ _ _ Htar).
Qed.

Lemma delete_sum id user tid es :
  existsb (String.eqb tid) (map e_trip_id (List.filter (targets id user) es)) = false ->
  trip_sum tid (List.filter (fun e => negb (targets id user e)) es) = trip_sum tid es.
Proof.
  induction es as [|e es IH]; simpl; [reflexivity|].
  destruct (targets id user e); simpl.
  - intros H. apply Bool.orb_false_elim in H as [H1 H2].
    rewrite trip_sum_cons, String.eqb_sym, H1. now rewrite IH.
  - intros H. rewrite !trip_sum_cons. now rewrite IH.
Qed.

Lemma delete_expenses_ok r id user d deleted d' :
  well_kept d -> policy r user = true ->
  delete_expenses r id user d = Ok (deleted, d') ->
  well_kept d'
  /\ expenses d' = List.filter (fun e => negb (targets id user e)) (expenses d)
  /\ map t_id (trips d') = map t_id (trips d)
  /\ map t_user_id (trips d') = map t_user_id (trips d).
Proof.
  intros Hok Hp H. unfold delete_expenses in H.
  apply bind_ok in H as (d1 & Hfire & H). injection H as <- <-.
  pose proof Hok as [[_ [Hnd _]] Hown].
  apply (statement_ok r d) in Hfire; [intuition|exact Hok| |].
  - intros e Hin. apply List.filter_In in Hin as [Hin _]. now apply Hown.
  - intros t Hin Hno. apply delete_sum.
    apply (unreached r (trips d)); [exact Hnd|exact Hin| |exact Hno].
    intros e He. apply List.filter_In in He as [Hin0 Htar].
    split; [exact (Hown e Hin0)|]. now rewrite (targets_user _ _ _ Htar).
Qed.

Lemma owns_trip_same tid uid d d' :
  map t_id (trips d') = map t_id (trips d) ->
  map t_user_id (trips d') = map t_user_id (trips d) ->
  owns_trip tid uid d' = owns_trip tid uid d.
Proof.
  unfold owns_trip. generalize (trips d) (trips d').
  induction l as [|t ts IH]; intros [|t' ts'] Hid Hu; try discriminate; [reflexivity|].
  cbn in *. injection Hid as Hid Hids. injection Hu as Hu Hus.
  now rewrite Hid, Hu, (IH ts').
Qed.

Lemma batch_loop_ok tid uid items : forall d rows d',
  well_kept d -> owns_trip tid uid d = true ->
  batch_loop tid uid items d = Ok (rows, d') ->
  well_kept d' /\ expenses d' = expenses d ++ rows
  /\ map t_id (trips d') = map t_id (trips d)
  /\ map t_user_id (trips d') = map t_user_id (trips d)
  /\ length rows = length items
  /\ List.Forall (fun r => e_trip_id r = tid) rows.
Proof.
  induction items as [|[new_id i] items IH]; intros d rows d' Hok Hown H; simpl in H.
  - injection H as <- <-. rewrite List.app_nil_r. auto 10.
  - apply bind_pair_ok in H as (row & d1 & Hins & H).
    apply bind_pair_ok in H as (rows' & d2 & Hrest & H). injection H as <- <-.
    apply insert_expense_ok in Hins as (Hok1 & He1 & Hi1 & Hu1 & Htid);
      [|exact Hok|reflexivity|exact Hown].
    apply IH in Hrest as (Hok2 & He2 & Hi2 & Hu2 & Hlen & Hall);
      [|exact Hok1|now rewrite (owns_trip_same tid uid d d1)].
    rewrite He2, He1, <- List.app_assoc, Hi2, Hi1, Hu2, Hu1. simpl.
    refine (conj Hok2 (conj eq_refl (conj eq_refl (conj eq_refl (conj _ _))))).
    + now rewrite Hlen.
    + now constructor.
Qed.

Lemma trip_sum_unreferenced ts x es :
  List.Forall (referenced ts) es ->
  existsb (fun t => String.eqb (t_id t) x) ts = false ->
  trip_sum x es = 0.
Proof.
  intros Href Hno. induction Href as [|e es He _ IH]; [reflexivity|].
  rewrite trip_sum_cons, IH.
  destruct (String.eqb (e_trip_id e) x) eqn:E; [|reflexivity].
  apply String.eqb_eq in E. subst x. unfold referenced in He. congruence.
Qed.

Lemma referenced_more ts ts' e : referenced ts e -> referenced (ts ++ ts') e.
Proof. unfold referenced. rewrite List.existsb_app. now intros ->. Qed.

Lemma insert_trip_ok new_id v d row d' :
  well_kept d -> insert_trip new_id v d = Ok (row, d') -> well_kept d'.
Proof.
  intros [(Htot & Hnd & Hfk) Hown] H. unfold insert_trip in H.
  destruct (status_check _); [|discriminate]. simpl in H.
  destruct (existsb _ (trips d)) eqn:Hfresh; [discriminate|].
  injection H as <- <-. split; [repeat split; simpl|].
  - apply List.Forall_app. split; [exact Htot|].
    constructor; [|constructor]. simpl. symmetry.
    now apply (trip_sum_unreferenced (trips d)).
  - rewrite List.map_app. simpl. apply List.NoDup_app.
    repeat split; auto.
    + constructor; [intros []|constructor].
    + intros x Hin [Heq|[]]. subst x. rewrite existsb_ids in Hfresh.
      apply Bool.not_true_iff_false in Hfresh. apply Hfresh.
      apply List.existsb_exists. exists new_id. split; [exact Hin|].
      apply String.eqb_refl.
  - eapply List.Forall_impl; [|exact Hfk]. intros e. apply referenced_more.
  - intros e Hin. cbn [trips expenses] in *. rewrite List.existsb_app.
    now rewrite (Hown e Hin).
Qed.

Lemma update_trips_ok id user p d d' :
  well_kept d -> update_trips id user p d = Ok d' -> well_kept d'.
Proof.
  intros [(Htot & Hnd & Hfk) Hown] H. unfold update_trips in H.
  destruct (forallb _ _); [|discriminate]. injection H as <-.
  assert (Hids : map t_id (map (fun t => if trip_targets id user t
                                         then apply_trip_patch p t else t) (trips d))
                 = map t_id (trips d)).
  { rewrite List.map_map. apply List.map_ext. intros t.
    now destruct (trip_targets id user t). }
  split; [repeat split; simpl|].
  - apply List.Forall_map. eapply List.Forall_impl; [|exact Htot].
    intros t Ht. now destruct (trip_targets id user t).
  - now rewrite Hids.
  - eapply List.Forall_impl; [|exact Hfk]. intros e. now apply referenced_ids.
  - intros e Hin. cbn [trips expenses] in *.
    change (existsb (owner_of e)
              (map (fun t => if trip_targets id user t then apply_trip_patch p t else t)
                 (trips d)) = true).
    rewrite owner_kept; [now apply Hown|].
    intros t. now destruct (trip_targets id user t).
Qed.

Lemma NoDup_map_filter {A B} (f : A -> B) (g : A -> bool) l :
  List.NoDup (map f l) -> List.NoDup (map f (List.filter g l)).
Proof.
  induction l as [|a l IH]; simpl; [auto|].
  intros H. inversion H as [|? ? Hnot Hnd]; subst.
  destruct (g a); simpl; [|auto].
  constructor; [|auto]. intros Hin. apply Hnot.
  apply List.in_map_iff in Hin as (b & Hb & Hin).
  apply List.filter_In in Hin as [Hin _].
  apply List.in_map_iff. eauto.
Qed.

(** Under the primary key, a trip that a [DELETE FROM trips] leaves in place
    does not share its id with a deleted one. *)
Lemma kept_not_gone id user ts t :
  List.NoDup (map t_id ts) -> In t ts -> trip_targets id user t = false ->
  existsb (String.eqb (t_id t)) (map t_id (List.filter (trip_targets id user) ts)) = false.
Proof.
  intros Hnd Hin Hkeep. apply Bool.not_true_iff_false. intros Hex.
  apply List.existsb_exists in Hex as (x & Hx & Heq).
  apply String.eqb_eq in Heq. subst x.
  apply List.in_map_iff in Hx as (t' & Hid & Hin').
  apply List.filter_In in Hin' as [Hin' Htar].
  assert (t' = t) by (eapply (NoDup_map_same t_id); eauto).
  congruence.
Qed.

Lemma cascade_sum gone x es :
  existsb (String.eqb x) gone = false ->
  trip_sum x (List.filter (fun e => negb (existsb (String.eqb (e_trip_id e)) gone)) es)
  = trip_sum x es.
Proof.
  intros Hx. induction es as [|e es IH]; simpl; [reflexivity|].
  destruct (existsb (String.eqb (e_trip_id e)) gone) eqn:E; simpl.
  - rewrite trip_sum_cons, IH.
    destruct (String.eqb (e_trip_id e) x) eqn:Ex; [|reflexivity].
    apply String.eqb_eq in Ex. congruence.
  - now rewrite !trip_sum_cons, IH.
Qed.

Lemma delete_trips_ok id user d d' :
  well_kept d -> delete_trips id user d = Ok d' -> well_kept d'.
Proof.
  intros [(Htot & Hnd & Hfk) Hown] H. unfold delete_trips in H. injection H as <-.
  assert (Hstays : forall e t,
            In t (trips d) -> t_id t = e_trip_id e ->
            existsb (String.eqb (e_trip_id e))
              (map t_id (List.filter (trip_targets id user) (trips d))) = false ->
            trip_targets id user t = false).
  { intros e t Hin Hid Hkeep. apply Bool.not_true_iff_false. intros Htar.
    apply Bool.not_true_iff_false in Hkeep. apply Hkeep.
    apply List.existsb_exists. exists (t_id t). split.
    - apply List.in_map. apply List.filter_In. auto.
    - rewrite Hid. apply String.eqb_refl. }
  split; [repeat split; simpl|].
  - apply List.Forall_forall. intros t Ht.
    apply List.filter_In in Ht as [Hin Hkeep].
    apply Bool.negb_true_iff in Hkeep. cbn [expenses].
    rewrite cascade_sum by (now apply kept_not_gone).
    revert t Hin Hkeep. unfold totals_match in Htot.
    rewrite List.Forall_forall in Htot. auto.
  - now apply NoDup_map_filter.
  - apply List.Forall_forall. intros e He.
    apply List.filter_In in He as [Hin Hkeep]. apply Bool.negb_true_iff in Hkeep.
    rewrite List.Forall_forall in Hfk. specialize (Hfk e Hin).
    apply List.existsb_exists in Hfk as (t & Ht & Heq).
    apply List.existsb_exists. exists t. split; [|exact Heq].
    apply List.filter_In. split; [exact Ht|].
    apply Bool.negb_true_iff. apply String.eqb_eq in Heq. now apply (Hstays e t).
  - intros e He. cbn [trips expenses] in *.
    apply List.filter_In in He as [Hin Hkeep]. apply Bool.negb_true_iff in Hkeep.
    specialize (Hown e Hin). apply List.existsb_exists in Hown as (t & Ht & Heq).
    apply List.existsb_exists. exists t. split; [|exact Heq].
    apply List.filter_In. split; [exact Ht|].
    apply Bool.negb_true_iff. apply Bool.andb_true_iff in Heq as [Heq _].
    apply String.eqb_eq in Heq. now apply (Hstays e t).
Qed.

(** Every mutation that puts no expense on another user's trip, settled,
    keeps the ledger in order. *)
Lemma perform_ok m d : well_kept d -> on_own_trips m d = true -> well_kept (perform m d).
Proof.
  intros Hok Hm. destruct m; cbn [perform on_own_trips] in *.
  - destruct (insert_expense _ new_id v d) as [[row d']|] eqn:E; simpl; [|exact Hok].
    apply (insert_expense_ok _ _ _ _ _ _ Hok (policy_invoker _) Hm E).
  - destruct (forallb (fun new => String.eqb (v_user_id (snd new)) caller) news)
      eqn:Hcaller; [|exact Hok].
    destruct (insert_expenses _ news d) as [[rows d']|] eqn:E; simpl; [|exact Hok].
    apply (insert_expenses_ok (invoker caller) news d rows d' Hok); [|exact E].
    apply List.Forall_forall. intros new Hin.
    rewrite List.forallb_forall in Hcaller, Hm.
    specialize (Hcaller new Hin). apply String.eqb_eq in Hcaller.
    rewrite Hcaller. split; [apply policy_invoker|now apply Hm].
  - destruct (update_expenses _ id user p d) as [[rows d']|] eqn:E; simpl; [|exact Hok].
    apply (update_expenses_ok _ _ _ _ _ _ _ Hok (policy_invoker _) E).
  - destruct (delete_expenses _ id user d) as [[rows d']|] eqn:E; simpl; [|exact Hok].
    apply (delete_expenses_ok _ _ _ _ _ _ Hok (policy_invoker _) E).
  - unfold add_expense_with_total.
    destruct (owns_trip _ _ d) eqn:Hown; simpl; [|exact Hok].
    destruct (insert_expense _ new_id v d) as [[row d']|] eqn:E; simpl; [|exact Hok].
    apply (insert_expense_ok definer _ _ _ _ _ Hok eq_refl Hown E).
  - unfold update_expense_with_total.
    destruct (List.find _ _); simpl; [|exact Hok].
    destruct (update_expenses _ p_expense_id p_user_id p d) as [[rows d']|] eqn:E;
      simpl; [|exact Hok].
    apply (update_expenses_ok definer _ _ _ _ _ _ Hok eq_refl E).
  - unfold delete_expense_with_total.
    destruct (List.find _ _); simpl; [|exact Hok].
    destruct (delete_expenses _ p_expense_id p_user_id d) as [[rows d']|] eqn:E;
      simpl; [|exact Hok].
    apply (delete_expenses_ok definer _ _ _ _ _ Hok eq_refl E).
  - unfold batch_add_expenses.
    destruct (owns_trip _ _ d) eqn:Hown; simpl; [|exact Hok].
    destruct (batch_loop p_trip_id p_user_id items d) as [[rows d']|] eqn:E;
      simpl; [|exact Hok].
    apply (batch_loop_ok _ _ _ _ _ _ Hok Hown E).
  - destruct (insert_trip new_id v d) as [[row d']|] eqn:E; simpl; [|exact Hok].
    eapply insert_trip_ok; eauto.
  - destruct (update_trips id user p d) as [d'|] eqn:E; simpl; [|exact Hok].
    eapply update_trips_ok; eauto.
  - eapply delete_trips_ok; [exact Hok | reflexivity].
Qed.

Lemma empty_db_ok : well_kept empty_db.
Proof. split; [repeat split; simpl; constructor|intros e []]. Qed.

Lemma perform_all_ok ms : forall d,
  well_kept d -> all_on_own_trips ms d = true -> well_kept (perform_all ms d).
Proof.
  unfold perform_all. induction ms as [|m ms IH]; intros d H0 Hms; simpl; [exact H0|].
  cbn [all_on_own_trips] in Hms. apply Bool.andb_true_iff in Hms as [Hm Hms].
  apply IH; [now apply perform_ok|exact Hms].
Qed.

Lemma trip_sum_permutation tid es es' :
  Permutation es es' -> trip_sum tid es = trip_sum tid es'.
Proof.
  induction 1 as [|e es es' _ IH|e e' es|es es' es'' _ IH1 _ IH2].
  - reflexivity.
  - now rewrite !trip_sum_cons, IH.
  - rewrite !trip_sum_cons. lia.
  - congruence.
Qed.

(** X26. Sum invariant, for expenses that sit on trips of their own users:
    from a ledger whose totals match, whose keys hold and in which every
    expense sits on a trip of its own user, after any sequence of
    mutations - single and batch inserts, updates and deletes of expenses,
    directly or through the stored procedures, and inserts, updates and
    deletes of trips - each settled, in which no plain insert puts a row on
    a trip of another user than the row's, every trip's stored total is the
    sum of the amounts of the expense rows of that trip, 0 when it has
    none, and every expense still sits on a trip of its own user. The total
    depends on the expense rows alone, not on the order in which the
    mutations came: two such sequences that leave the same expense rows, in
    whatever order, leave a trip the same total. *)
Theorem sum_invariant (ms ms' : list mutation) (d : db) :
  totals_match d -> keys_hold d -> own_trips d ->
  all_on_own_trips ms d = true -> all_on_own_trips ms' d = true ->
  (forall t, In t (trips (perform_all ms d)) ->
     t_total_expenses t = trip_sum (t_id t) (expenses (perform_all ms d)))
  /\ (forall t, In t (trips (perform_all ms d)) ->
       trip_sum (t_id t) (expenses (perform_all ms d)) = 0 ->
       t_total_expenses t = 0)
  /\ (Permutation (expenses (perform_all ms d)) (expenses (perform_all ms' d)) ->
      forall t t', In t (trips (perform_all ms d)) ->
                   In t' (trips (perform_all ms' d)) ->
                   t_id t = t_id t' -> t_total_expenses t = t_total_expenses t')
  /\ own_trips (perform_all ms d).
Proof.
  intros Htot Hkeys Hown Hms Hms'.
  assert (H0 : well_kept d) by (split; [split|]; assumption).
  pose proof (perform_all_ok ms d H0 Hms) as [[Hfinal _] Hown1].
  pose proof (perform_all_ok ms' d H0 Hms') as [[Hfinal' _] _].
  unfold totals_match in Hfinal, Hfinal'.
  rewrite List.Forall_forall in Hfinal, Hfinal'.
  split; [exact Hfinal|]. split; [|split; [|exact Hown1]].
  - intros t Hin Hzero. now rewrite (Hfinal t Hin).
  - intros Hperm t t' Hin Hin' Hid.
    rewrite (Hfinal t Hin), (Hfinal' t' Hin'), Hid.
    now apply trip_sum_permutation.
Qed.

Example scenario_totals :
  map (fun n => map t_total_expenses (trips (perform_all (firstn n scenario) empty_db)))
      [1; 2; 3; 4; 5]%nat
  = [[0]; [12050]; [16550]; [24500]; [20000]].
Proof. vm_compute. reflexivity. Qed.

(** An amount that would take the total past [DECIMAL(10,2)] is refused, and
    the refused statement leaves no row behind. *)
Example overflow_is_refused :
  let d := perform_all (firstn 2 scenario) empty_db in
  let big := INSERT_expense "Z" (scenario_expense "yacht" 9999999999 "other") in
  map t_total_expenses (trips (perform big d)) = [12050]
  /\ map e_id (expenses (perform big d)) = ["A"].
Proof. vm_compute. split; reflexivity. Qed.

Lemma sum_invariant_witness :
  totals_match empty_db /\ keys_hold empty_db /\ own_trips empty_db
  /\ all_on_own_trips scenario empty_db = true
  /\ forall t, In t (trips (perform_all scenario empty_db)) ->
       t_total_expenses t = trip_sum (t_id t) (expenses (perform_all scenario empty_db)).
Proof.
  split; [constructor|]. split; [split; constructor|]. split; [intros e []|].
  split; [reflexivity|].
  apply (sum_invariant scenario scenario empty_db);
    [constructor | split; constructor | intros e [] | reflexivity | reflexivity].
Defined.

(** *** The batch procedure *)

Lemma check_expense_valid new_id tid uid i d row :
  check_expense new_id (item_values tid uid i) d = Ok row -> valid_item i = true.
Proof.
  unfold check_expense, valid_item. simpl.
  destruct (i_description i), (i_amount i), (i_category i), (i_date i), (i_time i);
    try discriminate.
  destruct (fits_decimal_10_2 _); [|discriminate]. simpl.
  destruct (category_check _); [reflexivity|discriminate].
Qed.

Lemma batch_loop_valid tid uid items : forall d rows d',
  batch_loop tid uid items d = Ok (rows, d') ->
  forallb valid_item (map snd items) = true.
Proof.
  induction items as [|[new_id i] items IH]; intros d rows d' H; simpl in *;
    [reflexivity|].
  apply bind_pair_ok in H as (row & d1 & Hins & H).
  apply bind_pair_ok in H as (rows' & d2 & Hrest & _).
  unfold insert_expense in Hins. apply bind_ok in Hins as (r & Hc & _).
  apply check_expense_valid in Hc. rewrite Hc. simpl. eauto.
Qed.

Lemma select_total_of_existing tid d :
  totals_match d ->
  existsb (fun t => String.eqb (t_id t) tid) (trips d) = true ->
  select_total_expenses tid d = Some (trip_sum tid (expenses d)).
Proof.
  intros Htot Hex. unfold select_total_expenses.
  destruct (List.find _ (trips d)) as [t|] eqn:Hfind; simpl.
  - apply List.find_some in Hfind as [Hin Hid]. apply String.eqb_eq in Hid.
    unfold totals_match in Htot. rewrite List.Forall_forall in Htot.
    rewrite (Htot t Hin). now subst tid.
  - exfalso. apply List.existsb_exists in Hex as (t & Hin & Ht).
    apply (List.find_none _ _ Hfind) in Hin. simpl in Hin. congruence.
Qed.

Lemma owns_trip_exists tid uid d :
  owns_trip tid uid d = true ->
  existsb (fun t => String.eqb (t_id t) tid) (trips d) = true.
Proof.
  unfold owns_trip. intros H. apply List.existsb_exists in H as (t & Hin & Ht).
  apply Bool.andb_true_iff in Ht as [Ht _].
  apply List.existsb_exists. eauto.
Qed.

(** With the rights of the definer every row is read and every trip
    reached. *)
Lemma trip_sum_as_definer tid es : trip_sum_as definer tid es = trip_sum tid es.
Proof.
  unfold trip_sum_as, trip_sum. f_equal. apply List.filter_ext.
  intros e. apply Bool.andb_true_r.
Qed.

Lemma reached_by_definer tid ts :
  existsb (fun t => String.eqb (t_id t) tid && true) ts
  = existsb (fun t => String.eqb (t_id t) tid) ts.
Proof.
  induction ts as [|t ts IH]; [reflexivity|].
  cbn [existsb]. now rewrite IH, Bool.andb_true_r.
Qed.

Lemma update_total_definer tid d :
  existsb (fun t => String.eqb (t_id t) tid) (trips d) = true ->
  update_trip_total_expenses definer tid d
  = if fits_decimal_10_2 (trip_sum tid (expenses d))
    then Ok {| trips := map (fun t => if String.eqb (t_id t) tid
                                      then set_total_expenses
                                             (trip_sum tid (expenses d)) t
                                      else t) (trips d);
               expenses := expenses d |}
    else Err numeric_value_out_of_range.
Proof.
  intros Hex. unfold update_trip_total_expenses. cbn [policy].
  rewrite trip_sum_as_definer, reached_by_definer, Hex.
  destruct (fits_decimal_10_2 _); [|reflexivity]. do 2 f_equal.
  apply List.map_ext. intros t. now rewrite Bool.andb_true_r.
Qed.

(** Exactly when an element of the batch is let in as a row. *)
Lemma check_item_iff tid uid new_id i d row :
  check_expense new_id (item_values tid uid i) d = Ok row <->
  item_row tid uid (new_id, i) = Some row
  /\ fits_decimal_10_2 (e_amount row) = true
  /\ category_check (e_category row) = true
  /\ existsb (fun e => String.eqb (e_id e) (e_id row)) (expenses d) = false
  /\ existsb (fun t => String.eqb (t_id t) tid) (trips d) = true.
Proof.
  unfold check_expense, item_row, item_values. cbn.
  destruct (i_description i), (i_amount i), (i_category i), (i_date i), (i_time i);
    try (split; [discriminate | now intros [? _]]).
  split.
  - destruct (fits_decimal_10_2 _) eqn:Hfit; [|discriminate]. cbn.
    destruct (category_check _) eqn:Hcat; [|discriminate]. cbn.
    destruct (existsb _ (expenses d)) eqn:Hid; [discriminate|].
    destruct (existsb _ (trips d)) eqn:Hfk; [|discriminate]. cbn.
    intros H; injection H as <-. cbn. auto.
  - intros (H & Hfit & Hcat & Hid & Hfk). injection H as <-. cbn in *.
    now rewrite Hfit, Hcat, Hid, Hfk.
Qed.

Lemma item_row_trip tid uid new row :
  item_row tid uid new = Some row -> e_trip_id row = tid.
Proof.
  unfold item_row.
  destruct (i_description (snd new)), (i_amount (snd new)), (i_category (snd new)),
    (i_date (snd new)), (i_time (snd new)); try discriminate.
  now intros H; injection H as <-.
Qed.

(** One turn of the loop: the row is let in, and the total that the trigger
    then computes fits. *)
Lemma insert_item_iff tid uid new_id i d row d' :
  insert_expense definer new_id (item_values tid uid i) d = Ok (row, d') <->
  item_row tid uid (new_id, i) = Some row
  /\ fits_decimal_10_2 (e_amount row) = true
  /\ category_check (e_category row) = true
  /\ existsb (fun e => String.eqb (e_id e) (e_id row)) (expenses d) = false
  /\ existsb (fun t => String.eqb (t_id t) tid) (trips d) = true
  /\ fits_decimal_10_2 (trip_sum tid (expenses d ++ [row])) = true
  /\ d' = {| trips := map (fun t => if String.eqb (t_id t) tid
                                    then set_total_expenses
                                           (trip_sum tid (expenses d ++ [row])) t
                                    else t) (trips d);
             expenses := expenses d ++ [row] |}.
Proof.
  unfold insert_expense. split.
  - intros H. apply bind_ok in H as (row' & Hc & H).
    apply bind_ok in H as (d1 & Ht & H). injection H as -> ->.
    apply check_item_iff in Hc as (Hrow & Hfit & Hcat & Hid & Hfk).
    rewrite (item_row_trip _ _ _ _ Hrow), update_total_definer in Ht by exact Hfk.
    cbn [trips expenses] in Ht.
    destruct (fits_decimal_10_2 (trip_sum tid _)); [|discriminate].
    injection Ht as <-. auto 10.
  - intros (Hrow & Hfit & Hcat & Hid & Hfk & Hsum & ->).
    assert (Hc : check_expense new_id (item_values tid uid i) d = Ok row)
      by (apply check_item_iff; auto).
    rewrite Hc. cbn [bind].
    rewrite (item_row_trip _ _ _ _ Hrow), update_total_definer by exact Hfk.
    cbn [trips expenses]. now rewrite Hsum.
Qed.

Lemma retotal_twice tid s s' ts :
  map (fun t => if String.eqb (t_id t) tid then set_total_expenses s' t else t)
    (map (fun t => if String.eqb (t_id t) tid then set_total_expenses s t else t) ts)
  = map (fun t => if String.eqb (t_id t) tid then set_total_expenses s' t else t) ts.
Proof.
  rewrite List.map_map. apply List.map_ext. intros t.
  destruct (String.eqb (t_id t) tid) eqn:E; cbn [t_id set_total_expenses]; now rewrite E.
Qed.

Lemma retotal_exists tid tid' s ts :
  existsb (fun t => String.eqb (t_id t) tid')
    (map (fun t => if String.eqb (t_id t) tid then set_total_expenses s t else t) ts)
  = existsb (fun t => String.eqb (t_id t) tid') ts.
Proof.
  induction ts as [|t ts IH]; [reflexivity|]. cbn [map existsb]. rewrite IH.
  now destruct (String.eqb (t_id t) tid).
Qed.

(** The loop of [batch_add_expenses], exactly: it ends without error when
    every element is let in as a row, under a key not in use by then, and
    the total of the trip fits after each row; the rows are then all there
    and the trip has the sum over them all. *)
Lemma batch_loop_iff tid uid items : forall d rows d',
  existsb (fun t => String.eqb (t_id t) tid) (trips d) = true ->
  batch_loop tid uid items d = Ok (rows, d') <->
  map (item_row tid uid) items = map Some rows
  /\ (forall k row, nth_error rows k = Some row ->
        fits_decimal_10_2 (e_amount row) = true
        /\ category_check (e_category row) = true
        /\ existsb (fun e => String.eqb (e_id e) (e_id row))
             (expenses d ++ firstn k rows) = false
        /\ fits_decimal_10_2 (trip_sum tid (expenses d ++ firstn (S k) rows)) = true)
  /\ expenses d' = expenses d ++ rows
  /\ trips d' = match rows with
                | [] => trips d
                | _ => map (fun t => if String.eqb (t_id t) tid
                                     then set_total_expenses
                                            (trip_sum tid (expenses d ++ rows)) t
                                     else t) (trips d)
                end.
Proof.
  induction items as [|[new_id i] items IH]; intros d rows d' Hfk; cbn [batch_loop].
  - split.
    + intros H. injection H as <- <-. rewrite List.app_nil_r.
      repeat split; try reflexivity; destruct k; discriminate.
    + intros (Hrows & _ & He & Ht). destruct rows; [|discriminate].
      rewrite List.app_nil_r in He. destruct d, d'. cbn in *. now subst.
  - split.
    + intros H. apply bind_pair_ok in H as (row & d1 & Hins & H).
      apply bind_pair_ok in H as (rows' & d2 & Hrest & H). injection H as <- <-.
      apply insert_item_iff in Hins as (Hrow & Hfit & Hcat & Hid & _ & Hsum & ->).
      apply IH in Hrest as (Hrows & Hall & He & Ht);
        [|cbn [trips]; now rewrite retotal_exists].
      cbn [trips expenses] in *. split; [cbn; now rewrite Hrow, Hrows|].
      split; [|split].
      * intros [|k] r Hr; cbn in Hr.
        -- injection Hr as <-. cbn [firstn]. now rewrite List.app_nil_r.
        -- specialize (Hall k r Hr). cbn [firstn].
           now rewrite <- !List.app_assoc in Hall.
      * now rewrite He, <- List.app_assoc.
      * rewrite Ht. destruct rows' as [|r rows']; [reflexivity|].
        now rewrite retotal_twice, <- List.app_assoc.
    + intros (Hrows & Hall & He & Ht).
      destruct rows as [|row rows']; [discriminate|]. cbn in Hrows.
      injection Hrows as Hrow Hrows.
      destruct (Hall 0%nat row eq_refl) as (Hfit & Hcat & Hid & Hsum).
      cbn [firstn] in Hid, Hsum. rewrite List.app_nil_r in Hid.
      assert (Hins : insert_expense definer new_id (item_values tid uid i) d
                     = Ok (row, {| trips := map (fun t => if String.eqb (t_id t) tid
                                      then set_total_expenses
                                             (trip_sum tid (expenses d ++ [row])) t
                                      else t) (trips d);
                                   expenses := expenses d ++ [row] |}))
        by (apply insert_item_iff; auto 10).
      rewrite Hins. cbn [bind].
      assert (Hrest : batch_loop tid uid items
                        {| trips := map (fun t => if String.eqb (t_id t) tid
                                      then set_total_expenses
                                             (trip_sum tid (expenses d ++ [row])) t
                                      else t) (trips d);
                           expenses := expenses d ++ [row] |} = Ok (rows', d')).
      { apply IH; [cbn [trips]; now rewrite retotal_exists|].
        cbn [trips expenses]. split; [exact Hrows|]. split; [|split].
        - intros k r Hr. specialize (Hall (S k) r Hr). cbn [firstn] in Hall.
          now rewrite <- !List.app_assoc.
        - now rewrite He, <- List.app_assoc.
        - rewrite Ht. destruct rows' as [|r rows']; [reflexivity|].
          now rewrite retotal_twice, <- List.app_assoc. }
      now rewrite Hrest.
Qed.

Lemma set_stored_total t : set_total_expenses (t_total_expenses t) t = t.
Proof. now destruct t. Qed.

Lemma select_total_retotal tid s ts es :
  existsb (fun t => String.eqb (t_id t) tid) ts = true ->
  select_total_expenses tid
    {| trips := map (fun t => if String.eqb (t_id t) tid
                              then set_total_expenses s t else t) ts;
       expenses := es |} = Some s.
Proof.
  unfold select_total_expenses. cbn [trips].
  induction ts as [|t ts IH]; [discriminate|]. cbn [existsb map List.find].
  destruct (String.eqb (t_id t) tid) eqn:E; cbn [t_id set_total_expenses].
  - now rewrite E.
  - rewrite E. exact IH.
Qed.

(** In a ledger whose totals match, storing the sum a trip has is storing
    what is there. *)
Lemma retotal_same tid d :
  totals_match d ->
  map (fun t => if String.eqb (t_id t) tid
                then set_total_expenses (trip_sum tid (expenses d)) t else t) (trips d)
  = trips d.
Proof.
  intros Htot. rewrite <- (List.map_id (trips d)) at 2. apply List.map_ext_in.
  intros t Hin. destruct (String.eqb (t_id t) tid) eqn:E; [|reflexivity].
  apply String.eqb_eq in E. unfold totals_match in Htot.
  rewrite List.Forall_forall in Htot. rewrite <- E, <- (Htot t Hin).
  apply set_stored_total.
Qed.

(** [batch_add_expenses], exactly. *)
Lemma batch_add_expenses_iff tid uid items d rows new_total d' :
  totals_match d ->
  batch_add_expenses tid uid items d = Ok ((rows, new_total), d') <->
  owns_trip tid uid d = true
  /\ map (item_row tid uid) items = map Some rows
  /\ (forall k row, nth_error rows k = Some row ->
        fits_decimal_10_2 (e_amount row) = true
        /\ category_check (e_category row) = true
        /\ existsb (fun e => String.eqb (e_id e) (e_id row))
             (expenses d ++ firstn k rows) = false
        /\ fits_decimal_10_2 (trip_sum tid (expenses d ++ firstn (S k) rows)) = true)
  /\ new_total = Some (trip_sum tid (expenses d ++ rows))
  /\ expenses d' = expenses d ++ rows
  /\ trips d' = map (fun t => if String.eqb (t_id t) tid
                              then set_total_expenses
                                     (trip_sum tid (expenses d ++ rows)) t
                              else t) (trips d).
Proof.
  intros Htot. unfold batch_add_expenses.
  destruct (owns_trip tid uid d) eqn:Hown; cbn [negb];
    [|split; [discriminate | now intros [? _]]].
  pose proof (owns_trip_exists _ _ _ Hown) as Hfk.
  assert (Hsame : forall rs,
            match rs with
            | [] => trips d
            | _ => map (fun t => if String.eqb (t_id t) tid
                                 then set_total_expenses
                                        (trip_sum tid (expenses d ++ rs)) t
                                 else t) (trips d)
            end
            = map (fun t => if String.eqb (t_id t) tid
                            then set_total_expenses
                                   (trip_sum tid (expenses d ++ rs)) t
                            else t) (trips d)).
  { intros [|r rs]; [|reflexivity]. rewrite List.app_nil_r.
    symmetry. now apply retotal_same. }
  split.
  - intros H. apply bind_pair_ok in H as (rows' & d1 & Hloop & H).
    injection H as <- <- <-.
    apply (batch_loop_iff tid uid items d rows' d1 Hfk) in Hloop
      as (Hrows & Hall & He & Ht).
    rewrite Hsame in Ht. split; [reflexivity|]. split; [exact Hrows|].
    split; [exact Hall|]. split; [|auto].
    destruct d1 as [ts1 es1]. cbn [trips expenses] in *. subst ts1.
    now apply select_total_retotal.
  - intros (_ & Hrows & Hall & -> & He & Ht).
    assert (Hloop : batch_loop tid uid items d = Ok (rows, d')).
    { apply (batch_loop_iff tid uid items d rows d' Hfk). now rewrite Hsame. }
    rewrite Hloop. cbn [bind]. do 3 f_equal.
    destruct d' as [ts1 es1]. cbn [trips expenses] in *. subst ts1.
    now apply select_total_retotal.
Qed.

(** *** Callers and definers *)

Lemma existsb_ext_in {A} (f g : A -> bool) l :
  (forall a, In a l -> f a = g a) -> existsb f l = existsb g l.
Proof.
  induction l as [|a l IH]; intros H; [reflexivity|]. cbn [existsb].
  rewrite (H a (or_introl eq_refl)), IH; [reflexivity|].
  intros b Hb. apply H. now right.
Qed.

Lemma owner_user tid uid ts t :
  List.NoDup (map t_id ts) ->
  existsb (fun t => String.eqb (t_id t) tid && String.eqb (t_user_id t) uid) ts = true ->
  In t ts -> t_id t = tid -> t_user_id t = uid.
Proof.
  intros Hnd Hown Hin Hid. apply List.existsb_exists in Hown as (t' & Hin' & Ht').
  apply Bool.andb_true_iff in Ht' as [Hid' Hu']. apply String.eqb_eq in Hid', Hu'.
  assert (t' = t) by (eapply (NoDup_map_same t_id); eauto; congruence).
  now subst t'.
Qed.

(** On a trip of the caller in a ledger where every expense sits on a trip
    of its own user, the trigger does for the caller what it does for the
    definer. *)
Lemma trigger_rights uid tid d :
  List.NoDup (map t_id (trips d)) -> own_trips d -> owns_trip tid uid d = true ->
  update_trip_total_expenses (invoker uid) tid d
  = update_trip_total_expenses definer tid d.
Proof.
  intros Hnd Hown Howns. unfold update_trip_total_expenses.
  assert (Hsum : trip_sum_as (invoker uid) tid (expenses d)
                 = trip_sum_as definer tid (expenses d)).
  { unfold trip_sum_as. f_equal. apply List.filter_ext_in. intros e He.
    destruct (String.eqb (e_trip_id e) tid) eqn:E; [|reflexivity].
    apply String.eqb_eq in E. cbn [andb policy].
    specialize (Hown e He). apply List.existsb_exists in Hown as (t & Hin & Ht).
    apply Bool.andb_true_iff in Ht as [Hid Hu]. apply String.eqb_eq in Hid, Hu.
    rewrite <- Hu, (owner_user tid uid (trips d) t Hnd Howns Hin) by congruence.
    apply String.eqb_refl. }
  assert (Hshown : forall t, In t (trips d) ->
            String.eqb (t_id t) tid && policy (invoker uid) (t_user_id t)
            = String.eqb (t_id t) tid && policy definer (t_user_id t)).
  { intros t Hin. destruct (String.eqb (t_id t) tid) eqn:E; [|reflexivity].
    apply String.eqb_eq in E. cbn [andb policy].
    rewrite (owner_user tid uid (trips d) t Hnd Howns Hin E). apply String.eqb_refl. }
  rewrite Hsum, (existsb_ext_in _ _ _ Hshown).
  destruct (existsb _ (trips d)); [|reflexivity].
  destruct (fits_decimal_10_2 _); [|reflexivity]. do 2 f_equal.
  apply List.map_ext_in. intros t Hin. now rewrite (Hshown t Hin).
Qed.

Lemma trigger_keeps r tid d d' :
  update_trip_total_expenses r tid d = Ok d' ->
  expenses d' = expenses d /\ map t_id (trips d') = map t_id (trips d)
  /\ map t_user_id (trips d') = map t_user_id (trips d).
Proof.
  intros H. rewrite <- fire_one in H.
  pose proof (fire_triggers_ids _ _ _ _ H). pose proof (fire_triggers_users _ _ _ _ H).
  apply fire_triggers_spec in H as [He _]. auto.
Qed.

Lemma own_trips_same d d' :
  expenses d' = expenses d -> map t_id (trips d') = map t_id (trips d) ->
  map t_user_id (trips d') = map t_user_id (trips d) ->
  own_trips d -> own_trips d'.
Proof.
  intros He Hid Hu Hown e Hin. rewrite He in Hin. specialize (Hown e Hin).
  change (owns_trip (e_trip_id e) (e_user_id e) d' = true).
  now rewrite (owns_trip_same _ _ d d').
Qed.

Lemma fire_triggers_rights uid tids : forall d,
  List.NoDup (map t_id (trips d)) -> own_trips d ->
  (forall tid, In tid tids -> owns_trip tid uid d = true) ->
  fire_triggers (invoker uid) tids d = fire_triggers definer tids d.
Proof.
  induction tids as [|tid rest IH]; intros d Hnd Hown Howns; [reflexivity|].
  cbn [fire_triggers].
  rewrite trigger_rights by (auto; apply Howns; now left).
  destruct (update_trip_total_expenses definer tid d) as [d1|e] eqn:E; [|reflexivity].
  cbn [bind]. apply trigger_keeps in E as (He & Hid & Hu). apply IH.
  - now rewrite Hid.
  - now apply (own_trips_same d).
  - intros x Hx. rewrite (owns_trip_same x uid d d1) by assumption.
    apply Howns. now right.
Qed.

(** A trip that is not the caller's is out of the reach of the trigger that
    the caller's statement fires. *)
Lemma trigger_out_of_reach uid tid d :
  owns_trip tid uid d = false -> update_trip_total_expenses (invoker uid) tid d = Ok d.
Proof.
  unfold update_trip_total_expenses, owns_trip. cbn [policy]. now intros ->.
Qed.

(** The plain statements of a caller, on its own trips, do what they do in
    the procedures. *)
Lemma insert_expense_rights new_id v d :
  List.NoDup (map t_id (trips d)) -> own_trips d ->
  owns_trip (v_trip_id v) (v_user_id v) d = true ->
  insert_expense (invoker (v_user_id v)) new_id v d = insert_expense definer new_id v d.
Proof.
  intros Hnd Hown Howns. unfold insert_expense.
  destruct (check_expense new_id v d) as [row|e] eqn:Hc; [|reflexivity]. cbn [bind].
  pose proof (check_expense_user _ _ _ _ Hc) as Hu.
  apply check_expense_ok in Hc as (Htid & _).
  rewrite <- !fire_one, fire_triggers_rights; [reflexivity|exact Hnd| |].
  - intros e Hin. cbn [trips expenses] in *.
    apply List.in_app_iff in Hin as [Hin|[<-|[]]]; [now apply Hown|].
    change (owns_trip (e_trip_id row) (e_user_id row) d = true).
    now rewrite Htid, Hu.
  - intros x [<-|[]]. now rewrite Htid.
Qed.

Lemma update_expenses_rights id uid p d :
  List.NoDup (map t_id (trips d)) -> own_trips d ->
  update_expenses (invoker uid) id uid p d = update_expenses definer id uid p d.
Proof.
  intros Hnd Hown. unfold update_expenses.
  destruct (check_all_updated _); [|reflexivity]. cbn [bind].
  rewrite fire_triggers_rights; [reflexivity|exact Hnd| |].
  - intros e Hin. cbn [trips expenses] in *.
    apply List.in_map_iff in Hin as (e0 & <- & Hin0).
    specialize (Hown e0 Hin0). now destruct (targets id uid e0).
  - intros x Hx. apply List.in_map_iff in Hx as (e & <- & He).
    apply List.in_map_iff in He as (e0 & <- & He0).
    apply List.filter_In in He0 as [Hin0 Htar]. cbn [e_trip_id apply_patch].
    rewrite <- (targets_user _ _ _ Htar). exact (Hown e0 Hin0).
Qed.

Lemma delete_expenses_rights id uid d :
  List.NoDup (map t_id (trips d)) -> own_trips d ->
  delete_expenses (invoker uid) id uid d = delete_expenses definer id uid d.
Proof.
  intros Hnd Hown. unfold delete_expenses.
  rewrite fire_triggers_rights; [reflexivity|exact Hnd| |].
  - intros e Hin. cbn [trips expenses] in *.
    apply List.filter_In in Hin as [Hin _]. now apply Hown.
  - intros x Hx. apply List.in_map_iff in Hx as (e & <- & He).
    apply List.filter_In in He as [Hin0 Htar].
    rewrite <- (targets_user _ _ _ Htar). exact (Hown e Hin0).
Qed.

(** *** The update procedure *)

(** With the rights of the definer a statement keeps the totals whoever its
    rows belong to. *)
Lemma statement_definer_ok d es' tids d' :
  ledger_ok d ->
  (forall tid, existsb (String.eqb tid) tids = false ->
               trip_sum tid es' = trip_sum tid (expenses d)) ->
  List.Forall (referenced (trips d)) es' ->
  fire_triggers definer tids {| trips := trips d; expenses := es' |} = Ok d' ->
  ledger_ok d' /\ expenses d' = es' /\ map t_id (trips d') = map t_id (trips d).
Proof.
  intros [Htot [Hnd Hfk]] Hsum Href H.
  pose proof (fire_triggers_ids _ _ _ _ H) as Hids.
  apply fire_triggers_spec in H as [He Ht]. cbn [trips expenses policy] in *.
  repeat split; auto.
  - unfold totals_match in *. rewrite Ht, He.
    apply List.Forall_map. eapply List.Forall_impl; [|exact Htot].
    intros t Hmatch. cbv beta. rewrite Bool.andb_true_r, trip_sum_as_definer.
    destruct (existsb (String.eqb (t_id t)) tids) eqn:E; [reflexivity|].
    rewrite Hmatch. symmetry. now apply Hsum.
  - now rewrite Hids.
  - rewrite He. eapply List.Forall_impl; [|exact Href].
    intros e. now apply referenced_ids.
Qed.

Lemma update_expenses_definer_ok id user p d updated d' :
  ledger_ok d -> update_expenses definer id user p d = Ok (updated, d') ->
  ledger_ok d'
  /\ expenses d' = map (fun e => if targets id user e then apply_patch p e else e)
                     (expenses d).
Proof.
  intros Hok H. apply update_expenses_spec in H as [-> Hfire].
  apply (statement_definer_ok d) in Hfire; [intuition|exact Hok| |].
  - intros tid Hno. now apply update_sum.
  - destruct Hok as [_ [_ Hfk]]. apply List.Forall_map.
    eapply List.Forall_impl; [|exact Hfk]. intros e He.
    now destruct (targets id user e).
Qed.

(** A column not supplied keeps its value. *)
Lemma apply_patch_frame p e :
  (p_description p = None -> e_description (apply_patch p e) = e_description e)
  /\ (p_amount p = None -> e_amount (apply_patch p e) = e_amount e)
  /\ (p_category p = None -> e_category (apply_patch p e) = e_category e)
  /\ (p_date p = None -> e_date (apply_patch p e) = e_date e)
  /\ (p_time p = None -> e_time (apply_patch p e) = e_time e)
  /\ e_id (apply_patch p e) = e_id e
  /\ e_trip_id (apply_patch p e) = e_trip_id e
  /\ e_user_id (apply_patch p e) = e_user_id e.
Proof. unfold apply_patch; simpl. repeat split; now intros ->. Qed.

(** [update_expense_with_total] raises when the caller has no expense with
    the given id. *)
Lemma update_expense_with_total_not_found i u p d :
  List.find (targets i u) (expenses d) = None ->
  update_expense_with_total i u p d
  = Err (raise_exception "Expense not found or access denied").
Proof. unfold update_expense_with_total. now intros ->. Qed.

(** When it succeeds, the caller's expense is patched, every other row is as
    it was, and the total returned is the re-summed total of the owning
    trip. *)
Lemma update_expense_with_total_ok i u p d j d' :
  totals_match d -> keys_hold d ->
  update_expense_with_total i u p d = Ok (j, d') ->
  expenses d' = map (fun e => if targets i u e then apply_patch p e else e) (expenses d)
  /\ totals_match d'
  /\ ue_new_total j = Some (trip_sum (ue_trip_id j) (expenses d')).
Proof.
  intros Htot Hkeys H. assert (Hok : ledger_ok d) by (split; assumption).
  unfold update_expense_with_total in H.
  destruct (List.find _ (expenses d)) as [found|] eqn:Hfind; [|discriminate].
  apply bind_pair_ok in H as (updated & d1 & Hup & H). injection H as <- <-.
  pose proof Hup as Hspec. apply update_expenses_spec in Hspec as [_ Hfire].
  apply fire_triggers_ids in Hfire. cbn [trips] in Hfire.
  apply update_expenses_definer_ok in Hup as [[Htot1 Hkeys1] He]; [|exact Hok].
  split; [exact He|]. split; [exact Htot1|]. cbn [ue_new_total ue_trip_id].
  apply select_total_of_existing; [exact Htot1|].
  rewrite existsb_ids, Hfire, <- existsb_ids.
  apply List.find_some in Hfind as [Hin _].
  destruct Hkeys as [_ Hfk]. rewrite List.Forall_forall in Hfk. now apply Hfk.
Qed.

End LedgerFacts.

(** ** The services on the backend *)

Module ServiceFacts.

Import Ledger Supabase Services Backend BackendScenarios.

Example nearest_hundredth_examples :
  map nearest_hundredth [120.5; 45; 200; 0.5; (-3)]%float
  = [Some 12050; Some 4500; Some 20000; Some 50; Some (-300)]%Z.
Proof. vm_compute. reflexivity. Qed.

Example parseFloat_examples :
  map parseFloat [Some 12050; Some 4500; Some 0; Some (-300)]%Z
  = [120.5; 45; 0; (-3)]%float.
Proof. vm_compute. reflexivity. Qed.

(** C5, at the failing input: user u1 updates the description of expense E,
    which belongs to user u2. [expenseService.updateExpense] resolves, with
    one update request sent and the ledger as it was - no not-found error -
    where [updateExpenseOptimized] rejects, through the procedure or, when
    the procedures are not installed, through its manual path. *)
Theorem updateExpense_of_another_user_resolves :
  let w := signed_in "u1" others_ledger in
  outcome (execute (updateExpense "E" (new_description "lunch")) w) = Resolved tt
  /\ requests (execute (updateExpense "E" (new_description "lunch")) w)
     = [auth "getUser"; from "expenses" "update"]
  /\ database (backend (execute (updateExpense "E" (new_description "lunch")) w))
     = others_ledger
  /\ outcome (execute (Services.updateExpenseOptimized "E" (new_description "lunch")) w)
     = Rejected "Failed to update expense: JSON object requested, multiple (or no) rows returned"
  /\ outcome (execute (Services.updateExpenseManual "E" (new_description "lunch"))
                (without_functions w))
     = Rejected "Failed to update expense: JSON object requested, multiple (or no) rows returned"
  /\ is_ok (update_expense_with_total "E" "u1" (patch_of nearest_hundredth (new_description "lunch"))
              others_ledger) = false.
Proof. vm_compute. repeat split; reflexivity. Qed.

(** *** An expense on another user's trip *)

(** C1, at the failing input: user u1 adds a lunch of 45.00 to trip T, which
    belongs to user u2 and holds one expense of 45.00, its total. The
    procedure [add_expense_with_total] refuses the call, the trip not being
    the caller's; [addExpenseOptimized] then falls back to the plain
    insert, which the insert policy lets through - it looks at the
    [user_id] of the new row alone - and the call resolves. The row trigger
    runs with the caller's rights, under which the trip row is not to be
    reached: the expense is stored with T as its [trip_id], the rows of T
    sum to 90.00, and the total of T stays 45.00. The same holds of the
    plain insert as a mutation of the ledger. *)
Theorem expense_on_anothers_trip_is_not_totalled :
  let w := signed_in "u1" others_ledger in
  let r := execute (Services.addExpenseOptimized "T" lunch) w in
  let d := database (backend r) in
  totals_match others_ledger
  /\ add_expense_with_total "uuid-0" (values_of nearest_hundredth "T" "u1" lunch)
       others_ledger
     = Err (raise_exception "Trip not found or access denied")
  /\ outcome r = Resolved (AddResult.mk (expense_of_row lunch_row) 45%float)
  /\ requests r = [auth "getUser"; rpc "add_expense_with_total"; auth "getUser";
                   from "expenses" "insert"; from "trips" "select"]
  /\ map (fun e => (e_id e, e_trip_id e, e_user_id e, e_amount e)) (expenses d)
     = [("E", "T", "u2", 4500%Z); ("uuid-0", "T", "u1", 4500%Z)]
  /\ map t_total_expenses (trips d) = [4500%Z]
  /\ map (fun t => trip_sum (t_id t) (expenses d)) (trips d) = [9000%Z]
  /\ d = perform (INSERT_expense "uuid-0" (values_of nearest_hundredth "T" "u1" lunch))
           others_ledger.
Proof. split; [repeat constructor|]. vm_compute. repeat split; reflexivity. Qed.

(** *** Trip status *)


Lemma status_check_cases s :
  status_check s = true -> s = "planning" \/ s = "in_progress" \/ s = "completed".
Proof.
  unfold status_check. intros H.
  apply Bool.orb_true_iff in H as [H|H]; [apply Bool.orb_true_iff in H as [H|H]|];
    apply String.eqb_eq in H; auto.
Qed.

Lemma status_check_truthy s : status_check s = true -> truthy (Some s) = true.
Proof. intros H. apply status_check_cases in H as [->|[->| ->]]; reflexivity. Qed.




(** *** Trip numbers *)

(** C8, at the failing input: user u1 creates two trips (TR001, TR002),
    deletes the first and creates a third. The third trip is numbered TR002
    again: two trips of the user share a number, and the new number is not
    greater than the numbers given before. *)
Theorem trip_number_reused_after_delete :
  let w1 := backend (execute (createTrip a_plan) (signed_in "u1" empty_db)) in
  let w2 := backend (execute (createTrip a_plan) w1) in
  let w3 := backend (execute (deleteTrip "uuid-0") w2) in
  let r4 := execute (createTrip a_plan) w3 in
  map (fun t => (t_id t, t_trip_number t)) (trips (database w2))
  = [("uuid-0", "TR001"); ("uuid-1", "TR002")]
  /\ map (fun t => (t_id t, t_trip_number t)) (trips (database (backend r4)))
     = [("uuid-1", "TR002"); ("uuid-2", "TR002")]
  /\ option_map Trip.tripNumber
       (match outcome r4 with Resolved trip => Some trip | Rejected _ => None end)
     = Some "TR002".
Proof. vm_compute. repeat split; reflexivity. Qed.

(** [LPAD] cuts the ordinal to three characters: with no trip deleted, the
    1000th trip of a user is numbered as the 100th was. *)
Example trip_number_truncated :
  generate_trip_number "u1"
    {| trips := repeat (a_trip "T" "u1" "TR" "planning" 0) 999; expenses := [] |}
  = "TR100"
  /\ generate_trip_number "u1"
       {| trips := repeat (a_trip "T" "u1" "TR" "planning" 0) 99; expenses := [] |}
     = "TR100".
Proof. vm_compute. split; reflexivity. Qed.

(** *** The batch insert of the service *)

Lemma check_expense_valid_expense numeric_in new_id tid uid e d row :
  check_expense new_id (values_of numeric_in tid uid e) d = Ok row ->
  valid_expense numeric_in e = true.
Proof.
  unfold check_expense, valid_expense. simpl.
  destruct (numeric_in (NewExpense.amount e)); [|discriminate].
  destruct (fits_decimal_10_2 _); [|discriminate]. simpl.
  destruct (category_check _); [reflexivity|discriminate].
Qed.

Lemma add_rows_valid numeric_in tid uid es : forall ids d rows d1,
  length ids = length es ->
  add_rows (combine ids (map (values_of numeric_in tid uid) es)) d = Ok (rows, d1) ->
  forallb (valid_expense numeric_in) es = true /\ length rows = length es.
Proof.
  induction es as [|e es IH]; intros [|i ids] d rows d1 Hlen H; simpl in *;
    try discriminate.
  - injection H as <- <-. auto.
  - apply LedgerFacts.bind_ok in H as (row & Hc & H).
    apply LedgerFacts.bind_pair_ok in H as (rows' & d2 & Hr & H). injection H as <- <-.
    apply check_expense_valid_expense in Hc. rewrite Hc. simpl.
    eapply IH in Hr as [Hv Hl]; [|lia]. split; [exact Hv|]. simpl. now rewrite Hl.
Qed.

Lemma insert_expenses_rows numeric_in r tid uid es from d rows d' :
  insert_expenses r (new_ids from (map (values_of numeric_in tid uid) es)) d
  = Ok (rows, d') ->
  expenses d' = expenses d ++ rows
  /\ length rows = length es
  /\ forallb (valid_expense numeric_in) es = true.
Proof.
  unfold insert_expenses, new_ids. intros H.
  apply LedgerFacts.bind_pair_ok in H as (rows' & d1 & Hadd & H).
  apply LedgerFacts.bind_ok in H as (d2 & Hfire & H). injection H as <- <-.
  pose proof (LedgerFacts.add_rows_spec _ _ _ _ Hadd) as (_ & He & _).
  apply LedgerFacts.fire_triggers_spec in Hfire as [He2 _].
  apply add_rows_valid in Hadd as [Hv Hl].
  - rewrite He2, He. auto.
  - now rewrite List.length_map, List.length_seq, List.length_map.
Qed.

Lemma answer_getUser_inv numeric_in w o w1 :
  answer numeric_in _ auth_getUser w = (o, w1) ->
  w1 = next_request w /\ (o = None \/ o = session w).
Proof.
  unfold answer. destruct (existsb _ (lost w)); cbn [unreachable serve].
  - intros H; injection H as <- <-. auto.
  - intros H; injection H as <- <-. auto.
Qed.

Lemma answer_insert_inv numeric_in w tid uid es r w1 :
  answer numeric_in _ (expenses_insert tid uid es) w = (r, w1) ->
  session w = Some uid ->
  match r with
  | Data rows =>
      exists d,
        insert_expenses (invoker uid)
          (new_ids (uuids w) (map (values_of numeric_in tid uid) es))
          (database w) = Ok (rows, d)
        /\ database w1 = d
  | Error _ => database w1 = database w
  end.
Proof.
  unfold answer. intros H Hs.
  destruct (existsb _ (lost w)); cbn [unreachable serve] in H.
  - injection H as <- <-. reflexivity.
  - unfold as_user in H. rewrite Hs, String.eqb_refl in H. unfold transaction in H.
    destruct (insert_expenses _ _ (database w)) as [[rows d]|e] eqn:Hins;
      injection H as <- <-; [|reflexivity].
    exists d. auto.
Qed.

Lemma answer_select_inv numeric_in w id uid r w1 :
  answer numeric_in _ (trips_select_total_expenses_single id uid) w = (r, w1) ->
  database w1 = database w.
Proof.
  unfold answer.
  destruct (existsb _ (lost w)); cbn [unreachable serve]; intros H.
  - injection H as <- <-. reflexivity.
  - destruct (as_user uid w); injection H as <- <-; reflexivity.
Qed.

(** [batchAddExpenses] of the service, on the backend: a rejection leaves the
    ledger as it was; a resolution has added one row per payload, all of
    them valid. *)
Lemma batchAddExpenses_atomic numeric_in (w : world) tripId es :
  match outcome (run (answer numeric_in) (batchAddExpenses tripId es) w) with
  | Rejected _ =>
      database (backend (run (answer numeric_in) (batchAddExpenses tripId es) w))
      = database w
  | Resolved result =>
      exists rows,
        expenses (database (backend (run (answer numeric_in) (batchAddExpenses tripId es) w)))
        = expenses (database w) ++ rows
        /\ BatchResult.expenses result = map expense_of_row rows
        /\ length rows = length es
        /\ forallb (valid_expense numeric_in) es = true
  end.
Proof.
  unfold batchAddExpenses, with_user, outcome, backend. cbn [run].
  destruct (answer numeric_in _ auth_getUser w) as [o w1] eqn:H1.
  apply answer_getUser_inv in H1 as [-> Ho].
  destruct o as [uid|]; cbn [run fst snd]; [|reflexivity].
  destruct Ho as [Ho|Ho]; [discriminate|].
  destruct (answer numeric_in _ (expenses_insert tripId uid es) (next_request w))
    as [inserted w2] eqn:H2.
  apply answer_insert_inv in H2; [|cbn; congruence].
  destruct inserted as [rows|message]; cbn [run fst snd]; [|exact H2].
  destruct H2 as (d & Hins & Hd).
  destruct (answer numeric_in _ (trips_select_total_expenses_single tripId uid) w2)
    as [tripData w3] eqn:H3.
  apply answer_select_inv in H3. cbn [fst snd].
  apply insert_expenses_rows in Hins as (He & Hl & Hv).
  exists rows. rewrite H3, Hd. auto.
Qed.

(** C6, counterexample. On the ledger with one trip of user u1 holding
    120.50: a batch with a refund of -9.00, an amount the specification
    counts as failing validation, is not refused - both rows are persisted
    and the total goes to 156.50; and the total is recomputed after each
    row, not once at the end - of a batch of 99,999,000.00, 1,000.00 and
    -1,000.00, whose rows all meet the column constraints and whose sum
    with what the trip holds fits the column, [batch_add_expenses] refuses
    the second row for the total it would give then, where the one insert
    statement of the same three rows, which [batchAddExpenses] of the
    service sends, recomputes when all are in and is accepted. *)
Lemma batch_add_neither_validates_nor_retotals_once :
  let refund := [("B", item "taxi" 4500%Z "transport"); ("C", item "refund" (-900)%Z "other")] in
  let swing := [("B", item "charter" 9999900000%Z "transport");
                ("C", item "deposit" 100000%Z "other");
                ("D", item "deposit back" (-100000)%Z "other")] in
  let sent := [NewExpense.mk "charter" 99999000%float "transport" "2025-01-10" "12:00";
               NewExpense.mk "deposit" 1000%float "other" "2025-01-10" "12:00";
               NewExpense.mk "deposit back" (-1000)%float "other" "2025-01-10" "12:00"] in
  (map e_amount (expenses (persisted trip_ledger
                             (batch_add_expenses "T" "u1" refund trip_ledger)))
   = [12050; 4500; -900]%Z
   /\ option_map (fun r => snd (fst r))
        (match batch_add_expenses "T" "u1" refund trip_ledger with
         | Ok r => Some r
         | Err _ => None
         end) = Some (Some 15650%Z))
  /\ (forallb valid_item (map snd swing) = true
      /\ fits_decimal_10_2 (12050 + 9999900000 + 100000 + -100000)%Z = true
      /\ batch_add_expenses "T" "u1" swing trip_ledger = Err numeric_value_out_of_range
      /\ map t_total_expenses
           (trips (persisted trip_ledger
                     (insert_expenses definer
                        (map (fun new => (fst new, item_values "T" "u1" (snd new))) swing)
                        trip_ledger))) = [9999912050%Z]
      /\ map t_total_expenses
           (trips (database (backend (execute (batchAddExpenses "T" sent)
                                        (signed_in "u1" trip_ledger))))) = [9999912050%Z]
      /\ length (expenses (database (backend (execute (batchAddExpenses "T" sent)
                                                (signed_in "u1" trip_ledger))))) = 4%nat).
Proof. vm_compute. repeat split; reflexivity. Qed.

(** C6, amended. [batch_add_expenses] inserts the rows one statement per
    element in one transaction, and the trip's total is recomputed after
    each row. It ends without error exactly when the caller owns the trip,
    every element is let in as a row - no column missing, an amount that
    fits the column, whatever its sign, a known category, a key not in use
    by then - and the total of the trip fits the column after each row;
    then the rows are all there, in the order given, the total returned is
    the sum over all the expenses of the trip as the batch leaves them and
    it is the total stored. In particular a batch with an element that does
    not meet the column constraints fails. A call that fails persists
    nothing, leaving rows and totals as they were. [batchAddExpenses] of
    the service, which sends the rows in one insert statement: when it
    rejects, the ledger is as it was; when it resolves, every row met the
    column constraints and all were added. *)
Theorem batch_add_row_by_row (numeric_in : number -> option Z)
    (tid uid : string) (items : list (string * expense_item)) (d : db)
    (w : world) (es : list NewExpense.t) :
  totals_match d ->
  (forall rows new_total d',
     batch_add_expenses tid uid items d = Ok ((rows, new_total), d') <->
     owns_trip tid uid d = true
     /\ map (item_row tid uid) items = map Some rows
     /\ (forall k row, nth_error rows k = Some row ->
           fits_decimal_10_2 (e_amount row) = true
           /\ category_check (e_category row) = true
           /\ existsb (fun e => String.eqb (e_id e) (e_id row))
                (expenses d ++ firstn k rows) = false
           /\ fits_decimal_10_2 (trip_sum tid (expenses d ++ firstn (S k) rows)) = true)
     /\ new_total = Some (trip_sum tid (expenses d ++ rows))
     /\ expenses d' = expenses d ++ rows
     /\ trips d' = map (fun t => if String.eqb (t_id t) tid
                                 then set_total_expenses
                                        (trip_sum tid (expenses d ++ rows)) t
                                 else t) (trips d))
  /\ (forallb valid_item (map snd items) = false ->
      is_ok (batch_add_expenses tid uid items d) = false)
  /\ (is_ok (batch_add_expenses tid uid items d) = false ->
      persisted d (batch_add_expenses tid uid items d) = d)
  /\ match outcome (run (answer numeric_in) (batchAddExpenses tid es) w) with
     | Rejected _ =>
         database (backend (run (answer numeric_in) (batchAddExpenses tid es) w))
         = database w
     | Resolved result =>
         exists rows,
           expenses (database (backend (run (answer numeric_in) (batchAddExpenses tid es) w)))
           = expenses (database w) ++ rows
           /\ BatchResult.expenses result = map expense_of_row rows
           /\ length rows = length es
           /\ forallb (valid_expense numeric_in) es = true
     end.
Proof.
  intros Htot. split; [|split; [|split]].
  - intros rows new_total d'. now apply LedgerFacts.batch_add_expenses_iff.
  - intros Hbad. unfold batch_add_expenses.
    destruct (owns_trip tid uid d); [|reflexivity]. cbn [negb].
    destruct (batch_loop tid uid items d) as [[rows d1]|e] eqn:Hloop; [|reflexivity].
    apply LedgerFacts.batch_loop_valid in Hloop. congruence.
  - destruct (batch_add_expenses tid uid items d) as [[? ?]|e]; [discriminate|reflexivity].
  - apply batchAddExpenses_atomic.
Qed.

Lemma trip_ledger_ok : totals_match trip_ledger /\ keys_hold trip_ledger.
Proof.
  split; [repeat constructor|]. split.
  - constructor; [intros []|constructor].
  - repeat constructor.
Qed.

Lemma batch_add_row_by_row_witness :
  let good := [("B", item "taxi" 4500%Z "transport"); ("C", item "gift" 900%Z "other")] in
  let rows := [ {| e_id := "B"; e_trip_id := "T"; e_user_id := "u1";
                   e_description := "taxi"; e_amount := 4500%Z; e_category := "transport";
                   e_date := "2025-01-10"; e_time := "12:00" |};
                {| e_id := "C"; e_trip_id := "T"; e_user_id := "u1";
                   e_description := "gift"; e_amount := 900%Z; e_category := "other";
                   e_date := "2025-01-10"; e_time := "12:00" |} ] in
  let d' := persisted trip_ledger (batch_add_expenses "T" "u1" good trip_ledger) in
  totals_match trip_ledger
  /\ batch_add_expenses "T" "u1" good trip_ledger = Ok ((rows, Some 17450%Z), d')
  /\ expenses d' = expenses trip_ledger ++ rows
  /\ map t_total_expenses (trips d') = [17450%Z].
Proof.
  intros good rows d'. split; [exact (proj1 trip_ledger_ok)|].
  split; [reflexivity|].
  pose proof (proj1 (proj1 (batch_add_row_by_row nearest_hundredth "T" "u1" good
                              trip_ledger (signed_in "u1" trip_ledger) [lunch]
                              (proj1 trip_ledger_ok))
                       rows (Some 17450%Z) d') eq_refl)
    as (_ & _ & _ & _ & He & Ht).
  split; [exact He|]. rewrite Ht. reflexivity.
Defined.

Example batch_examples :
  let good := [("B", item "taxi" 4500 "transport"); ("C", item "gift" 900 "other")] in
  let bad := [("B", item "taxi" 4500 "transport"); ("C", item "gift" 900 "shopping")] in
  map t_total_expenses (trips (persisted trip_ledger (batch_add_expenses "T" "u1" good trip_ledger)))
  = [17450%Z]
  /\ map e_id (expenses (persisted trip_ledger (batch_add_expenses "T" "u1" good trip_ledger)))
     = ["A"; "B"; "C"]
  /\ persisted trip_ledger (batch_add_expenses "T" "u1" bad trip_ledger) = trip_ledger.
Proof. vm_compute. repeat split; reflexivity. Qed.

(** *** Fallback and fabricated totals, on any backend *)

Section AnyBackend.

Context {W : Type}.
Variable answer : forall X, call X -> W -> X * W.

Ltac step :=
  match goal with
  | |- context [answer ?X ?c ?w] => destruct (answer X c w) as [? ?] eqn:?
  end.

(** What a request answered, read in a hypothesis about it. *)
Ltac settle :=
  repeat match goal with
  | H : Some _ = Some _ |- _ => injection H as <-
  | H : Data _ = Data _ |- _ => injection H as <-
  | H : Error _ = Error _ |- _ => injection H as <-
  | E : answer ?X ?c ?w = _, H : fst ?t = _ |- _ =>
      match t with
      | context [answer X c w] => rewrite E in H; cbn [fst snd] in H
      end
  end;
  try discriminate; eauto.

Lemma addExpenseManual_mutations tripId expense w :
  (mutations (run answer (addExpenseManual tripId expense) w) <= 1)%nat.
Proof.
  unfold addExpenseManual, with_user, mutations. cbn [run]. step.
  destruct o; cbn [run snd]; [|cbn; lia].
  step. destruct r; cbn [run snd]; [|cbn; lia].
  step. cbn. lia.
Qed.

Lemma updateExpenseManual_mutations expenseId updates w :
  (mutations (run answer (updateExpenseManual expenseId updates) w) <= 1)%nat.
Proof.
  unfold updateExpenseManual, with_user, mutations. cbn [run]. step.
  destruct o; cbn [run snd]; [|cbn; lia].
  step. destruct r; cbn [run snd]; [|cbn; lia].
  step. cbn. lia.
Qed.

Lemma deleteExpenseManual_mutations expenseId w :
  (mutations (run answer (deleteExpenseManual expenseId) w) <= 1)%nat.
Proof.
  unfold deleteExpenseManual, with_user, mutations. cbn [run]. step.
  destruct o; cbn [run snd]; [|cbn; lia].
  step. destruct r; cbn [run snd]; [|cbn; lia].
  step. destruct r; cbn [run snd]; [|cbn; lia].
  step. cbn. lia.
Qed.

(** C7, amended. When the procedure call of an add, update or delete comes
    back with an error, the run of the optimized function is that one call
    followed by exactly one run of the manual function, from the state the
    failed call left, and the manual function sends at most one request
    that changes an expense: nothing is retried. The caller gets a
    rejection exactly when the manual function finds no user signed in or
    its own request on the expenses - the insert, the update, or for a
    delete the read of the expense and then the delete - comes back with an
    error, and the rejection carries that error. When that request has
    succeeded the call resolves, whatever the read of the trip's total that
    follows answers: a failure of that read does not reach the caller. *)
Theorem fallback_once_escalates_expense_errors (w w1 w2 : W) (uid message : string) :
  answer _ auth_getUser w = (Some uid, w1) ->
  (forall tripId expense,
     answer _ (rpc_add_expense_with_total tripId uid expense) w1 = (Error message, w2) ->
     run answer (Services.addExpenseOptimized tripId expense) w
     = after [auth "getUser"; rpc "add_expense_with_total"]
             (run answer (addExpenseManual tripId expense) w2)
     /\ (mutations (run answer (addExpenseManual tripId expense) w2) <= 1)%nat
     /\ (forall m,
           fst (fst (run answer (Services.addExpenseOptimized tripId expense) w))
           = Rejected m <->
           (fst (answer _ auth_getUser w2) = None /\ m = "User not authenticated")
           \/ exists user_id e,
                fst (answer _ auth_getUser w2) = Some user_id
                /\ fst (answer _ (expenses_insert_single tripId user_id expense)
                          (snd (answer _ auth_getUser w2))) = Error e
                /\ m = "Failed to add expense: " +:+ e)
     /\ (forall user_id expenseData,
           fst (answer _ auth_getUser w2) = Some user_id ->
           fst (answer _ (expenses_insert_single tripId user_id expense)
                  (snd (answer _ auth_getUser w2))) = Data expenseData ->
           exists result,
             fst (fst (run answer (Services.addExpenseOptimized tripId expense) w))
             = Resolved result
             /\ AddResult.expense result = expense_of_row expenseData))
  /\ (forall expenseId updates,
       answer _ (rpc_update_expense_with_total expenseId uid updates) w1
       = (Error message, w2) ->
       let updateData :=
         ExpenseUpdates.mk None (ExpenseUpdates.description updates)
           (ExpenseUpdates.amount updates) (ExpenseUpdates.category updates)
           (ExpenseUpdates.date updates) (ExpenseUpdates.time updates) in
       run answer (Services.updateExpenseOptimized expenseId updates) w
       = after [auth "getUser"; rpc "update_expense_with_total"]
               (run answer (updateExpenseManual expenseId updates) w2)
       /\ (mutations (run answer (updateExpenseManual expenseId updates) w2) <= 1)%nat
       /\ (forall m,
             fst (fst (run answer (Services.updateExpenseOptimized expenseId updates) w))
             = Rejected m <->
             (fst (answer _ auth_getUser w2) = None /\ m = "User not authenticated")
             \/ exists user_id e,
                  fst (answer _ auth_getUser w2) = Some user_id
                  /\ fst (answer _ (expenses_update_single updateData expenseId user_id)
                            (snd (answer _ auth_getUser w2))) = Error e
                  /\ m = "Failed to update expense: " +:+ e)
       /\ (forall user_id expenseData,
             fst (answer _ auth_getUser w2) = Some user_id ->
             fst (answer _ (expenses_update_single updateData expenseId user_id)
                    (snd (answer _ auth_getUser w2))) = Data expenseData ->
             exists result,
               fst (fst (run answer (Services.updateExpenseOptimized expenseId updates) w))
               = Resolved result
               /\ UpdateResult.expense result = expense_of_row expenseData))
  /\ (forall expenseId,
       answer _ (rpc_delete_expense_with_total expenseId uid) w1 = (Error message, w2) ->
       run answer (Services.deleteExpenseOptimized expenseId) w
       = after [auth "getUser"; rpc "delete_expense_with_total"]
               (run answer (deleteExpenseManual expenseId) w2)
       /\ (mutations (run answer (deleteExpenseManual expenseId) w2) <= 1)%nat
       /\ (forall m,
             fst (fst (run answer (Services.deleteExpenseOptimized expenseId) w))
             = Rejected m <->
             (fst (answer _ auth_getUser w2) = None /\ m = "User not authenticated")
             \/ (exists user_id e,
                   fst (answer _ auth_getUser w2) = Some user_id
                   /\ fst (answer _ (expenses_select_trip_id_single expenseId user_id)
                             (snd (answer _ auth_getUser w2))) = Error e
                   /\ m = "Failed to fetch expense details: " +:+ e)
             \/ (exists user_id trip_id e,
                   fst (answer _ auth_getUser w2) = Some user_id
                   /\ fst (answer _ (expenses_select_trip_id_single expenseId user_id)
                             (snd (answer _ auth_getUser w2))) = Data trip_id
                   /\ fst (answer _ (expenses_delete expenseId user_id)
                             (snd (answer _ (expenses_select_trip_id_single
                                               expenseId user_id)
                                     (snd (answer _ auth_getUser w2))))) = Error e
                   /\ m = "Failed to delete expense: " +:+ e))
       /\ (forall user_id trip_id,
             fst (answer _ auth_getUser w2) = Some user_id ->
             fst (answer _ (expenses_select_trip_id_single expenseId user_id)
                    (snd (answer _ auth_getUser w2))) = Data trip_id ->
             fst (answer _ (expenses_delete expenseId user_id)
                    (snd (answer _ (expenses_select_trip_id_single expenseId user_id)
                            (snd (answer _ auth_getUser w2))))) = Data tt ->
             exists result,
               fst (fst (run answer (Services.deleteExpenseOptimized expenseId) w))
               = Resolved result
               /\ DeleteResult.tripId result = trip_id)).
Proof.
  intros Huser. split; [|split].
  - intros tripId expense Hrpc.
    assert (Hrun : run answer (Services.addExpenseOptimized tripId expense) w
                   = after [auth "getUser"; rpc "add_expense_with_total"]
                           (run answer (addExpenseManual tripId expense) w2)).
    { unfold Services.addExpenseOptimized, with_user at 1. cbn [run].
      rewrite Huser. cbn [run]. rewrite Hrpc.
      destruct (run answer (addExpenseManual tripId expense) w2) as [[o w3] sent].
      reflexivity. }
    split; [exact Hrun|]. split; [apply addExpenseManual_mutations|].
    rewrite Hrun. unfold addExpenseManual, with_user. cbn [run].
    destruct (answer _ auth_getUser w2) as [[user_id|] w3]; cbn [run after fst snd].
    + destruct (answer _ (expenses_insert_single tripId user_id expense) w3)
        as [[expenseData|e] w4] eqn:E1; cbn [run after fst snd].
      * destruct (answer _ (trips_select_total_expenses_single tripId user_id) w4)
          as [tripData w5]; cbn [after fst snd].
        split.
        -- intros m. split; [discriminate|].
           intros [[H _]|(u & e & Hu & He & _)]; settle.
        -- intros u row Hu Hrow. settle.
      * split.
        -- intros m. split.
           ++ intros H. injection H as <-. right. exists user_id, e. now rewrite E1.
           ++ intros [[H _]|(u & e' & Hu & He & ->)]; settle.
        -- intros u row Hu Hrow. settle.
    + split.
      * intros m. split.
        -- intros H. injection H as <-. left. auto.
        -- intros [[_ ->]|(u & e & Hu & _)]; [reflexivity|discriminate].
      * intros u row Hu. discriminate.
  - intros expenseId updates Hrpc updateData.
    assert (Hrun : run answer (Services.updateExpenseOptimized expenseId updates) w
                   = after [auth "getUser"; rpc "update_expense_with_total"]
                           (run answer (updateExpenseManual expenseId updates) w2)).
    { unfold Services.updateExpenseOptimized, with_user at 1. cbn [run].
      rewrite Huser. cbn [run]. rewrite Hrpc.
      destruct (run answer (updateExpenseManual expenseId updates) w2) as [[o w3] sent].
      reflexivity. }
    split; [exact Hrun|]. split; [apply updateExpenseManual_mutations|].
    rewrite Hrun. unfold updateExpenseManual, with_user. cbn [run].
    fold updateData.
    destruct (answer _ auth_getUser w2) as [[user_id|] w3]; cbn [run after fst snd].
    + destruct (answer _ (expenses_update_single updateData expenseId user_id) w3)
        as [[expenseData|e] w4] eqn:E1; cbn [run after fst snd].
      * destruct (answer _ (trips_select_total_expenses_single
                              (e_trip_id expenseData) user_id) w4)
          as [tripData w5]; cbn [after fst snd].
        split.
        -- intros m. split; [discriminate|].
           intros [[H _]|(u & e & Hu & He & _)]; settle.
        -- intros u row Hu Hrow. settle.
      * split.
        -- intros m. split.
           ++ intros H. injection H as <-. right. exists user_id, e. now rewrite E1.
           ++ intros [[H _]|(u & e' & Hu & He & ->)]; settle.
        -- intros u row Hu Hrow. settle.
    + split.
      * intros m. split.
        -- intros H. injection H as <-. left. auto.
        -- intros [[_ ->]|(u & e & Hu & _)]; [reflexivity|discriminate].
      * intros u row Hu. discriminate.
  - intros expenseId Hrpc.
    assert (Hrun : run answer (Services.deleteExpenseOptimized expenseId) w
                   = after [auth "getUser"; rpc "delete_expense_with_total"]
                           (run answer (deleteExpenseManual expenseId) w2)).
    { unfold Services.deleteExpenseOptimized, with_user at 1. cbn [run].
      rewrite Huser. cbn [run]. rewrite Hrpc.
      destruct (run answer (deleteExpenseManual expenseId) w2) as [[o w3] sent].
      reflexivity. }
    split; [exact Hrun|]. split; [apply deleteExpenseManual_mutations|].
    rewrite Hrun. unfold deleteExpenseManual, with_user. cbn [run].
    destruct (answer _ auth_getUser w2) as [[user_id|] w3]; cbn [run after fst snd].
    + destruct (answer _ (expenses_select_trip_id_single expenseId user_id) w3)
        as [[trip_id|e] w4] eqn:E1; cbn [run after fst snd].
      * destruct (answer _ (expenses_delete expenseId user_id) w4)
          as [[[]|e] w5] eqn:E2; cbn [run after fst snd].
        -- destruct (answer _ (trips_select_total_expenses_single trip_id user_id) w5)
             as [tripData w6]; cbn [after fst snd].
           split.
           ++ intros m. split; [discriminate|].
              intros [[H _]|[(u & e & Hu & He & _)|(u & t & e & Hu & Ht & He & _)]];
                settle.
           ++ intros u t Hu Ht _. settle.
        -- split.
           ++ intros m. split.
              ** intros H. injection H as <-. right. right.
                 exists user_id, trip_id, e. rewrite E1. cbn [fst snd]. now rewrite E2.
              ** intros [[H _]|[(u & e' & Hu & He & _)|(u & t & e' & Hu & Ht & He & ->)]];
                   settle.
           ++ intros u t Hu Ht Hd. settle.
      * split.
        -- intros m. split.
           ++ intros H. injection H as <-. right. left.
              exists user_id, e. now rewrite E1.
           ++ intros [[H _]|[(u & e' & Hu & He & ->)|(u & t & e' & Hu & Ht & _)]];
                settle.
        -- intros u t Hu Ht. settle.
    + split.
      * intros m. split.
        -- intros H. injection H as <-. left. auto.
        -- intros [[_ ->]|[(u & e & Hu & _)|(u & t & e & Hu & _)]];
             [reflexivity|discriminate|discriminate].
      * intros u t Hu. discriminate.
Qed.

(** C10. In the manual paths, when the expense request succeeds and the read
    of the trip's total then fails, the function still resolves, and the
    total it reports is not read from the ledger: the amount of the expense
    passed in for an add, the amount of the updated row for an update, 0 for
    a delete. *)
Theorem manual_paths_fabricate_total (w w1 : W) (uid message : string) :
  answer _ auth_getUser w = (Some uid, w1) ->
  (forall tripId expense expenseData w2 w3,
     answer _ (expenses_insert_single tripId uid expense) w1 = (Data expenseData, w2) ->
     answer _ (trips_select_total_expenses_single tripId uid) w2 = (Error message, w3) ->
     run answer (addExpenseManual tripId expense) w
     = (Resolved (AddResult.mk (expense_of_row expenseData) (NewExpense.amount expense)),
        w3, [auth "getUser"; from "expenses" "insert"; from "trips" "select"]))
  /\ (forall expenseId updates expenseData w2 w3,
       answer _ (expenses_update_single
                   (ExpenseUpdates.mk None (ExpenseUpdates.description updates)
                      (ExpenseUpdates.amount updates) (ExpenseUpdates.category updates)
                      (ExpenseUpdates.date updates) (ExpenseUpdates.time updates))
                   expenseId uid) w1 = (Data expenseData, w2) ->
       answer _ (trips_select_total_expenses_single (e_trip_id expenseData) uid) w2
       = (Error message, w3) ->
       run answer (updateExpenseManual expenseId updates) w
       = (Resolved (UpdateResult.mk (expense_of_row expenseData)
                      (parseFloat (Some (e_amount expenseData)))
                      (e_trip_id expenseData)),
          w3, [auth "getUser"; from "expenses" "update"; from "trips" "select"]))
  /\ (forall expenseId trip_id w2 w3 w4,
       answer _ (expenses_select_trip_id_single expenseId uid) w1 = (Data trip_id, w2) ->
       answer _ (expenses_delete expenseId uid) w2 = (Data tt, w3) ->
       answer _ (trips_select_total_expenses_single trip_id uid) w3 = (Error message, w4) ->
       run answer (deleteExpenseManual expenseId) w
       = (Resolved (DeleteResult.mk 0%float trip_id),
          w4, [auth "getUser"; from "expenses" "select"; from "expenses" "delete";
               from "trips" "select"])).
Proof.
  intros Huser. split; [|split].
  - intros tripId expense expenseData w2 w3 Hins Hsel.
    unfold addExpenseManual, with_user. cbn [run].
    rewrite Huser. cbn [run]. rewrite Hins. cbn [run]. rewrite Hsel. reflexivity.
  - intros expenseId updates expenseData w2 w3 Hupd Hsel.
    unfold updateExpenseManual, with_user. cbn [run].
    rewrite Huser. cbn [run]. rewrite Hupd. cbn [run]. rewrite Hsel. reflexivity.
  - intros expenseId trip_id w2 w3 w4 Hfetch Hdel Hsel.
    unfold deleteExpenseManual, with_user. cbn [run].
    rewrite Huser. cbn [run]. rewrite Hfetch. cbn [run]. rewrite Hdel. cbn [run].
    rewrite Hsel. reflexivity.
Qed.

End AnyBackend.

(** C7, counterexample. Without the procedures installed and with the read
    of the trip's total lost in transit, the add falls back to the manual
    path, whose insert succeeds and whose read of the total then fails: the
    failure does not reach the caller - the call resolves, and reports as
    the trip's total the 45.00 of the expense where the ledger says
    165.50. *)
Lemma failed_total_read_is_not_escalated :
  let w := losing [4%nat] (without_functions (signed_in "u1" trip_ledger)) in
  let r := execute (Services.addExpenseOptimized "T" lunch) w in
  requests r = [auth "getUser"; rpc "add_expense_with_total"; auth "getUser";
                from "expenses" "insert"; from "trips" "select"]
  /\ fst (answer nearest_hundredth _ (trips_select_total_expenses_single "T" "u1")
            (losing [4%nat] (next_request (next_request (next_request (next_request
               (drawn 1 (with_database (database (backend r)) w))))))))
     = Error "Failed to fetch"
  /\ outcome r = Resolved (AddResult.mk (expense_of_row lunch_row) 45%float)
  /\ map t_total_expenses (trips (database (backend r))) = [16550%Z].
Proof. vm_compute. repeat split; reflexivity. Qed.

Lemma fallback_once_escalates_expense_errors_witness :
  let w := without_functions (signed_in "u1" trip_ledger) in
  let bad := NewExpense.mk "gift" 9%float "shopping" "2025-01-10" "12:00" in
  answer nearest_hundredth _ auth_getUser w = (Some "u1", next_request w)
  /\ answer nearest_hundredth _ (rpc_add_expense_with_total "T" "u1" bad) (next_request w)
     = (Error "Could not find the function", next_request (next_request w))
  /\ run (answer nearest_hundredth) (Services.addExpenseOptimized "T" bad) w
     = after [auth "getUser"; rpc "add_expense_with_total"]
             (run (answer nearest_hundredth) (addExpenseManual "T" bad)
                (next_request (next_request w)))
  /\ fst (fst (run (answer nearest_hundredth) (Services.addExpenseOptimized "T" bad) w))
     = Rejected "Failed to add expense: new row violates check constraint".
Proof.
  intros w bad. split; [reflexivity|]. split; [reflexivity|].
  pose proof (proj1 (fallback_once_escalates_expense_errors (answer nearest_hundredth)
                       w (next_request w) (next_request (next_request w))
                       "u1" "Could not find the function" eq_refl)
                "T" bad eq_refl) as (Hrun & _ & Hrejects & _).
  split; [exact Hrun|].
  apply Hrejects. right. exists "u1", "new row violates check constraint".
  split; [reflexivity|]. split; reflexivity.
Defined.

(** Without the procedures installed, the add goes through the manual path,
    once; when the manual insert fails as well, the caller gets the
    rejection and the ledger is as before. *)
Example fallback_examples :
  let w := without_functions (signed_in "u1" trip_ledger) in
  let bad := NewExpense.mk "gift" 9%float "shopping" "2025-01-10" "12:00" in
  outcome (execute (Services.addExpenseOptimized "T" lunch) w)
  = Resolved (AddResult.mk (Expense.mk "uuid-0" "lunch" 45 "food" "2025-01-10" "12:00")
                165.5%float)
  /\ requests (execute (Services.addExpenseOptimized "T" lunch) w)
     = [auth "getUser"; rpc "add_expense_with_total"; auth "getUser";
        from "expenses" "insert"; from "trips" "select"]
  /\ outcome (execute (Services.addExpenseOptimized "T" bad) w)
     = Rejected "Failed to add expense: new row violates check constraint"
  /\ database (backend (execute (Services.addExpenseOptimized "T" bad) w)) = trip_ledger.
Proof. vm_compute. repeat split; reflexivity. Qed.

Lemma manual_paths_fabricate_total_witness :
  let w := losing [2%nat] (signed_in "u1" trip_ledger) in
  let w2 := snd (answer nearest_hundredth _ (expenses_insert_single "T" "u1" lunch)
                   (next_request w)) in
  answer nearest_hundredth _ auth_getUser w = (Some "u1", next_request w)
  /\ answer nearest_hundredth _ (expenses_insert_single "T" "u1" lunch) (next_request w)
     = (Data lunch_row, w2)
  /\ answer nearest_hundredth _ (trips_select_total_expenses_single "T" "u1") w2
     = (Error "Failed to fetch", next_request w2)
  /\ run (answer nearest_hundredth) (addExpenseManual "T" lunch) w
     = (Resolved (AddResult.mk (expense_of_row lunch_row) 45%float), next_request w2,
        [auth "getUser"; from "expenses" "insert"; from "trips" "select"]).
Proof.
  intros w w2. split; [reflexivity|]. split; [reflexivity|]. split; [reflexivity|].
  exact (proj1 (manual_paths_fabricate_total (answer nearest_hundredth)
                  w (next_request w) "u1" "Failed to fetch" eq_refl)
               "T" lunch lunch_row w2 (next_request w2) eq_refl eq_refl).
Defined.

(** The total reported is not the one stored: after the manual add of a 45.00
    lunch to a trip that held 120.50, with the read of the total lost, the
    ledger says 165.50 and the service says 45; likewise an update of the
    hotel to 200.00 reports 200 where the ledger says 200.00 only because
    the trip has no other expense, and a delete reports 0. *)
Example fabricated_totals :
  let w := losing [2%nat] (signed_in "u1" trip_ledger) in
  let r := execute (addExpenseManual "T" lunch) w in
  option_map AddResult.newTotal
    (match outcome r with Resolved x => Some x | Rejected _ => None end) = Some 45%float
  /\ map t_total_expenses (trips (database (backend r))) = [16550%Z]
  /\ option_map DeleteResult.newTotal
       (match outcome (execute (deleteExpenseManual "uuid-0")
                         (losing [3%nat] (signed_in "u1" (database (backend r)))))
        with Resolved x => Some x | Rejected _ => None end) = Some 0%float
  /\ map t_total_expenses
       (trips (database (backend (execute (deleteExpenseManual "uuid-0")
                 (losing [3%nat] (signed_in "u1" (database (backend r)))))))) = [12050%Z].
Proof. vm_compute. repeat split; reflexivity. Qed.

End ServiceFacts.

(** ** The client *)

Module CoordinatorFacts.

Import Supabase Coordinator SessionScenarios.

Local Open Scope Z_scope.

(** *** The operation cache *)


Lemma lookup_deleted (l : list (Z * string)) (m : gmap string nat) (k : string) :
  ~ In k (map snd l) ->
  fold_right (fun timer cache => delete (snd timer) cache) m l !! k = m !! k.
Proof.
  induction l as [|timer l IH]; simpl; [reflexivity|].
  intros Hk. rewrite lookup_delete_ne by (intros Heq; apply Hk; auto).
  apply IH. intros Hin. apply Hk. auto.
Qed.

Lemma lookup_deleted_in (l : list (Z * string)) (m : gmap string nat) (k : string) :
  In k (map snd l) ->
  fold_right (fun timer cache => delete (snd timer) cache) m l !! k = None.
Proof.
  induction l as [|timer l IH]; simpl; [intros []|].
  intros [Heq|Hin].
  - subst k. apply lookup_delete_eq.
  - destruct (decide (snd timer = k)) as [->|Hne].
    + apply lookup_delete_eq.
    + rewrite lookup_delete_ne by exact Hne. now apply IH.
Qed.

Lemma NoDup_map_partition {A B} (f : A -> B) (g : A -> bool) (l : list A) a b :
  List.NoDup (map f l) -> In a (List.filter g l) ->
  In b (List.filter (fun x => negb (g x)) l) -> f a <> f b.
Proof.
  intros Hnd Ha Hb Heq.
  apply List.filter_In in Ha as [Ha Hga]. apply List.filter_In in Hb as [Hb Hgb].
  assert (a = b) by (eapply (LedgerFacts.NoDup_map_same f); eauto).
  subst b. rewrite Hga in Hgb. discriminate.
Qed.

Lemma run_timers_wf now s : cache_wf s -> cache_wf (run_timers now s).
Proof.
  intros [Hnd Hcached]. split; simpl.
  - now apply LedgerFacts.NoDup_map_filter.
  - intros timer Hin. rewrite lookup_deleted.
    + apply Hcached. now apply List.filter_In in Hin as [Hin _].
    + intros Hk. apply List.in_map_iff in Hk as (other & Heq & Hother).
      revert Heq. eapply NoDup_map_partition; eauto.
Qed.

Lemma cached_wf key op now s : cache_wf s -> cache_wf (snd (cached key op now s)).
Proof.
  intros Hwf. apply (run_timers_wf now) in Hwf. unfold cached.
  destruct (operationCache (run_timers now s) !! key) as [p|] eqn:Hlook; simpl;
    [exact Hwf|].
  destruct Hwf as [Hnd Hcached]. split; simpl.
  - rewrite List.map_app. simpl. apply List.NoDup_app. repeat split; auto.
    + constructor; [intros []|constructor].
    + intros k Hk [Heq|[]]. subst k.
      apply List.in_map_iff in Hk as (timer & Heq & Hin).
      apply Hcached in Hin as [p Hp]. rewrite Heq in Hp. congruence.
  - intros timer Hin. apply List.in_app_iff in Hin as [Hin|[<-|[]]]; simpl.
    + destruct (decide (key = snd timer)) as [->|Hne].
      * rewrite lookup_insert_eq. eauto.
      * rewrite lookup_insert_ne by exact Hne. now apply Hcached.
    + rewrite lookup_insert_eq. eauto.
Qed.


(** *** Rollback of a failed add *)

Lemma filter_all {A} (f : A -> bool) (l : list A) :
  forallb f l = true -> List.filter f l = l.
Proof.
  induction l as [|a l IH]; simpl; [reflexivity|].
  intros H. apply Bool.andb_true_iff in H as [-> H]. now rewrite IH.
Qed.

Lemma trips_apply tripId f st :
  trips (applyOptimisticUpdate tripId f st) = map (on_trip tripId f) (trips st).
Proof. reflexivity. Qed.

Lemma activeTrip_apply tripId f st :
  activeTrip (applyOptimisticUpdate tripId f st)
  = option_map (on_trip tripId f) (activeTrip st).
Proof.
  unfold applyOptimisticUpdate, on_trip. cbn.
  destruct (activeTrip st) as [prev|]; cbn; [|reflexivity].
  now destruct (String.eqb _ _).
Qed.

Lemma pending_apply tripId f st :
  pendingOperations (applyOptimisticUpdate tripId f st) = pendingOperations st.
Proof. reflexivity. Qed.

Lemma service_apply tripId f st :
  expenseService (applyOptimisticUpdate tripId f st) = expenseService st.
Proof. reflexivity. Qed.

Lemma on_trip_twice tripId f g trip :
  (forall t, Trip.id (f t) = Trip.id t) ->
  on_trip tripId g (on_trip tripId f trip) = on_trip tripId (fun t => g (f t)) trip.
Proof.
  intros Hid. unfold on_trip.
  destruct (String.eqb (Trip.id trip) tripId) eqn:E; [|now rewrite E].
  now rewrite Hid, E.
Qed.

Lemma addExpense_begin_some se now today tripId expense st a st1 :
  addExpense_begin se now today tripId expense st = (Some a, st1) ->
  let operationId := "add-" +:+ tripId +:+ "-" +:+ show_Z now in
  let tempExpense :=
    Expense.mk (temp_id now) (NewExpense.description expense)
      (NewExpense.amount expense) (NewExpense.category expense)
      (NewExpense.date expense) (NewExpense.time expense) in
  is_Some (user st) /\ (operationId ∉ pendingOperations st)
  /\ a = {| a_operationId := operationId; a_tempExpense := tempExpense;
            a_promise := fst (cached_addExpense se tripId expense now (expenseService st)) |}
  /\ st1 = set_service (snd (cached_addExpense se tripId expense now (expenseService st)))
             (applyOptimisticUpdate tripId
                (add_applied tempExpense (NewExpense.amount expense) today)
                (set_pending ({[operationId]} ∪ pendingOperations st) st)).
Proof.
  unfold addExpense_begin. destruct (user st) as [u|] eqn:Hu; [|discriminate].
  destruct (decide _) as [Hin|Hnot]; [discriminate|].
  rewrite service_apply. cbn [expenseService set_pending].
  destruct (cached_addExpense se tripId expense now (expenseService st)) as [p s] eqn:Hc.
  intros H. injection H as <- <-. cbv zeta.
  exact (conj (ex_intro _ u eq_refl) (conj Hnot (conj eq_refl eq_refl))).
Qed.





(** *** Rollback of a failed update *)

Lemma updateExpense_begin_some su now today tripId expenseId updates st u st1 :
  updateExpense_begin su now today tripId expenseId updates st = (Some u, st1) ->
  let operationId := "update-" +:+ expenseId +:+ "-" +:+ show_Z now in
  exists originalTrip,
    List.find (is_trip tripId) (trips st) = Some originalTrip
    /\ List.find (has_id expenseId) (Trip.expenses originalTrip) = Some (u_originalExpense u)
    /\ u_originalTotal u = Trip.totalExpenses originalTrip
    /\ u_operationId u = operationId
    /\ (operationId ∉ pendingOperations st)
    /\ u_promise u = fst (cached_updateExpense su expenseId updates now (expenseService st))
    /\ st1 = set_service
               (snd (cached_updateExpense su expenseId updates now (expenseService st)))
               (applyOptimisticUpdate tripId
                  (update_applied expenseId updates
                     (Ledger.coalesce (ExpenseUpdates.amount updates)
                        (Expense.amount (u_originalExpense u))
                      - Expense.amount (u_originalExpense u))%float today)
                  (set_pending ({[operationId]} ∪ pendingOperations st) st)).
Proof.
  unfold updateExpense_begin. destruct (user st) as [uid|] eqn:Hu; [|discriminate].
  destruct (decide _) as [Hin|Hnot]; [discriminate|].
  cbn [trips set_pending].
  fold (is_trip tripId).
  destruct (List.find (is_trip tripId) (trips st)) as [originalTrip|] eqn:Ht;
    [|discriminate].
  destruct (List.find (has_id expenseId) (Trip.expenses originalTrip))
    as [originalExpense|] eqn:He; [|discriminate].
  rewrite service_apply. cbn [expenseService set_pending].
  destruct (cached_updateExpense su expenseId updates now (expenseService st))
    as [p s] eqn:Hc.
  intros H. injection H as <- <-. cbv zeta. exists originalTrip.
  cbn [u_originalExpense u_originalTotal u_operationId u_promise fst snd].
  exact (conj eq_refl (conj He (conj eq_refl (conj eq_refl (conj Hnot
           (conj eq_refl eq_refl)))))).
Qed.

Lemma find_on_trip tripId f l :
  (forall t, Trip.id (f t) = Trip.id t) ->
  List.find (is_trip tripId) (map (on_trip tripId f) l)
  = option_map f (List.find (is_trip tripId) l).
Proof.
  intros Hid. induction l as [|t l IH]; [reflexivity|].
  cbn [map List.find]. unfold on_trip, is_trip in *.
  destruct (String.eqb (Trip.id t) tripId) eqn:E.
  - rewrite Hid, E. reflexivity.
  - rewrite E. exact IH.
Qed.

Lemma has_id_merge expenseId exp updates :
  ExpenseUpdates.id updates = None \/ ExpenseUpdates.id updates = Some expenseId ->
  has_id expenseId exp = true ->
  has_id expenseId (merge exp updates) = true.
Proof.
  unfold has_id, merge. cbn. intros [-> | ->]; cbn; [auto|].
  intros _. apply String.eqb_refl.
Qed.

Lemma find_restored expenseId original l :
  List.find (has_id expenseId) l = Some original ->
  List.find (has_id expenseId)
    (map (fun exp => if has_id expenseId exp then original else exp) l) = Some original.
Proof.
  intros Hfind. pose proof (List.find_some _ _ Hfind) as [_ Hid].
  induction l as [|exp l IH]; [discriminate|].
  cbn [List.find map] in *.
  destruct (has_id expenseId exp) eqn:E.
  - now rewrite Hid.
  - rewrite E. auto.
Qed.

Lemma map_restored expenseId original l :
  List.NoDup (map Expense.id l) ->
  List.find (has_id expenseId) l = Some original ->
  map (fun exp => if has_id expenseId exp then original else exp) l = l.
Proof.
  intros Hnd Hfind. pose proof (List.find_some _ _ Hfind) as [Hin Hid].
  rewrite <- (List.map_id l) at 2. apply List.map_ext_in. intros exp Hexp.
  destruct (has_id expenseId exp) eqn:E; [|reflexivity].
  unfold has_id in *. apply String.eqb_eq in E, Hid.
  eapply (LedgerFacts.NoDup_map_same Expense.id); eauto. congruence.
Qed.

(** C3. When an update fails after the optimistic apply - the update carrying
    a subset of description, amount, category, date and time (and no other
    id than the expense's own) - the trip operated on has the total captured
    before the apply, and its expense with the given id is the expense
    record captured before the apply, every field of it, whatever amount had
    been applied; the other expenses are untouched, and with distinct
    expense ids the whole list is the one before the update. *)
Theorem update_rollback_exact (su : ExpenseUpdates.t -> string) (st st1 : state)
    (now : Z) (today tripId expenseId message : string) (updates : ExpenseUpdates.t)
    (u : updating) :
  updateExpense_begin su now today tripId expenseId updates st = (Some u, st1) ->
  ExpenseUpdates.id updates = None \/ ExpenseUpdates.id updates = Some expenseId ->
  let st2 := updateExpense_settle tripId expenseId u (Rejected message) st1 in
  exists originalTrip restored,
    List.find (is_trip tripId) (trips st) = Some originalTrip
    /\ List.find (has_id expenseId) (Trip.expenses originalTrip) = Some (u_originalExpense u)
    /\ List.find (is_trip tripId) (trips st2) = Some restored
    /\ Trip.totalExpenses restored = Trip.totalExpenses originalTrip
    /\ List.find (has_id expenseId) (Trip.expenses restored) = Some (u_originalExpense u)
    /\ Trip.expenses restored
       = map (fun exp => if has_id expenseId exp then u_originalExpense u else exp)
           (Trip.expenses originalTrip)
    /\ (List.NoDup (map Expense.id (Trip.expenses originalTrip)) ->
        Trip.expenses restored = Trip.expenses originalTrip).
Proof.
  intros Hbegin Hnoid st2.
  apply updateExpense_begin_some in Hbegin
    as (originalTrip & Htrip & Hexp & Htotal & _ & _ & _ & ->).
  set (applied := update_applied expenseId updates _ today) in *.
  exists originalTrip,
    (update_undone expenseId (u_originalExpense u) (u_originalTotal u)
       (applied originalTrip)).
  assert (Hexpenses :
            Trip.expenses (update_undone expenseId (u_originalExpense u)
                             (u_originalTotal u) (applied originalTrip))
            = map (fun exp => if has_id expenseId exp then u_originalExpense u else exp)
                (Trip.expenses originalTrip)).
  { subst applied. destruct originalTrip. cbn. rewrite List.map_map.
    apply List.map_ext. intros exp.
    destruct (has_id expenseId exp) eqn:E.
    - now rewrite has_id_merge.
    - now rewrite E. }
  split; [exact Htrip|]. split; [exact Hexp|]. split; [|split; [|split; [|split]]].
  - subst st2. unfold updateExpense_settle. cbn [trips set_pending].
    rewrite trips_apply. cbn [trips set_service]. rewrite trips_apply.
    cbn [trips set_pending]. rewrite List.map_map.
    rewrite (List.map_ext _ (on_trip tripId (fun t =>
               update_undone expenseId (u_originalExpense u) (u_originalTotal u)
                 (applied t)))).
    + rewrite find_on_trip, Htrip; [reflexivity|].
      intros t. subst applied. destruct t. reflexivity.
    + intros t. apply on_trip_twice. intros t0. subst applied. destruct t0. reflexivity.
  - rewrite Htotal. destruct originalTrip. reflexivity.
  - rewrite Hexpenses. now apply find_restored.
  - exact Hexpenses.
  - intros Hnd. rewrite Hexpenses. now apply map_restored.
Qed.

Example hotel_applied :
  map Trip.totalExpenses (trips hotel_begun) = [200%float]
  /\ map (fun t => map Expense.amount (Trip.expenses t)) (trips hotel_begun)
     = [[200%float]].
Proof. vm_compute. split; reflexivity. Qed.

Lemma update_rollback_exact_witness :
  updateExpense_begin describe_updates 2000 "2025-01-10T13:00:00.000Z" "T" "A"
    (raise_to 200%float) (a_session 120.5%float [hotel]) = (Some hotel_updating, hotel_begun)
  /\ (ExpenseUpdates.id (raise_to 200%float) = None
      \/ ExpenseUpdates.id (raise_to 200%float) = Some "A")
  /\ exists originalTrip restored,
       List.find (is_trip "T") (trips (a_session 120.5%float [hotel])) = Some originalTrip
       /\ List.find (is_trip "T")
            (trips (updateExpense_settle "T" "A" hotel_updating
                      (Rejected "Failed to fetch") hotel_begun)) = Some restored
       /\ Trip.totalExpenses restored = Trip.totalExpenses originalTrip
       /\ List.find (has_id "A") (Trip.expenses restored) = Some hotel.
Proof.
  assert (Hbegin : updateExpense_begin describe_updates 2000 "2025-01-10T13:00:00.000Z"
                     "T" "A" (raise_to 200%float) (a_session 120.5%float [hotel])
                   = (Some hotel_updating, hotel_begun)) by (vm_compute; reflexivity).
  split; [exact Hbegin|]. split; [left; reflexivity|].
  destruct (update_rollback_exact describe_updates _ _ 2000 "2025-01-10T13:00:00.000Z"
              "T" "A" "Failed to fetch" (raise_to 200%float) hotel_updating Hbegin
              (or_introl eq_refl))
    as (originalTrip & restored & H1 & _ & H3 & H4 & H5 & _).
  exists originalTrip, restored. auto.
Defined.

(** *** Duplicate calls *)







(** Every call keeps the cache in the shape assumed above. *)
Lemma begin_keeps_cache_wf se su st :
  cache_wf (expenseService st) ->
  (forall now today tripId expense,
     cache_wf (expenseService (snd (addExpense_begin se now today tripId expense st))))
  /\ (forall now today tripId expenseId updates,
       cache_wf (expenseService
                   (snd (updateExpense_begin su now today tripId expenseId updates st))))
  /\ (forall now today tripId expenseId,
       cache_wf (expenseService (snd (deleteExpense_begin now today tripId expenseId st)))).
Proof.
  intros Hwf. split; [|split]; intros.
  - unfold addExpense_begin. cbv zeta.
    destruct (user st); [|exact Hwf]. destruct (decide _); [exact Hwf|].
    rewrite service_apply. cbn [expenseService set_pending].
    pose proof (cached_wf ("add-" +:+ tripId +:+ "-" +:+ se expense)
                  (addExpenseOptimized tripId expense) now _ Hwf) as H.
    unfold cached_addExpense. destruct (cached _ _ now (expenseService st)). exact H.
  - unfold updateExpense_begin. cbv zeta.
    destruct (user st); [|exact Hwf]. destruct (decide _); [exact Hwf|].
    destruct (List.find _ (trips _)) as [originalTrip|]; [|exact Hwf].
    destruct (List.find _ (Trip.expenses originalTrip)); [|exact Hwf].
    rewrite service_apply. cbn [expenseService set_pending].
    pose proof (cached_wf ("update-" +:+ expenseId +:+ "-" +:+ su updates)
                  (updateExpenseOptimized expenseId updates) now _ Hwf) as H.
    unfold cached_updateExpense. destruct (cached _ _ now (expenseService st)). exact H.
  - unfold deleteExpense_begin. cbv zeta.
    destruct (user st); [|exact Hwf]. destruct (decide _); [exact Hwf|].
    destruct (List.find _ (trips _)) as [originalTrip|]; [|exact Hwf].
    destruct (List.find _ (Trip.expenses originalTrip)); [|exact Hwf].
    rewrite service_apply. cbn [expenseService set_pending].
    pose proof (cached_wf ("delete-" +:+ expenseId)
                  (deleteExpenseOptimized expenseId) now _ Hwf) as H.
    unfold cached_deleteExpense. destruct (cached _ _ now (expenseService st)). exact H.
Qed.



(** Within the timeout the two calls share one promise and one operation,
    and each has applied its own placeholder; when the promise resolves, each
    call swaps its placeholder for the expense confirmed, and the total is
    the one confirmed. *)
Example double_click :
  fst lunch_again_early = Some lunch_adding_again
  /\ started (expenseService (snd lunch_again_early)) = [addExpenseOptimized "T" lunch]
  /\ map (fun t => map Expense.id (Trip.expenses t)) (trips (snd lunch_again_early))
     = [["A"; "temp-1000"; "temp-1400"]]
  /\ map Trip.totalExpenses (trips (snd lunch_again_early)) = [210.5%float]
  /\ map (fun t => (map Expense.id (Trip.expenses t), Trip.totalExpenses t))
       (trips (addExpense_settle "T" lunch lunch_adding_again (Resolved lunch_confirmed)
                 (addExpense_settle "T" lunch lunch_adding (Resolved lunch_confirmed)
                    (snd lunch_again_early))))
     = [(["A"; "uuid-0"; "uuid-0"], 165.5%float)].
Proof. vm_compute. repeat split; reflexivity. Qed.

End CoordinatorFacts.

Module FallbackFacts.
Import Ledger Supabase Services Backend Stores.

Section Served.
Variable numeric_in : number -> option decimal.

Lemma answer_served X (c : call X) w :
  lost w = [] ->
  answer numeric_in X c w
  = (fst (serve numeric_in c w), next_request (snd (serve numeric_in c w))).
Proof.
  intros Hl. unfold answer. rewrite Hl. cbn [existsb].
  now destruct (serve numeric_in c w).
Qed.

Lemma serve_lost X (c : call X) w : lost (snd (serve numeric_in c w)) = lost w.
Proof.
  destruct c; cbn [serve]; unfold transaction; repeat case_match; reflexivity.
Qed.

Lemma serve_same_store X (c : call X) w w' :
  optimized_rpc c = false -> same_store w w' ->
  fst (serve numeric_in c w) = fst (serve numeric_in c w')
  /\ same_store (snd (serve numeric_in c w)) (snd (serve numeric_in c w')).
Proof.
  intros Hc (Hd & Hs & Hu & Hk & Hl & Hl').
  destruct w as [d s u k o r l], w' as [d' s' u' k' o' r' l'].
  cbn in Hd, Hs, Hu, Hk, Hl, Hl'. subst d' s' u' k' l l'.
  unfold same_store.
  destruct c; try discriminate Hc; cbn [serve]; unfold as_user, transaction;
    cbn [database session uuids clock]; repeat case_match; simplify_eq; cbn;
    rewrite ?Nat.add_0_r; auto 10.
Qed.

Lemma run_same_store A (p : prog A) :
  plain p -> forall w w', same_store w w' ->
  fst (fst (run (answer numeric_in) p w)) = fst (fst (run (answer numeric_in) p w'))
  /\ same_store (snd (fst (run (answer numeric_in) p w)))
                (snd (fst (run (answer numeric_in) p w')))
  /\ snd (run (answer numeric_in) p w) = snd (run (answer numeric_in) p w').
Proof.
  induction 1 as [a|m|X c k Hc Hk IH]; intros w w' Hw.
  - cbn. auto.
  - cbn. auto.
  - cbn [run].
    pose proof Hw as (_ & _ & _ & _ & Hl & Hl').
    rewrite !answer_served by assumption.
    destruct (serve_same_store X c w w' Hc Hw) as [Hx Hw1].
    rewrite <- Hx.
    assert (Hw2 : same_store (next_request (snd (serve numeric_in c w)))
                             (next_request (snd (serve numeric_in c w')))).
    { destruct Hw1 as (? & ? & ? & ? & ? & ?). repeat split; assumption. }
    specialize (IH (fst (serve numeric_in c w)) _ _ Hw2).
    destruct (run (answer numeric_in) (k (fst (serve numeric_in c w)))
                (next_request (snd (serve numeric_in c w)))) as [[o1 v1] s1].
    destruct (run (answer numeric_in) (k (fst (serve numeric_in c w)))
                (next_request (snd (serve numeric_in c w')))) as [[o2 v2] s2].
    cbn in *. destruct IH as (-> & ? & ->). auto.
Qed.


Local Abbreviation run' := (run (answer numeric_in)).

Lemma with_user_run A (k : string -> prog A) w uid :
  session w = Some uid -> lost w = [] ->
  run' (with_user k) w = after [auth "getUser"] (run' (k uid) (next_request w)).
Proof.
  intros Hs Hl. unfold with_user. cbn [run].
  rewrite answer_served by assumption. cbn [serve fst snd]. rewrite Hs.
  destruct (run' (k uid) (next_request w)) as [[o v] s]. reflexivity.
Qed.

Lemma addExpenseManual_run w uid tripId expense :
  session w = Some uid -> lost w = [] ->
  fst (fst (run' (addExpenseManual tripId expense) w))
  = match insert_expense (invoker uid) (uuid_generate_v4 (uuids w))
            (values_of numeric_in tripId uid expense) (database w) with
    | Ok (row, d1) =>
        Resolved (AddResult.mk (expense_of_row row)
          match single (map t_total_expenses
                          (List.filter (trip_targets tripId uid) (trips d1))) with
          | Data total => parseFloat (Some total)
          | Error _ => NewExpense.amount expense
          end)
    | Err e => Rejected ("Failed to add expense: " +:+ sql_message e)
    end
  /\ database (snd (fst (run' (addExpenseManual tripId expense) w)))
     = persisted (database w)
         (insert_expense (invoker uid) (uuid_generate_v4 (uuids w))
            (values_of numeric_in tripId uid expense) (database w)).
Proof.
  intros Hs Hl. unfold addExpenseManual.
  rewrite (with_user_run _ _ w uid Hs Hl). cbn [run].
  rewrite answer_served by exact Hl.
  cbn [serve]. unfold as_user. cbn [session next_request]. rewrite Hs, String.eqb_refl.
  cbn [uuids database next_request]. unfold transaction.
  destruct (insert_expense _ _ _ _) as [[row d1]|e]; cbn [fst snd run after persisted].
  - rewrite answer_served by exact Hl.
    cbn [serve]. unfold as_user. cbn. rewrite Hs, String.eqb_refl. cbn.
    split; [|reflexivity].
    destruct (single _); reflexivity.
  - split; reflexivity.
Qed.

Lemma addExpenseOptimized_run w uid tripId expense :
  session w = Some uid -> lost w = [] ->
  run' (addExpenseOptimized tripId expense) w
  = match (if optimized_functions w
           then add_expense_with_total (uuid_generate_v4 (uuids w))
                  (values_of numeric_in tripId uid expense) (database w)
           else Err (raise_exception "Could not find the function")) with
    | Ok ((expense_id, new_total), d1) =>
        (Resolved (AddResult.mk
                     (Expense.mk expense_id (NewExpense.description expense)
                        (NewExpense.amount expense) (NewExpense.category expense)
                        (NewExpense.date expense) (NewExpense.time expense))
                     (parseFloat new_total)),
         next_request (drawn 1 (with_database d1 (next_request w))),
         [auth "getUser"; rpc "add_expense_with_total"])
    | Err _ =>
        after [auth "getUser"; rpc "add_expense_with_total"]
          (run' (addExpenseManual tripId expense) (next_request (next_request w)))
    end.
Proof.
  intros Hs Hl. unfold addExpenseOptimized.
  rewrite (with_user_run _ _ w uid Hs Hl). cbn [run].
  rewrite answer_served by exact Hl.
  cbn [serve optimized_functions next_request uuids database].
  destruct (optimized_functions w).
  - unfold transaction.
    destruct (add_expense_with_total _ _ _) as [[[eid total] d1]|e];
      cbn [fst snd run after id]; [reflexivity|].
    destruct (run' (addExpenseManual tripId expense) _) as [[o v] s]. reflexivity.
  - cbn [fst snd run after].
    destruct (run' (addExpenseManual tripId expense) _) as [[o v] s]. reflexivity.
Qed.

Lemma no_other_trip tid (f : trip_row -> bool) ts :
  ~ In tid (map t_id ts) ->
  (forall t, f t = true -> t_id t = tid) ->
  List.filter f ts = [] /\ existsb f ts = false.
Proof.
  intros Hnot Hf. induction ts as [|t ts IH]; cbn; [auto|].
  cbn in Hnot. destruct (f t) eqn:Hft.
  - exfalso. apply Hnot. left. now apply Hf.
  - apply IH. tauto.
Qed.

Lemma no_matching_trip tid uid ts :
  existsb (fun t => String.eqb (t_id t) tid && String.eqb (t_user_id t) uid) ts = false ->
  List.filter (trip_targets tid uid) ts = [].
Proof.
  induction ts as [|t ts IH]; cbn; [reflexivity|].
  intros H. apply orb_false_elim in H as [Ht H]. unfold trip_targets at 1.
  rewrite Ht. auto.
Qed.

Lemma owned_total tid uid ts :
  List.NoDup (map t_id ts) ->
  existsb (fun t => String.eqb (t_id t) tid && String.eqb (t_user_id t) uid) ts = true ->
  exists t, List.filter (trip_targets tid uid) ts = [t]
            /\ List.find (fun t => String.eqb (t_id t) tid) ts = Some t.
Proof.
  induction ts as [|t ts IH]; cbn; [discriminate|].
  intros Hnd Hex. apply List.NoDup_cons_iff in Hnd as [Hnot Hnd].
  unfold trip_targets at 1.
  destruct (String.eqb (t_id t) tid) eqn:Hid; cbn [andb] in *.
  - apply String.eqb_eq in Hid. rewrite Hid in Hnot.
    destruct (no_other_trip tid (trip_targets tid uid) ts Hnot) as [Hnil Hnone].
    { intros t0 H0. apply andb_prop in H0 as [H0 _]. now apply String.eqb_eq. }
    unfold trip_targets in Hnone at 1. rewrite Hnone, orb_false_r in Hex.
    rewrite Hex, Hnil. exists t. auto.
  - destruct (IH Hnd Hex) as (t0 & Hf & Hfind). exists t0. auto.
Qed.

Lemma check_expense_row new_id v d row :
  check_expense new_id v d = Ok row ->
  e_id row = new_id /\ e_trip_id row = v_trip_id v /\ e_user_id row = v_user_id v
  /\ v_description v = Some (e_description row) /\ v_amount v = Some (e_amount row)
  /\ v_category v = Some (e_category row) /\ v_date v = Some (e_date row)
  /\ v_time v = Some (e_time row).
Proof.
  unfold check_expense. intros H. repeat case_match; try discriminate.
  injection H as <-. cbn. auto 10.
Qed.

Lemma insert_expense_trips r new_id v d row d1 :
  insert_expense r new_id v d = Ok (row, d1) ->
  check_expense new_id v d = Ok row
  /\ expenses d1 = expenses d ++ [row]
  /\ exists g, trips d1 = map g (trips d)
               /\ forall t, t_id (g t) = t_id t /\ t_user_id (g t) = t_user_id t.
Proof.
  unfold insert_expense. intros H.
  apply LedgerFacts.bind_ok in H as (row0 & Hrow & H).
  apply LedgerFacts.bind_ok in H as (d0 & Htrig & H). injection H as <- <-.
  split; [exact Hrow|].
  apply LedgerFacts.trigger_spec in Htrig as [He Ht]. cbn [trips expenses] in He, Ht.
  split; [exact He|]. eexists. split; [exact Ht|].
  intros t. cbv beta. now destruct (_ && _).
Qed.

Lemma retotalled_ids (g : trip_row -> trip_row) ts :
  (forall t, t_id (g t) = t_id t) -> map t_id (map g ts) = map t_id ts.
Proof. intros Hg. rewrite List.map_map. apply List.map_ext. exact Hg. Qed.

Lemma retotalled_owner (g : trip_row -> trip_row) tid uid ts :
  (forall t, t_id (g t) = t_id t /\ t_user_id (g t) = t_user_id t) ->
  existsb (fun t => String.eqb (t_id t) tid && String.eqb (t_user_id t) uid) (map g ts)
  = existsb (fun t => String.eqb (t_id t) tid && String.eqb (t_user_id t) uid) ts.
Proof.
  intros Hg. induction ts as [|t ts IH]; cbn; [reflexivity|].
  destruct (Hg t) as [-> ->]. now rewrite IH.
Qed.

(** X1. On a ledger whose trip ids are unique and whose expenses sit on
    trips of their own user, whether or not
    [optimized-expense-functions.sql] is installed, [addExpenseOptimized]
    leaves the same ledger and settles the same way:
    it is rejected with the same message, or it resolves with the same
    [newTotal] and the same expense but possibly for its amount - the
    procedure path echoes the payload's amount, the fallback path returns
    the stored one. When the payload's amount survives the round trip
    through [DECIMAL(10,2)], the two outcomes are equal. *)
Theorem addExpense_fallback_agrees w uid tripId expense :
  session w = Some uid -> lost w = [] ->
  List.NoDup (map t_id (trips (database w))) ->
  own_trips (database w) ->
  let installed := run' (addExpenseOptimized tripId expense) w in
  let missing := run' (addExpenseOptimized tripId expense) (without_functions w) in
  database (backend installed) = database (backend missing)
  /\ match outcome installed, outcome missing with
     | Resolved a, Resolved b =>
         AddResult.newTotal a = AddResult.newTotal b
         /\ (AddResult.expense a = AddResult.expense b
             \/ AddResult.expense a
                = echoing (NewExpense.amount expense) (AddResult.expense b))
     | Rejected m, Rejected m' => m = m'
     | _, _ => False
     end
  /\ ((forall amt, numeric_in (NewExpense.amount expense) = Some amt ->
                   parseFloat (Some amt) = NewExpense.amount expense) ->
      outcome installed = outcome missing).
Proof.
  intros Hs Hl Hnd Hrows installed missing.
  assert (Hmanual :
    forall v, same_store v (next_request (next_request (without_functions w))) ->
    database (snd (fst (run' (addExpenseManual tripId expense) v)))
    = database (backend missing)
    /\ fst (fst (run' (addExpenseManual tripId expense) v)) = outcome missing).
  { intros v Hv. subst missing.
    rewrite (addExpenseOptimized_run (without_functions w) uid) by assumption.
    cbn [optimized_functions without_functions].
    destruct (run_same_store _ (addExpenseManual tripId expense))
      with (w := v) (w' := next_request (next_request (without_functions w)))
      as (Ho & Hw & _); [|exact Hv|].
    { unfold addExpenseManual, with_user.
      repeat (constructor; try reflexivity; intros; repeat case_match). }
    destruct (run' (addExpenseManual tripId expense)
                (next_request (next_request (without_functions w)))) as [[o2 v2] s2].
    cbn in *. destruct Hw as (-> & _). auto. }
  assert (Hfall :
    after [auth "getUser"; rpc "add_expense_with_total"]
      (run' (addExpenseManual tripId expense) (next_request (next_request w)))
    = installed ->
    database (backend installed) = database (backend missing)
    /\ outcome installed = outcome missing).
  { intros <-.
    destruct (Hmanual (next_request (next_request w))) as [Hd Ho].
    { repeat split; assumption. }
    destruct (run' (addExpenseManual tripId expense) (next_request (next_request w)))
      as [[o1 v1] s1]. cbn in *. auto. }
  assert (Hsame : outcome installed = outcome missing ->
    match outcome installed, outcome missing with
    | Resolved a, Resolved b =>
        AddResult.newTotal a = AddResult.newTotal b
        /\ (AddResult.expense a = AddResult.expense b
            \/ AddResult.expense a
               = echoing (NewExpense.amount expense) (AddResult.expense b))
    | Rejected m, Rejected m' => m = m'
    | _, _ => False
    end).
  { intros ->. destruct (outcome missing); auto. }
  pose proof (addExpenseOptimized_run w uid tripId expense Hs Hl) as Hrun.
  fold installed in Hrun.
  destruct (optimized_functions w);
    [|destruct (Hfall (eq_sym Hrun)) as [Hd Ho]; split; [exact Hd|split; [exact (Hsame Ho)|intros _; exact Ho]]].
  destruct (add_expense_with_total _ _ _) as [[[eid total] d1]|e] eqn:Hrpc;
    [|destruct (Hfall (eq_sym Hrun)) as [Hd Ho]; split; [exact Hd|split; [exact (Hsame Ho)|intros _; exact Ho]]].
  (* the procedure succeeded *)
  unfold add_expense_with_total in Hrpc.
  destruct (owns_trip _ _ _) eqn:Hown; [|discriminate]. cbn [negb] in Hrpc.
  apply LedgerFacts.bind_pair_ok in Hrpc as (row & d0 & Hins & Hrpc).
  injection Hrpc as <- <- <-.
  destruct (insert_expense_trips _ _ _ _ _ _ Hins) as (Hrow & _ & g & Htrips & Hg).
  destruct (check_expense_row _ _ _ _ Hrow)
    as (Hid & _ & _ & Hdescr & Hamt & Hcat & Hdate & Htime).
  pose proof (LedgerFacts.insert_expense_rights (uuid_generate_v4 (uuids w))
                (values_of numeric_in tripId uid expense) (database w) Hnd Hrows Hown)
    as Hrights.
  cbn [values_of v_description v_amount v_category v_date v_time v_trip_id v_user_id]
    in Hdescr, Hamt, Hcat, Hdate, Htime, Hown, Hrights.
  rewrite Hins in Hrights.
  injection Hdescr as Hdescr. injection Hcat as Hcat. injection Hdate as Hdate.
  injection Htime as Htime.
  destruct (owned_total tripId uid (trips d0)) as (t & Hfilter & Hfind).
  { rewrite Htrips, retotalled_ids; [exact Hnd|]. intros t. apply Hg. }
  { rewrite Htrips, retotalled_owner; [exact Hown|]. exact Hg. }
  destruct (Hmanual (next_request (next_request (without_functions w)))) as [Hd Ho].
  { repeat split; assumption. }
  destruct (addExpenseManual_run (next_request (next_request (without_functions w)))
              uid tripId expense Hs Hl) as [Ho' Hd'].
  cbn [uuids database next_request without_functions] in Ho', Hd'.
  rewrite Hrights in Ho', Hd'. cbn [persisted] in Hd'.
  rewrite Hfilter in Ho'. cbn [map single] in Ho'.
  rewrite Ho in Ho'. rewrite Hd in Hd'.
  assert (Hout : outcome installed
                 = Resolved (AddResult.mk
                     (echoing (NewExpense.amount expense) (expense_of_row row))
                     (parseFloat (Some (t_total_expenses t))))).
  { rewrite Hrun. unfold outcome. cbn [fst]. unfold select_total_expenses.
    cbn [v_trip_id values_of]. rewrite Hfind. cbn [option_map].
    unfold echoing, expense_of_row. cbn. now rewrite Hid, Hdescr, Hcat, Hdate, Htime. }
  split; [|split].
  - rewrite Hd', Hrun. reflexivity.
  - rewrite Hout, Ho'. cbn. auto.
  - intros Hround. rewrite Hout, Ho'. do 2 f_equal.
    unfold echoing, expense_of_row. cbn. f_equal. symmetry. apply Hround.
    now rewrite Hamt.
Qed.

Lemma sole_target id uid es found :
  List.NoDup (map e_id es) ->
  List.find (targets id uid) es = Some found ->
  List.filter (targets id uid) es = [found].
Proof.
  induction es as [|e es IH]; cbn; [discriminate|].
  intros Hnd Hfind. apply List.NoDup_cons_iff in Hnd as [Hnot Hnd].
  destruct (targets id uid e) eqn:He.
  - injection Hfind as <-. f_equal.
    apply andb_prop in He as [He _]. apply String.eqb_eq in He.
    clear IH Hnd. induction es as [|e' es IH]; cbn; [reflexivity|].
    cbn in Hnot. destruct (targets id uid e') eqn:He'.
    + exfalso. apply Hnot. left.
      apply andb_prop in He' as [He' _]. apply String.eqb_eq in He'. congruence.
    + apply IH. tauto.
  - auto.
Qed.

Lemma fire_triggers_trips r tids d d1 :
  fire_triggers r tids d = Ok d1 ->
  expenses d1 = expenses d
  /\ exists g, trips d1 = map g (trips d)
               /\ forall t, t_id (g t) = t_id t /\ t_user_id (g t) = t_user_id t.
Proof.
  intros H. apply LedgerFacts.fire_triggers_spec in H as [He Ht].
  split; [exact He|]. eexists. split; [exact Ht|].
  intros t. cbv beta. now destruct (_ && _).
Qed.

Lemma updateExpenseManual_run w uid expenseId updates :
  session w = Some uid -> lost w = [] ->
  fst (fst (run' (updateExpenseManual expenseId updates) w))
  = (if empty_body updates
     then Rejected ("Failed to update expense: "
                    +:+ "JSON object requested, multiple (or no) rows returned")
     else if sets_null_amount numeric_in updates
     then Rejected ("Failed to update expense: " +:+ sql_message not_null_violation)
     else match update_expenses (invoker uid) expenseId uid (patch_of numeric_in updates)
                  (database w) with
          | Ok ([updated], d1) =>
              Resolved (UpdateResult.mk (expense_of_row updated)
                match single (map t_total_expenses
                                (List.filter (trip_targets (e_trip_id updated) uid)
                                   (trips d1))) with
                | Data total => parseFloat (Some total)
                | Error _ => parseFloat (Some (e_amount updated))
                end
                (e_trip_id updated))
          | Ok _ =>
              Rejected ("Failed to update expense: "
                        +:+ "JSON object requested, multiple (or no) rows returned")
          | Err e => Rejected ("Failed to update expense: " +:+ sql_message e)
          end)
  /\ database (snd (fst (run' (updateExpenseManual expenseId updates) w)))
     = (if empty_body updates then database w
        else if sets_null_amount numeric_in updates then database w
        else match update_expenses (invoker uid) expenseId uid
                     (patch_of numeric_in updates) (database w) with
             | Ok ([updated], d1) => d1
             | _ => database w
             end).
Proof.
  intros Hs Hl. unfold updateExpenseManual.
  rewrite (with_user_run _ _ w uid Hs Hl). cbn [run].
  rewrite answer_served by exact Hl.
  cbn [serve]. unfold as_user. cbn [session next_request]. rewrite Hs, String.eqb_refl.
  change (empty_body (ExpenseUpdates.mk None _ _ _ _ _)) with (empty_body updates).
  destruct (empty_body updates); [split; reflexivity|].
  change (sets_null_amount numeric_in (ExpenseUpdates.mk None _ _ _ _ _))
    with (sets_null_amount numeric_in updates).
  change (patch_of numeric_in (ExpenseUpdates.mk None (ExpenseUpdates.description updates)
            (ExpenseUpdates.amount updates) (ExpenseUpdates.category updates)
            (ExpenseUpdates.date updates) (ExpenseUpdates.time updates)))
    with (patch_of numeric_in updates).
  destruct (sets_null_amount numeric_in updates); [split; reflexivity|].
  cbn [database next_request].
  destruct (update_expenses _ _ _ _ _) as [[[|updated [|]] d1]|e];
    cbn [fst snd run after single]; try (split; reflexivity).
  rewrite answer_served by exact Hl.
  cbn [serve]. unfold as_user. cbn. rewrite Hs, String.eqb_refl. cbn.
  split; [|reflexivity].
  destruct (single _); reflexivity.
Qed.

Lemma updateExpenseOptimized_run w uid expenseId updates :
  session w = Some uid -> lost w = [] ->
  run' (updateExpenseOptimized expenseId updates) w
  = match (if optimized_functions w
           then update_expense_with_total expenseId uid (patch_of numeric_in updates)
                  (database w)
           else Err (raise_exception "Could not find the function")) with
    | Ok (data, d1) =>
        (Resolved (UpdateResult.mk
                     (Expense.mk expenseId (e_description (updated_expense data))
                        (parseFloat (Some (e_amount (updated_expense data))))
                        (e_category (updated_expense data))
                        (e_date (updated_expense data))
                        (e_time (updated_expense data)))
                     (parseFloat (ue_new_total data)) (ue_trip_id data)),
         next_request (drawn 0 (with_database d1 (next_request w))),
         [auth "getUser"; rpc "update_expense_with_total"])
    | Err _ =>
        after [auth "getUser"; rpc "update_expense_with_total"]
          (run' (updateExpenseManual expenseId updates) (next_request (next_request w)))
    end.
Proof.
  intros Hs Hl. unfold updateExpenseOptimized.
  rewrite (with_user_run _ _ w uid Hs Hl). cbn [run].
  rewrite answer_served by exact Hl.
  cbn [serve optimized_functions next_request uuids database].
  destruct (optimized_functions w).
  - unfold transaction.
    destruct (update_expense_with_total _ _ _ _) as [[data d1]|e];
      cbn [fst snd run after id]; [reflexivity|].
    destruct (run' (updateExpenseManual expenseId updates) _) as [[o v] s]. reflexivity.
  - cbn [fst snd run after].
    destruct (run' (updateExpenseManual expenseId updates) _) as [[o v] s]. reflexivity.
Qed.

(** X2. On a ledger whose ids are unique and whose expenses sit on trips of
    their own user, and for an update that sets at least one column and
    whose amount is absent or a finite number, [updateExpenseOptimized]
    settles the same way and leaves the same ledger whether or not the
    procedures are installed. (An update that sets no column is another
    matter: the procedure returns the row as it is, where the fallback,
    sending an empty body, is answered with no row and rejects.) *)
Theorem updateExpense_fallback_agrees w uid expenseId updates :
  session w = Some uid -> lost w = [] ->
  List.NoDup (map t_id (trips (database w))) ->
  List.NoDup (map e_id (expenses (database w))) ->
  own_trips (database w) ->
  empty_body updates = false ->
  sets_null_amount numeric_in updates = false ->
  let installed := run' (updateExpenseOptimized expenseId updates) w in
  let missing := run' (updateExpenseOptimized expenseId updates) (without_functions w) in
  database (backend installed) = database (backend missing)
  /\ outcome installed = outcome missing.
Proof.
  intros Hs Hl Hnd Hne Hown Hbody Hnull installed missing.
  assert (Hmanual :
    forall v, same_store v (next_request (next_request (without_functions w))) ->
    database (snd (fst (run' (updateExpenseManual expenseId updates) v)))
    = database (backend missing)
    /\ fst (fst (run' (updateExpenseManual expenseId updates) v)) = outcome missing).
  { intros v Hv. subst missing.
    rewrite (updateExpenseOptimized_run (without_functions w) uid) by assumption.
    cbn [optimized_functions without_functions].
    destruct (run_same_store _ (updateExpenseManual expenseId updates))
      with (w := v) (w' := next_request (next_request (without_functions w)))
      as (Ho & Hw & _); [|exact Hv|].
    { unfold updateExpenseManual, with_user.
      repeat (constructor; try reflexivity; intros; repeat case_match). }
    destruct (run' (updateExpenseManual expenseId updates)
                (next_request (next_request (without_functions w)))) as [[o2 v2] s2].
    cbn in *. destruct Hw as (-> & _). auto. }
  assert (Hfall :
    after [auth "getUser"; rpc "update_expense_with_total"]
      (run' (updateExpenseManual expenseId updates) (next_request (next_request w)))
    = installed ->
    database (backend installed) = database (backend missing)
    /\ outcome installed = outcome missing).
  { intros <-.
    destruct (Hmanual (next_request (next_request w))) as [Hd Ho].
    { repeat split; assumption. }
    destruct (run' (updateExpenseManual expenseId updates) (next_request (next_request w)))
      as [[o1 v1] s1]. cbn in *. auto. }
  pose proof (updateExpenseOptimized_run w uid expenseId updates Hs Hl) as Hrun.
  fold installed in Hrun.
  destruct (optimized_functions w); [|exact (Hfall (eq_sym Hrun))].
  destruct (update_expense_with_total _ _ _ _) as [[data d1]|e] eqn:Hrpc;
    [|exact (Hfall (eq_sym Hrun))].
  (* the procedure succeeded *)
  unfold update_expense_with_total in Hrpc.
  destruct (List.find _ _) as [found|] eqn:Hfound; [|discriminate].
  apply LedgerFacts.bind_pair_ok in Hrpc as (updated & d0 & Hupd & Hrpc).
  injection Hrpc as <- <-.
  pose proof (sole_target _ _ _ _ Hne Hfound) as Hsole.
  destruct (LedgerFacts.update_expenses_spec _ _ _ _ _ _ _ Hupd) as [Hupdated Hfire].
  rewrite Hsole in Hupdated. cbn [map] in Hupdated. subst updated.
  destruct (fire_triggers_trips _ _ _ _ Hfire) as (_ & g & Htrips & Hg).
  cbn [trips] in Htrips.
  apply List.find_some in Hfound as [Hin Htar].
  apply andb_prop in Htar as [Hfid Hfuser].
  apply String.eqb_eq in Hfid. apply String.eqb_eq in Hfuser.
  destruct (owned_total (e_trip_id found) uid (trips d0)) as (t & Hfilter & Hfind).
  { rewrite Htrips, retotalled_ids; [exact Hnd|]. intros t. apply Hg. }
  { rewrite Htrips, retotalled_owner; [|exact Hg]. rewrite <- Hfuser. now apply Hown. }
  destruct (Hmanual (next_request (next_request (without_functions w)))) as [Hd Ho].
  { repeat split; assumption. }
  destruct (updateExpenseManual_run (next_request (next_request (without_functions w)))
              uid expenseId updates Hs Hl) as [Ho' Hd'].
  cbn [uuids database next_request without_functions] in Ho', Hd'.
  rewrite Hbody, Hnull, (LedgerFacts.update_expenses_rights _ _ _ _ Hnd Hown), Hupd
    in Ho', Hd'.
  rewrite LedgerFacts.apply_patch_trip_id, Hfilter in Ho'. cbn [map single] in Ho'.
  rewrite Ho in Ho'. rewrite Hd in Hd'.
  split.
  - rewrite Hd', Hrun. reflexivity.
  - rewrite Ho', Hrun. unfold outcome. cbn [fst hd updated_expense ue_new_total ue_trip_id].
    unfold select_total_expenses. rewrite Hfind. cbn [option_map].
    unfold expense_of_row. cbn. now rewrite Hfid.
Qed.


Lemma deleteExpenseManual_run w uid expenseId :
  session w = Some uid -> lost w = [] ->
  fst (fst (run' (deleteExpenseManual expenseId) w))
  = match List.filter (targets expenseId uid) (expenses (database w)) with
    | [found] =>
        match delete_expenses (invoker uid) expenseId uid (database w) with
        | Ok (_, d1) =>
            Resolved (DeleteResult.mk
              match single (map t_total_expenses
                              (List.filter (trip_targets (e_trip_id found) uid)
                                 (trips d1))) with
              | Data total => parseFloat (Some total)
              | Error _ => 0%float
              end
              (e_trip_id found))
        | Err e => Rejected ("Failed to delete expense: " +:+ sql_message e)
        end
    | _ => Rejected ("Failed to fetch expense details: "
                     +:+ "JSON object requested, multiple (or no) rows returned")
    end
  /\ database (snd (fst (run' (deleteExpenseManual expenseId) w)))
     = match List.filter (targets expenseId uid) (expenses (database w)) with
       | [found] => persisted (database w)
                      (delete_expenses (invoker uid) expenseId uid (database w))
       | _ => database w
       end.
Proof.
  intros Hs Hl. unfold deleteExpenseManual.
  rewrite (with_user_run _ _ w uid Hs Hl). cbn [run].
  rewrite answer_served by exact Hl.
  cbn [serve]. unfold as_user. cbn [session next_request]. rewrite Hs, String.eqb_refl.
  cbn [database next_request].
  destruct (List.filter _ _) as [|found [|]]; cbn [map single fst snd run after];
    try (split; reflexivity).
  rewrite answer_served by exact Hl.
  cbn [serve]. unfold as_user. cbn [session next_request]. rewrite Hs, String.eqb_refl.
  cbn [database next_request]. unfold transaction.
  destruct (delete_expenses _ _ _ _) as [[gone d1]|e]; cbn [fst snd run after persisted];
    [|split; reflexivity].
  rewrite answer_served by exact Hl.
  cbn [serve]. unfold as_user. cbn. rewrite Hs, String.eqb_refl. cbn.
  split; [|reflexivity].
  destruct (single _); reflexivity.
Qed.

Lemma deleteExpenseOptimized_run w uid expenseId :
  session w = Some uid -> lost w = [] ->
  run' (deleteExpenseOptimized expenseId) w
  = match (if optimized_functions w
           then delete_expense_with_total expenseId uid (database w)
           else Err (raise_exception "Could not find the function")) with
    | Ok ((new_total, trip_id), d1) =>
        (Resolved (DeleteResult.mk (parseFloat new_total) trip_id),
         next_request (drawn 0 (with_database d1 (next_request w))),
         [auth "getUser"; rpc "delete_expense_with_total"])
    | Err _ =>
        after [auth "getUser"; rpc "delete_expense_with_total"]
          (run' (deleteExpenseManual expenseId) (next_request (next_request w)))
    end.
Proof.
  intros Hs Hl. unfold deleteExpenseOptimized.
  rewrite (with_user_run _ _ w uid Hs Hl). cbn [run].
  rewrite answer_served by exact Hl.
  cbn [serve optimized_functions next_request uuids database].
  destruct (optimized_functions w).
  - unfold transaction.
    destruct (delete_expense_with_total _ _ _) as [[[total tid] d1]|e];
      cbn [fst snd run after id]; [reflexivity|].
    destruct (run' (deleteExpenseManual expenseId) _) as [[o v] s]. reflexivity.
  - cbn [fst snd run after].
    destruct (run' (deleteExpenseManual expenseId) _) as [[o v] s]. reflexivity.
Qed.

(** X3. On such a ledger, [deleteExpenseOptimized] settles the same way and
    leaves the same ledger whether or not the procedures are installed. *)
Theorem deleteExpense_fallback_agrees w uid expenseId :
  session w = Some uid -> lost w = [] ->
  List.NoDup (map t_id (trips (database w))) ->
  List.NoDup (map e_id (expenses (database w))) ->
  own_trips (database w) ->
  let installed := run' (deleteExpenseOptimized expenseId) w in
  let missing := run' (deleteExpenseOptimized expenseId) (without_functions w) in
  database (backend installed) = database (backend missing)
  /\ outcome installed = outcome missing.
Proof.
  intros Hs Hl Hnd Hne Hown installed missing.
  assert (Hmanual :
    forall v, same_store v (next_request (next_request (without_functions w))) ->
    database (snd (fst (run' (deleteExpenseManual expenseId) v)))
    = database (backend missing)
    /\ fst (fst (run' (deleteExpenseManual expenseId) v)) = outcome missing).
  { intros v Hv. subst missing.
    rewrite (deleteExpenseOptimized_run (without_functions w) uid) by assumption.
    cbn [optimized_functions without_functions].
    destruct (run_same_store _ (deleteExpenseManual expenseId))
      with (w := v) (w' := next_request (next_request (without_functions w)))
      as (Ho & Hw & _); [|exact Hv|].
    { unfold deleteExpenseManual, with_user.
      repeat (constructor; try reflexivity; intros; repeat case_match). }
    destruct (run' (deleteExpenseManual expenseId)
                (next_request (next_request (without_functions w)))) as [[o2 v2] s2].
    cbn in *. destruct Hw as (-> & _). auto. }
  assert (Hfall :
    after [auth "getUser"; rpc "delete_expense_with_total"]
      (run' (deleteExpenseManual expenseId) (next_request (next_request w)))
    = installed ->
    database (backend installed) = database (backend missing)
    /\ outcome installed = outcome missing).
  { intros <-.
    destruct (Hmanual (next_request (next_request w))) as [Hd Ho].
    { repeat split; assumption. }
    destruct (run' (deleteExpenseManual expenseId) (next_request (next_request w)))
      as [[o1 v1] s1]. cbn in *. auto. }
  pose proof (deleteExpenseOptimized_run w uid expenseId Hs Hl) as Hrun.
  fold installed in Hrun.
  destruct (optimized_functions w); [|exact (Hfall (eq_sym Hrun))].
  destruct (delete_expense_with_total _ _ _) as [[[total tid] d1]|e] eqn:Hrpc;
    [|exact (Hfall (eq_sym Hrun))].
  (* the procedure succeeded *)
  unfold delete_expense_with_total in Hrpc.
  destruct (List.find _ _) as [found|] eqn:Hfound; [|discriminate].
  apply LedgerFacts.bind_pair_ok in Hrpc as (gone & d0 & Hdel & Hrpc).
  injection Hrpc as <- <- <-.
  pose proof (sole_target _ _ _ _ Hne Hfound) as Hsole.
  pose proof Hdel as Hfire. unfold delete_expenses in Hfire.
  apply LedgerFacts.bind_ok in Hfire as (d1 & Hfire & Heq). injection Heq as _ ->.
  destruct (fire_triggers_trips _ _ _ _ Hfire) as (_ & g & Htrips & Hg).
  cbn [trips] in Htrips.
  apply List.find_some in Hfound as [Hin Htar].
  apply andb_prop in Htar as [Hfid Hfuser].
  apply String.eqb_eq in Hfuser.
  destruct (owned_total (e_trip_id found) uid (trips d0)) as (t & Hfilter & Hfind).
  { rewrite Htrips, retotalled_ids; [exact Hnd|]. intros t. apply Hg. }
  { rewrite Htrips, retotalled_owner; [|exact Hg]. rewrite <- Hfuser. now apply Hown. }
  destruct (Hmanual (next_request (next_request (without_functions w)))) as [Hd Ho].
  { repeat split; assumption. }
  destruct (deleteExpenseManual_run (next_request (next_request (without_functions w)))
              uid expenseId Hs Hl) as [Ho' Hd'].
  cbn [uuids database next_request without_functions] in Ho', Hd'.
  rewrite Hsole, (LedgerFacts.delete_expenses_rights _ _ _ Hnd Hown), Hdel in Ho', Hd'.
  cbn [persisted] in Hd'.
  rewrite Hfilter in Ho'. cbn [map single] in Ho'.
  rewrite Ho in Ho'. rewrite Hd in Hd'.
  split.
  - rewrite Hd', Hrun. reflexivity.
  - rewrite Ho', Hrun. unfold outcome. cbn [fst].
    unfold select_total_expenses. rewrite Hfind. reflexivity.
Qed.


(** *** The fallback does not repeat the ownership check *)

(** X4. When the trip is not the caller's, [add_expense_with_total] refuses
    the call, and [addExpenseOptimized] then falls back to the direct
    insert, which the table accepts on its own terms (the row carries the
    caller as [user_id]): the call resolves, the expense is stored on the
    trip, and the [newTotal] reported is the payload's amount, the caller
    having no trip row to read the total from. The [trips] table is left
    as it was, the total of the trip included: the trigger, run with the
    caller's rights, does not reach the row. *)
Theorem addExpense_on_foreign_trip w uid tripId expense row d1 :
  session w = Some uid -> lost w = [] ->
  owns_trip tripId uid (database w) = false ->
  insert_expense (invoker uid) (uuid_generate_v4 (uuids w))
    (values_of numeric_in tripId uid expense) (database w) = Ok (row, d1) ->
  is_ok (add_expense_with_total (uuid_generate_v4 (uuids w))
           (values_of numeric_in tripId uid expense) (database w)) = false
  /\ outcome (run' (addExpenseOptimized tripId expense) w)
     = Resolved (AddResult.mk (expense_of_row row) (NewExpense.amount expense))
  /\ expenses (database (backend (run' (addExpenseOptimized tripId expense) w)))
     = expenses (database w) ++ [row]
  /\ e_trip_id row = tripId /\ e_user_id row = uid
  /\ trips (database (backend (run' (addExpenseOptimized tripId expense) w)))
     = trips (database w).
Proof.
  intros Hs Hl Hown Hins.
  assert (Hrpc : add_expense_with_total (uuid_generate_v4 (uuids w))
                   (values_of numeric_in tripId uid expense) (database w)
                 = Err (raise_exception "Trip not found or access denied")).
  { unfold add_expense_with_total. cbn [values_of v_trip_id v_user_id].
    now rewrite Hown. }
  split; [now rewrite Hrpc|].
  destruct (insert_expense_trips _ _ _ _ _ _ Hins) as (Hrow & Hexp & g & Htrips & Hg).
  destruct (check_expense_row _ _ _ _ Hrow) as (_ & Htid & Huid & _).
  cbn [values_of v_trip_id v_user_id] in Htid, Huid.
  assert (Hnone : List.filter (trip_targets tripId uid) (trips d1) = []).
  { apply (no_matching_trip tripId uid). rewrite Htrips, retotalled_owner; [exact Hown|].
    exact Hg. }
  assert (Hleft : trips d1 = trips (database w)).
  { pose proof Hins as Hins'. unfold insert_expense in Hins'.
    rewrite Hrow in Hins'. cbn [bind] in Hins'.
    rewrite LedgerFacts.trigger_out_of_reach in Hins'
      by (unfold owns_trip; cbn [trips]; now rewrite Htid).
    now injection Hins' as <-. }
  rewrite (addExpenseOptimized_run w uid tripId expense Hs Hl), Hrpc.
  assert (Hrun : match (if optimized_functions w
                        then Err (raise_exception "Trip not found or access denied")
                        else Err (raise_exception "Could not find the function"))
                       : sql ((uuid * option decimal) * db) with
                 | Ok ((expense_id, new_total), d1) =>
                     (Resolved (AddResult.mk
                        (Expense.mk expense_id (NewExpense.description expense)
                           (NewExpense.amount expense) (NewExpense.category expense)
                           (NewExpense.date expense) (NewExpense.time expense))
                        (parseFloat new_total)),
                      next_request (drawn 1 (with_database d1 (next_request w))),
                      [auth "getUser"; rpc "add_expense_with_total"])
                 | Err _ =>
                     after [auth "getUser"; rpc "add_expense_with_total"]
                       (run' (addExpenseManual tripId expense)
                          (next_request (next_request w)))
                 end
                 = after [auth "getUser"; rpc "add_expense_with_total"]
                     (run' (addExpenseManual tripId expense)
                        (next_request (next_request w)))).
  { now destruct (optimized_functions w). }
  rewrite Hrun. clear Hrun.
  destruct (addExpenseManual_run (next_request (next_request w)) uid tripId expense Hs Hl)
    as [Ho Hd].
  cbn [uuids database next_request] in Ho, Hd.
  rewrite Hins in Ho, Hd. rewrite Hnone in Ho. cbn [map single persisted] in Ho, Hd.
  destruct (run' (addExpenseManual tripId expense) (next_request (next_request w)))
    as [[o v] sent]. cbn in Ho, Hd. subst o. unfold outcome, backend. cbn [after fst snd].
  rewrite Hd. auto 10.
Qed.


(** *** Requests that match no row *)

Lemma filter_none_keeps {A} (f : A -> bool) (l : list A) :
  List.filter f l = [] -> List.filter (fun x => negb (f x)) l = l.
Proof.
  induction l as [|a l IH]; cbn; [reflexivity|].
  destruct (f a); [discriminate|]. cbn. intros H. now rewrite IH.
Qed.

Lemma map_none_keeps {A} (f : A -> bool) (g : A -> A) (l : list A) :
  List.filter f l = [] -> map (fun x => if f x then g x else x) l = l.
Proof.
  induction l as [|a l IH]; cbn; [reflexivity|].
  destruct (f a); [discriminate|]. intros H. now rewrite IH.
Qed.

Lemma db_eta d : {| trips := trips d; expenses := expenses d |} = d.
Proof. now destruct d. Qed.

(** X5. The plain services do not notice a request that matches no row of
    the caller: [expenseService.deleteExpense] and [.updateExpense] on an
    expense id, [tripService.deleteTrip] and [.updateTrip] on a trip id,
    resolve and leave the ledger as it was. *)
Theorem unmatched_requests_resolve w uid id :
  session w = Some uid -> lost w = [] ->
  (List.filter (targets id uid) (expenses (database w)) = [] ->
   (outcome (run' (deleteExpense id) w) = Resolved tt
    /\ database (backend (run' (deleteExpense id) w)) = database w)
   /\ forall updates,
        sets_null_amount numeric_in updates = false ->
        outcome (run' (updateExpense id updates) w) = Resolved tt
        /\ database (backend (run' (updateExpense id updates) w)) = database w)
  /\ (List.filter (trip_targets id uid) (trips (database w)) = [] ->
      (outcome (run' (deleteTrip id) w) = Resolved tt
       /\ database (backend (run' (deleteTrip id) w)) = database w)
      /\ forall updates,
           outcome (run' (updateTrip id updates) w) = Resolved tt
           /\ database (backend (run' (updateTrip id updates) w)) = database w).
Proof.
  intros Hs Hl. split.
  - intros Hnone. split.
    + unfold deleteExpense. rewrite (with_user_run _ _ w uid Hs Hl). cbn [run].
      rewrite answer_served by exact Hl.
      cbn [serve]. unfold as_user. cbn [session next_request]. rewrite Hs, String.eqb_refl.
      cbn [database next_request]. unfold delete_expenses.
      rewrite Hnone, (filter_none_keeps _ _ Hnone), db_eta. cbn.
      destruct w; auto.
    + intros updates Hnull.
      unfold updateExpense. rewrite (with_user_run _ _ w uid Hs Hl). cbn [run].
      rewrite answer_served by exact Hl.
      cbn [serve]. unfold as_user. cbn [session next_request]. rewrite Hs, String.eqb_refl.
      destruct (empty_body _); [cbn; destruct w; auto|].
      replace (sets_null_amount numeric_in _) with false
        by (symmetry; exact Hnull).
      cbn [database next_request]. unfold update_expenses.
      rewrite Hnone, (map_none_keeps _ _ _ Hnone), db_eta. cbn.
      destruct w; auto.
  - intros Hnone. split.
    + unfold deleteTrip. rewrite (with_user_run _ _ w uid Hs Hl). cbn [run].
      rewrite answer_served by exact Hl.
      cbn [serve]. unfold as_user. cbn [session next_request]. rewrite Hs, String.eqb_refl.
      cbn [database next_request]. unfold delete_trips.
      rewrite Hnone, (filter_none_keeps _ _ Hnone). cbn [map existsb negb].
      rewrite List.forallb_filter_id by (apply List.forallb_forall; auto).
      rewrite db_eta. cbn. destruct w; auto.
    + intros updates.
      unfold updateTrip. rewrite (with_user_run _ _ w uid Hs Hl). cbn [run].
      rewrite answer_served by exact Hl.
      cbn [serve]. unfold as_user. cbn [session next_request]. rewrite Hs, String.eqb_refl.
      cbn [database next_request]. unfold update_trips.
      rewrite Hnone, (map_none_keeps _ _ _ Hnone), db_eta. cbn.
      destruct w; auto.
Qed.


(** *** Creating a trip *)

Lemma createTrip_run w uid tripData :
  session w = Some uid -> lost w = [] ->
  run' (createTrip tripData) w
  = match insert_trip (uuid_generate_v4 (uuids w))
            (trip_values_of uid (generate_trip_number uid (database w)) tripData)
            (database w) with
    | Ok (r, d1) =>
        (Resolved (trip_of_inserted
                     {| row := r; created_at := clock w; updated_at := clock w |}),
         next_request (drawn 1 (with_database d1 (next_request (next_request w)))),
         [auth "getUser"; rpc "generate_trip_number"; from "trips" "insert"])
    | Err e =>
        (Rejected ("Failed to create trip: " +:+ sql_message e),
         next_request (next_request (next_request w)),
         [auth "getUser"; rpc "generate_trip_number"; from "trips" "insert"])
    end.
Proof.
  intros Hs Hl. unfold createTrip.
  rewrite (with_user_run _ _ w uid Hs Hl). cbn [run].
  rewrite answer_served by exact Hl. cbn [serve fst snd database next_request run].
  rewrite answer_served by exact Hl.
  cbn [serve]. unfold as_user. cbn [session next_request tv_user_id].
  rewrite Hs, String.eqb_refl. cbn [uuids database next_request clock].
  fold (trip_values_of uid (generate_trip_number uid (database w)) tripData).
  unfold transaction.
  destruct (insert_trip _ _ _) as [[r d1]|e]; reflexivity.
Qed.

(** X6. [tripService.createTrip], signed in and with a fresh row id: for a
    status the table accepts, the call resolves with the trip as given,
    numbered by [generate_trip_number], with no expenses and a total of 0,
    and the ledger gains exactly that row (empty notes stored as NULL and
    read back as the empty string); for any other status it is rejected and
    the ledger is as before. *)
Theorem createTrip_stores_and_returns w uid tripData :
  session w = Some uid -> lost w = [] ->
  ~ In (uuid_generate_v4 (uuids w)) (map t_id (trips (database w))) ->
  let r := run' (createTrip tripData) w in
  let notes := if truthy (TripData.notes tripData) then TripData.notes tripData else None in
  if status_check (TripData.status tripData) then
    outcome r
    = Resolved (Trip.mk (uuid_generate_v4 (uuids w))
                  (generate_trip_number uid (database w))
                  (TripData.origin tripData) (TripData.destination tripData)
                  (TripData.travelMode tripData) (TripData.date tripData)
                  (TripData.time tripData) (coalesce notes "")
                  (TripData.travelers tripData) [] 0%float (TripData.status tripData)
                  (clock w) (clock w))
    /\ trips (database (backend r))
       = trips (database w)
         ++ [{| t_id := uuid_generate_v4 (uuids w); t_user_id := uid;
                t_trip_number := generate_trip_number uid (database w);
                t_origin := TripData.origin tripData;
                t_destination := TripData.destination tripData;
                t_travel_mode := TripData.travelMode tripData;
                t_date := TripData.date tripData; t_time := TripData.time tripData;
                t_notes := notes; t_travelers := TripData.travelers tripData;
                t_total_expenses := 0; t_status := TripData.status tripData |}]
    /\ expenses (database (backend r)) = expenses (database w)
  else
    outcome r = Rejected "Failed to create trip: new row violates check constraint"
    /\ database (backend r) = database w.
Proof.
  intros Hs Hl Hfresh r notes. subst r.
  rewrite (createTrip_run w uid tripData Hs Hl).
  unfold insert_trip. cbn [trip_values_of tv_status coalesce].
  destruct (status_check (TripData.status tripData)); cbn [negb]; [|split; reflexivity].
  replace (existsb _ (trips (database w))) with false.
  2:{ symmetry. apply not_true_is_false. intros Hex.
      apply List.existsb_exists in Hex as (t & Hin & Heq).
      apply String.eqb_eq in Heq. apply Hfresh. rewrite <- Heq. now apply List.in_map. }
  unfold outcome, backend. cbn.
  split; [|split; reflexivity].
  unfold trip_of_inserted. cbn. subst notes.
  destruct (TripData.notes tripData) as [n|]; cbn; [|reflexivity].
  destruct (String.eqb n "") eqn:E; cbn; rewrite ?E; reflexivity.
Qed.

End Served.

Import BackendScenarios.

Lemma trip_ledger_keys :
  List.NoDup (map t_id (trips trip_ledger))
  /\ List.NoDup (map e_id (expenses trip_ledger))
  /\ own_trips trip_ledger.
Proof.
  split; [|split].
  - repeat constructor. intros [].
  - repeat constructor. intros [].
  - intros e [<-|[]]. reflexivity.
Qed.

Lemma addExpense_fallback_agrees_witness :
  let w := signed_in "u1" trip_ledger in
  session w = Some "u1" /\ lost w = []
  /\ List.NoDup (map t_id (trips (database w)))
  /\ own_trips (database w)
  /\ database (backend (run (answer nearest_hundredth) (addExpenseOptimized "T" lunch) w))
     = database (backend (run (answer nearest_hundredth) (addExpenseOptimized "T" lunch)
                            (without_functions w))).
Proof.
  split; [reflexivity|]. split; [reflexivity|]. split; [exact (proj1 trip_ledger_keys)|].
  split; [exact (proj2 (proj2 trip_ledger_keys))|].
  exact (proj1 (addExpense_fallback_agrees nearest_hundredth
                  (signed_in "u1" trip_ledger) "u1" "T" lunch
                  eq_refl eq_refl (proj1 trip_ledger_keys)
                  (proj2 (proj2 trip_ledger_keys)))).
Defined.

Example fallback_agreement_examples :
  let w := signed_in "u1" trip_ledger in
  let eighth := NewExpense.mk "tip" 0.125%float "other" "2025-01-10" "12:30" in
  outcome (execute (addExpenseOptimized "T" lunch) w)
  = outcome (execute (addExpenseOptimized "T" lunch) (without_functions w))
  /\ option_map (fun a => Expense.amount (AddResult.expense a))
       (match outcome (execute (addExpenseOptimized "T" eighth) w) with
        | Resolved a => Some a | Rejected _ => None end) = Some 0.125%float
  /\ option_map (fun a => Expense.amount (AddResult.expense a))
       (match outcome (execute (addExpenseOptimized "T" eighth) (without_functions w)) with
        | Resolved a => Some a | Rejected _ => None end) = Some (13 / 100)%float.
Proof. vm_compute. repeat split; reflexivity. Qed.

Lemma updateExpense_fallback_agrees_witness :
  let w := signed_in "u1" trip_ledger in
  session w = Some "u1" /\ lost w = []
  /\ List.NoDup (map t_id (trips (database w)))
  /\ List.NoDup (map e_id (expenses (database w)))
  /\ own_trips (database w)
  /\ empty_body (new_description "brunch") = false
  /\ sets_null_amount nearest_hundredth (new_description "brunch") = false
  /\ outcome (run (answer nearest_hundredth)
                (updateExpenseOptimized "A" (new_description "brunch")) w)
     = outcome (run (answer nearest_hundredth)
                  (updateExpenseOptimized "A" (new_description "brunch"))
                  (without_functions w)).
Proof.
  split; [reflexivity|]. split; [reflexivity|].
  split; [exact (proj1 trip_ledger_keys)|].
  split; [exact (proj1 (proj2 trip_ledger_keys))|].
  split; [exact (proj2 (proj2 trip_ledger_keys))|].
  split; [reflexivity|]. split; [reflexivity|].
  exact (proj2 (updateExpense_fallback_agrees nearest_hundredth
                  (signed_in "u1" trip_ledger) "u1" "A" (new_description "brunch")
                  eq_refl eq_refl (proj1 trip_ledger_keys)
                  (proj1 (proj2 trip_ledger_keys)) (proj2 (proj2 trip_ledger_keys))
                  eq_refl eq_refl)).
Defined.

(** An update that sets no column: the procedure returns the row as it is,
    the fallback is answered with no row and rejects. *)
Example empty_update_disagrees :
  let w := signed_in "u1" trip_ledger in
  let nothing := ExpenseUpdates.mk None None None None None None in
  empty_body nothing = true
  /\ option_map UpdateResult.expense
       (match outcome (execute (updateExpenseOptimized "A" nothing) w) with
        | Resolved a => Some a | Rejected _ => None end)
     = Some (Expense.mk "A" "hotel" 120.5%float "food" "2025-01-10" "12:00")
  /\ outcome (execute (updateExpenseOptimized "A" nothing) (without_functions w))
     = Rejected "Failed to update expense: JSON object requested, multiple (or no) rows returned".
Proof. vm_compute. repeat split; reflexivity. Qed.

Lemma deleteExpense_fallback_agrees_witness :
  let w := signed_in "u1" trip_ledger in
  session w = Some "u1" /\ lost w = []
  /\ List.NoDup (map t_id (trips (database w)))
  /\ List.NoDup (map e_id (expenses (database w)))
  /\ own_trips (database w)
  /\ outcome (run (answer nearest_hundredth) (deleteExpenseOptimized "A") w)
     = outcome (run (answer nearest_hundredth) (deleteExpenseOptimized "A")
                  (without_functions w)).
Proof.
  split; [reflexivity|]. split; [reflexivity|].
  split; [exact (proj1 trip_ledger_keys)|].
  split; [exact (proj1 (proj2 trip_ledger_keys))|].
  split; [exact (proj2 (proj2 trip_ledger_keys))|].
  exact (proj2 (deleteExpense_fallback_agrees nearest_hundredth
                  (signed_in "u1" trip_ledger) "u1" "A"
                  eq_refl eq_refl (proj1 trip_ledger_keys)
                  (proj1 (proj2 trip_ledger_keys)) (proj2 (proj2 trip_ledger_keys)))).
Defined.

Lemma addExpense_on_foreign_trip_witness :
  let w := signed_in "u1" others_ledger in
  let row := {| e_id := "uuid-0"; e_trip_id := "T"; e_user_id := "u1";
                e_description := "lunch"; e_amount := 4500; e_category := "food";
                e_date := "2025-01-10"; e_time := "12:00" |} in
  session w = Some "u1" /\ lost w = []
  /\ owns_trip "T" "u1" (database w) = false
  /\ outcome (run (answer nearest_hundredth) (addExpenseOptimized "T" lunch) w)
     = Resolved (AddResult.mk (expense_of_row row) 45%float)
  /\ map (fun e => (e_id e, e_trip_id e, e_user_id e))
       (expenses (database (backend (run (answer nearest_hundredth)
                                       (addExpenseOptimized "T" lunch) w))))
     = [("E", "T", "u2"); ("uuid-0", "T", "u1")].
Proof.
  split; [reflexivity|]. split; [reflexivity|]. split; [reflexivity|].
  pose proof (addExpense_on_foreign_trip nearest_hundredth
                (signed_in "u1" others_ledger) "u1" "T" lunch
                {| e_id := "uuid-0"; e_trip_id := "T"; e_user_id := "u1";
                   e_description := "lunch"; e_amount := 4500; e_category := "food";
                   e_date := "2025-01-10"; e_time := "12:00" |}
                {| trips := trips others_ledger;
                   expenses := expenses others_ledger
                               ++ [{| e_id := "uuid-0"; e_trip_id := "T"; e_user_id := "u1";
                                      e_description := "lunch"; e_amount := 4500;
                                      e_category := "food"; e_date := "2025-01-10";
                                      e_time := "12:00" |}] |}
                eq_refl eq_refl eq_refl eq_refl) as (_ & Ho & He & _).
  split; [exact Ho|]. cbv zeta. rewrite He. reflexivity.
Defined.

Lemma unmatched_requests_resolve_witness :
  let w := signed_in "u1" others_ledger in
  session w = Some "u1" /\ lost w = []
  /\ List.filter (targets "E" "u1") (expenses (database w)) = []
  /\ outcome (run (answer nearest_hundredth) (deleteExpense "E") w) = Resolved tt
  /\ database (backend (run (answer nearest_hundredth) (deleteExpense "E") w))
     = others_ledger.
Proof.
  split; [reflexivity|]. split; [reflexivity|]. split; [reflexivity|].
  exact (proj1 (proj1 (unmatched_requests_resolve nearest_hundredth
                         (signed_in "u1" others_ledger) "u1" "E" eq_refl eq_refl)
                  eq_refl)).
Defined.

Lemma createTrip_stores_and_returns_witness :
  let w := signed_in "u1" trip_ledger in
  session w = Some "u1" /\ lost w = []
  /\ ~ In (uuid_generate_v4 (uuids w)) (map t_id (trips (database w)))
  /\ option_map Trip.tripNumber
       (match outcome (run (answer nearest_hundredth) (createTrip a_plan) w) with
        | Resolved t => Some t | Rejected _ => None end) = Some "TR002".
Proof.
  assert (Hfresh : ~ In (uuid_generate_v4 (uuids (signed_in "u1" trip_ledger)))
                        (map t_id (trips (database (signed_in "u1" trip_ledger))))).
  { intros [H|[]]. discriminate H. }
  split; [reflexivity|]. split; [reflexivity|]. split; [exact Hfresh|].
  pose proof (createTrip_stores_and_returns nearest_hundredth
                (signed_in "u1" trip_ledger) "u1" a_plan eq_refl eq_refl Hfresh) as H.
  cbv zeta in H. change (status_check (TripData.status a_plan)) with true in H.
  destruct H as (Ho & _). cbv zeta. rewrite Ho. reflexivity.
Defined.

End FallbackFacts.

(** ** The coordinator, beyond rollback *)

Module SettledFacts.

Import Supabase Coordinator Settled SessionScenarios SettledScenarios CoordinatorFacts.

Lemma replace_placeholder tempId (confirmed : Expense.t) (temp : Expense.t) l :
  Expense.id temp = tempId ->
  forallb (fun exp => negb (has_id tempId exp)) l = true ->
  map (fun exp => if has_id tempId exp then confirmed else exp) (l ++ [temp])
  = l ++ [confirmed].
Proof.
  intros Hid Hfree. rewrite List.map_app. cbn. unfold has_id at 2.
  rewrite Hid, String.eqb_refl. f_equal.
  induction l as [|x l IH]; cbn in *; [reflexivity|].
  apply andb_prop in Hfree as [Hx Hl]. apply negb_true_iff in Hx. rewrite Hx.
  now rewrite IH.
Qed.

(** X7. When the service resolves an add, the placeholder gives way to the
    server's record and the total becomes the server's [newTotal]: provided
    no expense of the trip already carries the placeholder id, the trip
    operated on (and the active trip, when it is that trip) is the trip
    before the add with the server's record appended and the server's
    total, all other trips are untouched, and the pending-operation set is
    as before the call. *)
Theorem add_confirm_replaces_placeholder (se : NewExpense.t -> string) (st st1 : state)
    (now : Z) (today tripId : string) (expense : NewExpense.t) (a : adding)
    (result : AddResult.t) :
  addExpense_begin se now today tripId expense st = (Some a, st1) ->
  (forall trip, In trip (trips st) \/ activeTrip st = Some trip ->
                Trip.id trip = tripId -> no_placeholder now trip) ->
  let st2 := addExpense_settle tripId expense a (Resolved result) st1 in
  trips st2 = map (on_trip tripId (add_confirmed result today)) (trips st)
  /\ activeTrip st2 = option_map (on_trip tripId (add_confirmed result today)) (activeTrip st)
  /\ pendingOperations st2 = pendingOperations st.
Proof.
  intros Hbegin Hpre st2.
  apply addExpense_begin_some in Hbegin as (_ & Hnew & -> & ->). cbv zeta in *.
  set (tempExpense := Expense.mk (temp_id now) (NewExpense.description expense)
                        (NewExpense.amount expense) (NewExpense.category expense)
                        (NewExpense.date expense) (NewExpense.time expense)) in *.
  set (confirm := fun trip : Trip.t =>
         Trip.with_expenses
           (map (fun exp => if has_id (Expense.id tempExpense) exp
                            then AddResult.expense result else exp) (Trip.expenses trip))
           (AddResult.newTotal result) trip).
  assert (Hone : forall trip, In trip (trips st) \/ activeTrip st = Some trip ->
            on_trip tripId confirm
              (on_trip tripId (add_applied tempExpense (NewExpense.amount expense) today) trip)
            = on_trip tripId (add_confirmed result today) trip).
  { intros trip Hin. rewrite on_trip_twice by (intros t; destruct t; reflexivity).
    unfold on_trip.
    destruct (String.eqb (Trip.id trip) tripId) eqn:Hid; [|reflexivity].
    apply String.eqb_eq in Hid. pose proof (Hpre trip Hin Hid) as Hfree.
    unfold no_placeholder in Hfree.
    subst confirm. unfold add_confirmed, add_applied. destruct trip; cbn in *.
    unfold Trip.with_updatedAt, Trip.with_expenses; cbn.
    now rewrite (replace_placeholder (temp_id now)). }
  split; [|split].
  - subst st2. unfold addExpense_settle. cbn [trips set_pending a_tempExpense].
    rewrite trips_apply. cbn [trips set_service]. rewrite trips_apply.
    cbn [trips set_pending]. rewrite List.map_map. apply List.map_ext_in.
    intros trip Hin. apply Hone. auto.
  - subst st2. unfold addExpense_settle. cbn [activeTrip set_pending a_tempExpense].
    rewrite activeTrip_apply. cbn [activeTrip set_service]. rewrite activeTrip_apply.
    cbn [activeTrip set_pending].
    destruct (activeTrip st) as [prev|] eqn:Hactive; cbn [option_map]; [|reflexivity].
    f_equal. apply Hone. auto.
  - subst st2. unfold addExpense_settle.
    cbn [pendingOperations set_pending a_operationId].
    rewrite pending_apply. cbn [pendingOperations set_service].
    rewrite pending_apply. cbn [pendingOperations set_pending].
    rewrite difference_union_distr_l_L, difference_diag_L, union_empty_l_L.
    apply difference_disjoint_L, disjoint_singleton_r. exact Hnew.
Qed.

Lemma add_confirm_replaces_placeholder_witness :
  addExpense_begin describe 1000 "2025-01-10T12:00:00.000Z" "T" lunch
    (a_session 120.5%float [hotel]) = (Some lunch_adding, lunch_begun)
  /\ (forall trip,
        In trip (trips (a_session 120.5%float [hotel]))
        \/ activeTrip (a_session 120.5%float [hotel]) = Some trip ->
        Trip.id trip = "T" -> no_placeholder 1000 trip)
  /\ map (fun t => (map Expense.id (Trip.expenses t), Trip.totalExpenses t))
       (trips (addExpense_settle "T" lunch lunch_adding (Resolved lunch_confirmed)
                 lunch_begun))
     = [(["A"; "uuid-0"], 165.5%float)].
Proof.
  assert (Hbegin : addExpense_begin describe 1000 "2025-01-10T12:00:00.000Z" "T" lunch
                     (a_session 120.5%float [hotel]) = (Some lunch_adding, lunch_begun))
    by reflexivity.
  assert (Hpre : forall trip,
            In trip (trips (a_session 120.5%float [hotel]))
            \/ activeTrip (a_session 120.5%float [hotel]) = Some trip ->
            Trip.id trip = "T" -> no_placeholder 1000 trip).
  { intros trip [[<-|[]]|Heq] _; [|injection Heq as <-]; reflexivity. }
  split; [exact Hbegin|]. split; [exact Hpre|].
  rewrite (proj1 (add_confirm_replaces_placeholder describe _ _ 1000 _ "T" lunch
                    lunch_adding lunch_confirmed Hbegin Hpre)).
  reflexivity.
Defined.

Lemma deleteExpense_begin_some now today tripId expenseId st d st1 :
  deleteExpense_begin now today tripId expenseId st = (Some d, st1) ->
  let operationId := "delete-" +:+ expenseId +:+ "-" +:+ show_Z now in
  exists originalTrip,
    List.find (is_trip tripId) (trips st) = Some originalTrip
    /\ List.find (has_id expenseId) (Trip.expenses originalTrip)
       = Some (d_expenseToDelete d)
    /\ d_operationId d = operationId
    /\ (operationId ∉ pendingOperations st)
    /\ st1 = set_service (snd (cached_deleteExpense expenseId now (expenseService st)))
               (applyOptimisticUpdate tripId
                  (delete_applied expenseId (Expense.amount (d_expenseToDelete d)) today)
                  (set_pending ({[operationId]} ∪ pendingOperations st) st)).
Proof.
  unfold deleteExpense_begin. destruct (user st) as [uid|] eqn:Hu; [|discriminate].
  destruct (decide _) as [Hin|Hnot]; [discriminate|].
  cbn [trips set_pending].
  fold (is_trip tripId).
  destruct (List.find (is_trip tripId) (trips st)) as [originalTrip|] eqn:Ht;
    [|discriminate].
  destruct (List.find (has_id expenseId) (Trip.expenses originalTrip))
    as [expenseToDelete|] eqn:He; [|discriminate].
  rewrite service_apply. cbn [expenseService set_pending].
  destruct (cached_deleteExpense expenseId now (expenseService st)) as [p s] eqn:Hc.
  intros H. injection H as <- <-. cbv zeta. exists originalTrip.
  cbn [d_expenseToDelete d_operationId fst snd].
  exact (conj eq_refl (conj He (conj eq_refl (conj Hnot eq_refl)))).
Qed.

Lemma replace_merged expenseId (confirmed : Expense.t) updates l :
  ExpenseUpdates.id updates = None \/ ExpenseUpdates.id updates = Some expenseId ->
  map (fun exp => if has_id expenseId exp then confirmed else exp)
    (map (fun exp => if has_id expenseId exp then merge exp updates else exp) l)
  = map (fun exp => if has_id expenseId exp then confirmed else exp) l.
Proof.
  intros Hid. rewrite List.map_map. apply List.map_ext. intros exp.
  destruct (has_id expenseId exp) eqn:E.
  - now rewrite has_id_merge.
  - now rewrite E.
Qed.

Lemma settle_pending (operationId : string) (pending : gset string) :
  operationId ∉ pending -> ({[operationId]} ∪ pending) ∖ {[operationId]} = pending.
Proof.
  intros Hnew.
  rewrite difference_union_distr_l_L, difference_diag_L, union_empty_l_L.
  apply difference_disjoint_L, disjoint_singleton_r. exact Hnew.
Qed.

(** X8. When the service resolves an update or a delete, the memory takes
    the server's values: after a confirmed update (one that carries no id
    other than the expense's own) every trip with the given id is the trip
    before the call with the server's record in place of the expense and
    the server's [newTotal]; after a confirmed delete it is the trip before
    the call without the expense, with the server's [newTotal]. The other
    trips are untouched, and the pending-operation set is as before the
    call. No client arithmetic is left in the total. *)
Theorem confirm_takes_server_values (su : ExpenseUpdates.t -> string)
    (nf : list Expense.t -> list Expense.t) (st st1 : state)
    (now : Z) (today tripId expenseId : string) :
  (forall updates u result,
     updateExpense_begin su now today tripId expenseId updates st = (Some u, st1) ->
     ExpenseUpdates.id updates = None \/ ExpenseUpdates.id updates = Some expenseId ->
     let st2 := updateExpense_settle tripId expenseId u (Resolved result) st1 in
     trips st2 = map (on_trip tripId (update_confirmed expenseId result today)) (trips st)
     /\ activeTrip st2
        = option_map (on_trip tripId (update_confirmed expenseId result today))
            (activeTrip st)
     /\ pendingOperations st2 = pendingOperations st)
  /\ (forall d result,
        deleteExpense_begin now today tripId expenseId st = (Some d, st1) ->
        let st2 := deleteExpense_settle nf tripId d (Resolved result) st1 in
        trips st2 = map (on_trip tripId (delete_confirmed expenseId result today)) (trips st)
        /\ activeTrip st2
           = option_map (on_trip tripId (delete_confirmed expenseId result today))
               (activeTrip st)
        /\ pendingOperations st2 = pendingOperations st).
Proof.
  split.
  - intros updates u result Hbegin Hid st2.
    apply updateExpense_begin_some in Hbegin
      as (originalTrip & _ & _ & _ & Hop & Hnew & _ & ->).
    set (applied := update_applied expenseId updates _ today) in *.
    set (confirm := fun trip : Trip.t =>
           Trip.with_expenses
             (map (fun exp => if has_id expenseId exp
                              then UpdateResult.expense result else exp)
                (Trip.expenses trip))
             (UpdateResult.newTotal result) trip).
    assert (Hone : forall trip,
              on_trip tripId confirm (on_trip tripId applied trip)
              = on_trip tripId (update_confirmed expenseId result today) trip).
    { intros trip. rewrite on_trip_twice
        by (intros t; subst applied; destruct t; reflexivity).
      unfold on_trip. destruct (String.eqb (Trip.id trip) tripId); [|reflexivity].
      subst confirm applied. unfold update_confirmed, update_applied.
      destruct trip; cbn. unfold Trip.with_updatedAt, Trip.with_expenses; cbn.
      now rewrite replace_merged. }
    split; [|split].
    + subst st2. unfold updateExpense_settle. cbn [trips set_pending].
      rewrite trips_apply. cbn [trips set_service]. rewrite trips_apply.
      cbn [trips set_pending]. rewrite List.map_map. apply List.map_ext. exact Hone.
    + subst st2. unfold updateExpense_settle. cbn [activeTrip set_pending].
      rewrite activeTrip_apply. cbn [activeTrip set_service]. rewrite activeTrip_apply.
      cbn [activeTrip set_pending].
      destruct (activeTrip st) as [prev|]; cbn [option_map]; [|reflexivity].
      f_equal. apply Hone.
    + subst st2. unfold updateExpense_settle. cbn [pendingOperations set_pending].
      rewrite pending_apply. cbn [pendingOperations set_service].
      rewrite pending_apply. cbn [pendingOperations set_pending].
      rewrite Hop. now apply settle_pending.
  - intros d result Hbegin st2.
    apply deleteExpense_begin_some in Hbegin
      as (originalTrip & _ & _ & Hop & Hnew & ->).
    set (applied := delete_applied expenseId _ today) in *.
    assert (Hone : forall trip,
              on_trip tripId (Trip.with_totalExpenses (DeleteResult.newTotal result))
                (on_trip tripId applied trip)
              = on_trip tripId (delete_confirmed expenseId result today) trip).
    { intros trip. rewrite on_trip_twice
        by (intros t; subst applied; destruct t; reflexivity).
      unfold on_trip. destruct (String.eqb (Trip.id trip) tripId); [|reflexivity].
      subst applied. destruct trip; reflexivity. }
    split; [|split].
    + subst st2. unfold deleteExpense_settle. cbn [trips set_pending].
      rewrite trips_apply. cbn [trips set_service]. rewrite trips_apply.
      cbn [trips set_pending]. rewrite List.map_map. apply List.map_ext. exact Hone.
    + subst st2. unfold deleteExpense_settle. cbn [activeTrip set_pending].
      rewrite activeTrip_apply. cbn [activeTrip set_service]. rewrite activeTrip_apply.
      cbn [activeTrip set_pending].
      destruct (activeTrip st) as [prev|]; cbn [option_map]; [|reflexivity].
      f_equal. apply Hone.
    + subst st2. unfold deleteExpense_settle. cbn [pendingOperations set_pending].
      rewrite pending_apply. cbn [pendingOperations set_service].
      rewrite pending_apply. cbn [pendingOperations set_pending].
      rewrite Hop. now apply settle_pending.
Qed.

Lemma taken_out_and_back expenseId (e : Expense.t) l :
  List.NoDup (map Expense.id l) ->
  List.find (has_id expenseId) l = Some e ->
  Permutation (List.filter (fun exp => negb (has_id expenseId exp)) l ++ [e]) l.
Proof.
  induction l as [|x l IH]; cbn; [discriminate|].
  intros Hnd Hfind. apply List.NoDup_cons_iff in Hnd as [Hnot Hnd].
  destruct (has_id expenseId x) eqn:Hx; cbn.
  - injection Hfind as <-.
    rewrite filter_all.
    + rewrite <- Permutation_cons_append. reflexivity.
    + apply List.forallb_forall. intros y Hy. apply negb_true_iff.
      destruct (has_id expenseId y) eqn:Hy'; [|reflexivity].
      exfalso. apply Hnot. unfold has_id in Hx, Hy'.
      apply String.eqb_eq in Hx, Hy'. rewrite Hx, <- Hy'. now apply List.in_map.
  - constructor. now apply IH.
Qed.

(** X9. When a delete fails after the optimistic apply, the rollback puts the
    expense back and sorts the list: with distinct expense ids and a sort
    that only reorders, the trip found under the id holds the same expenses
    as before the call, possibly in another order, and its total is the old
    total less the amount plus the amount - the old total itself when that
    double arithmetic is exact. The pending-operation set is as before the
    call. *)
Theorem delete_rollback_restores (nf : list Expense.t -> list Expense.t)
    (st st1 : state) (now : Z) (today tripId expenseId message : string) (d : deleting) :
  deleteExpense_begin now today tripId expenseId st = (Some d, st1) ->
  (forall l, Permutation (nf l) l) ->
  let st2 := deleteExpense_settle nf tripId d (Rejected message) st1 in
  exists originalTrip restored,
    List.find (is_trip tripId) (trips st) = Some originalTrip
    /\ List.find (has_id expenseId) (Trip.expenses originalTrip)
       = Some (d_expenseToDelete d)
    /\ List.find (is_trip tripId) (trips st2) = Some restored
    /\ (List.NoDup (map Expense.id (Trip.expenses originalTrip)) ->
        Permutation (Trip.expenses restored) (Trip.expenses originalTrip))
    /\ Trip.totalExpenses restored
       = (Trip.totalExpenses originalTrip - Expense.amount (d_expenseToDelete d)
          + Expense.amount (d_expenseToDelete d))%float
    /\ (difference_reversible (Expense.amount (d_expenseToDelete d)) originalTrip ->
        Trip.totalExpenses restored = Trip.totalExpenses originalTrip)
    /\ pendingOperations st2 = pendingOperations st.
Proof.
  intros Hbegin Hsort st2.
  apply deleteExpense_begin_some in Hbegin
    as (originalTrip & Htrip & Hexp & Hop & Hnew & ->).
  set (applied := delete_applied expenseId _ today) in *.
  exists originalTrip, (delete_undone nf (d_expenseToDelete d) (applied originalTrip)).
  assert (Htotal :
    Trip.totalExpenses (delete_undone nf (d_expenseToDelete d) (applied originalTrip))
    = (Trip.totalExpenses originalTrip - Expense.amount (d_expenseToDelete d)
       + Expense.amount (d_expenseToDelete d))%float).
  { subst applied. destruct originalTrip. reflexivity. }
  split; [exact Htrip|]. split; [exact Hexp|]. split; [|split; [|split; [|split]]].
  - subst st2. unfold deleteExpense_settle. cbn [trips set_pending].
    rewrite trips_apply. cbn [trips set_service]. rewrite trips_apply.
    cbn [trips set_pending]. rewrite List.map_map.
    rewrite (List.map_ext _ (on_trip tripId (fun t =>
               delete_undone nf (d_expenseToDelete d) (applied t)))).
    + rewrite find_on_trip, Htrip; [reflexivity|].
      intros t. subst applied. destruct t. reflexivity.
    + intros t. apply on_trip_twice. intros t0. subst applied. destruct t0. reflexivity.
  - intros Hnd.
    assert (Hes : Trip.expenses (delete_undone nf (d_expenseToDelete d) (applied originalTrip))
                  = nf (List.filter (fun exp => negb (has_id expenseId exp))
                          (Trip.expenses originalTrip) ++ [d_expenseToDelete d])).
    { subst applied. destruct originalTrip. reflexivity. }
    rewrite Hes, Hsort. now apply taken_out_and_back.
  - exact Htotal.
  - intros Hrev. rewrite Htotal. exact Hrev.
  - subst st2. unfold deleteExpense_settle. cbn [pendingOperations set_pending].
    rewrite pending_apply. cbn [pendingOperations set_service].
    rewrite pending_apply. cbn [pendingOperations set_pending].
    rewrite Hop. now apply settle_pending.
Qed.

Section Sessions.

Variable se : NewExpense.t -> string.
Variable su : ExpenseUpdates.t -> string.
Variable nf : list Expense.t -> list Expense.t.

Lemma react_keeps_pending (e : event) (st : state) (operationId : string) :
  finishes e <> Some operationId ->
  operationId ∈ pendingOperations st ->
  operationId ∈ pendingOperations (react se su nf e st).
Proof.
  intros Hother Hin.
  destruct e; cbn [react finishes] in *.
  - unfold addExpense_begin. destruct (user st); [|exact Hin].
    destruct (decide _); [exact Hin|].
    destruct (cached_addExpense _ _ _ _ _) as [p svc]. cbn [snd pendingOperations set_service].
    rewrite pending_apply. cbn. set_solver.
  - unfold addExpense_settle. cbn [pendingOperations set_pending].
    destruct outcome; rewrite pending_apply;
      (apply elem_of_difference; split; [exact Hin|]);
      rewrite elem_of_singleton; congruence.
  - unfold updateExpense_begin. destruct (user st); [|exact Hin].
    destruct (decide _); [exact Hin|].
    destruct (List.find _ _); [|cbn; set_solver].
    destruct (List.find _ _); [|cbn; set_solver].
    destruct (cached_updateExpense _ _ _ _ _) as [p svc]. cbn [snd pendingOperations set_service].
    rewrite pending_apply. cbn. set_solver.
  - unfold updateExpense_settle. cbn [pendingOperations set_pending].
    destruct outcome; rewrite pending_apply;
      (apply elem_of_difference; split; [exact Hin|]);
      rewrite elem_of_singleton; congruence.
  - unfold deleteExpense_begin. destruct (user st); [|exact Hin].
    destruct (decide _); [exact Hin|].
    destruct (List.find _ _); [|cbn; set_solver].
    destruct (List.find _ _); [|cbn; set_solver].
    destruct (cached_deleteExpense _ _ _) as [p svc]. cbn [snd pendingOperations set_service].
    rewrite pending_apply. cbn. set_solver.
  - unfold deleteExpense_settle. cbn [pendingOperations set_pending].
    destruct outcome; rewrite pending_apply;
      (apply elem_of_difference; split; [exact Hin|]);
      rewrite elem_of_singleton; congruence.
Qed.

Lemma replay_keeps_pending (events : list event) : forall (st : state) operationId,
  List.Forall (fun e => finishes e <> Some operationId) events ->
  operationId ∈ pendingOperations st ->
  operationId ∈ pendingOperations (replay se su nf events st).
Proof.
  induction events as [|e events IH]; intros st operationId Hall Hin; [exact Hin|].
  apply List.Forall_cons_iff in Hall as [He Hall]. cbn.
  apply IH; [exact Hall|]. now apply react_keeps_pending.
Qed.

Lemma find_none_not_in_memory tripId expenseId st :
  in_memory tripId expenseId st = false ->
  match List.find (is_trip tripId) (trips st) with
  | Some trip => List.find (has_id expenseId) (Trip.expenses trip) = None
  | None => True
  end.
Proof.
  unfold in_memory. destruct (List.find _ _) as [trip|]; [|auto].
  intros Hex. destruct (List.find _ _) as [e|] eqn:Hfind; [|reflexivity].
  apply List.find_some in Hfind as [Hin He].
  assert (existsb (has_id expenseId) (Trip.expenses trip) = true)
    by (apply List.existsb_exists; eauto).
  congruence.
Qed.

(** X10. A call of [updateExpense] or [deleteExpense] for a trip or an
    expense that is not in memory returns at once - no trip is changed and
    the service is not called - but it has already entered its operation id
    in the pending set, and it never reaches the [finally] that would take
    it out: the id is still pending after any later events of the session
    (calls, and resumptions of other calls - there is none of this call to
    resume, since it returned). *)
Theorem missing_target_leaves_id_pending (st : state) (now : Z)
    (today tripId expenseId : string) (later : list event) :
  is_Some (user st) ->
  in_memory tripId expenseId st = false ->
  (forall updates,
     let operationId := "update-" +:+ expenseId +:+ "-" +:+ show_Z now in
     let r := updateExpense_begin su now today tripId expenseId updates st in
     operationId ∉ pendingOperations st ->
     List.Forall (fun e => finishes e <> Some operationId) later ->
     fst r = None
     /\ trips (snd r) = trips st /\ activeTrip (snd r) = activeTrip st
     /\ expenseService (snd r) = expenseService st
     /\ operationId ∈ pendingOperations (replay se su nf later (snd r)))
  /\ (let operationId := "delete-" +:+ expenseId +:+ "-" +:+ show_Z now in
      let r := deleteExpense_begin now today tripId expenseId st in
      operationId ∉ pendingOperations st ->
      List.Forall (fun e => finishes e <> Some operationId) later ->
      fst r = None
      /\ trips (snd r) = trips st /\ activeTrip (snd r) = activeTrip st
      /\ expenseService (snd r) = expenseService st
      /\ operationId ∈ pendingOperations (replay se su nf later (snd r))).
Proof.
  intros [uid Hu] Hmem. apply find_none_not_in_memory in Hmem.
  split.
  - intros updates operationId r Hnew Hlater. subst r.
    assert (Hr : updateExpense_begin su now today tripId expenseId updates st
                 = (None, set_pending ({[operationId]} ∪ pendingOperations st) st)).
    { unfold updateExpense_begin. rewrite Hu.
      destruct (decide _) as [Hin|_]; [contradiction|].
      cbn [trips set_pending]. fold (is_trip tripId).
      destruct (List.find (is_trip tripId) (trips st)); [|reflexivity].
      now rewrite Hmem. }
    rewrite Hr. cbn [fst snd trips activeTrip expenseService set_pending].
    repeat split. apply replay_keeps_pending; [exact Hlater|]. cbn. set_solver.
  - intros operationId r Hnew Hlater. subst r.
    assert (Hr : deleteExpense_begin now today tripId expenseId st
                 = (None, set_pending ({[operationId]} ∪ pendingOperations st) st)).
    { unfold deleteExpense_begin. rewrite Hu.
      destruct (decide _) as [Hin|_]; [contradiction|].
      cbn [trips set_pending]. fold (is_trip tripId).
      destruct (List.find (is_trip tripId) (trips st)); [|reflexivity].
      now rewrite Hmem. }
    rewrite Hr. cbn [fst snd trips activeTrip expenseService set_pending].
    repeat split. apply replay_keeps_pending; [exact Hlater|]. cbn. set_solver.
Qed.

End Sessions.

(** *** The operation cache empties itself *)

Lemma run_timers_expiring now bound s :
  expiring bound s -> expiring bound (run_timers now s).
Proof.
  intros [Hcov Hdue]. split; cbn.
  - intros key Hsome.
    destruct (in_dec string_dec key (map snd (List.filter (due now) (timers s))))
      as [Hin|Hnot].
    + rewrite lookup_deleted_in in Hsome by exact Hin. now destruct Hsome.
    + rewrite lookup_deleted in Hsome by exact Hnot.
      apply Hcov in Hsome. apply List.in_map_iff in Hsome as (timer & <- & Hin).
      apply List.in_map. apply List.filter_In. split; [exact Hin|].
      destruct (due now timer) eqn:Hd; [|reflexivity].
      exfalso. apply Hnot. apply List.in_map. apply List.filter_In. auto.
  - intros timer Hin. apply List.filter_In in Hin as [Hin _]. auto.
Qed.

Lemma cached_expiring key op now bound s :
  (now + CACHE_TIMEOUT <= bound)%Z ->
  expiring bound s -> expiring bound (snd (cached key op now s)).
Proof.
  intros Hnow Hexp. apply (run_timers_expiring now) in Hexp. unfold cached.
  destruct (operationCache (run_timers now s) !! key) as [p|] eqn:Hlook; cbn [snd];
    [exact Hexp|].
  destruct Hexp as [Hcov Hdue]. split; cbn.
  - intros k Hsome. rewrite List.map_app, List.in_app_iff. cbn.
    destruct (decide (key = k)) as [->|Hne]; [auto|].
    rewrite lookup_insert_ne in Hsome by exact Hne. auto.
  - intros timer Hin. apply List.in_app_iff in Hin as [Hin|[<-|[]]]; [auto|exact Hnow].
Qed.

Lemma cached_calls_expiring calls : forall bound s,
  List.Forall (fun call => (fst (fst call) + CACHE_TIMEOUT <= bound)%Z) calls ->
  expiring bound s -> expiring bound (cached_calls calls s).
Proof.
  induction calls as [|[[now key] op] calls IH]; intros bound s Hall Hexp; [exact Hexp|].
  apply List.Forall_cons_iff in Hall as [Hnow Hall]. cbn.
  apply IH; [exact Hall|]. now apply cached_expiring.
Qed.

(** X11. The cache of [cachedExpenseService] keeps nothing for good: after
    any calls of its three functions, once [CACHE_TIMEOUT] has passed since
    the last of them, the timers have emptied the cache and none is left
    to run. *)
Theorem cache_empties_after_timeout (calls : list (Z * string * operation)) (later : Z) :
  List.Forall (fun call => (fst (fst call) + CACHE_TIMEOUT <= later)%Z) calls ->
  operationCache (run_timers later (cached_calls calls no_service)) = ∅
  /\ timers (run_timers later (cached_calls calls no_service)) = [].
Proof.
  intros Hall.
  destruct (cached_calls_expiring calls later no_service Hall) as [Hcov Hdue].
  { split; [|intros timer []]. intros key Hsome. cbn in Hsome.
    rewrite lookup_empty in Hsome. now destruct Hsome. }
  assert (Hall_due : List.filter (due later) (timers (cached_calls calls no_service))
                     = timers (cached_calls calls no_service)).
  { apply filter_all. apply List.forallb_forall. intros timer Hin.
    unfold due. apply Z.leb_le. auto. }
  split; cbn.
  - apply map_eq. intros key. rewrite lookup_empty, Hall_due.
    destruct (operationCache (cached_calls calls no_service) !! key) as [p|] eqn:Hk.
    + apply lookup_deleted_in. apply Hcov. eauto.
    + destruct (in_dec string_dec key (map snd (timers (cached_calls calls no_service)))).
      * now apply lookup_deleted_in.
      * now rewrite lookup_deleted.
  - clear Hcov Hall_due. induction (timers (cached_calls calls no_service))
      as [|timer l IH]; [reflexivity|].
    cbn. assert (Ht : due later timer = true).
    { unfold due. apply Z.leb_le. apply Hdue. now left. }
    rewrite Ht. cbn. apply IH. intros timer0 Hin. apply Hdue. now right.
Qed.

Lemma put_newest_permutation e l : Permutation (put_newest e l) (e :: l).
Proof.
  induction l as [|x l IH]; cbn; [reflexivity|].
  destruct (String.ltb _ _); [|reflexivity].
  rewrite IH. apply perm_swap.
Qed.

Lemma newest_first_by_text_permutation l : Permutation (newest_first_by_text l) l.
Proof.
  induction l as [|e l IH]; cbn; [reflexivity|].
  rewrite put_newest_permutation. now constructor.
Qed.

Lemma confirm_takes_server_values_witness :
  updateExpense_begin describe_updates 2000 "2025-01-10T13:00:00.000Z" "T" "A"
    (raise_to 200%float) (a_session 120.5%float [hotel]) = (Some hotel_updating, hotel_begun)
  /\ (ExpenseUpdates.id (raise_to 200%float) = None
      \/ ExpenseUpdates.id (raise_to 200%float) = Some "A")
  /\ map (fun t => (map Expense.amount (Trip.expenses t), Trip.totalExpenses t))
       (trips (updateExpense_settle "T" "A" hotel_updating (Resolved hotel_raised)
                 hotel_begun))
     = [([200%float], 200%float)].
Proof.
  assert (Hbegin : updateExpense_begin describe_updates 2000 "2025-01-10T13:00:00.000Z"
                     "T" "A" (raise_to 200%float) (a_session 120.5%float [hotel])
                   = (Some hotel_updating, hotel_begun)) by reflexivity.
  split; [exact Hbegin|]. split; [left; reflexivity|].
  rewrite (proj1 (proj1 (confirm_takes_server_values describe_updates
                           newest_first_by_text _ _ 2000 _ "T" "A")
                    (raise_to 200%float) hotel_updating hotel_raised Hbegin
                    (or_introl eq_refl))).
  reflexivity.
Defined.

Lemma delete_rollback_restores_witness :
  deleteExpense_begin 3000 "2025-01-10T14:00:00.000Z" "T" "A"
    (a_session 165.5%float [hotel; taxi]) = (Some hotel_deleting, hotel_gone)
  /\ (forall l, Permutation (newest_first_by_text l) l)
  /\ exists originalTrip restored,
       List.find (is_trip "T") (trips (a_session 165.5%float [hotel; taxi]))
       = Some originalTrip
       /\ List.find (is_trip "T")
            (trips (deleteExpense_settle newest_first_by_text "T" hotel_deleting
                      (Rejected "Failed to fetch") hotel_gone)) = Some restored
       /\ Trip.totalExpenses restored
          = (Trip.totalExpenses originalTrip - Expense.amount hotel
             + Expense.amount hotel)%float.
Proof.
  assert (Hbegin : deleteExpense_begin 3000 "2025-01-10T14:00:00.000Z" "T" "A"
                     (a_session 165.5%float [hotel; taxi])
                   = (Some hotel_deleting, hotel_gone)) by reflexivity.
  split; [exact Hbegin|]. split; [exact newest_first_by_text_permutation|].
  destruct (delete_rollback_restores newest_first_by_text _ _ 3000 _ "T" "A"
              "Failed to fetch" hotel_deleting Hbegin newest_first_by_text_permutation)
    as (originalTrip & restored & H1 & _ & H3 & _ & H5 & _).
  exists originalTrip, restored. auto.
Defined.

Example delete_rolled_back :
  map (fun t => (map Expense.id (Trip.expenses t), Trip.totalExpenses t))
    (trips (a_session 165.5%float [hotel; taxi])) = [(["A"; "B"], 165.5%float)]
  /\ map (fun t => (map Expense.id (Trip.expenses t), Trip.totalExpenses t))
       (trips hotel_gone) = [(["B"], 45%float)]
  /\ map (fun t => (map Expense.id (Trip.expenses t), Trip.totalExpenses t))
       (trips (deleteExpense_settle newest_first_by_text "T" hotel_deleting
                 (Rejected "Failed to fetch") hotel_gone))
     = [(["B"; "A"], 165.5%float)].
Proof. vm_compute. repeat split; reflexivity. Qed.

Lemma missing_target_leaves_id_pending_witness :
  is_Some (user (a_session 120.5%float [hotel]))
  /\ in_memory "T" "Z" (a_session 120.5%float [hotel]) = false
  /\ fst (deleteExpense_begin 3000 "2025-01-10T14:00:00.000Z" "T" "Z"
            (a_session 120.5%float [hotel])) = None
  /\ "delete-Z-3000"
     ∈ pendingOperations
         (replay describe describe_updates newest_first_by_text
            [addExpense_called 4000 "2025-01-10T14:00:01.000Z" "T" lunch]
            (snd (deleteExpense_begin 3000 "2025-01-10T14:00:00.000Z" "T" "Z"
                    (a_session 120.5%float [hotel])))).
Proof.
  assert (Hu : is_Some (user (a_session 120.5%float [hotel]))) by (eexists; reflexivity).
  split; [exact Hu|]. split; [reflexivity|].
  destruct (proj2 (missing_target_leaves_id_pending describe describe_updates
                     newest_first_by_text (a_session 120.5%float [hotel]) 3000
                     "2025-01-10T14:00:00.000Z" "T" "Z"
                     [addExpense_called 4000 "2025-01-10T14:00:01.000Z" "T" lunch]
                     Hu eq_refl))
    as (H1 & _ & _ & _ & H5).
  - cbn. set_solver.
  - repeat constructor. discriminate.
  - auto.
Defined.

Lemma cache_empties_after_timeout_witness :
  List.Forall (fun call => (fst (fst call) + CACHE_TIMEOUT <= 2400)%Z)
    [(1000%Z, "add-T-lunch", addExpenseOptimized "T" lunch);
     (1400%Z, "delete-A", deleteExpenseOptimized "A")]
  /\ operationCache
       (run_timers 2400
          (cached_calls [(1000%Z, "add-T-lunch", addExpenseOptimized "T" lunch);
                         (1400%Z, "delete-A", deleteExpenseOptimized "A")] no_service))
     = ∅.
Proof.
  assert (H : List.Forall (fun call => (fst (fst call) + CACHE_TIMEOUT <= 2400)%Z)
                [(1000%Z, "add-T-lunch", addExpenseOptimized "T" lunch);
                 (1400%Z, "delete-A", deleteExpenseOptimized "A")]).
  { repeat constructor; cbn; unfold CACHE_TIMEOUT; lia. }
  split; [exact H|]. exact (proj1 (cache_empties_after_timeout _ 2400 H)).
Defined.

End SettledFacts.

(** ** Reading the ledger *)

Module ReadingFacts.

Import Ledger Reading ReadingScenarios BackendScenarios.

Local Open Scope Z_scope.

Lemma all_different_NoDup l : all_different l = true -> List.NoDup l.
Proof.
  induction l as [|s l IH]; cbn; [constructor|].
  intros H. apply andb_prop in H as [Hs Hl]. constructor; [|auto].
  intros Hin. apply negb_true_iff in Hs.
  assert (existsb (String.eqb s) l = true); [|congruence].
  apply List.existsb_exists. exists s. split; [exact Hin|apply String.eqb_refl].
Qed.

Lemma first_numbers_different :
  all_different (map trip_number_after (seq 0 999)) = true.
Proof. vm_compute. reflexivity. Qed.

Lemma substring_length s : forall n,
  (n <= String.length s)%nat -> String.length (String.substring 0 n s) = n.
Proof.
  induction s as [|c s IH]; intros [|n] Hn; cbn in *; try reflexivity; try lia.
  rewrite IH; [reflexivity|lia].
Qed.

Lemma append_length s1 s2 :
  String.length (String.append s1 s2) = (String.length s1 + String.length s2)%nat.
Proof. induction s1 as [|c s1 IH]; simpl; [reflexivity|now f_equal]. Qed.

Lemma string_of_list_length l : String.length (string_of_list_ascii l) = length l.
Proof. induction l as [|c l IH]; simpl; [reflexivity|now f_equal]. Qed.

Lemma lpad_length s n fill : String.length (lpad s n fill) = n.
Proof.
  unfold lpad. destruct (n <=? String.length s)%nat eqn:Hn.
  - apply Nat.leb_le in Hn. now apply substring_length.
  - apply Nat.leb_gt in Hn.
    rewrite append_length, string_of_list_length, List.repeat_length. lia.
Qed.

Lemma generate_trip_number_after user_uuid d :
  generate_trip_number user_uuid d = trip_number_after (trips_of user_uuid d).
Proof. reflexivity. Qed.

Lemma trip_number_after_inj n n' :
  (n < 999)%nat -> (n' < 999)%nat ->
  trip_number_after n = trip_number_after n' -> n = n'.
Proof.
  intros Hn Hn' Heq.
  apply (LedgerFacts.NoDup_map_same trip_number_after (seq 0 999)).
  - apply all_different_NoDup, first_numbers_different.
  - apply List.in_seq. lia.
  - apply List.in_seq. lia.
  - exact Heq.
Qed.

(** X12. A trip number always has five characters, ["TR"] and three more.
    While a user has fewer than 999 trips, the number tells how many trips
    the user had when it was generated: two ledgers in which the user has
    different numbers of trips, both below 999, give different numbers. *)
Theorem trip_number_tells_the_count (u u' : uuid) (d d' : db) :
  String.length (generate_trip_number u d) = 5%nat
  /\ ((trips_of u d < 999)%nat -> (trips_of u' d' < 999)%nat ->
      generate_trip_number u d = generate_trip_number u' d' ->
      trips_of u d = trips_of u' d').
Proof.
  split.
  - unfold generate_trip_number. rewrite append_length, lpad_length. reflexivity.
  - rewrite !generate_trip_number_after. apply trip_number_after_inj.
Qed.

(** *** Expense mutations and the [trips] table *)

Lemma same_details_refl t : same_details t t.
Proof. repeat split. Qed.

Lemma same_details_set s t : same_details t (set_total_expenses s t).
Proof. repeat split. Qed.

Lemma retotalled_trips r tids d d' :
  fire_triggers r tids d = Ok d' -> List.Forall2 same_details (trips d) (trips d').
Proof.
  intros H. apply LedgerFacts.fire_triggers_spec in H as [_ ->].
  induction (trips d) as [|t ts IH]; cbn [map]; constructor; [|exact IH].
  destruct (_ && _); [apply same_details_set|apply same_details_refl].
Qed.

Lemma Forall2_same_refl ts : List.Forall2 same_details ts ts.
Proof. induction ts; constructor; [apply same_details_refl|assumption]. Qed.

Lemma Forall2_same_trans ts1 ts2 ts3 :
  List.Forall2 same_details ts1 ts2 -> List.Forall2 same_details ts2 ts3 ->
  List.Forall2 same_details ts1 ts3.
Proof.
  intros H. revert ts3. induction H as [|t1 t2 l1 l2 Ht Hl IH]; intros ts3 H3.
  - inversion H3. constructor.
  - inversion H3 as [|t2' t3 l2' l3 Ht3 Hl3]; subst. constructor; [|auto].
    unfold same_details in *. intuition congruence.
Qed.

Lemma insert_expense_retotals r new_id v d row d' :
  insert_expense r new_id v d = Ok (row, d') ->
  List.Forall2 same_details (trips d) (trips d').
Proof.
  unfold insert_expense. intros H.
  apply LedgerFacts.bind_ok in H as (row0 & _ & H).
  apply LedgerFacts.bind_ok in H as (d0 & Htrig & H). injection H as _ <-.
  rewrite <- LedgerFacts.fire_one in Htrig.
  now apply retotalled_trips in Htrig.
Qed.

Lemma batch_loop_retotals tid uid items : forall d rows d',
  batch_loop tid uid items d = Ok (rows, d') ->
  List.Forall2 same_details (trips d) (trips d').
Proof.
  induction items as [|[new_id i] items IH]; intros d rows d' H; cbn in H.
  - injection H as _ <-. apply Forall2_same_refl.
  - apply LedgerFacts.bind_pair_ok in H as (row & d1 & Hins & H).
    apply LedgerFacts.bind_pair_ok in H as (rows1 & d2 & Hloop & H).
    injection H as _ <-.
    eapply Forall2_same_trans; [eapply insert_expense_retotals|eapply IH]; eauto.
Qed.

(** X13. A mutation of the [expenses] table - a plain insert, update or
    delete, or a call of one of the four procedures - leaves the [trips]
    table with the same rows in the same order, each with its [id],
    [user_id], [trip_number], [origin], [destination], [travel_mode],
    [date], [time], [notes], [travelers] and [status] as they were: of the
    columns kept here it changes [total_expenses] at most. And on a ledger
    whose totals match, whose keys hold and whose expenses sit on trips of
    their own users, when the mutation puts no row on another user's trip,
    a trip whose expenses sum to the same amount before and after keeps its
    [total_expenses]. *)
Theorem expense_mutations_only_retotal (m : mutation) (d : db) :
  on_expenses m = true ->
  List.Forall2 same_details (trips d) (trips (perform m d))
  /\ (well_kept d -> on_own_trips m d = true ->
      List.Forall2
        (fun t t' => trip_sum (t_id t) (expenses (perform m d))
                     = trip_sum (t_id t) (expenses d) ->
                     t_total_expenses t' = t_total_expenses t)
        (trips d) (trips (perform m d))).
Proof.
  intros Hm.
  assert (Hsame : List.Forall2 same_details (trips d) (trips (perform m d))).
  { destruct m; try discriminate Hm; cbn [perform].
    - destruct (insert_expense _ new_id v d) as [[row d']|e] eqn:H; cbn;
        [now apply insert_expense_retotals in H|apply Forall2_same_refl].
    - destruct (forallb _ news); [|apply Forall2_same_refl].
      destruct (insert_expenses _ news d) as [[rows d']|e] eqn:H; cbn;
        [|apply Forall2_same_refl].
      unfold insert_expenses in H.
      apply LedgerFacts.bind_pair_ok in H as (rows0 & d1 & Hadd & H).
      apply LedgerFacts.bind_ok in H as (d2 & Hfire & H). injection H as _ <-.
      apply LedgerFacts.add_rows_spec in Hadd as (<- & _).
      now apply retotalled_trips in Hfire.
    - destruct (update_expenses _ id user p d) as [[rows d']|e] eqn:H; cbn;
        [|apply Forall2_same_refl].
      apply LedgerFacts.update_expenses_spec in H as [_ Hfire].
      now apply retotalled_trips in Hfire.
    - destruct (delete_expenses _ id user d) as [[rows d']|e] eqn:H; cbn;
        [|apply Forall2_same_refl].
      unfold delete_expenses in H.
      apply LedgerFacts.bind_ok in H as (d1 & Hfire & H). injection H as _ <-.
      now apply retotalled_trips in Hfire.
    - destruct (add_expense_with_total new_id v d) as [[r d']|e] eqn:H; cbn;
        [|apply Forall2_same_refl].
      unfold add_expense_with_total in H. destruct (negb _); [discriminate|].
      apply LedgerFacts.bind_pair_ok in H as (row & d1 & Hins & H).
      injection H as _ <-. now apply insert_expense_retotals in Hins.
    - destruct (update_expense_with_total p_expense_id p_user_id p d)
        as [[r d']|e] eqn:H; cbn; [|apply Forall2_same_refl].
      unfold update_expense_with_total in H. destruct (List.find _ _); [|discriminate].
      apply LedgerFacts.bind_pair_ok in H as (rows & d1 & Hupd & H).
      injection H as _ <-.
      apply LedgerFacts.update_expenses_spec in Hupd as [_ Hfire].
      now apply retotalled_trips in Hfire.
    - destruct (delete_expense_with_total p_expense_id p_user_id d)
        as [[r d']|e] eqn:H; cbn; [|apply Forall2_same_refl].
      unfold delete_expense_with_total in H. destruct (List.find _ _); [|discriminate].
      apply LedgerFacts.bind_pair_ok in H as (rows & d1 & Hdel & H).
      injection H as _ <-. unfold delete_expenses in Hdel.
      apply LedgerFacts.bind_ok in Hdel as (d2 & Hfire & Hdel). injection Hdel as _ <-.
      now apply retotalled_trips in Hfire.
    - destruct (batch_add_expenses p_trip_id p_user_id items d)
        as [[r d']|e] eqn:H; cbn; [|apply Forall2_same_refl].
      unfold batch_add_expenses in H. destruct (negb _); [discriminate|].
      apply LedgerFacts.bind_pair_ok in H as (rows & d1 & Hloop & H).
      injection H as _ <-. now apply batch_loop_retotals in Hloop. }
  split; [exact Hsame|].
  intros Hok Hon. pose proof (LedgerFacts.perform_ok m d Hok Hon) as [[Htot' _] _].
  destruct Hok as [[Htot _] _]. unfold totals_match in *.
  revert Htot Htot'. induction Hsame as [|t t' ts ts' Ht Hts IH]; intros Htot Htot';
    [constructor|].
  apply List.Forall_cons_iff in Htot as [Ht0 Htot].
  apply List.Forall_cons_iff in Htot' as [Ht0' Htot'].
  constructor; [|auto].
  intros Hsum. destruct Ht as [Hid _]. now rewrite Ht0', <- Hid, Hsum.
Qed.

(** *** Statistics by category *)

Lemma put_stats_permutation x l : Permutation (put_stats x l) (x :: l).
Proof.
  induction l as [|y l IH]; cbn; [reflexivity|].
  destruct (_ <? _); [|reflexivity]. rewrite IH. apply perm_swap.
Qed.

Lemma by_total_desc_permutation l : Permutation (by_total_desc l) l.
Proof.
  induction l as [|x l IH]; cbn; [reflexivity|].
  rewrite put_stats_permutation. now constructor.
Qed.

Lemma put_stats_descending x l : descending l -> descending (put_stats x l).
Proof.
  unfold descending. induction 1 as [|y l Hy Hl IH]; cbn.
  - repeat constructor.
  - destruct (cs_total_amount x <? cs_total_amount y) eqn:Hxy.
    + apply Z.ltb_lt in Hxy. constructor; [|exact IH].
      apply List.Forall_forall. intros z Hz.
      apply (Permutation_in _ (put_stats_permutation x l)) in Hz as [<-|Hz]; [lia|].
      rewrite List.Forall_forall in Hy. auto.
    + apply Z.ltb_ge in Hxy. constructor; [|now constructor].
      constructor; [exact Hxy|].
      apply List.Forall_forall. intros z Hz. rewrite List.Forall_forall in Hy.
      specialize (Hy z Hz). lia.
Qed.

Lemma by_total_desc_descending l : descending (by_total_desc l).
Proof.
  induction l as [|x l IH]; cbn; [constructor|]. now apply put_stats_descending.
Qed.

Lemma sum_amounts_cons e rows : sum_amounts (e :: rows) = e_amount e + sum_amounts rows.
Proof. reflexivity. Qed.

Lemma indicator_absent (c : string) (x : Z) cats :
  ~ In c cats ->
  fold_right Z.add 0 (map (fun c' => if String.eqb c c' then x else 0) cats) = 0.
Proof.
  induction cats as [|c' cats IH]; cbn; [reflexivity|].
  intros Hnot. destruct (String.eqb_spec c c') as [->|Hne]; [tauto|].
  rewrite IH; tauto.
Qed.

Lemma indicator_sum (c : string) (x : Z) cats :
  List.NoDup cats -> In c cats ->
  fold_right Z.add 0 (map (fun c' => if String.eqb c c' then x else 0) cats) = x.
Proof.
  induction 1 as [|c' cats Hc Hnd IH]; cbn; [tauto|].
  intros [->|Hin].
  - rewrite String.eqb_refl, indicator_absent by exact Hc. lia.
  - destruct (String.eqb_spec c c') as [->|Hne]; [contradiction|]. now rewrite IH.
Qed.

Lemma fold_add_split (f g : string -> Z) cats :
  fold_right Z.add 0 (map (fun c => f c + g c) cats)
  = fold_right Z.add 0 (map f cats) + fold_right Z.add 0 (map g cats).
Proof. induction cats as [|c cats IH]; simpl; [reflexivity|]. rewrite IH. lia. Qed.

Lemma group_sums cats : forall rows,
  List.NoDup cats ->
  (forall e, In e rows -> In (e_category e) cats) ->
  fold_right Z.add 0 (map (fun c => cs_total_amount (stats_of rows c)) cats)
  = sum_amounts rows
  /\ fold_right Z.add 0 (map (fun c => cs_count (stats_of rows c)) cats)
     = Z.of_nat (length rows).
Proof.
  intros rows Hnd. induction rows as [|e rows IH]; intros Hin.
  - cbn. clear. induction cats as [|c cats IH]; cbn; [auto|]. lia.
  - destruct IH as [IHs IHc]; [intros; apply Hin; now right|].
    assert (He : In (e_category e) cats) by (apply Hin; now left).
    split.
    + rewrite sum_amounts_cons, <- IHs.
      transitivity (fold_right Z.add 0
                      (map (fun c => (if String.eqb (e_category e) c then e_amount e else 0)
                                     + cs_total_amount (stats_of rows c)) cats)).
      { f_equal. apply List.map_ext. intros c. cbn.
        destruct (String.eqb (e_category e) c); reflexivity. }
      transitivity (fold_right Z.add 0
                      (map (fun c => if String.eqb (e_category e) c then e_amount e else 0)
                         cats)
                    + fold_right Z.add 0
                        (map (fun c => cs_total_amount (stats_of rows c)) cats)).
      { apply fold_add_split. }
      now rewrite (indicator_sum (e_category e) (e_amount e) cats Hnd He).
    + cbn [length]. rewrite Nat2Z.inj_succ, <- IHc.
      transitivity (fold_right Z.add 0
                      (map (fun c => (if String.eqb (e_category e) c then 1 else 0)
                                     + cs_count (stats_of rows c)) cats)).
      { f_equal. apply List.map_ext. intros c. cbn.
        destruct (String.eqb (e_category e) c); cbn [length]; lia. }
      transitivity (fold_right Z.add 0
                      (map (fun c => if String.eqb (e_category e) c then 1 else 0) cats)
                    + fold_right Z.add 0
                        (map (fun c => cs_count (stats_of rows c)) cats)).
      { apply fold_add_split. }
      rewrite (indicator_sum (e_category e) 1 cats Hnd He). lia.
Qed.

Lemma round_half_away_near a n :
  0 < n -> Z.abs (2 * (round_half_away a n * n - a)) <= n.
Proof.
  intros Hn. unfold round_half_away.
  pose proof (Z.div_mod (2 * Z.abs a + n) (2 * n) ltac:(lia)) as Hdm.
  pose proof (Z.mod_pos_bound (2 * Z.abs a + n) (2 * n) ltac:(lia)) as Hm.
  destruct (Z.sgn_spec a) as [[Ha ->]|[[Ha ->]|[Ha ->]]]; nia.
Qed.

Lemma fold_add_permutation (l l' : list Z) :
  Permutation l l' -> fold_right Z.add 0 l = fold_right Z.add 0 l'.
Proof. induction 1; cbn; lia. Qed.

(** X14. [get_expense_stats_by_category] refuses a trip that is not the
    caller's; otherwise its array has one element per category among the
    caller's expenses on the trip, no category twice, in descending order
    of total; the totals add up to the sum of those expenses and the counts
    to their number; every count is at least one, and every average is
    within half a hundredth of total / count. *)
Theorem stats_by_category_partition (p_trip_id p_user_id : uuid) (d : db) :
  let rows := List.filter (of_trip_and_user p_trip_id p_user_id) (expenses d) in
  match get_expense_stats_by_category p_trip_id p_user_id d with
  | Err e => e = access_denied /\ owns_trip p_trip_id p_user_id d = false
  | Ok stats =>
      owns_trip p_trip_id p_user_id d = true
      /\ List.NoDup (map cs_category stats)
      /\ (forall c, In c (map cs_category stats) <-> In c (map e_category rows))
      /\ descending stats
      /\ fold_right Z.add 0 (map cs_total_amount stats) = sum_amounts rows
      /\ fold_right Z.add 0 (map cs_count stats) = Z.of_nat (length rows)
      /\ List.Forall (fun x =>
           1 <= cs_count x
           /\ Z.abs (2 * (cs_avg_amount x * cs_count x - cs_total_amount x))
              <= cs_count x) stats
  end.
Proof.
  intros rows. unfold get_expense_stats_by_category.
  destruct (owns_trip p_trip_id p_user_id d); cbn [negb]; [|auto].
  fold rows. set (cats := nodup string_dec (map e_category rows)).
  pose proof (by_total_desc_permutation (map (stats_of rows) cats)) as Hperm.
  assert (Hcats : map cs_category (map (stats_of rows) cats) = cats).
  { rewrite List.map_map. cbn. apply List.map_id. }
  assert (Hnd : List.NoDup cats) by apply List.NoDup_nodup.
  destruct (group_sums cats rows Hnd) as [Hsum Hcount].
  { intros e He. apply List.nodup_In. now apply List.in_map. }
  split; [reflexivity|]. split; [|split; [|split; [|split; [|split]]]].
  - eapply Permutation_NoDup; [symmetry; apply Permutation_map; exact Hperm|].
    now rewrite Hcats.
  - intros c. rewrite (Permutation_in' eq_refl (Permutation_map cs_category Hperm)) at 1.
    rewrite Hcats. apply List.nodup_In.
  - apply by_total_desc_descending.
  - rewrite (fold_add_permutation _ _ (Permutation_map cs_total_amount Hperm)).
    now rewrite List.map_map.
  - rewrite (fold_add_permutation _ _ (Permutation_map cs_count Hperm)).
    now rewrite List.map_map.
  - apply List.Forall_forall. intros x Hx.
    apply (Permutation_in _ Hperm) in Hx. apply List.in_map_iff in Hx as (c & <- & Hc).
    apply List.nodup_In, List.in_map_iff in Hc as (e & Hcat & He).
    assert (Hpos : 1 <= cs_count (stats_of rows c)).
    { cbn. assert (In e (List.filter (fun e => String.eqb (e_category e) c) rows)).
      { apply List.filter_In. split; [exact He|]. rewrite Hcat. apply String.eqb_refl. }
      destruct (List.filter _ rows); [contradiction|cbn [length]; lia]. }
    split; [exact Hpos|]. apply round_half_away_near. cbn in Hpos |- *. lia.
Qed.

(** *** Pages of expenses *)

Section Pages.

Variable created_at : uuid -> Z.

Local Abbreviation sorted := (newest_rows created_at).

Lemma put_row_permutation e l : Permutation (put_row created_at e l) (e :: l).
Proof.
  induction l as [|y l IH]; cbn; [reflexivity|].
  destruct (_ <? _); [|reflexivity]. rewrite IH. apply perm_swap.
Qed.

Lemma newest_rows_permutation l : Permutation (sorted l) l.
Proof.
  induction l as [|x l IH]; cbn; [reflexivity|].
  rewrite put_row_permutation. now constructor.
Qed.

Lemma put_row_sorted e l :
  newest_to_oldest created_at l -> newest_to_oldest created_at (put_row created_at e l).
Proof.
  unfold newest_to_oldest. induction 1 as [|y l Hy Hl IH]; cbn.
  - repeat constructor.
  - destruct (created_at (e_id e) <? created_at (e_id y)) eqn:Hxy.
    + apply Z.ltb_lt in Hxy. constructor; [|exact IH].
      apply List.Forall_forall. intros z Hz.
      apply (Permutation_in _ (put_row_permutation e l)) in Hz as [<-|Hz]; [lia|].
      rewrite List.Forall_forall in Hy. auto.
    + apply Z.ltb_ge in Hxy. constructor; [|now constructor].
      constructor; [exact Hxy|].
      apply List.Forall_forall. intros z Hz. rewrite List.Forall_forall in Hy.
      specialize (Hy z Hz). lia.
Qed.

Lemma newest_rows_sorted l : newest_to_oldest created_at (sorted l).
Proof. induction l as [|x l IH]; cbn; [constructor|]. now apply put_row_sorted. Qed.

Lemma sorted_again l : newest_to_oldest created_at l -> sorted l = l.
Proof.
  unfold newest_to_oldest, newest_rows.
  induction 1 as [|x l Hx Hl IH]; cbn [fold_right]; [reflexivity|].
  rewrite IH. destruct l as [|y l]; cbn; [reflexivity|].
  apply List.Forall_cons_iff in Hx as [Hxy _].
  apply Z.ltb_ge in Hxy. now rewrite Hxy.
Qed.

Lemma sorted_skipn n : forall l,
  newest_to_oldest created_at l -> newest_to_oldest created_at (skipn n l).
Proof.
  unfold newest_to_oldest.
  induction n as [|n IH]; intros l Hl; [exact Hl|].
  destruct l as [|x l]; [constructor|]. cbn. apply IH. now inversion Hl.
Qed.

Lemma sorted_firstn n : forall l,
  newest_to_oldest created_at l -> newest_to_oldest created_at (firstn n l).
Proof.
  unfold newest_to_oldest.
  induction n as [|n IH]; intros l Hl; [constructor|].
  destruct l as [|x l]; [constructor|]. cbn. inversion Hl as [|? ? Hx Hl']; subst.
  constructor; [|now apply IH]. now apply Forall_take.
Qed.

Lemma page_run p_trip_id p_user_id n o d :
  0 <= n -> 0 <= o -> o + n <= max_integer ->
  let mine := List.filter (of_trip_and_user p_trip_id p_user_id) (expenses d) in
  Z.of_nat (length mine) <= max_integer ->
  get_trip_expenses_with_stats created_at p_trip_id p_user_id (Some n) (Some o) d
  = if owns_trip p_trip_id p_user_id d
    then Ok {| page_expenses := firstn (Z.to_nat n) (skipn (Z.to_nat o) (sorted mine));
               page_total_amount := select_total_expenses p_trip_id d;
               page_total_count := Z.of_nat (length mine);
               page_limit := Some n; page_offset := Some o;
               page_has_more := Some (o + n <? Z.of_nat (length mine)) |}
    else Err access_denied.
Proof.
  intros Hn Ho Hsum mine Hcount. unfold get_trip_expenses_with_stats.
  destruct (owns_trip p_trip_id p_user_id d); cbn [negb]; [|reflexivity].
  fold mine. replace (max_integer <? Z.of_nat (length mine)) with false
    by (symmetry; apply Z.ltb_ge; exact Hcount).
  unfold limit_offset, more_than.
  replace (o <? 0) with false by (symmetry; apply Z.ltb_ge; exact Ho).
  replace (n <? 0) with false by (symmetry; apply Z.ltb_ge; exact Hn).
  replace (max_integer <? o + n) with false by (symmetry; apply Z.ltb_ge; exact Hsum).
  replace (o + n <? - max_integer - 1) with false
    by (symmetry; apply Z.ltb_ge; unfold max_integer; lia).
  cbn [bind orb]. rewrite sorted_again; [reflexivity|].
  apply sorted_firstn, sorted_skipn, newest_rows_sorted.
Qed.

(** X15. [get_trip_expenses_with_stats] with a limit and an offset that are
    not negative: it refuses a trip that is not the caller's; otherwise the
    page is the stretch of the caller's expenses on the trip, newest first,
    that starts after [p_offset] of them and is at most [p_limit] long - it
    holds min(limit, count - offset) expenses; [total_count] counts all of
    them, [total_amount] is the trip's stored total, and [has_more] says
    exactly whether an expense lies beyond the page. On a ledger whose
    totals match, [total_amount] is the sum over every expense of the
    trip. *)
Theorem page_of_expenses (p_trip_id p_user_id : uuid) (n o : Z) (d : db) :
  0 <= n -> 0 <= o -> o + n <= max_integer ->
  let mine := List.filter (of_trip_and_user p_trip_id p_user_id) (expenses d) in
  Z.of_nat (length mine) <= max_integer ->
  match get_trip_expenses_with_stats created_at p_trip_id p_user_id (Some n) (Some o) d with
  | Err e => e = access_denied /\ owns_trip p_trip_id p_user_id d = false
  | Ok page =>
      owns_trip p_trip_id p_user_id d = true
      /\ page_expenses page = firstn (Z.to_nat n) (skipn (Z.to_nat o) (sorted mine))
      /\ Permutation (sorted mine) mine
      /\ newest_to_oldest created_at (sorted mine)
      /\ Z.of_nat (length (page_expenses page))
         = Z.min n (Z.max 0 (Z.of_nat (length mine) - o))
      /\ page_total_count page = Z.of_nat (length mine)
      /\ page_total_amount page = select_total_expenses p_trip_id d
      /\ (page_has_more page = Some true
          <-> skipn (Z.to_nat (o + n)) (sorted mine) <> [])
      /\ (page_has_more page = Some true \/ page_has_more page = Some false)
      /\ (ledger_ok d ->
          page_total_amount page = Some (trip_sum p_trip_id (expenses d)))
  end.
Proof.
  intros Hn Ho Hsum mine Hcount.
  rewrite (page_run p_trip_id p_user_id n o d Hn Ho Hsum Hcount). fold mine.
  destruct (owns_trip p_trip_id p_user_id d) eqn:Hown; [|auto].
  cbn [page_expenses page_total_amount page_total_count page_has_more].
  assert (Hlen : length (sorted mine) = length mine)
    by apply Permutation_length, newest_rows_permutation.
  split; [reflexivity|]. split; [reflexivity|].
  split; [apply newest_rows_permutation|]. split; [apply newest_rows_sorted|].
  split; [|split; [reflexivity|split; [reflexivity|split; [|split]]]].
  - rewrite length_take, length_drop, Hlen. lia.
  - split.
    + intros H. injection H as H. apply Z.ltb_lt in H.
      intros Hnil. apply (f_equal (@length _)) in Hnil.
      rewrite length_drop, Hlen in Hnil. cbn in Hnil. lia.
    + intros H. f_equal. apply Z.ltb_lt.
      destruct (Z.lt_ge_cases (o + n) (Z.of_nat (length mine))) as [Hlt|Hge];
        [exact Hlt|].
      exfalso. apply H. apply drop_ge. rewrite Hlen. lia.
  - destruct (_ <? _); auto.
  - intros [Htot _]. apply LedgerFacts.select_total_of_existing; [exact Htot|].
    now apply LedgerFacts.owns_trip_exists in Hown.
Qed.

Lemma newest_first_unique (l l' : list expense_row) :
  List.NoDup (map (fun e => created_at (e_id e)) l) ->
  Permutation l l' ->
  newest_to_oldest created_at l -> newest_to_oldest created_at l' -> l = l'.
Proof.
  unfold newest_to_oldest. revert l'.
  induction l as [|x xs IH]; intros l' Hnd Hperm Hl Hl'.
  - now apply Permutation_nil in Hperm.
  - destruct l' as [|y ys]; [now apply Permutation_sym, Permutation_nil in Hperm|].
    cbn [map] in Hnd. apply List.NoDup_cons_iff in Hnd as [Hx Hnd].
    inversion Hl as [|? ? Hxs Hl0]; subst. inversion Hl' as [|? ? Hys Hl0']; subst.
    rewrite List.Forall_forall in Hxs, Hys.
    assert (Hxy : x = y).
    { assert (Hy : In y (x :: xs))
        by (apply (Permutation_in _ (Permutation_sym Hperm)); now left).
      destruct Hy as [Hy|Hy]; [exact Hy|].
      assert (Hin : In x (y :: ys)) by (apply (Permutation_in _ Hperm); now left).
      destruct Hin as [Hin|Hin]; [now symmetry|].
      exfalso. apply Hx.
      replace (created_at (e_id x)) with (created_at (e_id y))
        by (specialize (Hxs y Hy); specialize (Hys x Hin); lia).
      now apply (List.in_map (fun e => created_at (e_id e))). }
    subst y. f_equal. apply IH; [exact Hnd| |exact Hl0|exact Hl0'].
    now apply Permutation_cons_inv in Hperm.
Qed.

(** X16. Paging through the caller's expenses on a trip when no two of them
    were created at the same time. There is then one way only to put them
    newest first, the one [ORDER BY created_at DESC] gives in every call;
    the page of [n1] expenses at offset [o] followed by the page of [n2]
    expenses at offset [o + n1] is the page of [n1 + n2] expenses at offset
    [o] - successive pages neither repeat nor skip an expense - and the
    call with NULL for the limit and for the offset returns all of the
    caller's expenses on the trip, and no [has_more]. *)
Theorem pages_follow_one_another (p_trip_id p_user_id : uuid) (n1 n2 o : Z) (d : db)
    (first second both every : expenses_page) :
  0 <= n1 -> 0 <= n2 -> 0 <= o -> o + n1 + n2 <= max_integer ->
  List.NoDup (map (fun e => created_at (e_id e))
                (List.filter (of_trip_and_user p_trip_id p_user_id) (expenses d))) ->
  get_trip_expenses_with_stats created_at p_trip_id p_user_id (Some n1) (Some o) d
  = Ok first ->
  get_trip_expenses_with_stats created_at p_trip_id p_user_id (Some n2) (Some (o + n1)) d
  = Ok second ->
  get_trip_expenses_with_stats created_at p_trip_id p_user_id (Some (n1 + n2)) (Some o) d
  = Ok both ->
  get_trip_expenses_with_stats created_at p_trip_id p_user_id None None d = Ok every ->
  (forall l,
     Permutation l (List.filter (of_trip_and_user p_trip_id p_user_id) (expenses d)) ->
     newest_to_oldest created_at l ->
     l = sorted (List.filter (of_trip_and_user p_trip_id p_user_id) (expenses d)))
  /\ page_expenses both = page_expenses first ++ page_expenses second
  /\ page_expenses every
     = sorted (List.filter (of_trip_and_user p_trip_id p_user_id) (expenses d))
  /\ Permutation (page_expenses every)
       (List.filter (of_trip_and_user p_trip_id p_user_id) (expenses d))
  /\ page_has_more every = None.
Proof.
  intros Hn1 Hn2 Ho Hsum Hstamps H1 H2 H12 Hall.
  set (mine := List.filter (of_trip_and_user p_trip_id p_user_id) (expenses d)) in *.
  assert (Hown : owns_trip p_trip_id p_user_id d = true
                 /\ Z.of_nat (length mine) <= max_integer).
  { unfold get_trip_expenses_with_stats in Hall.
    destruct (owns_trip p_trip_id p_user_id d); [|discriminate]. cbn [negb] in Hall.
    fold mine in Hall. destruct (max_integer <? Z.of_nat (length mine)) eqn:Hc;
      [discriminate|]. apply Z.ltb_ge in Hc. auto. }
  destruct Hown as [Hown Hcount].
  rewrite page_run in H1, H2, H12 by (try assumption; lia).
  rewrite Hown in H1, H2, H12. injection H1 as <-. injection H2 as <-.
  injection H12 as <-. cbn [page_expenses]. fold mine.
  assert (Hevery : page_expenses every = sorted mine /\ page_has_more every = None).
  { unfold get_trip_expenses_with_stats in Hall. rewrite Hown in Hall.
    cbn [negb] in Hall. fold mine in Hall.
    replace (max_integer <? Z.of_nat (length mine)) with false in Hall
      by (symmetry; apply Z.ltb_ge; exact Hcount).
    cbn in Hall. injection Hall as <-. cbn [page_expenses page_has_more].
    split; [|reflexivity]. apply sorted_again, newest_rows_sorted. }
  destruct Hevery as [Hevery Hmore].
  split; [|split; [|split; [exact Hevery|split; [|exact Hmore]]]].
  - intros l Hperm Hl. apply newest_first_unique; [| |exact Hl|apply newest_rows_sorted].
    + apply (Permutation_NoDup (l := map (fun e => created_at (e_id e)) mine));
        [|exact Hstamps].
      apply Permutation_map. now symmetry.
    + rewrite Hperm. symmetry. apply newest_rows_permutation.
  - rewrite !Z2Nat.inj_add by assumption.
    rewrite <- drop_drop. symmetry. apply take_take_drop.
  - rewrite Hevery. apply newest_rows_permutation.
Qed.

End Pages.

Lemma trip_number_tells_the_count_witness :
  (trips_of "u1" empty_db < 999)%nat /\ (trips_of "u1" trip_ledger < 999)%nat
  /\ String.length (generate_trip_number "u1" trip_ledger) = 5%nat
  /\ generate_trip_number "u1" empty_db <> generate_trip_number "u1" trip_ledger.
Proof.
  assert (H0 : (trips_of "u1" empty_db < 999)%nat) by (cbn; lia).
  assert (H1 : (trips_of "u1" trip_ledger < 999)%nat) by (cbn; lia).
  split; [exact H0|]. split; [exact H1|].
  destruct (trip_number_tells_the_count "u1" "u1" empty_db trip_ledger) as [_ Hinj].
  split; [exact (proj1 (trip_number_tells_the_count "u1" "u1" trip_ledger empty_db))|].
  intros Heq. specialize (Hinj H0 H1 Heq). discriminate Hinj.
Defined.

Lemma expense_mutations_only_retotal_witness :
  on_expenses (DELETE_expenses "A" "u1") = true
  /\ List.Forall2 same_details (trips trip_ledger)
       (trips (perform (DELETE_expenses "A" "u1") trip_ledger))
  /\ map t_total_expenses (trips (perform (DELETE_expenses "A" "u1") trip_ledger))
     = [0].
Proof.
  split; [reflexivity|]. split; [|reflexivity].
  exact (proj1 (expense_mutations_only_retotal (DELETE_expenses "A" "u1") trip_ledger
                  eq_refl)).
Defined.

Example stats_by_category_example :
  get_expense_stats_by_category "T" "u1" three_expenses
  = Ok [ {| cs_category := "accommodation"; cs_total_amount := 12050; cs_count := 1;
            cs_avg_amount := 12050 |};
         {| cs_category := "food"; cs_total_amount := 9000; cs_count := 2;
            cs_avg_amount := 4500 |} ]
  /\ get_expense_stats_by_category "T" "u2" three_expenses = Err access_denied
  /\ map (fun a => round_half_away a 2) [1; 3; -1; -3; 4] = [1; 2; -1; -2; 2].
Proof. vm_compute. repeat split; reflexivity. Qed.

Lemma page_of_expenses_witness :
  0 <= 2 /\ 0 <= 0 /\ 0 + 2 <= max_integer
  /\ Z.of_nat (length (List.filter (of_trip_and_user "T" "u1") (expenses three_expenses)))
     <= max_integer
  /\ option_map (fun p => (map e_id (page_expenses p), page_has_more p))
       (match get_trip_expenses_with_stats entered "T" "u1" (Some 2) (Some 0)
                three_expenses with
        | Ok p => Some p | Err _ => None end)
     = Some (["C"; "B"], Some true).
Proof.
  split; [lia|]. split; [lia|]. split; [unfold max_integer; lia|].
  split; [unfold max_integer; cbn; lia|].
  pose proof (page_of_expenses entered "T" "u1" 2 0 three_expenses
                ltac:(lia) ltac:(lia) ltac:(unfold max_integer; lia)
                ltac:(unfold max_integer; cbn; lia)) as H.
  cbv zeta in H.
  destruct (get_trip_expenses_with_stats entered "T" "u1" (Some 2) (Some 0)
              three_expenses) as [p|e] eqn:Hp.
  - vm_compute in Hp. injection Hp as <-. reflexivity.
  - destruct H as [_ H]. discriminate H.
Defined.

Lemma pages_follow_one_another_witness :
  exists first second both every,
    get_trip_expenses_with_stats entered "T" "u1" (Some 2) (Some 0) three_expenses
    = Ok first
    /\ get_trip_expenses_with_stats entered "T" "u1" (Some 2) (Some (0 + 2)) three_expenses
       = Ok second
    /\ get_trip_expenses_with_stats entered "T" "u1" (Some (2 + 2)) (Some 0) three_expenses
       = Ok both
    /\ get_trip_expenses_with_stats entered "T" "u1" None None three_expenses = Ok every
    /\ List.NoDup (map (fun e => entered (e_id e))
                     (List.filter (of_trip_and_user "T" "u1") (expenses three_expenses)))
    /\ map e_id (page_expenses first) = ["C"; "B"]
    /\ map e_id (page_expenses second) = ["A"]
    /\ page_expenses both = page_expenses first ++ page_expenses second.
Proof.
  assert (Hstamps : List.NoDup (map (fun e => entered (e_id e))
                      (List.filter (of_trip_and_user "T" "u1")
                         (expenses three_expenses)))).
  { vm_compute. repeat constructor; cbn; intuition discriminate. }
  do 4 eexists.
  split; [reflexivity|]. split; [reflexivity|]. split; [reflexivity|].
  split; [reflexivity|]. split; [exact Hstamps|].
  split; [reflexivity|]. split; [reflexivity|].
  exact (proj1 (proj2 (pages_follow_one_another entered "T" "u1" 2 2 0 three_expenses
                         _ _ _ _
                         ltac:(lia) ltac:(lia) ltac:(lia) ltac:(unfold max_integer; lia)
                         Hstamps eq_refl eq_refl eq_refl eq_refl))).
Defined.

End ReadingFacts.

(** ** Import and export *)

Module ImportExportFacts.

Import ImportExport.

Lemma append_cons c t u : String c t +:+ u = String c (t +:+ u).
Proof. reflexivity. Qed.

Lemma append_nil u : "" +:+ u = u.
Proof. reflexivity. Qed.

Lemma prefix_inside c t u :
  t <> "" -> String.prefix ", " (String c (t +:+ u)) = String.prefix ", " (String c t).
Proof.
  destruct t as [|c' t]; [congruence|]. intros _. rewrite append_cons.
  cbn [String.prefix].
  destruct (ascii_dec "," c); [|reflexivity].
  destruct (ascii_dec " " c'); [|reflexivity].
  now destruct (t +:+ u), t.
Qed.

Lemma prefix_at_end c u : String.prefix ", " (String c (", " +:+ u)) = false.
Proof.
  rewrite append_cons. cbn [String.prefix].
  destruct (ascii_dec "," c); [|reflexivity].
  destruct (ascii_dec " " ","); [discriminate|reflexivity].
Qed.

Lemma prefix_separator u : String.prefix ", " (", " +:+ u) = true.
Proof. rewrite !append_cons, append_nil. now destruct u. Qed.

Lemma append_assoc_char piece c t : (piece +:+ String c "") +:+ t = piece +:+ String c t.
Proof.
  induction piece as [|x piece IH]; [reflexivity|].
  rewrite !append_cons. now rewrite IH.
Qed.

Lemma append_empty piece : piece +:+ "" = piece.
Proof.
  induction piece as [|x piece IH]; [reflexivity|]. rewrite append_cons. now rewrite IH.
Qed.

Lemma split_piece t : forall piece u,
  occurs ", " t = false ->
  split_from ", " 0 piece (t +:+ ", " +:+ u) = (piece +:+ t) :: split_from ", " 0 "" u.
Proof.
  induction t as [|c t IH]; intros piece u Hclean.
  - rewrite append_nil, append_empty. pose proof (prefix_separator u) as Hsep.
    rewrite !append_cons, append_nil in *. cbn [split_from]. rewrite Hsep. reflexivity.
  - cbn [occurs] in Hclean. apply orb_false_elim in Hclean as [Hhere Hrest].
    rewrite append_cons. cbn [split_from].
    assert (Hno : String.prefix ", " (String c (t +:+ ", " +:+ u)) = false).
    { destruct t as [|c' t]; [apply prefix_at_end|].
      rewrite prefix_inside by discriminate. exact Hhere. }
    rewrite Hno, IH by exact Hrest. now rewrite append_assoc_char.
Qed.

Lemma split_last t : forall piece,
  occurs ", " t = false -> split_from ", " 0 piece t = [piece +:+ t].
Proof.
  induction t as [|c t IH]; intros piece Hclean.
  - now rewrite append_empty.
  - cbn [occurs] in Hclean. apply orb_false_elim in Hclean as [Hhere Hrest].
    cbn [split_from]. rewrite Hhere, IH by exact Hrest. now rewrite append_assoc_char.
Qed.

Lemma split_join names :
  names <> [] -> forallb plain_name names = true ->
  split ", " (join ", " names) = names.
Proof.
  unfold split, join. induction names as [|name names IH]; [congruence|].
  intros _ Hall. cbn [forallb] in Hall. apply andb_prop in Hall as [Hname Hall].
  apply andb_prop in Hname as [_ Hclean]. apply negb_true_iff in Hclean.
  destruct names as [|next names].
  - cbn [String.concat]. now apply split_last.
  - change (String.concat ", " (name :: next :: names))
      with (name +:+ ", " +:+ String.concat ", " (next :: names)).
    rewrite split_piece by exact Hclean. rewrite append_nil. f_equal.
    apply IH; [discriminate|exact Hall].
Qed.


Lemma or_else_some s fallback : s <> "" -> or_else (Some s) fallback = s.
Proof.
  intros Hs. unfold or_else. destruct (String.eqb_spec s ""); [contradiction|reflexivity].
Qed.

Lemma or_else_empty s : or_else (Some s) "" = s.
Proof. unfold or_else. now destruct (String.eqb_spec s ""). Qed.

Lemma or_else_filled x fallback : fallback <> "" -> or_else x fallback <> "".
Proof.
  intros Hf. unfold or_else. destruct x as [s|]; [|exact Hf].
  now destruct (String.eqb_spec s "").
Qed.

Lemma nonempty_true s : negb (String.eqb s "") = true <-> s <> "".
Proof. destruct (String.eqb_spec s ""); cbn; split; congruence. Qed.

Lemma join_filled name names : name <> "" -> join ", " (name :: names) <> "".
Proof.
  intros Hname. unfold join. destruct name as [|c name]; [congruence|].
  destruct names; cbn [String.concat]; [discriminate|]. rewrite append_cons. discriminate.
Qed.

Lemma travelers_back names :
  forallb plain_name names = true -> travelers_of (Some (join ", " names)) = names.
Proof.
  intros Hall. destruct names as [|name names]; [reflexivity|].
  assert (Hname : name <> "").
  { cbn [forallb] in Hall. apply andb_prop in Hall as [Hname _].
    apply andb_prop in Hname as [Hname _]. now apply nonempty_true. }
  unfold travelers_of. cbn [truthy Ledger.coalesce].
  pose proof (join_filled name names Hname) as Hfilled.
  apply nonempty_true in Hfilled. rewrite Hfilled.
  rewrite split_join by (discriminate || exact Hall).
  apply List.forallb_filter_id. apply List.forallb_forall. intros n Hn.
  rewrite List.forallb_forall in Hall. specialize (Hall n Hn).
  now apply andb_prop in Hall as [Hn' _].
Qed.

Lemma imported_back today trip :
  complete trip = true -> imported today (written (trip_export trip)) = kept trip.
Proof.
  unfold complete. rewrite !andb_true_iff, !nonempty_true.
  intros [[[[[[Ho Hd] Hm] Hdate] Htime] Hstatus] Hnames].
  unfold imported, written, trip_export, kept.
  cbn [Row.tripNumber Row.origin Row.destination Row.travelMode Row.date Row.time
       Row.notes Row.travelers Row.status TripExportData.tripNumber
       TripExportData.origin TripExportData.destination TripExportData.travelMode
       TripExportData.date TripExportData.time TripExportData.notes
       TripExportData.travelers TripExportData.status].
  rewrite !or_else_empty, travelers_back by exact Hnames.
  now rewrite !or_else_some by assumption.
Qed.

(** X17. Trips written by [exportTripsToCSV] and read back by
    [importTripsFromCSV], each cell coming back as the text written: when
    every trip has an origin, a destination, a travel mode, a date, a time
    and a status, and no traveler's name is empty or holds a comma followed
    by a space, the import gives the trips back in order with their number,
    places, mode, date, time, notes, travelers and status. *)
Theorem export_then_import today trips :
  forallb complete trips = true ->
  importTrips today (map written (trips_export trips)) = map kept trips.
Proof.
  unfold importTrips, trips_export. induction trips as [|trip trips IH]; [reflexivity|].
  intros Hall. cbn [forallb] in Hall. apply andb_prop in Hall as [Htrip Hall].
  cbn [map List.filter]. rewrite (imported_back today trip Htrip).
  unfold complete in Htrip. rewrite !andb_true_iff in Htrip.
  destruct Htrip as [[[[[[Ho Hd] _] _] _] _] _].
  cbn [kept Imported.origin Imported.destination]. rewrite Ho, Hd. cbn [andb].
  f_equal. now apply IH.
Qed.

Lemma export_then_import_witness :
  importTrips "2025-03-01" (map written (trips_export [ExportScenarios.to_goa]))
  = map kept [ExportScenarios.to_goa].
Proof. apply export_then_import. reflexivity. Defined.

Example family_name_is_split :
  map Imported.travelers
    (importTrips "2025-03-01" (map written (trips_export [ExportScenarios.with_family_name])))
  = [["Kumar"; "Ravi"]].
Proof. reflexivity. Qed.

(** X18. [importTripsFromCSV] keeps, in order, exactly the lines whose
    origin and destination cells are both present and not empty; in every
    trip it returns the origin, destination, travel mode, time and status
    are not empty (nor the date, the day of the import not being empty) and
    no traveler's name is empty. *)
Theorem import_keeps_lines_with_both_places today rows :
  today <> "" ->
  importTrips today rows
  = map (imported today)
      (List.filter (fun row => truthy (Row.origin row) && truthy (Row.destination row)) rows)
  /\ Forall (fun trip =>
               Imported.origin trip <> "" /\ Imported.destination trip <> ""
               /\ Imported.travelMode trip <> "" /\ Imported.date trip <> ""
               /\ Imported.time trip <> "" /\ Imported.status trip <> ""
               /\ Forall (fun name => name <> "") (Imported.travelers trip))
       (importTrips today rows).
Proof.
  intros Htoday. split.
  - unfold importTrips. induction rows as [|row rows IH]; [reflexivity|].
    cbn [map List.filter]. rewrite IH.
    assert (Hsame : forall x, negb (String.eqb (or_else x "") "") = truthy x).
    { intros [x|]; [|reflexivity]. unfold or_else, truthy.
      destruct (String.eqb x "") eqn:E; rewrite ?E; reflexivity. }
    cbn [imported Imported.origin Imported.destination]. rewrite !Hsame.
    now destruct (truthy (Row.origin row) && truthy (Row.destination row)).
  - unfold importTrips. apply List.Forall_forall. intros trip Hin.
    apply List.filter_In in Hin as [Hin Hboth]. apply andb_prop in Hboth as [Ho Hd].
    apply nonempty_true in Ho, Hd. apply List.in_map_iff in Hin as [row [<- _]].
    cbn [imported Imported.origin Imported.destination Imported.travelMode
         Imported.date Imported.time Imported.status Imported.travelers] in *.
    repeat split; try assumption; try (apply or_else_filled; (discriminate || assumption)).
    unfold travelers_of. destruct (truthy (Row.travelers row)); [|constructor].
    apply List.Forall_forall. intros name Hname. apply List.filter_In in Hname as [_ Hname].
    now apply nonempty_true.
Qed.

Lemma import_keeps_lines_with_both_places_witness :
  importTrips "2025-03-01" [ExportScenarios.no_destination; ExportScenarios.bare_line]
  = [Imported.mk "" "Pune" "Goa" "car" "2025-03-01" "09:00" "" [] "planning"].
Proof.
  rewrite (proj1 (import_keeps_lines_with_both_places "2025-03-01"
                    [ExportScenarios.no_destination; ExportScenarios.bare_line]
                    ltac:(discriminate))).
  reflexivity.
Defined.

Lemma filter_flat_map {A B} (p : B -> bool) (f : A -> list B) (l : list A) :
  List.filter p (flat_map f l) = flat_map (fun a => List.filter p (f a)) l.
Proof.
  induction l as [|a l IH]; [reflexivity|]. cbn [flat_map].
  now rewrite List.filter_app, IH.
Qed.

Lemma filter_nothing {A} (p : A -> bool) (l : list A) :
  (forall a, In a l -> p a = false) -> List.filter p l = [].
Proof.
  induction l as [|a l IH]; [reflexivity|]. intros Hall. cbn [List.filter].
  rewrite (Hall a) by now left. apply IH. intros b Hb. apply Hall. now right.
Qed.

(** X19. In the rows of [exportExpensesToCSV], the rows carrying a trip
    number are the expenses of the trips with that number, in the order of
    the trips and of their expenses: when the trip numbers are all
    different, exactly the expenses of that trip; and there is one row per
    expense. *)
Theorem expenses_export_by_trip trips number :
  List.filter (fun row => String.eqb (ExpenseExportData.tripNumber row) number)
    (expenses_export trips)
  = expenses_export
      (List.filter (fun trip => String.eqb (Trip.tripNumber trip) number) trips)
  /\ (forall trip, In trip trips -> List.NoDup (map Trip.tripNumber trips) ->
      Trip.tripNumber trip = number ->
      List.filter (fun row => String.eqb (ExpenseExportData.tripNumber row) number)
        (expenses_export trips)
      = expenses_export [trip])
  /\ length (expenses_export trips)
     = fold_right (fun trip n => (length (Trip.expenses trip) + n)%nat) 0%nat trips.
Proof.
  assert (Hfirst : forall l,
    List.filter (fun row => String.eqb (ExpenseExportData.tripNumber row) number)
      (expenses_export l)
    = expenses_export
        (List.filter (fun trip => String.eqb (Trip.tripNumber trip) number) l)).
  { intros l. unfold expenses_export. induction l as [|trip l IH]; [reflexivity|].
    cbn [flat_map List.filter]. rewrite List.filter_app, IH.
    destruct (String.eqb (Trip.tripNumber trip) number) eqn:E.
    - cbn [flat_map]. f_equal. apply List.forallb_filter_id. apply List.forallb_forall.
      intros row Hrow. apply List.in_map_iff in Hrow as [e [<- _]]. exact E.
    - rewrite filter_nothing; [reflexivity|].
      intros row Hrow. apply List.in_map_iff in Hrow as [e [<- _]]. exact E. }
  split; [apply Hfirst|]. split.
  - intros trip Hin Hnodup Hnumber. rewrite Hfirst. f_equal.
    clear Hfirst. induction trips as [|t trips IH]; [contradiction|].
    cbn [map] in Hnodup. apply List.NoDup_cons_iff in Hnodup as [Hout Hnodup].
    cbn [List.filter]. destruct Hin as [->|Hin].
    + rewrite Hnumber, String.eqb_refl. f_equal.
      apply filter_nothing. intros t Ht. apply String.eqb_neq. intros Heq. apply Hout.
      rewrite Hnumber, <- Heq. now apply List.in_map.
    + destruct (String.eqb_spec (Trip.tripNumber t) number) as [Heq|_].
      * exfalso. apply Hout. rewrite Heq, <- Hnumber. now apply List.in_map.
      * now apply IH.
  - unfold expenses_export. induction trips as [|trip trips IH]; [reflexivity|].
    cbn [flat_map fold_right]. now rewrite List.length_app, List.length_map, IH.
Qed.

Lemma expenses_export_by_trip_witness :
  List.filter (fun row => String.eqb (ExpenseExportData.tripNumber row) "TR002")
    (expenses_export [ExportScenarios.goa_with_meals; ExportScenarios.delhi_with_taxi])
  = expenses_export [ExportScenarios.delhi_with_taxi].
Proof.
  apply (proj1 (proj2 (expenses_export_by_trip
                         [ExportScenarios.goa_with_meals; ExportScenarios.delhi_with_taxi]
                         "TR002")) ExportScenarios.delhi_with_taxi).
  - right. left. reflexivity.
  - repeat constructor; cbn; intuition discriminate.
  - reflexivity.
Defined.

Lemma with_status_disjoint s trips :
  (length (with_status s trips)
   + length (List.filter (fun trip => negb (String.eqb (Trip.status trip) s)) trips)
   = length trips)%nat.
Proof.
  unfold with_status. induction trips as [|trip trips IH]; [reflexivity|].
  cbn [List.filter]. destruct (String.eqb (Trip.status trip) s); cbn [negb length]; lia.
Qed.

(** X20. The counts of the 'Summary' sheet of [exportTripsToExcel]: active,
    completed and planned trips together never exceed the total, and make
    up the total exactly when every trip has one of the three statuses of
    the table. *)
Theorem summary_counts trips :
  let s := summary_of trips in
  (active_trips s + completed_trips s + planned_trips s <= total_trips s)%nat
  /\ ((active_trips s + completed_trips s + planned_trips s = total_trips s)%nat
      <-> Forall (fun trip => Ledger.status_check (Trip.status trip) = true) trips).
Proof.
  cbn [summary_of active_trips completed_trips planned_trips total_trips].
  unfold with_status.
  induction trips as [|trip trips [IHle IHeq]]; [cbn; split; [lia|split; [constructor|lia]]|].
  cbn [List.filter length].
  assert (Hone : Ledger.status_check (Trip.status trip)
                 = String.eqb (Trip.status trip) "in_progress"
                   || String.eqb (Trip.status trip) "completed"
                   || String.eqb (Trip.status trip) "planning").
  { unfold Ledger.status_check.
    now destruct (String.eqb (Trip.status trip) "in_progress"),
      (String.eqb (Trip.status trip) "completed"),
      (String.eqb (Trip.status trip) "planning"). }
  destruct (String.eqb_spec (Trip.status trip) "in_progress") as [E1|E1];
  destruct (String.eqb_spec (Trip.status trip) "completed") as [E2|E2];
  destruct (String.eqb_spec (Trip.status trip) "planning") as [E3|E3];
  try congruence; cbn [length orb] in *; (split; [lia|]);
  rewrite List.Forall_cons_iff, Hone, <- IHeq; split; try lia;
  intros [? ?]; try discriminate; lia.
Qed.

End ImportExportFacts.

(** ** The settings page *)

Module SettingsFacts.

Import Ledger Supabase Services Backend Stores Awaiting Reading ImportExport Settings.

Section AnyAnswer.

Context {W : Type}.
Variable answer : forall X, call X -> W -> X * W.

Lemma awaiting_run {A B} (p : prog A) (rest : A -> prog B) w :
  run answer (awaiting p rest) w
  = match run answer p w with
    | (Resolved a, w1, sent) => after sent (run answer (rest a) w1)
    | (Rejected message, w1, sent) => (Rejected message, w1, sent)
    end.
Proof.
  revert w. induction p as [a|message|X c k IH]; intros w; cbn [awaiting run].
  - now destruct (run answer (rest a) w) as [[o v] s].
  - reflexivity.
  - destruct (answer X c w) as [x w1]. rewrite IH.
    destruct (run answer (k x) w1) as [[[a|message] v] s]; [|reflexivity].
    now destruct (run answer (rest a) v) as [[o v'] s'].
Qed.

Lemma try_catch_run {A} (p : prog A) (handler : string -> prog A) w :
  run answer (try_catch p handler) w
  = match run answer p w with
    | (Resolved a, w1, sent) => (Resolved a, w1, sent)
    | (Rejected message, w1, sent) => after sent (run answer (handler message) w1)
    end.
Proof.
  revert w. induction p as [a|message|X c k IH]; intros w; cbn [try_catch run].
  - reflexivity.
  - now destruct (run answer (handler message) w) as [[o v] s].
  - destruct (answer X c w) as [x w1]. rewrite IH.
    destruct (run answer (k x) w1) as [[[a|message] v] s]; [reflexivity|].
    now destruct (run answer (handler message) v) as [[o v'] s'].
Qed.

Lemma rethrow_run {A} (p : prog A) w :
  run answer (try_catch p (fun message => Throw message)) w = run answer p w.
Proof.
  rewrite try_catch_run. destruct (run answer p w) as [[[a|message] v] s]; [reflexivity|].
  cbn. now rewrite app_nil_r.
Qed.

End AnyAnswer.

Lemma show_Z_inj a b : show_Z a = show_Z b -> a = b.
Proof.
  unfold show_Z. intros Heq. apply to_int_inj.
  assert (Hok : forall z, NilZero.int_of_string (NilZero.string_of_int (Z.to_int z))
                          = Some (Z.to_int z)).
  { intros z. apply NilZero.isi; destruct z; cbn; try discriminate;
      intros H; injection H; apply Unsigned.to_uint_nonnil. }
  pose proof (Hok a) as Ha. rewrite Heq, Hok in Ha. now injection Ha.
Qed.

Lemma append_inj_r s a b : s +:+ a = s +:+ b -> a = b.
Proof. induction s as [|c s IH]; cbn; [auto|]. intros H. injection H. exact IH. Qed.

Lemma uuid_generate_v4_inj n m : uuid_generate_v4 n = uuid_generate_v4 m -> n = m.
Proof.
  unfold uuid_generate_v4. intros H. apply append_inj_r, show_Z_inj in H. lia.
Qed.

Section Served.

Variable numeric_in : number -> option decimal.
Local Abbreviation run' := (run (answer numeric_in)).

Lemma deleteTrip_run w uid tripId :
  session w = Some uid -> lost w = [] ->
  exists d,
    delete_trips tripId uid (database w) = Ok d
    /\ run' (Services.deleteTrip tripId) w
       = (Resolved tt, next_request (with_database d (next_request w)),
          [auth "getUser"; from "trips" "delete"]).
Proof.
  intros Hs Hl. eexists. split; [reflexivity|]. unfold Services.deleteTrip.
  rewrite (FallbackFacts.with_user_run numeric_in _ _ w uid Hs Hl). cbn [run].
  rewrite FallbackFacts.answer_served by exact Hl.
  cbn [serve]. unfold as_user. cbn [session next_request]. rewrite Hs, String.eqb_refl.
  reflexivity.
Qed.


Lemma hook_deleteTrip_run w uid u tripId :
  session w = Some uid -> lost w = [] ->
  exists d,
    delete_trips tripId uid (database w) = Ok d
    /\ run' (TripManagerSupabase.deleteTrip (Some u) tripId) w
       = (Resolved tt, next_request (with_database d (next_request w)),
          [auth "getUser"; from "trips" "delete"]).
Proof.
  intros Hs Hl. destruct (deleteTrip_run w uid tripId Hs Hl) as [d [Hd Hrun]].
  exists d. split; [exact Hd|]. unfold TripManagerSupabase.deleteTrip.
  rewrite rethrow_run, awaiting_run, Hrun. reflexivity.
Qed.

Lemma gone_or_listed uid id rest x ts :
  existsb (String.eqb x) (map t_id (List.filter (trip_targets id uid) ts))
  || existsb (fun t => String.eqb (t_user_id t) uid
                       && existsb (String.eqb (t_id t)) rest
                       && String.eqb (t_id t) x)
       (List.filter (fun t => negb (trip_targets id uid t)) ts)
  = existsb (fun t => String.eqb (t_user_id t) uid
                      && (String.eqb (t_id t) id || existsb (String.eqb (t_id t)) rest)
                      && String.eqb (t_id t) x) ts.
Proof.
  induction ts as [|t ts IH]; [reflexivity|].
  cbn [List.filter existsb]. rewrite <- IH. clear IH.
  set (A := existsb (String.eqb x) (map t_id (List.filter (trip_targets id uid) ts))).
  set (B := existsb _ (List.filter (fun t => negb (trip_targets id uid t)) ts)).
  destruct (trip_targets id uid t) eqn:Et; unfold trip_targets in Et;
    cbn [andb orb negb map existsb]; fold A; fold B;
    rewrite ?(String.eqb_sym x (t_id t));
    destruct (String.eqb (t_id t) id), (String.eqb (t_user_id t) uid); try discriminate;
    cbn [andb orb];
    destruct (String.eqb (t_id t) x), A, B, (existsb (String.eqb (t_id t)) rest);
    reflexivity.
Qed.


Lemma filter_filter_and {A} (p q : A -> bool) l :
  List.filter q (List.filter p l) = List.filter (fun a => p a && q a) l.
Proof.
  induction l as [|a l IH]; [reflexivity|]. cbn [List.filter].
  destruct (p a); cbn [List.filter andb]; [|exact IH]. destruct (q a); now rewrite IH.
Qed.

Lemma delete_loop uid u listed : forall w,
  session w = Some uid -> lost w = [] ->
  let r := run' (for_each listed
                   (fun trip => TripManagerSupabase.deleteTrip (Some u) (Trip.id trip))) w in
  outcome r = Resolved tt
  /\ trips (database (backend r))
     = List.filter (fun t => negb (listed_for uid listed t)) (trips (database w))
  /\ expenses (database (backend r))
     = List.filter
         (fun e => negb (existsb (fun t => listed_for uid listed t
                                           && String.eqb (t_id t) (e_trip_id e))
                           (trips (database w))))
         (expenses (database w)).
Proof.
  induction listed as [|trip listed IH]; intros w Hs Hl.
  - cbn. split; [reflexivity|]. split.
    + symmetry. apply List.forallb_filter_id. apply List.forallb_forall. intros t _.
      unfold listed_for. cbn. now rewrite andb_false_r.
    + symmetry. apply List.forallb_filter_id. apply List.forallb_forall. intros e _.
      apply negb_true_iff. apply not_true_is_false. intros Hex.
      apply List.existsb_exists in Hex as [t [_ Ht]]. unfold listed_for in Ht. cbn in Ht.
      now rewrite andb_false_r in Ht.
  - cbn zeta. cbn [for_each]. rewrite awaiting_run.
    destruct (hook_deleteTrip_run w uid u (Trip.id trip) Hs Hl) as [d [Hd Hrun]].
    rewrite Hrun. injection Hd as <-.
    set (w1 := next_request (with_database _ (next_request w))).
    specialize (IH w1 Hs Hl). cbn zeta in IH. destruct IH as [Ho [Ht He]].
    destruct (run' (for_each listed _) w1) as [[o v] sent].
    unfold outcome, backend in *. cbn [after fst snd] in *.
    split; [exact Ho|]. split.
    + rewrite Ht. subst w1. cbn [database next_request with_database trips].
      rewrite filter_filter_and. apply List.filter_ext. intros t.
      unfold listed_for, trip_targets. cbn [map existsb].
      destruct (String.eqb (t_id t) (Trip.id trip)), (String.eqb (t_user_id t) uid),
        (existsb (String.eqb (t_id t)) (map Trip.id listed)); reflexivity.
    + rewrite He. subst w1. cbn [database next_request with_database trips expenses].
      rewrite filter_filter_and. apply List.filter_ext. intros e.
      rewrite <- negb_orb. f_equal. unfold listed_for. cbn [map existsb].
      apply gone_or_listed.
Qed.

(** X21. 'Delete All Data' on the settings page, confirmed twice, the user
    signed in and every request answered: of the ledger it removes exactly
    the signed-in user's trips whose id is in the list the page holds, and
    the expenses on those trips; everything else stays, among it the user's
    trips that are not in the list. It shows 'All Data Deleted'; when the
    list names all the user's trips, the user has no trip left. *)
Theorem delete_all_data_removes_listed w uid u listed :
  session w = Some uid -> lost w = [] ->
  let r := run' (handleDeleteAllData true true (Some u) listed) w in
  outcome r
  = Resolved (Some {| title := "All Data Deleted";
                      description := "Your travel data has been permanently deleted." |})
  /\ trips (database (backend r))
     = List.filter (fun t => negb (listed_for uid listed t)) (trips (database w))
  /\ expenses (database (backend r))
     = List.filter
         (fun e => negb (existsb (fun t => listed_for uid listed t
                                           && String.eqb (t_id t) (e_trip_id e))
                           (trips (database w))))
         (expenses (database w))
  /\ ((forall t, In t (trips (database w)) -> t_user_id t = uid ->
       In (t_id t) (map Trip.id listed)) ->
      trips_of uid (database (backend r)) = 0%nat).
Proof.
  intros Hs Hl r. subst r. unfold handleDeleteAllData.
  rewrite try_catch_run, awaiting_run.
  destruct (delete_loop uid u listed w Hs Hl) as [Ho [Ht He]].
  destruct (run' (for_each listed _) w) as [[o v] sent].
  unfold outcome, backend in *. cbn [fst snd] in *. subst o.
  cbn [run after fst snd]. repeat split; [exact Ht|exact He|].
  intros Hall. unfold trips_of. rewrite Ht, filter_filter_and.
  rewrite (proj2 (List.length_zero_iff_nil _)); [reflexivity|].
  apply ImportExportFacts.filter_nothing. intros t Hin.
  unfold listed_for. destruct (String.eqb_spec (t_user_id t) uid) as [Hu|_];
    [|now rewrite andb_false_r].
  cbn [andb negb]. rewrite andb_true_r. apply negb_false_iff.
  apply List.existsb_exists. exists (t_id t). split; [now apply Hall|].
  apply String.eqb_refl.
Qed.


Lemma hook_createTrip_run w uid u tripData :
  session w = Some uid -> lost w = [] ->
  run' (TripManagerSupabase.createTrip (Some u) tripData) w
  = match insert_trip (uuid_generate_v4 (uuids w))
            (trip_values_of uid (generate_trip_number uid (database w)) tripData)
            (database w) with
    | Ok (r, d1) =>
        (Resolved (Some (trip_of_inserted
                           {| row := r; created_at := clock w; updated_at := clock w |})),
         next_request (drawn 1 (with_database d1 (next_request (next_request w)))),
         [auth "getUser"; rpc "generate_trip_number"; from "trips" "insert"])
    | Err e =>
        (Rejected ("Failed to create trip: " +:+ sql_message e),
         next_request (next_request (next_request w)),
         [auth "getUser"; rpc "generate_trip_number"; from "trips" "insert"])
    end.
Proof.
  intros Hs Hl. unfold TripManagerSupabase.createTrip.
  rewrite rethrow_run, awaiting_run.
  rewrite (FallbackFacts.createTrip_run numeric_in w uid tripData Hs Hl).
  destruct (insert_trip _ _ _) as [[r d1]|e]; reflexivity.
Qed.

Lemma import_loop uid u today : forall importedTrips w,
  session w = Some uid -> lost w = [] -> unused_ids w ->
  let r := run' (for_each importedTrips
                   (fun t => awaiting (TripManagerSupabase.createTrip (Some u)
                                         (data_of today t))
                               (fun _ => Return tt))) w in
  let accepted := until_refused today importedTrips in
  exists rows,
    trips (database (backend r)) = trips (database w) ++ rows
    /\ expenses (database (backend r)) = expenses (database w)
    /\ Forall2 (fun row t =>
                  row = {| t_id := t_id row; t_user_id := uid;
                           t_trip_number := t_trip_number row;
                           t_origin := TripData.origin (data_of today t);
                           t_destination := TripData.destination (data_of today t);
                           t_travel_mode := TripData.travelMode (data_of today t);
                           t_date := TripData.date (data_of today t);
                           t_time := TripData.time (data_of today t);
                           t_notes := if String.eqb (Imported.notes t) ""
                                      then None else Some (Imported.notes t);
                           t_travelers := Imported.travelers t;
                           t_total_expenses := 0;
                           t_status := TripData.status (data_of today t) |})
         rows accepted
    /\ map t_id rows = map uuid_generate_v4 (seq (uuids w) (length accepted))
    /\ map t_trip_number rows
       = map trip_number_after (seq (trips_of uid (database w)) (length accepted))
    /\ outcome r
       = if forallb (fun t => status_check (TripData.status (data_of today t)))
              importedTrips
         then Resolved tt
         else Rejected "Failed to create trip: new row violates check constraint".
Proof.
  induction importedTrips as [|t ts IH]; intros w Hs Hl Hfresh; cbn zeta.
  - exists []. cbn. rewrite app_nil_r. repeat split; constructor.
  - cbn [for_each until_refused forallb]. rewrite !awaiting_run.
    rewrite (hook_createTrip_run w uid u (data_of today t) Hs Hl).
    unfold insert_trip. cbn [tv_status trip_values_of coalesce].
    destruct (status_check (TripData.status (data_of today t))) eqn:Hstatus; cbn [negb andb].
    2:{ exists []. cbn. rewrite app_nil_r. repeat split; constructor. }
    assert (Hnew : existsb (fun t0 => String.eqb (t_id t0) (uuid_generate_v4 (uuids w)))
                     (trips (database w)) = false).
    { apply not_true_is_false. intros Hex. apply List.existsb_exists in Hex as [t0 [Hin Heq]].
      apply String.eqb_eq in Heq. apply (Hfresh (uuids w)); [lia|].
      rewrite <- Heq. now apply List.in_map. }
    rewrite Hnew. cbn [run after app].
    set (row := {| t_id := uuid_generate_v4 (uuids w) |}).
    set (w1 := next_request (drawn 1 _)).
    assert (Hfresh1 : unused_ids w1).
    { intros n Hn. subst w1. cbn [uuids database trips next_request drawn with_database] in *.
      rewrite List.map_app, List.in_app_iff. intros [Hin|[Heq|[]]].
      - apply (Hfresh n); [lia|exact Hin].
      - cbn [t_id row] in Heq. apply uuid_generate_v4_inj in Heq. lia. }
    destruct (IH w1 Hs Hl Hfresh1) as [rows [Ht [He [Hrows [Hids [Hnumbers Ho]]]]]].
    destruct (run' (for_each ts _) w1) as [[o v] sent].
    unfold outcome, backend in *. cbn [after fst snd] in *.
    exists (row :: rows).
    assert (Hcount : trips_of uid (database w1) = S (trips_of uid (database w))).
    { subst w1. unfold trips_of.
      cbn [database trips next_request drawn with_database].
      rewrite List.filter_app, List.length_app. cbn [List.filter t_user_id row].
      rewrite String.eqb_refl. cbn [length]. lia. }
    split; [|split; [|split; [|split; [|split]]]].
    + rewrite Ht. subst w1. cbn [database trips next_request drawn with_database].
      now rewrite <- List.app_assoc.
    + rewrite He. reflexivity.
    + constructor; [|exact Hrows]. subst row. cbn [t_id t_trip_number]. f_equal.
      unfold trip_values_of. cbn [tv_notes data_of TripData.notes truthy].
      rewrite ImportExportFacts.or_else_empty.
      now destruct (String.eqb (Imported.notes t) "").
    + cbn [map length seq]. f_equal. rewrite Hids. subst w1.
      cbn [uuids next_request drawn with_database]. now rewrite Nat.add_1_r.
    + cbn [map length seq]. f_equal. now rewrite Hnumbers, Hcount.
    + exact Ho.
Qed.


(** X22. The import of the settings page, the user signed in, every request
    answered and no id drawn twice: it creates the imported trips one after
    the other up to the first whose status the table refuses, and those stay
    in the ledger when it then shows 'Import Failed'. Each created row
    belongs to the signed-in user, has a total of 0 and a number of its own
    from [generate_trip_number], following the user's count of trips: the
    number in the file is not kept. With no refused status it shows 'Import
    Complete' with the number of trips. *)
Theorem import_adds_until_refused w uid u today importedTrips :
  session w = Some uid -> lost w = [] -> unused_ids w ->
  let r := run' (import_trips (Some u) today importedTrips) w in
  let accepted := until_refused today importedTrips in
  (exists rows,
     trips (database (backend r)) = trips (database w) ++ rows
     /\ Forall2 (fun row t =>
                   row = {| t_id := t_id row; t_user_id := uid;
                            t_trip_number := t_trip_number row;
                            t_origin := TripData.origin (data_of today t);
                            t_destination := TripData.destination (data_of today t);
                            t_travel_mode := TripData.travelMode (data_of today t);
                            t_date := TripData.date (data_of today t);
                            t_time := TripData.time (data_of today t);
                            t_notes := if String.eqb (Imported.notes t) ""
                                       then None else Some (Imported.notes t);
                            t_travelers := Imported.travelers t;
                            t_total_expenses := 0;
                            t_status := TripData.status (data_of today t) |})
          rows accepted
     /\ map t_id rows = map uuid_generate_v4 (seq (uuids w) (length accepted))
     /\ map t_trip_number rows
        = map trip_number_after (seq (trips_of uid (database w)) (length accepted)))
  /\ expenses (database (backend r)) = expenses (database w)
  /\ outcome r
     = Resolved
         (if forallb (fun t => status_check (TripData.status (data_of today t)))
               importedTrips
          then {| title := "Import Complete";
                  description :=
                    "Added " +:+ show_Z (Z.of_nat (length importedTrips)) +:+ " trips." |}
          else {| title := "Import Failed";
                  description :=
                    "Failed to create trip: new row violates check constraint" |}).
Proof.
  intros Hs Hl Hfresh r accepted. subst r accepted. unfold import_trips.
  rewrite try_catch_run, awaiting_run.
  destruct (import_loop uid u today importedTrips w Hs Hl Hfresh)
    as [rows [Ht [He [Hrows [Hids [Hnumbers Ho]]]]]].
  destruct (run' (for_each importedTrips _) w) as [[o v] sent].
  unfold outcome, backend in *. cbn [fst snd] in *. subst o.
  destruct (forallb _ importedTrips); cbn [run after fst snd];
    (split; [exists rows; auto|split; [exact He|reflexivity]]).
Qed.

End Served.

Import BackendScenarios SettingsScenarios.

Lemma delete_all_data_removes_listed_witness :
  let r := run (answer nearest_hundredth)
             (handleDeleteAllData true true (Some "u1") [shown "T1" "TR001"; shown "T3" "TR001"])
             (signed_in "u1" shared_ledger) in
  outcome r
  = Resolved (Some {| title := "All Data Deleted";
                      description := "Your travel data has been permanently deleted." |})
  /\ trips (database (backend r))
     = [a_trip "T2" "u1" "TR002" "planning" 1000; a_trip "T3" "u2" "TR001" "planning" 2000]
  /\ expenses (database (backend r))
     = [an_expense "B" "T2" "u1" "tea" 1000; an_expense "C" "T3" "u2" "bus" 2000].
Proof.
  destruct (delete_all_data_removes_listed nearest_hundredth (signed_in "u1" shared_ledger)
              "u1" "u1" [shown "T1" "TR001"; shown "T3" "TR001"] eq_refl eq_refl)
    as [Ho [Ht [He _]]].
  cbn zeta. rewrite Ho, Ht, He. repeat split.
Defined.

Lemma unused_ids_shared : unused_ids (signed_in "u1" shared_ledger).
Proof.
  intros n _ Hin. cbn in Hin. unfold uuid_generate_v4 in Hin.
  destruct Hin as [H|[H|[H|[]]]]; discriminate H.
Qed.

Lemma import_adds_until_refused_witness :
  let r := run (answer nearest_hundredth) (import_trips (Some "u1") "2025-03-01" from_file)
             (signed_in "u1" shared_ledger) in
  map t_trip_number (trips (database (backend r))) = ["TR001"; "TR002"; "TR001"; "TR003"]
  /\ map t_destination (trips (database (backend r))) = ["Goa"; "Goa"; "Goa"; "Delhi"]
  /\ outcome r
     = Resolved {| title := "Import Failed";
                   description :=
                     "Failed to create trip: new row violates check constraint" |}.
Proof.
  destruct (import_adds_until_refused nearest_hundredth (signed_in "u1" shared_ledger)
              "u1" "u1" "2025-03-01" from_file eq_refl eq_refl unused_ids_shared)
    as [[rows [Ht [Hrows [_ Hnumbers]]]] [_ Ho]].
  cbn zeta. rewrite Ho, Ht, !List.map_app, Hnumbers.
  cbn [until_refused] in Hrows.
  inversion Hrows as [|row t rows' ts' Hrow Hrest]; subst. inversion Hrest; subst.
  rewrite Hrow. repeat split.
Defined.

End SettingsFacts.

(** ** The trips of the hook *)

Module TripOperationFacts.

Import Ledger Supabase Services Backend Awaiting TripOperations.

Section Served.

Variable numeric_in : number -> option decimal.
Local Abbreviation run' := (run (answer numeric_in)).

Lemma updateTrip_run w uid tripId updates :
  session w = Some uid -> lost w = [] ->
  run' (Services.updateTrip tripId updates) w
  = match update_trips tripId uid (updateData_of updates) (database w) with
    | Ok d => (Resolved tt, next_request (with_database d (next_request w)),
               [auth "getUser"; from "trips" "update"])
    | Err e => (Rejected ("Failed to update trip: " +:+ sql_message e),
                next_request (next_request w),
                [auth "getUser"; from "trips" "update"])
    end.
Proof.
  intros Hs Hl. unfold Services.updateTrip.
  rewrite (FallbackFacts.with_user_run numeric_in _ _ w uid Hs Hl). cbn [run].
  rewrite FallbackFacts.answer_served by exact Hl.
  cbn [serve]. unfold as_user. cbn [session next_request]. rewrite Hs, String.eqb_refl.
  fold (updateData_of updates). cbn [database next_request].
  destruct (update_trips tripId uid (updateData_of updates) (database w)); reflexivity.
Qed.


Lemma hook_updateTrip_run w uid u today tripId updates st :
  session w = Some uid -> lost w = [] -> Coordinator.user st = Some u ->
  run' (updateTrip today tripId updates st) w
  = match update_trips tripId uid (updateData_of (read_by_service updates)) (database w) with
    | Ok d =>
        (Resolved
           (Coordinator.set_trips
              (map (fun trip =>
                      if String.eqb (Trip.id trip) tripId
                      then Trip.with_updatedAt today (spread trip updates)
                      else trip)
                 (Coordinator.trips st))
              (match Coordinator.activeTrip st with
               | Some prev =>
                   if String.eqb (Trip.id prev) tripId
                   then Some (spread prev updates)
                   else Some prev
               | None => None
               end)
              st),
         next_request (with_database d (next_request w)),
         [auth "getUser"; from "trips" "update"])
    | Err e => (Rejected ("Failed to update trip: " +:+ sql_message e),
                next_request (next_request w),
                [auth "getUser"; from "trips" "update"])
    end.
Proof.
  intros Hs Hl Hu. unfold updateTrip. rewrite Hu.
  rewrite SettingsFacts.rethrow_run, SettingsFacts.awaiting_run.
  rewrite (updateTrip_run w uid tripId _ Hs Hl).
  destruct (update_trips _ _ _ _); reflexivity.
Qed.

Lemma given_kept x old :
  given x = true -> coalesce (if truthy x then x else None) old = coalesce x old.
Proof.
  destruct x as [s|]; [|reflexivity]. cbn [given truthy]. now intros ->.
Qed.

Lemma mirrors_patched trip row today updates :
  written_through updates = true -> mirrors trip row ->
  mirrors (Trip.with_updatedAt today (spread trip updates))
    (apply_trip_patch (updateData_of (read_by_service updates)) row).
Proof.
  unfold written_through.
  destruct (TripPatch.id updates) eqn:Hid; [discriminate|].
  destruct (TripPatch.tripNumber updates) eqn:Hnumber; [discriminate|].
  rewrite !andb_true_iff. intros [[[[[Ho Hd] Hm] Hdate] Htime] Hstatus].
  unfold mirrors. intros (Mid & Mnumber & Morigin & Mdest & Mmode & Mdate & Mtime
                          & Mnotes & Mtravelers & Mstatus).
  unfold Trip.with_updatedAt, spread, apply_trip_patch, updateData_of, read_by_service.
  cbn [Trip.id Trip.tripNumber Trip.origin Trip.destination Trip.travelMode Trip.date
       Trip.time Trip.notes Trip.travelers Trip.status t_id t_trip_number t_origin
       t_destination t_travel_mode t_date t_time t_notes t_travelers t_status
       tp_origin tp_destination tp_travel_mode tp_date tp_time tp_notes tp_travelers
       tp_status TripUpdates.origin TripUpdates.destination TripUpdates.travelMode
       TripUpdates.date TripUpdates.time TripUpdates.notes TripUpdates.travelers
       TripUpdates.status].
  rewrite Hid, Hnumber, !given_kept by assumption. cbn [coalesce].
  rewrite Mid, Mnumber, Morigin, Mdest, Mmode, Mdate, Mtime, Mtravelers, Mstatus.
  repeat split. destruct (TripPatch.notes updates); [reflexivity|exact Mnotes].
Qed.


(** X23. The hook's [updateTrip] keeps memory and ledger in step: when every
    trip in memory shows a row of the signed-in user (same id, number,
    places, mode, date, time, notes, travelers and status), and the update
    names neither id nor trip number and gives no empty place, mode, date,
    time or status, then after a call that resolves every trip in memory
    still shows a row of the user; a call that is rejected leaves the ledger
    as it was. *)
Theorem updateTrip_keeps_memory_in_step w uid u today tripId updates st :
  session w = Some uid -> lost w = [] -> Coordinator.user st = Some u ->
  written_through updates = true ->
  in_step uid (Coordinator.trips st) (database w) ->
  let r := run' (updateTrip today tripId updates st) w in
  match outcome r with
  | Resolved st' => in_step uid (Coordinator.trips st') (database (backend r))
  | Rejected _ => database (backend r) = database w
  end.
Proof.
  intros Hs Hl Hu Hwritten Hstep r. subst r.
  rewrite (hook_updateTrip_run w uid u today tripId updates st Hs Hl Hu).
  unfold update_trips. destruct (forallb _ _); [|reflexivity].
  unfold outcome, backend. cbn [fst snd database next_request with_database].
  unfold in_step in *. cbn [Coordinator.trips Coordinator.set_trips Ledger.trips].
  apply List.Forall_forall. intros trip' Hin.
  apply List.in_map_iff in Hin as [trip [<- Hin]].
  rewrite List.Forall_forall in Hstep.
  destruct (Hstep trip Hin) as [row [Hrow [Huser Hmirrors]]].
  assert (Hid : t_id row = Trip.id trip) by apply Hmirrors.
  destruct (String.eqb (Trip.id trip) tripId) eqn:Eid.
  - exists (apply_trip_patch (updateData_of (read_by_service updates)) row).
    split; [|split; [exact Huser|now apply mirrors_patched]].
    apply List.in_map_iff. exists row. split; [|exact Hrow].
    unfold trip_targets. now rewrite Hid, Eid, Huser, String.eqb_refl.
  - exists row. split; [|split; assumption].
    apply List.in_map_iff. exists row. split; [|exact Hrow].
    unfold trip_targets. now rewrite Hid, Eid.
Qed.

(** The ledger once the caller's trip [tripId] has been given status [s]. *)
Lemma status_written w uid tripId s :
  status_check s = true ->
  update_trips tripId uid (updateData_of (read_by_service (TripPatch.only_status s)))
    (database w)
  = Ok {| Ledger.trips :=
            map (fun t => if trip_targets tripId uid t
                          then BackendScenarios.set_status s t else t)
              (Ledger.trips (database w));
          expenses := expenses (database w) |}.
Proof.
  intros Hs. unfold update_trips.
  assert (Htruthy : truthy (Some s) = true) by now apply ServiceFacts.status_check_truthy.
  unfold updateData_of, read_by_service, TripPatch.only_status, BackendScenarios.set_status.
  cbn [TripUpdates.origin TripUpdates.destination TripUpdates.travelMode TripUpdates.date
       TripUpdates.time TripUpdates.notes TripUpdates.travelers TripUpdates.status
       TripPatch.origin TripPatch.destination TripPatch.travelMode TripPatch.date
       TripPatch.time TripPatch.notes TripPatch.travelers TripPatch.status].
  rewrite Htruthy. cbn [truthy].
  rewrite (proj2 (List.forallb_forall _ _)); [reflexivity|].
  intros t _. exact Hs.
Qed.

Lemma startTrip_run w uid u today tripId st :
  session w = Some uid -> lost w = [] -> Coordinator.user st = Some u ->
  run' (startTrip today tripId st) w
  = (Resolved
       (let st1 :=
          Coordinator.set_trips
            (map (fun trip =>
                    if String.eqb (Trip.id trip) tripId
                    then Trip.with_updatedAt today
                           (spread trip (TripPatch.only_status "in_progress"))
                    else trip)
               (Coordinator.trips st))
            (match Coordinator.activeTrip st with
             | Some prev =>
                 if String.eqb (Trip.id prev) tripId
                 then Some (spread prev (TripPatch.only_status "in_progress"))
                 else Some prev
             | None => None
             end)
            st in
        match List.find (fun t => String.eqb (Trip.id t) tripId) (Coordinator.trips st) with
        | Some trip =>
            set_activeTrip (Some (spread trip (TripPatch.only_status "in_progress"))) st1
        | None => st1
        end),
     next_request
       (with_database
          {| Ledger.trips :=
               map (fun t => if trip_targets tripId uid t
                             then BackendScenarios.set_status "in_progress" t else t)
                 (Ledger.trips (database w));
             expenses := expenses (database w) |}
          (next_request w)),
     [auth "getUser"; from "trips" "update"]).
Proof.
  intros Hs Hl Hu. unfold startTrip. rewrite Hu.
  rewrite SettingsFacts.try_catch_run, SettingsFacts.awaiting_run.
  rewrite (hook_updateTrip_run w uid u today tripId _ st Hs Hl Hu).
  rewrite status_written by reflexivity. reflexivity.
Qed.

Lemma completeTrip_run w uid u today tripId st :
  session w = Some uid -> lost w = [] -> Coordinator.user st = Some u ->
  run' (completeTrip today tripId st) w
  = (Resolved
       (let st1 :=
          Coordinator.set_trips
            (map (fun trip =>
                    if String.eqb (Trip.id trip) tripId
                    then Trip.with_updatedAt today
                           (spread trip (TripPatch.only_status "completed"))
                    else trip)
               (Coordinator.trips st))
            (match Coordinator.activeTrip st with
             | Some prev =>
                 if String.eqb (Trip.id prev) tripId
                 then Some (spread prev (TripPatch.only_status "completed"))
                 else Some prev
             | None => None
             end)
            st in
        match Coordinator.activeTrip st with
        | Some active =>
            if String.eqb (Trip.id active) tripId then set_activeTrip None st1 else st1
        | None => st1
        end),
     next_request
       (with_database
          {| Ledger.trips :=
               map (fun t => if trip_targets tripId uid t
                             then BackendScenarios.set_status "completed" t else t)
                 (Ledger.trips (database w));
             expenses := expenses (database w) |}
          (next_request w)),
     [auth "getUser"; from "trips" "update"]).
Proof.
  intros Hs Hl Hu. unfold completeTrip. rewrite Hu.
  rewrite SettingsFacts.try_catch_run, SettingsFacts.awaiting_run.
  rewrite (hook_updateTrip_run w uid u today tripId _ st Hs Hl Hu).
  rewrite status_written by reflexivity. reflexivity.
Qed.

Lemma in_progress_kept {A} (status : A -> string) (f : A -> A) (p : A -> bool) l :
  (forall a, p a = true -> status (f a) = "in_progress") ->
  (length (List.filter (fun a => String.eqb (status a) "in_progress") l)
   <= length (List.filter (fun a => String.eqb (status a) "in_progress")
                (map (fun a => if p a then f a else a) l)))%nat.
Proof.
  intros Hf. induction l as [|a l IH]; [reflexivity|]. cbn [map List.filter].
  destruct (p a) eqn:Ep.
  - rewrite (Hf a Ep). change (String.eqb "in_progress" "in_progress") with true.
    destruct (String.eqb (status a) "in_progress"); cbn [length]; lia.
  - destruct (String.eqb (status a) "in_progress"); cbn [length]; lia.
Qed.

(** X24. [startTrip], the user signed in and every request answered, always
    resolves. It sets the caller's trip with that id in progress, in the
    ledger and in memory, and changes no other trip: a trip already in
    progress stays in progress, so that starting trips never lowers the
    number of trips in progress. The active trip becomes the started one as
    the hook held it at the call; it is not given the new update time. *)
Theorem startTrip_ends_no_trip w uid u today tripId st :
  session w = Some uid -> lost w = [] -> Coordinator.user st = Some u ->
  let r := run' (startTrip today tripId st) w in
  exists st',
    outcome r = Resolved st'
    /\ Ledger.trips (database (backend r))
       = map (fun t => if trip_targets tripId uid t
                       then BackendScenarios.set_status "in_progress" t else t)
           (Ledger.trips (database w))
    /\ Coordinator.trips st'
       = map (fun trip => if String.eqb (Trip.id trip) tripId
                          then Trip.with_updatedAt today
                                 (spread trip (TripPatch.only_status "in_progress"))
                          else trip)
           (Coordinator.trips st)
    /\ Coordinator.activeTrip st'
       = match List.find (fun t => String.eqb (Trip.id t) tripId) (Coordinator.trips st) with
         | Some trip => Some (spread trip (TripPatch.only_status "in_progress"))
         | None =>
             match Coordinator.activeTrip st with
             | Some prev =>
                 if String.eqb (Trip.id prev) tripId
                 then Some (spread prev (TripPatch.only_status "in_progress"))
                 else Some prev
             | None => None
             end
         end
    /\ (length (in_progress_rows (database w))
        <= length (in_progress_rows (database (backend r))))%nat
    /\ (length (in_progress_trips st) <= length (in_progress_trips st'))%nat.
Proof.
  intros Hs Hl Hu r. subst r. unfold startTrip. rewrite Hu.
  rewrite SettingsFacts.try_catch_run, SettingsFacts.awaiting_run.
  rewrite (hook_updateTrip_run w uid u today tripId _ st Hs Hl Hu).
  unfold update_trips.
  assert (Hok : forallb (fun t => status_check
                           (t_status (apply_trip_patch
                              (updateData_of (read_by_service
                                 (TripPatch.only_status "in_progress"))) t)))
                  (List.filter (trip_targets tripId uid) (Ledger.trips (database w)))
                = true).
  { apply List.forallb_forall. intros t _. reflexivity. }
  rewrite Hok. cbn [run after app].
  eexists. unfold outcome, backend. cbn [fst snd]. split; [reflexivity|].
  cbn [database next_request with_database Ledger.trips].
  split; [reflexivity|].
  destruct (List.find (fun t => String.eqb (Trip.id t) tripId) (Coordinator.trips st))
    as [trip|] eqn:Hfind;
    cbn [Coordinator.trips Coordinator.activeTrip Coordinator.set_trips set_activeTrip];
    (split; [reflexivity|]); (split; [reflexivity|]); split.
  all: try (unfold in_progress_rows; cbn [Ledger.trips];
            apply (in_progress_kept t_status); intros t _; reflexivity).
  all: unfold in_progress_trips; cbn [Coordinator.trips];
    apply (in_progress_kept Trip.status
             (fun trip => Trip.with_updatedAt today
                            (spread trip (TripPatch.only_status "in_progress")))
             (fun trip => String.eqb (Trip.id trip) tripId));
    intros t _; reflexivity.
Qed.


Lemma status_set_id today tripId s trip :
  Trip.id (if String.eqb (Trip.id trip) tripId
           then Trip.with_updatedAt today (spread trip (TripPatch.only_status s))
           else trip)
  = Trip.id trip.
Proof. now destruct (String.eqb (Trip.id trip) tripId). Qed.

Lemma row_set_id tripId uid s t :
  t_id (if trip_targets tripId uid t then BackendScenarios.set_status s t else t) = t_id t.
Proof. now destruct (trip_targets tripId uid t). Qed.

Lemma row_set_user tripId uid s t :
  t_user_id (if trip_targets tripId uid t then BackendScenarios.set_status s t else t)
  = t_user_id t.
Proof. now destruct (trip_targets tripId uid t). Qed.

Lemma row_set_other tripId uid s t :
  t_id t <> tripId ->
  (if trip_targets tripId uid t then BackendScenarios.set_status s t else t) = t.
Proof.
  intros Hid. unfold trip_targets. now destruct (String.eqb_spec (t_id t) tripId).
Qed.

Lemma row_set_this tripId uid s t :
  t_id t = tripId -> t_user_id t = uid ->
  t_status (if trip_targets tripId uid t then BackendScenarios.set_status s t else t) = s.
Proof. intros <- <-. unfold trip_targets. now rewrite !String.eqb_refl. Qed.

Lemma find_present {A} (p : A -> bool) l a :
  In a l -> p a = true -> exists b, List.find p l = Some b /\ p b = true.
Proof.
  induction l as [|c l IH]; [contradiction|]. intros [->|Hin] Hp; cbn [List.find].
  - rewrite Hp. eauto.
  - destruct (p c) eqn:Ec; eauto.
Qed.

(** X25. Two trips started one after the other and the second completed,
    the user signed in and every request answered: the hook is left with no
    active trip although the first trip is still in progress, in memory and
    in the ledger. *)
Theorem in_progress_without_active_trip w uid u t1 t2 t3 first second st :
  session w = Some uid -> lost w = [] -> Coordinator.user st = Some u ->
  first <> second ->
  (exists trip, In trip (Coordinator.trips st) /\ Trip.id trip = second) ->
  let r := run' (awaiting (startTrip t1 first st) (fun st1 =>
                 awaiting (startTrip t2 second st1) (fun st2 =>
                 completeTrip t3 second st2))) w in
  exists st',
    outcome r = Resolved st'
    /\ Coordinator.activeTrip st' = None
    /\ Forall (fun trip => Trip.id trip = first -> Trip.status trip = "in_progress")
         (Coordinator.trips st')
    /\ Forall (fun row => t_id row = first -> t_user_id row = uid ->
                          t_status row = "in_progress")
         (Ledger.trips (database (backend r))).
Proof.
  intros Hs Hl Hu Hdiff [trip [Hin Hid]] r. subst r.
  rewrite SettingsFacts.awaiting_run, (startTrip_run w uid u t1 first st Hs Hl Hu).
  cbn zeta. set (st1 := match List.find _ (Coordinator.trips st) with
                        | Some _ => _ | None => _ end).
  set (w1 := next_request (with_database _ (next_request w))).
  assert (Htrips1 : Coordinator.trips st1
                    = map (fun trip =>
                             if String.eqb (Trip.id trip) first
                             then Trip.with_updatedAt t1
                                    (spread trip (TripPatch.only_status "in_progress"))
                             else trip)
                        (Coordinator.trips st)).
  { subst st1. now destruct (List.find _ (Coordinator.trips st)). }
  assert (Hu1 : Coordinator.user st1 = Some u).
  { subst st1. now destruct (List.find _ (Coordinator.trips st)). }
  rewrite SettingsFacts.awaiting_run, (startTrip_run w1 uid u t2 second st1 Hs Hl Hu1).
  cbn zeta.
  destruct (find_present (fun t => String.eqb (Trip.id t) second) (Coordinator.trips st1)
              (if String.eqb (Trip.id trip) first
               then Trip.with_updatedAt t1 (spread trip (TripPatch.only_status "in_progress"))
               else trip))
    as [found [Hfound Hsecond]].
  { rewrite Htrips1. apply List.in_map_iff. exists trip. split; [reflexivity|exact Hin]. }
  { destruct (String.eqb (Trip.id trip) first); cbn; rewrite Hid; apply String.eqb_refl. }
  rewrite Hfound.
  set (st2 := set_activeTrip _ _).
  set (w2 := next_request (with_database _ (next_request w1))).
  assert (Hu2 : Coordinator.user st2 = Some u) by exact Hu1.
  rewrite (completeTrip_run w2 uid u t3 second st2 Hs Hl Hu2).
  cbn [after app]. eexists. unfold outcome, backend. cbn [fst snd].
  split; [reflexivity|]. cbn zeta.
  assert (Hactive : Coordinator.activeTrip st2
                    = Some (spread found (TripPatch.only_status "in_progress")))
    by reflexivity.
  rewrite Hactive.
  assert (Hsame : String.eqb (Trip.id (spread found (TripPatch.only_status "in_progress")))
                    second = true) by exact Hsecond.
  rewrite Hsame. split; [reflexivity|]. split.
  - cbn [Coordinator.trips Coordinator.set_trips set_activeTrip].
    change (Coordinator.trips st2)
      with (map (fun trip =>
                   if String.eqb (Trip.id trip) second
                   then Trip.with_updatedAt t2
                          (spread trip (TripPatch.only_status "in_progress"))
                   else trip)
              (Coordinator.trips st1)).
    rewrite Htrips1, !List.map_map. apply List.Forall_forall. intros x Hx.
    apply List.in_map_iff in Hx as [x0 [<- _]].
    rewrite !status_set_id. intros E1.
    rewrite E1, (proj2 (String.eqb_neq first second) Hdiff), String.eqb_refl.
    reflexivity.
  - subst w2 w1. cbn [database next_request with_database Ledger.trips].
    rewrite !List.map_map. apply List.Forall_forall. intros x Hx.
    apply List.in_map_iff in Hx as [x0 [<- _]].
    rewrite !row_set_id, !row_set_user. intros E1 Eu.
    rewrite (row_set_other second uid "completed"), (row_set_other second uid)
      by (rewrite ?row_set_id, E1; exact Hdiff).
    now apply row_set_this.
Qed.

End Served.

Import BackendScenarios TripScenarios.

Lemma loaded_in_step : in_step "u1" (Coordinator.trips loaded) two_trips.
Proof.
  repeat constructor.
  - exists (a_trip "T2" "u1" "TR002" "planning" 0). cbn. unfold mirrors. cbn. intuition.
  - exists (a_trip "T1" "u1" "TR001" "in_progress" 0). cbn. unfold mirrors. cbn. intuition.
Qed.

Lemma updateTrip_keeps_memory_in_step_witness :
  let r := run (answer nearest_hundredth)
             (updateTrip "2025-01-11T08:00:00Z" "T2" to_mumbai loaded)
             (signed_in "u1" two_trips) in
  match outcome r with
  | Resolved st' => in_step "u1" (Coordinator.trips st') (database (backend r))
  | Rejected _ => database (backend r) = database (signed_in "u1" two_trips)
  end.
Proof.
  apply (updateTrip_keeps_memory_in_step nearest_hundredth (signed_in "u1" two_trips)
           "u1" "u1" "2025-01-11T08:00:00Z" "T2" to_mumbai loaded
           eq_refl eq_refl eq_refl eq_refl loaded_in_step).
Defined.

Example cleared_origin_in_memory_only :
  let r := run (answer nearest_hundredth)
             (updateTrip "2025-01-11T08:00:00Z" "T2" no_origin loaded)
             (signed_in "u1" two_trips) in
  match outcome r with
  | Resolved st' => map Trip.origin (Coordinator.trips st') = [""; "Pune"]
  | Rejected _ => False
  end
  /\ map t_origin (Ledger.trips (database (backend r))) = ["Pune"; "Pune"].
Proof. split; reflexivity. Qed.

Lemma startTrip_ends_no_trip_witness :
  let r := run (answer nearest_hundredth) (startTrip "2025-01-11T08:00:00Z" "T2" loaded)
             (signed_in "u1" two_trips) in
  map t_status (Ledger.trips (database (backend r))) = ["in_progress"; "in_progress"]
  /\ exists st',
       outcome r = Resolved st'
       /\ map Trip.status (Coordinator.trips st') = ["in_progress"; "in_progress"]
       /\ option_map Trip.id (Coordinator.activeTrip st') = Some "T2".
Proof.
  destruct (startTrip_ends_no_trip nearest_hundredth (signed_in "u1" two_trips)
              "u1" "u1" "2025-01-11T08:00:00Z" "T2" loaded eq_refl eq_refl eq_refl)
    as [st' [Ho [Ht [Hm [Ha _]]]]].
  cbn zeta. rewrite Ht. split; [reflexivity|]. exists st'.
  split; [exact Ho|]. rewrite Hm, Ha. split; reflexivity.
Defined.

Lemma in_progress_without_active_trip_witness :
  let r := run (answer nearest_hundredth)
             (awaiting (startTrip "2025-01-11T08:00:00Z" "T1" loaded) (fun st1 =>
              awaiting (startTrip "2025-01-12T08:00:00Z" "T2" st1) (fun st2 =>
              completeTrip "2025-01-13T08:00:00Z" "T2" st2)))
             (signed_in "u1" two_trips) in
  exists st',
    outcome r = Resolved st'
    /\ Coordinator.activeTrip st' = None
    /\ Forall (fun trip => Trip.id trip = "T1" -> Trip.status trip = "in_progress")
         (Coordinator.trips st')
    /\ Forall (fun row => t_id row = "T1" -> t_user_id row = "u1" ->
                          t_status row = "in_progress")
         (Ledger.trips (database (backend r))).
Proof.
  apply (in_progress_without_active_trip nearest_hundredth (signed_in "u1" two_trips)
           "u1" "u1" _ _ _ "T1" "T2" loaded eq_refl eq_refl eq_refl).
  - discriminate.
  - exists (shown "T2" "TR002" "planning"). split; [now left|reflexivity].
Defined.

End TripOperationFacts.
